(** * RISC-V IOMMU core (hw/riscv/riscv-iommu.c): a shallow embedding

    The translation and command engine of the device model: the
    triple-shadow register file, the three ring queues, the device
    directory walk, MSI redirection, the context cache and the command
    dispatcher, followed by the properties established about them. *)

From Stdlib Require Import ZArith Lia Bool List.
From Stdlib Require Import Strings.Byte.
From stdpp Require Import base gmap.
From coqutil Require Import Z.bitblast.

Local Open Scope Z_scope.

(** ** Bytes and little-endian accessors *)

Module Bytes.

Definition byte_val (b : byte) : Z := Z.of_N (Byte.to_N b).

Definition byte_of (v : Z) : byte :=
  match Byte.of_N (Z.to_N (v mod 256)) with
  | Some b => b
  | None => x00
  end.

(** A byte array addressed by offset: [regs_rw], [regs_ro], [regs_wc]. *)
Definition bytes := Z -> byte.

Definition upd (m : bytes) (a : Z) (b : byte) : bytes :=
  fun x => if Z.eqb x a then b else m x.

(** [ld_le n m a]: the [n]-byte little-endian value at [m + a]. *)
Fixpoint ld_le (n : nat) (m : bytes) (a : Z) : Z :=
  match n with
  | O => 0
  | S k => byte_val (m a) + 256 * ld_le k m (a + 1)
  end.

(** [st_le n m a v]: store the low [n] bytes of [v] at [m + a]. *)
Fixpoint st_le (n : nat) (m : bytes) (a : Z) (v : Z) : bytes :=
  match n with
  | O => m
  | S k => st_le k (upd m a (byte_of v)) (a + 1) (v / 256)
  end.

Definition lduw_le_p (m : bytes) (a : Z) : Z := ld_le 2 m a.
Definition ldl_le_p (m : bytes) (a : Z) : Z := ld_le 4 m a.
Definition ldq_le_p (m : bytes) (a : Z) : Z := ld_le 8 m a.
Definition stw_le_p (m : bytes) (a v : Z) : bytes := st_le 2 m a v.
Definition stl_le_p (m : bytes) (a v : Z) : bytes := st_le 4 m a v.
Definition stq_le_p (m : bytes) (a v : Z) : bytes := st_le 8 m a v.

(** Byte strings, as they travel over DMA. *)
Fixpoint le_combine (l : list byte) : Z :=
  match l with
  | [] => 0
  | h :: t => byte_val h + 256 * le_combine t
  end.

Fixpoint le_split (n : nat) (v : Z) : list byte :=
  match n with
  | O => []
  | S k => byte_of v :: le_split k (v / 256)
  end.

End Bytes.
Export Bytes.


(** ** Bit fields (cpu_bits.h, riscv-iommu-bits.h) *)

Module Bits.

Definition BIT (n : Z) : Z := Z.shiftl 1 n.
Definition GENMASK (h l : Z) : Z := Z.shiftl (Z.ones (h - l + 1)) l.

(** [get_field(reg, mask)]: [(reg & mask) / (mask & ~(mask << 1))]. *)
Definition get_field (reg mask : Z) : Z :=
  Z.land reg mask / Z.land mask (Z.lnot (Z.shiftl mask 1)).

(** [set_field(reg, mask, val)]:
    [(reg & ~mask) | ((val * (mask & ~(mask << 1))) & mask)]. *)
Definition set_field (reg mask val : Z) : Z :=
  Z.lor (Z.land reg (Z.lnot mask))
        (Z.land (val * Z.land mask (Z.lnot (Z.shiftl mask 1))) mask).

(** Modelled from the spec: TARGET_PAGE_BITS and TARGET_PAGE_MASK are the
    emulator's target page macros, declared outside this file; a page is
    4 KiB and the mask is [(target_long)-1 << TARGET_PAGE_BITS], which is
    the reading under which [~TARGET_PAGE_MASK] is the in-page offset mask
    that the directory walk and the IOTLB [addr_mask] use. *)
Definition TARGET_PAGE_BITS : Z := 12.
Definition TARGET_PAGE_MASK : Z := Eval cbv in Z.shiftl (-1) 12.

Definition PPN_PHYS (ppn : Z) : Z := Z.shiftl ppn TARGET_PAGE_BITS.
Definition PPN_DOWN (phy : Z) : Z := Z.shiftr phy TARGET_PAGE_BITS.

Definition u32 (v : Z) : Z := v mod 2 ^ 32.
Definition u64 (v : Z) : Z := v mod 2 ^ 64.

(** Modelled from the spec: the register map and the bit layouts of
    riscv-iommu-bits.h, which is not part of the sources at hand; the spec
    requires them to match the RISC-V IOMMU architecture document, whose
    numbers these are. *)
Definition RISCV_IOMMU_REG_CAP : Z := 0x0000.
Definition RISCV_IOMMU_REG_FCTL : Z := 0x0008.
Definition RISCV_IOMMU_REG_DDTP : Z := 0x0010.
Definition RISCV_IOMMU_REG_CQB : Z := 0x0018.
Definition RISCV_IOMMU_REG_CQH : Z := 0x0020.
Definition RISCV_IOMMU_REG_CQT : Z := 0x0024.
Definition RISCV_IOMMU_REG_FQB : Z := 0x0028.
Definition RISCV_IOMMU_REG_FQH : Z := 0x0030.
Definition RISCV_IOMMU_REG_FQT : Z := 0x0034.
Definition RISCV_IOMMU_REG_PQB : Z := 0x0038.
Definition RISCV_IOMMU_REG_PQH : Z := 0x0040.
Definition RISCV_IOMMU_REG_PQT : Z := 0x0044.
Definition RISCV_IOMMU_REG_CQCSR : Z := 0x0048.
Definition RISCV_IOMMU_REG_FQCSR : Z := 0x004C.
Definition RISCV_IOMMU_REG_PQCSR : Z := 0x0050.
Definition RISCV_IOMMU_REG_IPSR : Z := 0x0054.
Definition RISCV_IOMMU_REG_IVEC : Z := 0x02F8.
Definition RISCV_IOMMU_REG_MSI_CONFIG : Z := 0x0300.

Definition RISCV_IOMMU_PPN_FIELD : Z := Eval cbv in GENMASK 53 10.
Definition RISCV_IOMMU_ATP_PPN_FIELD : Z := Eval cbv in GENMASK 43 0.
Definition RISCV_IOMMU_ATP_MODE_FIELD : Z := Eval cbv in GENMASK 63 60.

Definition RISCV_IOMMU_CAP_VERSION : Z := Eval cbv in GENMASK 7 0.
Definition RISCV_IOMMU_CAP_MSI_FLAT : Z := Eval cbv in BIT 22.
Definition RISCV_IOMMU_CAP_MSI_MRIF : Z := Eval cbv in BIT 23.
Definition RISCV_IOMMU_CAP_T2GPA : Z := Eval cbv in BIT 26.
Definition RISCV_IOMMU_CAP_PAS : Z := Eval cbv in GENMASK 37 32.
Definition RISCV_IOMMU_CAP_PD8 : Z := Eval cbv in BIT 38.

Definition RISCV_IOMMU_FCTL_BE : Z := Eval cbv in BIT 0.
Definition RISCV_IOMMU_FCTL_WSI : Z := Eval cbv in BIT 1.

Definition RISCV_IOMMU_DDTP_MODE : Z := Eval cbv in GENMASK 3 0.
Definition RISCV_IOMMU_DDTP_BUSY : Z := Eval cbv in BIT 4.
Definition RISCV_IOMMU_DDTP_PPN : Z := RISCV_IOMMU_PPN_FIELD.
Definition RISCV_IOMMU_DDTP_MODE_OFF : Z := 0.
Definition RISCV_IOMMU_DDTP_MODE_BARE : Z := 1.
Definition RISCV_IOMMU_DDTP_MODE_1LVL : Z := 2.
Definition RISCV_IOMMU_DDTP_MODE_2LVL : Z := 3.
Definition RISCV_IOMMU_DDTP_MODE_3LVL : Z := 4.

Definition RISCV_IOMMU_CQB_LOG2SZ : Z := Eval cbv in GENMASK 4 0.
Definition RISCV_IOMMU_CQB_PPN : Z := RISCV_IOMMU_PPN_FIELD.
Definition RISCV_IOMMU_FQB_LOG2SZ : Z := Eval cbv in GENMASK 4 0.
Definition RISCV_IOMMU_FQB_PPN : Z := RISCV_IOMMU_PPN_FIELD.
Definition RISCV_IOMMU_PQB_LOG2SZ : Z := Eval cbv in GENMASK 4 0.
Definition RISCV_IOMMU_PQB_PPN : Z := RISCV_IOMMU_PPN_FIELD.

Definition RISCV_IOMMU_CQCSR_CQEN : Z := Eval cbv in BIT 0.
Definition RISCV_IOMMU_CQCSR_CIE : Z := Eval cbv in BIT 1.
Definition RISCV_IOMMU_CQCSR_CQMF : Z := Eval cbv in BIT 8.
Definition RISCV_IOMMU_CQCSR_CMD_TO : Z := Eval cbv in BIT 9.
Definition RISCV_IOMMU_CQCSR_CMD_ILL : Z := Eval cbv in BIT 10.
Definition RISCV_IOMMU_CQCSR_FENCE_W_IP : Z := Eval cbv in BIT 11.
Definition RISCV_IOMMU_CQCSR_CQON : Z := Eval cbv in BIT 16.
Definition RISCV_IOMMU_CQCSR_BUSY : Z := Eval cbv in BIT 17.

Definition RISCV_IOMMU_FQCSR_FQEN : Z := Eval cbv in BIT 0.
Definition RISCV_IOMMU_FQCSR_FIE : Z := Eval cbv in BIT 1.
Definition RISCV_IOMMU_FQCSR_FQMF : Z := Eval cbv in BIT 8.
Definition RISCV_IOMMU_FQCSR_FQOF : Z := Eval cbv in BIT 9.
Definition RISCV_IOMMU_FQCSR_FQON : Z := Eval cbv in BIT 16.
Definition RISCV_IOMMU_FQCSR_BUSY : Z := Eval cbv in BIT 17.

Definition RISCV_IOMMU_PQCSR_PQEN : Z := Eval cbv in BIT 0.
Definition RISCV_IOMMU_PQCSR_PIE : Z := Eval cbv in BIT 1.
Definition RISCV_IOMMU_PQCSR_PQMF : Z := Eval cbv in BIT 8.
Definition RISCV_IOMMU_PQCSR_PQOF : Z := Eval cbv in BIT 9.
Definition RISCV_IOMMU_PQCSR_PQON : Z := Eval cbv in BIT 16.
Definition RISCV_IOMMU_PQCSR_BUSY : Z := Eval cbv in BIT 17.

Definition RISCV_IOMMU_IPSR_CIP : Z := Eval cbv in BIT 0.
Definition RISCV_IOMMU_IPSR_FIP : Z := Eval cbv in BIT 1.
Definition RISCV_IOMMU_IPSR_PIP : Z := Eval cbv in BIT 3.

Definition RISCV_IOMMU_INTR_CQ : Z := 0.
Definition RISCV_IOMMU_INTR_FQ : Z := 1.
Definition RISCV_IOMMU_INTR_PQ : Z := 3.

Definition RISCV_IOMMU_DDTE_VALID : Z := Eval cbv in BIT 0.
Definition RISCV_IOMMU_DDTE_PPN : Z := RISCV_IOMMU_PPN_FIELD.

Definition RISCV_IOMMU_DC_TC_V : Z := Eval cbv in BIT 0.
Definition RISCV_IOMMU_DC_TC_EN_PRI : Z := Eval cbv in BIT 2.
Definition RISCV_IOMMU_DC_TC_T2GPA : Z := Eval cbv in BIT 3.
Definition RISCV_IOMMU_DC_TC_DTF : Z := Eval cbv in BIT 4.
Definition RISCV_IOMMU_DC_TC_PDTV : Z := Eval cbv in BIT 5.
Definition RISCV_IOMMU_DC_TC_PRPR : Z := Eval cbv in BIT 6.
Definition RISCV_IOMMU_DC_TC_SBE : Z := Eval cbv in BIT 10.

Definition RISCV_IOMMU_DC_FSC_PDTP_MODE_PD8 : Z := 1.
Definition RISCV_IOMMU_DC_FSC_PDTP_MODE_PD17 : Z := 2.
Definition RISCV_IOMMU_DC_FSC_PDTP_MODE_PD20 : Z := 3.

Definition RISCV_IOMMU_DC_MSIPTP_PPN : Z := RISCV_IOMMU_ATP_PPN_FIELD.
Definition RISCV_IOMMU_DC_MSIPTP_MODE : Z := RISCV_IOMMU_ATP_MODE_FIELD.
Definition RISCV_IOMMU_DC_MSIPTP_MODE_OFF : Z := 0.
Definition RISCV_IOMMU_DC_MSIPTP_MODE_FLAT : Z := 1.

Definition RISCV_IOMMU_PC_TA_V : Z := Eval cbv in BIT 0.
Definition RISCV_IOMMU_PC_TA_RESERVED : Z := Eval cbv in GENMASK 63 32.
Definition RISCV_IOMMU_PC_FSC_PPN : Z := RISCV_IOMMU_ATP_PPN_FIELD.

Definition RISCV_IOMMU_MSI_PTE_V : Z := Eval cbv in BIT 0.
Definition RISCV_IOMMU_MSI_PTE_M : Z := Eval cbv in GENMASK 2 1.
Definition RISCV_IOMMU_MSI_PTE_M_MRIF : Z := 1.
Definition RISCV_IOMMU_MSI_PTE_M_BASIC : Z := 3.
Definition RISCV_IOMMU_MSI_PTE_MRIF_ADDR : Z := Eval cbv in GENMASK 53 7.
Definition RISCV_IOMMU_MSI_PTE_PPN : Z := RISCV_IOMMU_PPN_FIELD.
Definition RISCV_IOMMU_MSI_PTE_C : Z := Eval cbv in BIT 63.
Definition RISCV_IOMMU_MSI_MRIF_NID : Z := Eval cbv in GENMASK 9 0.
Definition RISCV_IOMMU_MSI_MRIF_NPPN : Z := RISCV_IOMMU_PPN_FIELD.
Definition RISCV_IOMMU_MSI_MRIF_NID_MSB : Z := Eval cbv in BIT 60.

Definition RISCV_IOMMU_FQ_HDR_CAUSE : Z := Eval cbv in GENMASK 11 0.
Definition RISCV_IOMMU_FQ_HDR_PID : Z := Eval cbv in GENMASK 31 12.
Definition RISCV_IOMMU_FQ_HDR_PV : Z := Eval cbv in BIT 32.
Definition RISCV_IOMMU_FQ_HDR_TTYPE : Z := Eval cbv in GENMASK 39 34.
Definition RISCV_IOMMU_FQ_HDR_DID : Z := Eval cbv in GENMASK 63 40.

Definition RISCV_IOMMU_FQ_TTYPE_UADDR_RD : Z := 2.
Definition RISCV_IOMMU_FQ_TTYPE_UADDR_WR : Z := 3.

Definition RISCV_IOMMU_FQ_CAUSE_DMA_DISABLED : Z := 256.
Definition RISCV_IOMMU_FQ_CAUSE_DDT_LOAD_FAULT : Z := 257.
Definition RISCV_IOMMU_FQ_CAUSE_DDT_INVALID : Z := 258.
Definition RISCV_IOMMU_FQ_CAUSE_DDT_MISCONFIGURED : Z := 259.
Definition RISCV_IOMMU_FQ_CAUSE_TTYPE_BLOCKED : Z := 260.
Definition RISCV_IOMMU_FQ_CAUSE_MSI_LOAD_FAULT : Z := 261.
Definition RISCV_IOMMU_FQ_CAUSE_MSI_INVALID : Z := 262.
Definition RISCV_IOMMU_FQ_CAUSE_MSI_MISCONFIGURED : Z := 263.
Definition RISCV_IOMMU_FQ_CAUSE_PDT_LOAD_FAULT : Z := 265.
Definition RISCV_IOMMU_FQ_CAUSE_PDT_INVALID : Z := 266.
Definition RISCV_IOMMU_FQ_CAUSE_PDT_MISCONFIGURED : Z := 267.
Definition RISCV_IOMMU_FQ_CAUSE_DDT_CORRUPTED : Z := 268.
Definition RISCV_IOMMU_FQ_CAUSE_MSI_PT_CORRUPTED : Z := 270.
Definition RISCV_IOMMU_FQ_CAUSE_INTERNAL_DP_ERROR : Z := 272.
Definition RISCV_IOMMU_FQ_CAUSE_MSI_WR_FAULT : Z := 273.

Definition RISCV_IOMMU_PREQ_HDR_PID : Z := Eval cbv in GENMASK 31 12.
Definition RISCV_IOMMU_PREQ_HDR_PV : Z := Eval cbv in BIT 32.
Definition RISCV_IOMMU_PREQ_HDR_DID : Z := Eval cbv in GENMASK 63 40.
Definition RISCV_IOMMU_PREQ_PAYLOAD_M : Z := Eval cbv in GENMASK 2 0.

Definition RISCV_IOMMU_CMD_OPCODE : Z := Eval cbv in GENMASK 6 0.
Definition RISCV_IOMMU_CMD_FUNC : Z := Eval cbv in GENMASK 9 7.
Definition RISCV_IOMMU_CMD_IOTINVAL_OPCODE : Z := 1.
Definition RISCV_IOMMU_CMD_IOTINVAL_FUNC_VMA : Z := 0.
Definition RISCV_IOMMU_CMD_IOTINVAL_FUNC_GVMA : Z := 1.
Definition RISCV_IOMMU_CMD_IOTINVAL_PSCV : Z := Eval cbv in BIT 32.
Definition RISCV_IOMMU_CMD_IOFENCE_OPCODE : Z := 2.
Definition RISCV_IOMMU_CMD_IOFENCE_FUNC_C : Z := 0.
Definition RISCV_IOMMU_CMD_IOFENCE_AV : Z := Eval cbv in BIT 10.
Definition RISCV_IOMMU_CMD_IOFENCE_DATA : Z := Eval cbv in GENMASK 63 32.
Definition RISCV_IOMMU_CMD_IODIR_OPCODE : Z := 3.
Definition RISCV_IOMMU_CMD_IODIR_FUNC_INVAL_DDT : Z := 0.
Definition RISCV_IOMMU_CMD_IODIR_FUNC_INVAL_PDT : Z := 1.
Definition RISCV_IOMMU_CMD_IODIR_PID : Z := Eval cbv in GENMASK 31 12.
Definition RISCV_IOMMU_CMD_IODIR_DV : Z := Eval cbv in BIT 33.
Definition RISCV_IOMMU_CMD_IODIR_DID : Z := Eval cbv in GENMASK 63 40.

Definition TARGET_PHYS_ADDR_SPACE_BITS : Z := 56.

End Bits.
Export Bits.

(** ** Device state *)

Module State.

(** [MemTxResult] of the host memory API. *)
Inductive MemTxResult : Type :=
| MEMTX_OK
| MEMTX_ERROR
| MEMTX_DECODE_ERROR
| MEMTX_ACCESS_ERROR.

Definition memtx_is_ok (r : MemTxResult) : bool :=
  match r with MEMTX_OK => true | _ => false end.

(** Modelled from the spec: the DMA surface of the host ("read/write N
    bytes to a host physical address").  The downstream address space is a
    partial byte map; an access that touches an unbacked address reports
    [MEMTX_DECODE_ERROR], and a store still lands on the backed bytes. *)
Definition AddressSpace := Z -> option byte.

Fixpoint as_read (m : AddressSpace) (addr : Z) (len : nat) : option (list byte) :=
  match len with
  | O => Some []
  | S k =>
      match m addr, as_read m (addr + 1) k with
      | Some b, Some l => Some (b :: l)
      | _, _ => None
      end
  end.

Definition dma_memory_read (m : AddressSpace) (addr : Z) (len : nat)
  : MemTxResult * list byte :=
  match as_read m addr len with
  | Some l => (MEMTX_OK, l)
  | None => (MEMTX_DECODE_ERROR, [])
  end.

Fixpoint as_write (m : AddressSpace) (addr : Z) (buf : list byte)
  : bool * AddressSpace :=
  match buf with
  | [] => (true, m)
  | b :: t =>
      match m addr with
      | Some _ =>
          as_write (fun x => if Z.eqb x addr then Some b else m x) (addr + 1) t
      | None => (false, snd (as_write m (addr + 1) t))
      end
  end.

Definition dma_memory_write (m : AddressSpace) (addr : Z) (buf : list byte)
  : MemTxResult * AddressSpace :=
  match as_write m addr buf with
  | (true, m') => (MEMTX_OK, m')
  | (false, m') => (MEMTX_DECODE_ERROR, m')
  end.

(** Device translation context state. *)
Record RISCVIOMMUContext : Type := {
  devid : Z;             (* uint64_t devid:24 *)
  process_id : Z;        (* uint64_t process_id:20 *)
  tc : Z;
  ta : Z;
  msi_addr_mask : Z;
  msi_addr_pattern : Z;
  msiptp : Z
}.

(** [g_new0(RISCVIOMMUContext, 1)] followed by the two bit-field stores. *)
Definition ctx_new (d p : Z) : RISCVIOMMUContext :=
  {| devid := d mod 2 ^ 24; process_id := p mod 2 ^ 20;
     tc := 0; ta := 0; msi_addr_mask := 0; msi_addr_pattern := 0; msiptp := 0 |}.

Definition ctx_set_tc (c : RISCVIOMMUContext) (v : Z) : RISCVIOMMUContext :=
  {| devid := devid c; process_id := process_id c; tc := v; ta := ta c;
     msi_addr_mask := msi_addr_mask c; msi_addr_pattern := msi_addr_pattern c;
     msiptp := msiptp c |}.

Definition ctx_set_ta (c : RISCVIOMMUContext) (v : Z) : RISCVIOMMUContext :=
  {| devid := devid c; process_id := process_id c; tc := tc c; ta := v;
     msi_addr_mask := msi_addr_mask c; msi_addr_pattern := msi_addr_pattern c;
     msiptp := msiptp c |}.

Definition ctx_set_msiptp (c : RISCVIOMMUContext) (v : Z) : RISCVIOMMUContext :=
  {| devid := devid c; process_id := process_id c; tc := tc c; ta := ta c;
     msi_addr_mask := msi_addr_mask c; msi_addr_pattern := msi_addr_pattern c;
     msiptp := v |}.

(** Fault, page-request and command records (16 or 32 bytes in memory). *)
Record riscv_iommu_fq_record : Type := {
  fq_hdr : Z; fq_reserved : Z; fq_iotval : Z; fq_iotval2 : Z
}.

Record riscv_iommu_pq_record : Type := { pq_hdr : Z; pq_payload : Z }.

Record riscv_iommu_command : Type := { dword0 : Z; dword1 : Z }.

Definition fq_record_bytes (ev : riscv_iommu_fq_record) : list byte :=
  le_split 8 (fq_hdr ev) ++ le_split 8 (fq_reserved ev) ++
  le_split 8 (fq_iotval ev) ++ le_split 8 (fq_iotval2 ev).

Definition pq_record_bytes (pr : riscv_iommu_pq_record) : list byte :=
  le_split 8 (pq_hdr pr) ++ le_split 8 (pq_payload pr).

Definition command_of_bytes (l : list byte) : riscv_iommu_command :=
  {| dword0 := le_combine (firstn 8 l); dword1 := le_combine (skipn 8 l) |}.

Definition fq_record_of_bytes (l : list byte) : riscv_iommu_fq_record :=
  {| fq_hdr := le_combine (firstn 8 l);
     fq_reserved := le_combine (firstn 8 (skipn 8 l));
     fq_iotval := le_combine (firstn 8 (skipn 16 l));
     fq_iotval2 := le_combine (firstn 8 (skipn 24 l)) |}.

(** The device: register shadows, latched queue geometry, the context
    cache keyed by (device_id, process_id), the downstream memory, and the
    interrupt callback with the lines it has been asked to raise. *)
Record RISCVIOMMUState : Type := {
  regs_rw : bytes;
  regs_wc : bytes;
  regs_ro : bytes;
  version : Z;
  bus : Z;
  enable_msi : bool;
  enable_off : bool;
  cap : Z;
  ddtp : Z;
  cq_addr : Z; cq_mask : Z;
  fq_addr : Z; fq_mask : Z;
  pq_addr : Z; pq_mask : Z;
  ctx_cache : gmap (Z * Z) RISCVIOMMUContext;
  target_as : AddressSpace;
  notify : bool;              (* s->notify != NULL *)
  irq_raised : list Z         (* calls s->notify(s, line), latest first *)
}.

Definition set_regs_rw (s : RISCVIOMMUState) (r : bytes) : RISCVIOMMUState :=
  {| regs_rw := r; regs_wc := regs_wc s; regs_ro := regs_ro s;
     version := version s; bus := bus s; enable_msi := enable_msi s;
     enable_off := enable_off s; cap := cap s; ddtp := ddtp s;
     cq_addr := cq_addr s; cq_mask := cq_mask s;
     fq_addr := fq_addr s; fq_mask := fq_mask s;
     pq_addr := pq_addr s; pq_mask := pq_mask s;
     ctx_cache := ctx_cache s; target_as := target_as s;
     notify := notify s; irq_raised := irq_raised s |}.

Definition set_regs_wc (s : RISCVIOMMUState) (r : bytes) : RISCVIOMMUState :=
  {| regs_rw := regs_rw s; regs_wc := r; regs_ro := regs_ro s;
     version := version s; bus := bus s; enable_msi := enable_msi s;
     enable_off := enable_off s; cap := cap s; ddtp := ddtp s;
     cq_addr := cq_addr s; cq_mask := cq_mask s;
     fq_addr := fq_addr s; fq_mask := fq_mask s;
     pq_addr := pq_addr s; pq_mask := pq_mask s;
     ctx_cache := ctx_cache s; target_as := target_as s;
     notify := notify s; irq_raised := irq_raised s |}.

Definition set_regs_ro (s : RISCVIOMMUState) (r : bytes) : RISCVIOMMUState :=
  {| regs_rw := regs_rw s; regs_wc := regs_wc s; regs_ro := r;
     version := version s; bus := bus s; enable_msi := enable_msi s;
     enable_off := enable_off s; cap := cap s; ddtp := ddtp s;
     cq_addr := cq_addr s; cq_mask := cq_mask s;
     fq_addr := fq_addr s; fq_mask := fq_mask s;
     pq_addr := pq_addr s; pq_mask := pq_mask s;
     ctx_cache := ctx_cache s; target_as := target_as s;
     notify := notify s; irq_raised := irq_raised s |}.

Definition set_cap (s : RISCVIOMMUState) (v : Z) : RISCVIOMMUState :=
  {| regs_rw := regs_rw s; regs_wc := regs_wc s; regs_ro := regs_ro s;
     version := version s; bus := bus s; enable_msi := enable_msi s;
     enable_off := enable_off s; cap := v; ddtp := ddtp s;
     cq_addr := cq_addr s; cq_mask := cq_mask s;
     fq_addr := fq_addr s; fq_mask := fq_mask s;
     pq_addr := pq_addr s; pq_mask := pq_mask s;
     ctx_cache := ctx_cache s; target_as := target_as s;
     notify := notify s; irq_raised := irq_raised s |}.

Definition set_ddtp (s : RISCVIOMMUState) (v : Z) : RISCVIOMMUState :=
  {| regs_rw := regs_rw s; regs_wc := regs_wc s; regs_ro := regs_ro s;
     version := version s; bus := bus s; enable_msi := enable_msi s;
     enable_off := enable_off s; cap := cap s; ddtp := v;
     cq_addr := cq_addr s; cq_mask := cq_mask s;
     fq_addr := fq_addr s; fq_mask := fq_mask s;
     pq_addr := pq_addr s; pq_mask := pq_mask s;
     ctx_cache := ctx_cache s; target_as := target_as s;
     notify := notify s; irq_raised := irq_raised s |}.

Definition set_cq (s : RISCVIOMMUState) (addr mask : Z) : RISCVIOMMUState :=
  {| regs_rw := regs_rw s; regs_wc := regs_wc s; regs_ro := regs_ro s;
     version := version s; bus := bus s; enable_msi := enable_msi s;
     enable_off := enable_off s; cap := cap s; ddtp := ddtp s;
     cq_addr := addr; cq_mask := mask;
     fq_addr := fq_addr s; fq_mask := fq_mask s;
     pq_addr := pq_addr s; pq_mask := pq_mask s;
     ctx_cache := ctx_cache s; target_as := target_as s;
     notify := notify s; irq_raised := irq_raised s |}.

Definition set_fq (s : RISCVIOMMUState) (addr mask : Z) : RISCVIOMMUState :=
  {| regs_rw := regs_rw s; regs_wc := regs_wc s; regs_ro := regs_ro s;
     version := version s; bus := bus s; enable_msi := enable_msi s;
     enable_off := enable_off s; cap := cap s; ddtp := ddtp s;
     cq_addr := cq_addr s; cq_mask := cq_mask s;
     fq_addr := addr; fq_mask := mask;
     pq_addr := pq_addr s; pq_mask := pq_mask s;
     ctx_cache := ctx_cache s; target_as := target_as s;
     notify := notify s; irq_raised := irq_raised s |}.

Definition set_pq (s : RISCVIOMMUState) (addr mask : Z) : RISCVIOMMUState :=
  {| regs_rw := regs_rw s; regs_wc := regs_wc s; regs_ro := regs_ro s;
     version := version s; bus := bus s; enable_msi := enable_msi s;
     enable_off := enable_off s; cap := cap s; ddtp := ddtp s;
     cq_addr := cq_addr s; cq_mask := cq_mask s;
     fq_addr := fq_addr s; fq_mask := fq_mask s;
     pq_addr := addr; pq_mask := mask;
     ctx_cache := ctx_cache s; target_as := target_as s;
     notify := notify s; irq_raised := irq_raised s |}.

Definition set_ctx_cache (s : RISCVIOMMUState)
  (c : gmap (Z * Z) RISCVIOMMUContext) : RISCVIOMMUState :=
  {| regs_rw := regs_rw s; regs_wc := regs_wc s; regs_ro := regs_ro s;
     version := version s; bus := bus s; enable_msi := enable_msi s;
     enable_off := enable_off s; cap := cap s; ddtp := ddtp s;
     cq_addr := cq_addr s; cq_mask := cq_mask s;
     fq_addr := fq_addr s; fq_mask := fq_mask s;
     pq_addr := pq_addr s; pq_mask := pq_mask s;
     ctx_cache := c; target_as := target_as s;
     notify := notify s; irq_raised := irq_raised s |}.

Definition set_target_as (s : RISCVIOMMUState) (m : AddressSpace)
  : RISCVIOMMUState :=
  {| regs_rw := regs_rw s; regs_wc := regs_wc s; regs_ro := regs_ro s;
     version := version s; bus := bus s; enable_msi := enable_msi s;
     enable_off := enable_off s; cap := cap s; ddtp := ddtp s;
     cq_addr := cq_addr s; cq_mask := cq_mask s;
     fq_addr := fq_addr s; fq_mask := fq_mask s;
     pq_addr := pq_addr s; pq_mask := pq_mask s;
     ctx_cache := ctx_cache s; target_as := m;
     notify := notify s; irq_raised := irq_raised s |}.

Definition raise_irq (s : RISCVIOMMUState) (line : Z) : RISCVIOMMUState :=
  {| regs_rw := regs_rw s; regs_wc := regs_wc s; regs_ro := regs_ro s;
     version := version s; bus := bus s; enable_msi := enable_msi s;
     enable_off := enable_off s; cap := cap s; ddtp := ddtp s;
     cq_addr := cq_addr s; cq_mask := cq_mask s;
     fq_addr := fq_addr s; fq_mask := fq_mask s;
     pq_addr := pq_addr s; pq_mask := pq_mask s;
     ctx_cache := ctx_cache s; target_as := target_as s;
     notify := notify s; irq_raised := line :: irq_raised s |}.

(** Modelled from the spec: the register helpers of riscv-iommu.h, which
    is not part of the sources at hand: plain little-endian loads and
    stores on [regs_rw]; [mod] stores [(val & ~clr) | set] and returns the
    previous value. *)
Definition riscv_iommu_reg_get32 (s : RISCVIOMMUState) (idx : Z) : Z :=
  ldl_le_p (regs_rw s) idx.

Definition riscv_iommu_reg_get64 (s : RISCVIOMMUState) (idx : Z) : Z :=
  ldq_le_p (regs_rw s) idx.

Definition riscv_iommu_reg_set32 (s : RISCVIOMMUState) (idx v : Z)
  : RISCVIOMMUState :=
  set_regs_rw s (stl_le_p (regs_rw s) idx v).

Definition riscv_iommu_reg_set64 (s : RISCVIOMMUState) (idx v : Z)
  : RISCVIOMMUState :=
  set_regs_rw s (stq_le_p (regs_rw s) idx v).

Definition riscv_iommu_reg_mod32 (s : RISCVIOMMUState) (idx set clr : Z)
  : Z * RISCVIOMMUState :=
  let val := ldl_le_p (regs_rw s) idx in
  (val, set_regs_rw s
          (stl_le_p (regs_rw s) idx (Z.lor (Z.land val (Z.lnot clr)) set))).

End State.
Export State.

(** ** Interrupts, queues, MSI redirection and the directory walk *)

Module Iommu.

(** [x & m] used as a C condition. *)
Definition tst (x m : Z) : bool := negb (Z.land x m =? 0).

(** The vector is one of the RISCV_IOMMU_INTR_ numbers.  The C shift
    [ivec >> (vec * 4)] of a 32-bit word is defined for [vec < 8] only;
    [Z.shiftr] agrees with it there, and the properties of the interrupt
    line below are stated for such vectors. *)
Definition riscv_iommu_notify (s : RISCVIOMMUState) (vec : Z) : RISCVIOMMUState :=
  let fctl := riscv_iommu_reg_get32 s RISCV_IOMMU_REG_FCTL in
  if tst fctl RISCV_IOMMU_FCTL_WSI || negb (notify s) then s
  else
    let '(ipsr, s1) :=
      riscv_iommu_reg_mod32 s RISCV_IOMMU_REG_IPSR (Z.shiftl 1 vec) 0 in
    let ivec := riscv_iommu_reg_get32 s1 RISCV_IOMMU_REG_IVEC in
    if tst ipsr (Z.shiftl 1 vec) then s1
    else raise_irq s1 (Z.land (Z.shiftr ivec (vec * 4)) 0x0F).

Definition riscv_iommu_fault (s : RISCVIOMMUState) (ev : riscv_iommu_fq_record)
  : RISCVIOMMUState :=
  let ctrl := riscv_iommu_reg_get32 s RISCV_IOMMU_REG_FQCSR in
  let head := Z.land (riscv_iommu_reg_get32 s RISCV_IOMMU_REG_FQH) (fq_mask s) in
  let tail := Z.land (riscv_iommu_reg_get32 s RISCV_IOMMU_REG_FQT) (fq_mask s) in
  let next := Z.land (u32 (tail + 1)) (fq_mask s) in
  if negb (tst ctrl RISCV_IOMMU_FQCSR_FQON) ||
     tst ctrl (Z.lor RISCV_IOMMU_FQCSR_FQOF RISCV_IOMMU_FQCSR_FQMF)
  then s
  else
    let s1 :=
      if head =? next then
        snd (riscv_iommu_reg_mod32 s RISCV_IOMMU_REG_FQCSR
               RISCV_IOMMU_FQCSR_FQOF 0)
      else
        let addr := fq_addr s + tail * 32 in
        match dma_memory_write (target_as s) addr (fq_record_bytes ev) with
        | (MEMTX_OK, m) =>
            riscv_iommu_reg_set32 (set_target_as s m) RISCV_IOMMU_REG_FQT next
        | (_, m) =>
            snd (riscv_iommu_reg_mod32 (set_target_as s m)
                   RISCV_IOMMU_REG_FQCSR RISCV_IOMMU_FQCSR_FQMF 0)
        end in
    if tst ctrl RISCV_IOMMU_FQCSR_FIE
    then riscv_iommu_notify s1 RISCV_IOMMU_INTR_FQ
    else s1.

Definition riscv_iommu_pri (s : RISCVIOMMUState) (pr : riscv_iommu_pq_record)
  : RISCVIOMMUState :=
  let ctrl := riscv_iommu_reg_get32 s RISCV_IOMMU_REG_PQCSR in
  let head := Z.land (riscv_iommu_reg_get32 s RISCV_IOMMU_REG_PQH) (pq_mask s) in
  let tail := Z.land (riscv_iommu_reg_get32 s RISCV_IOMMU_REG_PQT) (pq_mask s) in
  let next := Z.land (u32 (tail + 1)) (pq_mask s) in
  if negb (tst ctrl RISCV_IOMMU_PQCSR_PQON) ||
     tst ctrl (Z.lor RISCV_IOMMU_PQCSR_PQOF RISCV_IOMMU_PQCSR_PQMF)
  then s
  else
    let s1 :=
      if head =? next then
        snd (riscv_iommu_reg_mod32 s RISCV_IOMMU_REG_PQCSR
               RISCV_IOMMU_PQCSR_PQOF 0)
      else
        let addr := pq_addr s + tail * 16 in
        match dma_memory_write (target_as s) addr (pq_record_bytes pr) with
        | (MEMTX_OK, m) =>
            riscv_iommu_reg_set32 (set_target_as s m) RISCV_IOMMU_REG_PQT next
        | (_, m) =>
            snd (riscv_iommu_reg_mod32 (set_target_as s m)
                   RISCV_IOMMU_REG_PQCSR RISCV_IOMMU_PQCSR_PQMF 0)
        end in
    if tst ctrl RISCV_IOMMU_PQCSR_PIE
    then riscv_iommu_notify s1 RISCV_IOMMU_INTR_PQ
    else s1.

(** Portable bit-mask extraction.  The [while (ext)] loop consumes one
    binary digit of [ext] per turn, so it is written by recursion on those
    digits. *)
Fixpoint pext_loop (ext : positive) (val ret rot : Z) : Z :=
  match ext with
  | xH => if tst val 1 then Z.lor ret rot else ret
  | xO e => pext_loop e (Z.shiftr val 1) ret rot
  | xI e =>
      pext_loop e (Z.shiftr val 1)
        (if tst val 1 then Z.lor ret rot else ret) (u64 (Z.shiftl rot 1))
  end.

Definition _pext_u64 (val ext : Z) : Z :=
  match ext with
  | Zpos p => pext_loop p val 0 1
  | _ => 0
  end.

(** Check if GPA matches MSI/MRIF pattern. *)
Definition riscv_iommu_msi_check (ctx : RISCVIOMMUContext) (gpa : Z) : bool :=
  if negb (get_field (msiptp ctx) RISCV_IOMMU_DC_MSIPTP_MODE =?
           RISCV_IOMMU_DC_MSIPTP_MODE_FLAT) then false
  else if negb (Z.land (Z.lxor (PPN_DOWN gpa) (msi_addr_pattern ctx))
                  (Z.lnot (msi_addr_mask ctx)) =? 0) then false
  else true.

Definition dtf_reportable (cause : Z) : bool :=
  (cause =? RISCV_IOMMU_FQ_CAUSE_DMA_DISABLED) ||
  (cause =? RISCV_IOMMU_FQ_CAUSE_DDT_LOAD_FAULT) ||
  (cause =? RISCV_IOMMU_FQ_CAUSE_DDT_INVALID) ||
  (cause =? RISCV_IOMMU_FQ_CAUSE_DDT_MISCONFIGURED) ||
  (cause =? RISCV_IOMMU_FQ_CAUSE_DDT_CORRUPTED) ||
  (cause =? RISCV_IOMMU_FQ_CAUSE_INTERNAL_DP_ERROR) ||
  (cause =? RISCV_IOMMU_FQ_CAUSE_MSI_WR_FAULT).

(** The record [riscv_iommu_report_fault] composes in [ev]; [None] when
    the function returns early because DTF suppresses the cause. *)
Definition report_fault_record (ctx : RISCVIOMMUContext)
  (fault_type cause : Z) (pv : bool) (iotval iotval2 : Z)
  : option riscv_iommu_fq_record :=
  if tst (tc ctx) RISCV_IOMMU_DC_TC_DTF && negb (dtf_reportable cause)
  then None
  else
    let hdr := set_field 0 RISCV_IOMMU_FQ_HDR_CAUSE cause in
    let hdr := set_field hdr RISCV_IOMMU_FQ_HDR_TTYPE fault_type in
    let hdr := set_field hdr RISCV_IOMMU_FQ_HDR_DID (devid ctx) in
    let hdr := set_field hdr RISCV_IOMMU_FQ_HDR_PV 1 in
    let hdr :=
      if pv then set_field hdr RISCV_IOMMU_FQ_HDR_PID (process_id ctx)
      else hdr in
    Some {| fq_hdr := hdr; fq_reserved := 0;
            fq_iotval := iotval; fq_iotval2 := iotval2 |}.

Definition riscv_iommu_report_fault (s : RISCVIOMMUState)
  (ctx : RISCVIOMMUContext) (fault_type cause : Z) (pv : bool)
  (iotval iotval2 : Z) : RISCVIOMMUState :=
  match report_fault_record ctx fault_type cause pv iotval iotval2 with
  | None => s
  | Some ev => riscv_iommu_fault s ev
  end.

(** The [err:] label of [riscv_iommu_msi_write]. *)
Definition msi_write_err (s : RISCVIOMMUState) (ctx : RISCVIOMMUContext)
  (res : MemTxResult) (cause : Z) : MemTxResult * RISCVIOMMUState :=
  (res, riscv_iommu_report_fault s ctx RISCV_IOMMU_FQ_TTYPE_UADDR_WR cause
          (negb (process_id ctx =? 0)) 0 0).

(** MRIF mode: non atomic pending bit update, then the notification. *)
Definition msi_write_mrif (s : RISCVIOMMUState) (ctx : RISCVIOMMUContext)
  (gpa data pte0 pte1 : Z) : MemTxResult * RISCVIOMMUState :=
  if (2047 <? data) || tst gpa 3 then
    msi_write_err s ctx MEMTX_ACCESS_ERROR RISCV_IOMMU_FQ_CAUSE_MSI_MISCONFIGURED
  else
    let addr := Z.shiftl (get_field pte0 RISCV_IOMMU_MSI_PTE_MRIF_ADDR) 9 in
    let addr := Z.lor addr (Z.shiftr (Z.land data 0x7c0) 3) in
    let data := Z.shiftl 1 (Z.land data 0x03f) in
    match dma_memory_read (target_as s) addr 8 with
    | (MEMTX_OK, l) =>
        let intn := Z.lor (le_combine l) data in
        match dma_memory_write (target_as s) addr (le_split 8 intn) with
        | (MEMTX_OK, m) =>
            let s := set_target_as s m in
            let addr := addr + 8 in
            match dma_memory_read (target_as s) addr 8 with
            | (MEMTX_OK, l) =>
                let intn := le_combine l in
                if negb (tst intn data) then (MEMTX_OK, s)
                else
                  let addr :=
                    PPN_PHYS (get_field pte1 RISCV_IOMMU_MSI_MRIF_NPPN) in
                  let n190 :=
                    Z.lor (get_field pte1 RISCV_IOMMU_MSI_MRIF_NID)
                      (Z.shiftl (get_field pte1 RISCV_IOMMU_MSI_MRIF_NID_MSB) 10) in
                  match dma_memory_write (target_as s) addr (le_split 4 n190) with
                  | (MEMTX_OK, m) => (MEMTX_OK, set_target_as s m)
                  | (res, m) =>
                      msi_write_err (set_target_as s m) ctx res
                        RISCV_IOMMU_FQ_CAUSE_MSI_WR_FAULT
                  end
            | (res, _) =>
                msi_write_err s ctx res RISCV_IOMMU_FQ_CAUSE_MSI_LOAD_FAULT
            end
        | (res, m) =>
            msi_write_err (set_target_as s m) ctx res
              RISCV_IOMMU_FQ_CAUSE_MSI_WR_FAULT
        end
    | (res, _) => msi_write_err s ctx res RISCV_IOMMU_FQ_CAUSE_MSI_LOAD_FAULT
    end.

(** Redirect MSI write for given GPA. *)
Definition riscv_iommu_msi_write (s : RISCVIOMMUState) (ctx : RISCVIOMMUContext)
  (gpa data : Z) (size : nat) : MemTxResult * RISCVIOMMUState :=
  if negb (riscv_iommu_msi_check ctx gpa) then
    msi_write_err s ctx MEMTX_ACCESS_ERROR RISCV_IOMMU_FQ_CAUSE_MSI_LOAD_FAULT
  else
    let intn := _pext_u64 (PPN_DOWN gpa) (msi_addr_mask ctx) in
    if 256 <=? intn then
      msi_write_err s ctx MEMTX_ACCESS_ERROR RISCV_IOMMU_FQ_CAUSE_MSI_LOAD_FAULT
    else
      let addr := PPN_PHYS (get_field (msiptp ctx) RISCV_IOMMU_DC_MSIPTP_PPN) in
      let addr := Z.lor addr (intn * 16) in
      match dma_memory_read (target_as s) addr 16 with
      | (MEMTX_OK, l) =>
          let pte0 := le_combine (firstn 8 l) in
          let pte1 := le_combine (skipn 8 l) in
          if negb (tst pte0 RISCV_IOMMU_MSI_PTE_V) ||
             tst pte0 RISCV_IOMMU_MSI_PTE_C then
            msi_write_err s ctx MEMTX_ACCESS_ERROR
              RISCV_IOMMU_FQ_CAUSE_MSI_INVALID
          else
            let m_ := get_field pte0 RISCV_IOMMU_MSI_PTE_M in
            if m_ =? RISCV_IOMMU_MSI_PTE_M_BASIC then
              (* MSI Pass-through mode *)
              let addr := PPN_PHYS (get_field pte0 RISCV_IOMMU_MSI_PTE_PPN) in
              let addr := Z.lor addr (Z.land gpa TARGET_PAGE_MASK) in
              match dma_memory_write (target_as s) addr (le_split size data) with
              | (MEMTX_OK, m) => (MEMTX_OK, set_target_as s m)
              | (res, m) =>
                  msi_write_err (set_target_as s m) ctx res
                    RISCV_IOMMU_FQ_CAUSE_MSI_WR_FAULT
              end
            else if m_ =? RISCV_IOMMU_MSI_PTE_M_MRIF then
              msi_write_mrif s ctx gpa data pte0 pte1
            else
              msi_write_err s ctx MEMTX_ACCESS_ERROR
                RISCV_IOMMU_FQ_CAUSE_MSI_MISCONFIGURED
      | (MEMTX_DECODE_ERROR, _) =>
          msi_write_err s ctx MEMTX_DECODE_ERROR
            RISCV_IOMMU_FQ_CAUSE_MSI_PT_CORRUPTED
      | (res, _) =>
          msi_write_err s ctx res RISCV_IOMMU_FQ_CAUSE_MSI_LOAD_FAULT
      end.

End Iommu.
Export Iommu.

(** ** Device directory walk and the context cache *)

Module Ctx.

Definition riscv_iommu_validate_device_ctx (s : RISCVIOMMUState)
  (ctx : RISCVIOMMUContext) : bool :=
  if negb (tst (tc ctx) RISCV_IOMMU_DC_TC_EN_PRI) &&
     tst (tc ctx) RISCV_IOMMU_DC_TC_PRPR then false
  else if negb (tst (cap s) RISCV_IOMMU_CAP_T2GPA) &&
          tst (tc ctx) RISCV_IOMMU_DC_TC_T2GPA then false
  else if tst (cap s) RISCV_IOMMU_CAP_MSI_FLAT &&
          (let msi_mode := get_field (msiptp ctx) RISCV_IOMMU_DC_MSIPTP_MODE in
           negb (msi_mode =? RISCV_IOMMU_DC_MSIPTP_MODE_OFF) &&
           negb (msi_mode =? RISCV_IOMMU_DC_MSIPTP_MODE_FLAT)) then false
  else if tst (tc ctx) RISCV_IOMMU_DC_TC_SBE then false
  else true.

Definition riscv_iommu_validate_process_ctx (s : RISCVIOMMUState)
  (ctx : RISCVIOMMUContext) : bool :=
  if negb (get_field (ta ctx) RISCV_IOMMU_PC_TA_RESERVED =? 0) then false
  else true.

Inductive walk : Type :=
| WalkFault (cause : Z)
| WalkAddr (addr : Z).

(** [for (; depth-- > 0; )] over the non-leaf levels of the device
    directory tree; the body runs with [depth] already decremented. *)
Fixpoint ddt_walk (m : AddressSpace) (dc_fmt : Z) (did : Z) (depth : nat)
  (addr : Z) : walk :=
  match depth with
  | O => WalkAddr addr
  | S d =>
      let split := Z.of_nat d * 9 + 6 + dc_fmt in
      let addr :=
        Z.lor addr (Z.land (Z.shiftl (Z.shiftr did split) 3)
                           (Z.lnot TARGET_PAGE_MASK)) in
      match dma_memory_read m addr 8 with
      | (MEMTX_OK, l) =>
          let de := le_combine l in
          if negb (tst de RISCV_IOMMU_DDTE_VALID) then
            WalkFault RISCV_IOMMU_FQ_CAUSE_DDT_INVALID
          else if tst de (Z.lnot (Z.lor RISCV_IOMMU_DDTE_PPN
                                        RISCV_IOMMU_DDTE_VALID)) then
            WalkFault RISCV_IOMMU_FQ_CAUSE_DDT_MISCONFIGURED
          else ddt_walk m dc_fmt did d (PPN_PHYS (get_field de RISCV_IOMMU_DDTE_PPN))
      | _ => WalkFault RISCV_IOMMU_FQ_CAUSE_DDT_LOAD_FAULT
      end
  end.

(** The same loop shape over the process directory tree. *)
Fixpoint pdt_walk (m : AddressSpace) (pid : Z) (depth : nat) (addr : Z) : walk :=
  match depth with
  | O => WalkAddr addr
  | S d =>
      let split := Z.of_nat d * 9 + 8 in
      let addr :=
        Z.lor addr (Z.land (Z.shiftl (Z.shiftr pid split) 3)
                           (Z.lnot TARGET_PAGE_MASK)) in
      match dma_memory_read m addr 8 with
      | (MEMTX_OK, l) =>
          let de := le_combine l in
          if negb (tst de RISCV_IOMMU_PC_TA_V) then
            WalkFault RISCV_IOMMU_FQ_CAUSE_PDT_INVALID
          else pdt_walk m pid d (PPN_PHYS (get_field de RISCV_IOMMU_PC_FSC_PPN))
      | _ => WalkFault RISCV_IOMMU_FQ_CAUSE_PDT_LOAD_FAULT
      end
  end.

(** Modelled from the spec: [struct riscv_iommu_dc] of riscv-iommu-bits.h
    (eight little-endian 64-bit words: tc, iohgatp, ta, fsc, msiptp,
    msi_addr_mask, msi_addr_pattern, reserved); [dc_word l i] is word [i]
    of the zero-filled structure after [l] was read into its start. *)
Definition dc_word (l : list byte) (i : nat) : Z :=
  le_combine (firstn 8 (skipn (8 * i) (l ++ repeat x00 64))).

(** The part of [riscv_iommu_ctx_fetch] after the device context was
    loaded: process directory lookup. *)
Definition ctx_fetch_pdt (s : RISCVIOMMUState) (ctx : RISCVIOMMUContext)
  (mode addr : Z) : Z * RISCVIOMMUContext :=
  if negb (tst (tc ctx) RISCV_IOMMU_DC_TC_PDTV) then
    if negb (process_id ctx =? 0) then
      (RISCV_IOMMU_FQ_CAUSE_TTYPE_BLOCKED, ctx)
    else (0, ctx)
  else if RISCV_IOMMU_DC_FSC_PDTP_MODE_PD20 <? mode then
    (RISCV_IOMMU_FQ_CAUSE_PDT_MISCONFIGURED, ctx)
  else
    match pdt_walk (target_as s) (process_id ctx)
            (Z.to_nat (u32 (mode - RISCV_IOMMU_DC_FSC_PDTP_MODE_PD8))) addr with
    | WalkFault c => (c, ctx)
    | WalkAddr addr =>
        let addr :=
          Z.lor addr (Z.land (Z.shiftl (process_id ctx) 4)
                             (Z.lnot TARGET_PAGE_MASK)) in
        match dma_memory_read (target_as s) addr 16 with
        | (MEMTX_OK, l) =>
            let ctx := ctx_set_ta ctx (le_combine (firstn 8 l)) in
            if negb (tst (ta ctx) RISCV_IOMMU_PC_TA_V) then
              (RISCV_IOMMU_FQ_CAUSE_PDT_INVALID, ctx)
            else if negb (riscv_iommu_validate_process_ctx s ctx) then
              (RISCV_IOMMU_FQ_CAUSE_PDT_MISCONFIGURED, ctx)
            else (0, ctx)
        | _ => (RISCV_IOMMU_FQ_CAUSE_PDT_LOAD_FAULT, ctx)
        end
    end.

(** The part of [riscv_iommu_ctx_fetch] after the device id width check:
    the directory walk and the device context load. *)
Definition ctx_fetch_dc (s : RISCVIOMMUState) (ctx : RISCVIOMMUContext)
  (mode dc_fmt : Z) (depth : nat) (addr : Z) : Z * RISCVIOMMUContext :=
  let dc_len := Z.shiftr 64 dc_fmt in
  match ddt_walk (target_as s) dc_fmt (devid ctx) depth addr with
  | WalkFault c => (c, ctx)
  | WalkAddr addr =>
      let addr :=
        Z.lor addr (Z.land (devid ctx * dc_len) (Z.lnot TARGET_PAGE_MASK)) in
      match dma_memory_read (target_as s) addr (Z.to_nat dc_len) with
      | (MEMTX_OK, l) =>
          let ctx :=
            {| devid := devid ctx; process_id := process_id ctx;
               tc := dc_word l 0; ta := dc_word l 2;
               msi_addr_mask := dc_word l 5;
               msi_addr_pattern := dc_word l 6;
               msiptp := dc_word l 4 |} in
          if negb (tst (tc ctx) RISCV_IOMMU_DC_TC_V) then
            (RISCV_IOMMU_FQ_CAUSE_DDT_INVALID, ctx)
          else if negb (riscv_iommu_validate_device_ctx s ctx) then
            (RISCV_IOMMU_FQ_CAUSE_DDT_MISCONFIGURED, ctx)
          else ctx_fetch_pdt s ctx mode addr
      | _ => (RISCV_IOMMU_FQ_CAUSE_DDT_LOAD_FAULT, ctx)
      end
  end.

(** The [switch (mode)] that picks the number of non-leaf levels. *)
Definition ddt_depth (mode : Z) : option nat :=
  if mode =? RISCV_IOMMU_DDTP_MODE_1LVL then Some 0%nat
  else if mode =? RISCV_IOMMU_DDTP_MODE_2LVL then Some 1%nat
  else if mode =? RISCV_IOMMU_DDTP_MODE_3LVL then Some 2%nat
  else None.

(** RISC-V IOMMU Device Context Lookup - Device Directory Tree Walk.
    Returns the fault code (0 on success) and the context as left in
    [*ctx]. *)
Definition riscv_iommu_ctx_fetch (s : RISCVIOMMUState) (ctx : RISCVIOMMUContext)
  : Z * RISCVIOMMUContext :=
  let mode := get_field (ddtp s) RISCV_IOMMU_DDTP_MODE in
  let addr := PPN_PHYS (get_field (ddtp s) RISCV_IOMMU_DDTP_PPN) in
  (* Device Context format: 0: extended (64 bytes) | 1: base (32 bytes) *)
  let dc_fmt := if enable_msi s then 0 else 1 in
  if mode =? RISCV_IOMMU_DDTP_MODE_OFF then
    (RISCV_IOMMU_FQ_CAUSE_DMA_DISABLED, ctx)
  else if mode =? RISCV_IOMMU_DDTP_MODE_BARE then
    (0, ctx_set_msiptp (ctx_set_ta (ctx_set_tc ctx RISCV_IOMMU_DC_TC_V) 0) 0)
  else
    match ddt_depth mode with
    | None => (RISCV_IOMMU_FQ_CAUSE_DDT_MISCONFIGURED, ctx)
    | Some depth =>
        if Z.shiftl 1 (Z.of_nat depth * 9 + 6 +
                       (if (dc_fmt =? 1) && negb (Nat.eqb depth 2)
                        then 1 else 0)) <=? devid ctx
        then (RISCV_IOMMU_FQ_CAUSE_TTYPE_BLOCKED, ctx)
        else ctx_fetch_dc s ctx mode dc_fmt depth addr
    end.

(** Translation Context cache support: the [GHFunc] callbacks, which
    return the entry as they leave it. *)
Definition GHFunc := RISCVIOMMUContext -> RISCVIOMMUContext -> RISCVIOMMUContext.

Definition clear_tc_v (ctx : RISCVIOMMUContext) : RISCVIOMMUContext :=
  ctx_set_tc ctx (Z.land (tc ctx) (Z.lnot RISCV_IOMMU_DC_TC_V)).

Definition __ctx_inval_devid_procid : GHFunc := fun ctx arg =>
  if tst (tc ctx) RISCV_IOMMU_DC_TC_V && (devid ctx =? devid arg) &&
     (process_id ctx =? process_id arg)
  then clear_tc_v ctx else ctx.

Definition __ctx_inval_devid : GHFunc := fun ctx arg =>
  if tst (tc ctx) RISCV_IOMMU_DC_TC_V && (devid ctx =? devid arg)
  then clear_tc_v ctx else ctx.

Definition __ctx_inval_all : GHFunc := fun ctx arg =>
  if tst (tc ctx) RISCV_IOMMU_DC_TC_V then clear_tc_v ctx else ctx.

(** [g_hash_table_foreach] over the cache with the key built from the
    two arguments. *)
Definition riscv_iommu_ctx_inval (s : RISCVIOMMUState) (func : GHFunc)
  (did pid : Z) : RISCVIOMMUState :=
  let key := ctx_new did pid in
  set_ctx_cache s ((fun c => func c key) <$> ctx_cache s).

Definition LIMIT_CACHE_CTX : nat := Eval cbv in Nat.pow 2 7.

(** What [g_hash_table_lookup] finds, if the entry is still valid. *)
Definition ctx_cached (s : RISCVIOMMUState) (did pid : Z)
  : option RISCVIOMMUContext :=
  match ctx_cache s !! (did mod 2 ^ 24, pid mod 2 ^ 20) with
  | Some ctx => if tst (tc ctx) RISCV_IOMMU_DC_TC_V then Some ctx else None
  | None => None
  end.

(** The miss path of [riscv_iommu_ctx]: a fresh directory walk, then
    either the insertion into the cache or the fault report. *)
Definition ctx_walk (s : RISCVIOMMUState) (did pid : Z)
  : option RISCVIOMMUContext * RISCVIOMMUState :=
  let ctx := ctx_new did pid in
  let '(fault, ctx) := riscv_iommu_ctx_fetch s ctx in
  if fault =? 0 then
    let cache :=
      if Nat.leb LIMIT_CACHE_CTX (size (ctx_cache s)) then ∅ else ctx_cache s in
    (Some ctx,
     set_ctx_cache s (<[(devid ctx, process_id ctx) := ctx]> cache))
  else
    (None,
     riscv_iommu_report_fault s ctx RISCV_IOMMU_FQ_TTYPE_UADDR_RD fault
       (negb (pid =? 0)) 0 0).

(** Find or allocate translation context for a given {device_id, process_id} *)
Definition riscv_iommu_ctx (s : RISCVIOMMUState) (did pid : Z)
  : option RISCVIOMMUContext * RISCVIOMMUState :=
  match ctx_cached s did pid with
  | Some ctx => (Some ctx, s)
  | None => ctx_walk s did pid
  end.

End Ctx.
Export Ctx.

(** ** Command queue, queue control, DDTP and the MMIO window *)

Module Mmio.

Definition riscv_iommu_iofence (s : RISCVIOMMUState) (notify_ : bool)
  (addr data : Z) : MemTxResult * RISCVIOMMUState :=
  if negb notify_ then (MEMTX_OK, s)
  else
    match dma_memory_write (target_as s) addr (le_split 4 data) with
    | (res, m) => (res, set_target_as s m)
    end.

Definition riscv_iommu_process_ddtp (s : RISCVIOMMUState) : RISCVIOMMUState :=
  let old_ddtp := ddtp s in
  let new_ddtp := riscv_iommu_reg_get64 s RISCV_IOMMU_REG_DDTP in
  let new_mode := get_field new_ddtp RISCV_IOMMU_DDTP_MODE in
  let old_mode := get_field old_ddtp RISCV_IOMMU_DDTP_MODE in
  let ok :=
    if (new_mode =? old_mode) ||
       (new_mode =? RISCV_IOMMU_DDTP_MODE_OFF) ||
       (new_mode =? RISCV_IOMMU_DDTP_MODE_BARE) then true
    else if (new_mode =? RISCV_IOMMU_DDTP_MODE_1LVL) ||
            (new_mode =? RISCV_IOMMU_DDTP_MODE_2LVL) ||
            (new_mode =? RISCV_IOMMU_DDTP_MODE_3LVL) then
      (old_mode =? RISCV_IOMMU_DDTP_MODE_OFF) ||
      (old_mode =? RISCV_IOMMU_DDTP_MODE_BARE)
    else false in
  let new_ddtp :=
    if ok then
      set_field (Z.land new_ddtp RISCV_IOMMU_DDTP_PPN)
                RISCV_IOMMU_DDTP_MODE new_mode
    else old_ddtp in
  riscv_iommu_reg_set64 (set_ddtp s new_ddtp) RISCV_IOMMU_REG_DDTP new_ddtp.

(** Command function and opcode field. *)
Definition RISCV_IOMMU_CMD (func op : Z) : Z := Z.lor (Z.shiftl func 7) op.

(** How one turn of the command loop leaves its [switch]: [break], or a
    jump to [fault:] with the CQCSR error bit already set. *)
Inductive cmd_result : Type :=
| CmdDone (s : RISCVIOMMUState)
| CmdFault (s : RISCVIOMMUState).

Definition cq_cmd_ill (s : RISCVIOMMUState) : cmd_result :=
  CmdFault (snd (riscv_iommu_reg_mod32 s RISCV_IOMMU_REG_CQCSR
                   RISCV_IOMMU_CQCSR_CMD_ILL 0)).

Definition cq_exec (s : RISCVIOMMUState) (cmd : riscv_iommu_command)
  : cmd_result :=
  let cmd_opcode :=
    get_field (dword0 cmd) (Z.lor RISCV_IOMMU_CMD_OPCODE RISCV_IOMMU_CMD_FUNC) in
  if cmd_opcode =? RISCV_IOMMU_CMD RISCV_IOMMU_CMD_IOFENCE_FUNC_C
                     RISCV_IOMMU_CMD_IOFENCE_OPCODE then
    match riscv_iommu_iofence s (tst (dword0 cmd) RISCV_IOMMU_CMD_IOFENCE_AV)
            (dword1 cmd)
            (u32 (get_field (dword0 cmd) RISCV_IOMMU_CMD_IOFENCE_DATA)) with
    | (MEMTX_OK, s1) => CmdDone s1
    | (_, s1) =>
        CmdFault (snd (riscv_iommu_reg_mod32 s1 RISCV_IOMMU_REG_CQCSR
                         RISCV_IOMMU_CQCSR_CQMF 0))
    end
  else if cmd_opcode =? RISCV_IOMMU_CMD RISCV_IOMMU_CMD_IOTINVAL_FUNC_GVMA
                          RISCV_IOMMU_CMD_IOTINVAL_OPCODE then
    if tst (dword0 cmd) RISCV_IOMMU_CMD_IOTINVAL_PSCV then cq_cmd_ill s
    else CmdDone s
  else if cmd_opcode =? RISCV_IOMMU_CMD RISCV_IOMMU_CMD_IOTINVAL_FUNC_VMA
                          RISCV_IOMMU_CMD_IOTINVAL_OPCODE then
    CmdDone s
  else if cmd_opcode =? RISCV_IOMMU_CMD RISCV_IOMMU_CMD_IODIR_FUNC_INVAL_DDT
                          RISCV_IOMMU_CMD_IODIR_OPCODE then
    let func :=
      if negb (tst (dword0 cmd) RISCV_IOMMU_CMD_IODIR_DV)
      then __ctx_inval_all else __ctx_inval_devid in
    CmdDone (riscv_iommu_ctx_inval s func
               (get_field (dword0 cmd) RISCV_IOMMU_CMD_IODIR_DID) 0)
  else if cmd_opcode =? RISCV_IOMMU_CMD RISCV_IOMMU_CMD_IODIR_FUNC_INVAL_PDT
                          RISCV_IOMMU_CMD_IODIR_OPCODE then
    if negb (tst (dword0 cmd) RISCV_IOMMU_CMD_IODIR_DV) then cq_cmd_ill s
    else
      CmdDone (riscv_iommu_ctx_inval s __ctx_inval_devid_procid
                 (get_field (dword0 cmd) RISCV_IOMMU_CMD_IODIR_DID)
                 (get_field (dword0 cmd) RISCV_IOMMU_CMD_IODIR_PID))
  else cq_cmd_ill s.

(** The [fault:] label of [riscv_iommu_process_cq_tail]. *)
Definition cq_fault (s : RISCVIOMMUState) (ctrl : Z) : RISCVIOMMUState :=
  if tst ctrl RISCV_IOMMU_CQCSR_CIE
  then riscv_iommu_notify s RISCV_IOMMU_INTR_CQ else s.

(** [while (tail != head)]; [None] when the fuel runs out before the loop
    leaves. *)
Fixpoint cq_loop (fuel : nat) (s : RISCVIOMMUState) (ctrl head tail : Z)
  : option RISCVIOMMUState :=
  match fuel with
  | O => None
  | S fuel =>
      if tail =? head then Some s
      else
        let addr := cq_addr s + head * 16 in
        match dma_memory_read (target_as s) addr 16 with
        | (MEMTX_OK, l) =>
            match cq_exec s (command_of_bytes l) with
            | CmdDone s1 =>
                let head := Z.land (u32 (head + 1)) (cq_mask s1) in
                cq_loop fuel
                  (riscv_iommu_reg_set32 s1 RISCV_IOMMU_REG_CQH head)
                  ctrl head tail
            | CmdFault s1 => Some (cq_fault s1 ctrl)
            end
        | _ =>
            Some (cq_fault
                    (snd (riscv_iommu_reg_mod32 s RISCV_IOMMU_REG_CQCSR
                            RISCV_IOMMU_CQCSR_CQMF 0)) ctrl)
        end
  end.

Definition riscv_iommu_process_cq_tail (fuel : nat) (s : RISCVIOMMUState)
  : option RISCVIOMMUState :=
  let ctrl := riscv_iommu_reg_get32 s RISCV_IOMMU_REG_CQCSR in
  let tail := Z.land (riscv_iommu_reg_get32 s RISCV_IOMMU_REG_CQT) (cq_mask s) in
  let head := Z.land (riscv_iommu_reg_get32 s RISCV_IOMMU_REG_CQH) (cq_mask s) in
  if negb (tst ctrl RISCV_IOMMU_CQCSR_CQON) ||
     tst ctrl (Z.lor RISCV_IOMMU_CQCSR_CMD_ILL RISCV_IOMMU_CQCSR_CQMF)
  then Some s
  else cq_loop fuel s ctrl head tail.

Definition riscv_iommu_process_cq_control (s : RISCVIOMMUState)
  : RISCVIOMMUState :=
  let ctrl_set := riscv_iommu_reg_get32 s RISCV_IOMMU_REG_CQCSR in
  let enable := tst ctrl_set RISCV_IOMMU_CQCSR_CQEN in
  let active := tst ctrl_set RISCV_IOMMU_CQCSR_CQON in
  if enable && negb active then
    let base := riscv_iommu_reg_get64 s RISCV_IOMMU_REG_CQB in
    let mask := u32 (Z.shiftl 2 (get_field base RISCV_IOMMU_CQB_LOG2SZ) - 1) in
    let s := set_cq s (PPN_PHYS (get_field base RISCV_IOMMU_CQB_PPN)) mask in
    let s := set_regs_ro s (stl_le_p (regs_ro s) RISCV_IOMMU_REG_CQT (Z.lnot mask)) in
    let s := set_regs_rw s (stl_le_p (regs_rw s) RISCV_IOMMU_REG_CQH 0) in
    let s := set_regs_rw s (stl_le_p (regs_rw s) RISCV_IOMMU_REG_CQT 0) in
    snd (riscv_iommu_reg_mod32 s RISCV_IOMMU_REG_CQCSR RISCV_IOMMU_CQCSR_CQON
           (Z.lor RISCV_IOMMU_CQCSR_BUSY
              (Z.lor RISCV_IOMMU_CQCSR_CQMF
                 (Z.lor RISCV_IOMMU_CQCSR_CMD_ILL
                    (Z.lor RISCV_IOMMU_CQCSR_CMD_TO
                       RISCV_IOMMU_CQCSR_FENCE_W_IP)))))
  else if negb enable && active then
    let s := set_regs_ro s (stl_le_p (regs_ro s) RISCV_IOMMU_REG_CQT (Z.lnot 0)) in
    snd (riscv_iommu_reg_mod32 s RISCV_IOMMU_REG_CQCSR 0
           (Z.lor RISCV_IOMMU_CQCSR_BUSY RISCV_IOMMU_CQCSR_CQON))
  else
    snd (riscv_iommu_reg_mod32 s RISCV_IOMMU_REG_CQCSR 0 RISCV_IOMMU_CQCSR_BUSY).

Definition riscv_iommu_process_fq_control (s : RISCVIOMMUState)
  : RISCVIOMMUState :=
  let ctrl_set := riscv_iommu_reg_get32 s RISCV_IOMMU_REG_FQCSR in
  let enable := tst ctrl_set RISCV_IOMMU_FQCSR_FQEN in
  let active := tst ctrl_set RISCV_IOMMU_FQCSR_FQON in
  if enable && negb active then
    let base := riscv_iommu_reg_get64 s RISCV_IOMMU_REG_FQB in
    let mask := u32 (Z.shiftl 2 (get_field base RISCV_IOMMU_FQB_LOG2SZ) - 1) in
    let s := set_fq s (PPN_PHYS (get_field base RISCV_IOMMU_FQB_PPN)) mask in
    let s := set_regs_ro s (stl_le_p (regs_ro s) RISCV_IOMMU_REG_FQH (Z.lnot mask)) in
    let s := set_regs_rw s (stl_le_p (regs_rw s) RISCV_IOMMU_REG_FQH 0) in
    let s := set_regs_rw s (stl_le_p (regs_rw s) RISCV_IOMMU_REG_FQT 0) in
    snd (riscv_iommu_reg_mod32 s RISCV_IOMMU_REG_FQCSR RISCV_IOMMU_FQCSR_FQON
           (Z.lor RISCV_IOMMU_FQCSR_BUSY
              (Z.lor RISCV_IOMMU_FQCSR_FQMF RISCV_IOMMU_FQCSR_FQOF)))
  else if negb enable && active then
    let s := set_regs_ro s (stl_le_p (regs_ro s) RISCV_IOMMU_REG_FQH (Z.lnot 0)) in
    snd (riscv_iommu_reg_mod32 s RISCV_IOMMU_REG_FQCSR 0
           (Z.lor RISCV_IOMMU_FQCSR_BUSY RISCV_IOMMU_FQCSR_FQON))
  else
    snd (riscv_iommu_reg_mod32 s RISCV_IOMMU_REG_FQCSR 0 RISCV_IOMMU_FQCSR_BUSY).

Definition riscv_iommu_process_pq_control (s : RISCVIOMMUState)
  : RISCVIOMMUState :=
  let ctrl_set := riscv_iommu_reg_get32 s RISCV_IOMMU_REG_PQCSR in
  let enable := tst ctrl_set RISCV_IOMMU_PQCSR_PQEN in
  let active := tst ctrl_set RISCV_IOMMU_PQCSR_PQON in
  if enable && negb active then
    let base := riscv_iommu_reg_get64 s RISCV_IOMMU_REG_PQB in
    let mask := u32 (Z.shiftl 2 (get_field base RISCV_IOMMU_PQB_LOG2SZ) - 1) in
    let s := set_pq s (PPN_PHYS (get_field base RISCV_IOMMU_PQB_PPN)) mask in
    let s := set_regs_ro s (stl_le_p (regs_ro s) RISCV_IOMMU_REG_PQH (Z.lnot mask)) in
    let s := set_regs_rw s (stl_le_p (regs_rw s) RISCV_IOMMU_REG_PQH 0) in
    let s := set_regs_rw s (stl_le_p (regs_rw s) RISCV_IOMMU_REG_PQT 0) in
    snd (riscv_iommu_reg_mod32 s RISCV_IOMMU_REG_PQCSR RISCV_IOMMU_PQCSR_PQON
           (Z.lor RISCV_IOMMU_PQCSR_BUSY
              (Z.lor RISCV_IOMMU_PQCSR_PQMF RISCV_IOMMU_PQCSR_PQOF)))
  else if negb enable && active then
    let s := set_regs_ro s (stl_le_p (regs_ro s) RISCV_IOMMU_REG_PQH (Z.lnot 0)) in
    snd (riscv_iommu_reg_mod32 s RISCV_IOMMU_REG_PQCSR 0
           (Z.lor RISCV_IOMMU_PQCSR_BUSY RISCV_IOMMU_PQCSR_PQON))
  else
    snd (riscv_iommu_reg_mod32 s RISCV_IOMMU_REG_PQCSR 0 RISCV_IOMMU_PQCSR_BUSY).

Definition riscv_iommu_update_ipsr (s : RISCVIOMMUState) (data : Z)
  : RISCVIOMMUState :=
  let cip :=
    tst data RISCV_IOMMU_IPSR_CIP &&
    (let cqcsr := riscv_iommu_reg_get32 s RISCV_IOMMU_REG_CQCSR in
     tst cqcsr RISCV_IOMMU_CQCSR_CIE &&
     (tst cqcsr RISCV_IOMMU_CQCSR_FENCE_W_IP ||
      tst cqcsr RISCV_IOMMU_CQCSR_CMD_ILL ||
      tst cqcsr RISCV_IOMMU_CQCSR_CMD_TO ||
      tst cqcsr RISCV_IOMMU_CQCSR_CQMF)) in
  let fip :=
    tst data RISCV_IOMMU_IPSR_FIP &&
    (let fqcsr := riscv_iommu_reg_get32 s RISCV_IOMMU_REG_FQCSR in
     tst fqcsr RISCV_IOMMU_FQCSR_FIE &&
     (tst fqcsr RISCV_IOMMU_FQCSR_FQOF || tst fqcsr RISCV_IOMMU_FQCSR_FQMF)) in
  let pip :=
    tst data RISCV_IOMMU_IPSR_PIP &&
    (let pqcsr := riscv_iommu_reg_get32 s RISCV_IOMMU_REG_PQCSR in
     tst pqcsr RISCV_IOMMU_PQCSR_PIE &&
     (tst pqcsr RISCV_IOMMU_PQCSR_PQOF || tst pqcsr RISCV_IOMMU_PQCSR_PQMF)) in
  let ipsr_set :=
    Z.lor (if cip then RISCV_IOMMU_IPSR_CIP else 0)
      (Z.lor (if fip then RISCV_IOMMU_IPSR_FIP else 0)
             (if pip then RISCV_IOMMU_IPSR_PIP else 0)) in
  let ipsr_clr :=
    Z.lor (if cip then 0 else RISCV_IOMMU_IPSR_CIP)
      (Z.lor (if fip then 0 else RISCV_IOMMU_IPSR_FIP)
             (if pip then 0 else RISCV_IOMMU_IPSR_PIP)) in
  snd (riscv_iommu_reg_mod32 s RISCV_IOMMU_REG_IPSR ipsr_set ipsr_clr).

(** [((rw & ro) | (data & ~ro)) & ~(data & wc)] *)
Definition masked_update (rw ro wc data : Z) : Z :=
  Z.land (Z.lor (Z.land rw ro) (Z.land data (Z.lnot ro)))
         (Z.lnot (Z.land data wc)).

(** The registers whose write starts a process function, with the BUSY
    bit to raise and the base offset used for it. *)
Inductive process_fn : Type :=
| Process_ddtp | Process_cq_tail | Process_cq_control
| Process_fq_control | Process_pq_control.

Definition run_process_fn (fuel : nat) (f : process_fn) (s : RISCVIOMMUState)
  : option RISCVIOMMUState :=
  match f with
  | Process_ddtp => Some (riscv_iommu_process_ddtp s)
  | Process_cq_tail => riscv_iommu_process_cq_tail fuel s
  | Process_cq_control => Some (riscv_iommu_process_cq_control s)
  | Process_fq_control => Some (riscv_iommu_process_fq_control s)
  | Process_pq_control => Some (riscv_iommu_process_pq_control s)
  end.

(** Track actionable MMIO write: [(process_fn, regb, busy)]. *)
Definition mmio_dispatch (regb : Z) : option process_fn * Z * Z :=
  if (regb =? RISCV_IOMMU_REG_DDTP) || (regb =? RISCV_IOMMU_REG_DDTP + 4) then
    (Some Process_ddtp, RISCV_IOMMU_REG_DDTP, RISCV_IOMMU_DDTP_BUSY)
  else if regb =? RISCV_IOMMU_REG_CQT then (Some Process_cq_tail, regb, 0)
  else if regb =? RISCV_IOMMU_REG_CQCSR then
    (Some Process_cq_control, regb, RISCV_IOMMU_CQCSR_BUSY)
  else if regb =? RISCV_IOMMU_REG_FQCSR then
    (Some Process_fq_control, regb, RISCV_IOMMU_FQCSR_BUSY)
  else if regb =? RISCV_IOMMU_REG_PQCSR then
    (Some Process_pq_control, regb, RISCV_IOMMU_PQCSR_BUSY)
  else (None, regb, 0).

(** The masked store of [size] bytes at [addr]; other sizes store nothing. *)
Definition mmio_store (s : RISCVIOMMUState) (addr data size : Z)
  : RISCVIOMMUState :=
  let upd n :=
    set_regs_rw s
      (st_le n (regs_rw s) addr
         (masked_update (ld_le n (regs_rw s) addr) (ld_le n (regs_ro s) addr)
            (ld_le n (regs_wc s) addr) data)) in
  if size =? 1 then upd 1%nat
  else if size =? 2 then upd 2%nat
  else if size =? 4 then upd 4%nat
  else if size =? 8 then upd 8%nat
  else s.

(** [None] only when the command loop started by a CQT write runs out of
    [fuel]. *)
Definition riscv_iommu_mmio_write (fuel : nat) (s : RISCVIOMMUState)
  (addr data size : Z) : option (MemTxResult * RISCVIOMMUState) :=
  let regb := u32 (Z.land addr (Z.lnot 3)) in
  if negb (Z.land addr (u32 (size - 1)) =? 0) then Some (MEMTX_ERROR, s)
  else if RISCV_IOMMU_REG_MSI_CONFIG <? addr + size then
    Some (MEMTX_ACCESS_ERROR, s)
  else if regb =? RISCV_IOMMU_REG_IPSR then
    let val :=
      if size =? 4 then
        u32 (masked_update (ldl_le_p (regs_rw s) addr) (ldl_le_p (regs_ro s) addr)
               (ldl_le_p (regs_wc s) addr) data)
      else if size =? 8 then
        u64 (masked_update (ldq_le_p (regs_rw s) addr) (ldq_le_p (regs_ro s) addr)
               (ldq_le_p (regs_wc s) addr) data)
      else 0 in
    Some (MEMTX_OK, riscv_iommu_update_ipsr s val)
  else
    let '(fn, regb, busy) := mmio_dispatch regb in
    let s := mmio_store s addr data size in
    let s :=
      if negb (busy =? 0) then
        set_regs_rw s
          (stl_le_p (regs_rw s) regb (Z.lor (ldl_le_p (regs_rw s) regb) busy))
      else s in
    match fn with
    | Some f =>
        match run_process_fn fuel f s with
        | Some s => Some (MEMTX_OK, s)
        | None => None
        end
    | None => Some (MEMTX_OK, s)
    end.

Definition riscv_iommu_mmio_read (s : RISCVIOMMUState) (addr size : Z)
  : MemTxResult * Z :=
  if negb (Z.land addr (u32 (size - 1)) =? 0) then (MEMTX_ERROR, 0)
  else if RISCV_IOMMU_REG_MSI_CONFIG <? addr + size then (MEMTX_ACCESS_ERROR, 0)
  else if size =? 1 then (MEMTX_OK, ld_le 1 (regs_rw s) addr)
  else if size =? 2 then (MEMTX_OK, lduw_le_p (regs_rw s) addr)
  else if size =? 4 then (MEMTX_OK, ldl_le_p (regs_rw s) addr)
  else if size =? 8 then (MEMTX_OK, ldq_le_p (regs_rw s) addr)
  else (MEMTX_ERROR, 0).

(** Untranslated MSI writes arriving on the trap region. *)
Definition riscv_iommu_trap_write (s : RISCVIOMMUState) (unspecified : bool)
  (requester_id addr data : Z) (size : nat) : MemTxResult * RISCVIOMMUState :=
  if unspecified then (MEMTX_ACCESS_ERROR, s)
  else
    let did := u32 (Z.lor requester_id (Z.shiftl (bus s) 8)) in
    match riscv_iommu_ctx s did 0 with
    | (None, s) => (MEMTX_ACCESS_ERROR, s)
    | (Some ctx, s) => riscv_iommu_msi_write s ctx addr data size
    end.

(** Power-on state for the given properties, downstream memory and
    interrupt callback. *)
Definition riscv_iommu_realize (version_ bus_ : Z) (enable_msi_ enable_off_ : bool)
  (mem : AddressSpace) (notify_ : bool) : RISCVIOMMUState :=
  let cap0 := Z.land version_ RISCV_IOMMU_CAP_VERSION in
  let cap1 :=
    if enable_msi_
    then Z.lor cap0 (Z.lor RISCV_IOMMU_CAP_MSI_FLAT RISCV_IOMMU_CAP_MSI_MRIF)
    else cap0 in
  let cap2 := set_field cap1 RISCV_IOMMU_CAP_PAS TARGET_PHYS_ADDR_SPACE_BITS in
  let cap3 := Z.lor cap2 RISCV_IOMMU_CAP_PD8 in
  let ddtp0 :=
    set_field 0 RISCV_IOMMU_DDTP_MODE
      (if enable_off_ then RISCV_IOMMU_DDTP_MODE_OFF
       else RISCV_IOMMU_DDTP_MODE_BARE) in
  let rw := fun _ : Z => x00 in
  let ro := fun _ : Z => xff in
  let wc := fun _ : Z => x00 in
  let rw := stq_le_p rw RISCV_IOMMU_REG_CAP cap3 in
  let rw := stq_le_p rw RISCV_IOMMU_REG_FCTL 0 in
  let ro := stq_le_p ro RISCV_IOMMU_REG_FCTL
              (Z.lnot (Z.lor RISCV_IOMMU_FCTL_BE RISCV_IOMMU_FCTL_WSI)) in
  let ro := stq_le_p ro RISCV_IOMMU_REG_DDTP
              (Z.lnot (Z.lor RISCV_IOMMU_DDTP_PPN RISCV_IOMMU_DDTP_MODE)) in
  let ro := stq_le_p ro RISCV_IOMMU_REG_CQB
              (Z.lnot (Z.lor RISCV_IOMMU_CQB_LOG2SZ RISCV_IOMMU_CQB_PPN)) in
  let ro := stq_le_p ro RISCV_IOMMU_REG_FQB
              (Z.lnot (Z.lor RISCV_IOMMU_FQB_LOG2SZ RISCV_IOMMU_FQB_PPN)) in
  let ro := stq_le_p ro RISCV_IOMMU_REG_PQB
              (Z.lnot (Z.lor RISCV_IOMMU_PQB_LOG2SZ RISCV_IOMMU_PQB_PPN)) in
  let wc := stl_le_p wc RISCV_IOMMU_REG_CQCSR
              (Z.lor RISCV_IOMMU_CQCSR_CQMF
                 (Z.lor RISCV_IOMMU_CQCSR_CMD_TO RISCV_IOMMU_CQCSR_CMD_ILL)) in
  let ro := stl_le_p ro RISCV_IOMMU_REG_CQCSR
              (Z.lor RISCV_IOMMU_CQCSR_CQON RISCV_IOMMU_CQCSR_BUSY) in
  let wc := stl_le_p wc RISCV_IOMMU_REG_FQCSR
              (Z.lor RISCV_IOMMU_FQCSR_FQMF RISCV_IOMMU_FQCSR_FQOF) in
  let ro := stl_le_p ro RISCV_IOMMU_REG_FQCSR
              (Z.lor RISCV_IOMMU_FQCSR_FQON RISCV_IOMMU_FQCSR_BUSY) in
  let wc := stl_le_p wc RISCV_IOMMU_REG_PQCSR
              (Z.lor RISCV_IOMMU_PQCSR_PQMF RISCV_IOMMU_PQCSR_PQOF) in
  let ro := stl_le_p ro RISCV_IOMMU_REG_PQCSR
              (Z.lor RISCV_IOMMU_PQCSR_PQON RISCV_IOMMU_PQCSR_BUSY) in
  let wc := stl_le_p wc RISCV_IOMMU_REG_IPSR (Z.lnot 0) in
  let ro := stl_le_p ro RISCV_IOMMU_REG_IVEC 0 in
  let rw := stq_le_p rw RISCV_IOMMU_REG_DDTP ddtp0 in
  {| regs_rw := rw; regs_wc := wc; regs_ro := ro;
     version := version_; bus := bus_; enable_msi := enable_msi_;
     enable_off := enable_off_; cap := cap3; ddtp := ddtp0;
     cq_addr := 0; cq_mask := 0; fq_addr := 0; fq_mask := 0;
     pq_addr := 0; pq_mask := 0;
     ctx_cache := ∅; target_as := mem;
     notify := notify_; irq_raised := [] |}.

End Mmio.
Export Mmio.

(** ** Reference predicates used in the statements *)

Module Reference.

(** The DDTP.MODE transitions allowed by the specification: same mode;
    to OFF or BARE from any mode; to 1LVL/2LVL/3LVL only from OFF or BARE. *)
Definition ddtp_transition_allowed (old_mode new_mode : Z) : bool :=
  (new_mode =? old_mode) ||
  (new_mode =? RISCV_IOMMU_DDTP_MODE_OFF) ||
  (new_mode =? RISCV_IOMMU_DDTP_MODE_BARE) ||
  (((new_mode =? RISCV_IOMMU_DDTP_MODE_1LVL) ||
    (new_mode =? RISCV_IOMMU_DDTP_MODE_2LVL) ||
    (new_mode =? RISCV_IOMMU_DDTP_MODE_3LVL)) &&
   ((old_mode =? RISCV_IOMMU_DDTP_MODE_OFF) ||
    (old_mode =? RISCV_IOMMU_DDTP_MODE_BARE))).


Definition keeps_geometry (s s' : RISCVIOMMUState) : Prop :=
  cq_addr s' = cq_addr s /\ cq_mask s' = cq_mask s /\
  fq_addr s' = fq_addr s /\ fq_mask s' = fq_mask s /\
  pq_addr s' = pq_addr s /\ pq_mask s' = pq_mask s /\
  notify s' = notify s.

Definition rw_same_except (ws : list Z) (s s' : RISCVIOMMUState) : Prop :=
  forall x, (forall w, In w ws -> x < w \/ w + 4 <= x) ->
            regs_rw s' x = regs_rw s x.

Definition backed (m : AddressSpace) (addr len : Z) : Prop :=
  forall x, addr <= x < addr + len -> m x <> None.

Definition fq_head (s : RISCVIOMMUState) : Z :=
  Z.land (riscv_iommu_reg_get32 s RISCV_IOMMU_REG_FQH) (fq_mask s).
Definition fq_tail (s : RISCVIOMMUState) : Z :=
  Z.land (riscv_iommu_reg_get32 s RISCV_IOMMU_REG_FQT) (fq_mask s).
Definition fq_next (s : RISCVIOMMUState) : Z :=
  Z.land (u32 (fq_tail s + 1)) (fq_mask s).
Definition pq_head (s : RISCVIOMMUState) : Z :=
  Z.land (riscv_iommu_reg_get32 s RISCV_IOMMU_REG_PQH) (pq_mask s).
Definition pq_tail (s : RISCVIOMMUState) : Z :=
  Z.land (riscv_iommu_reg_get32 s RISCV_IOMMU_REG_PQT) (pq_mask s).
Definition pq_next (s : RISCVIOMMUState) : Z :=
  Z.land (u32 (pq_tail s + 1)) (pq_mask s).
Definition cq_head (s : RISCVIOMMUState) : Z :=
  Z.land (riscv_iommu_reg_get32 s RISCV_IOMMU_REG_CQH) (cq_mask s).
Definition cq_tail (s : RISCVIOMMUState) : Z :=
  Z.land (riscv_iommu_reg_get32 s RISCV_IOMMU_REG_CQT) (cq_mask s).

Definition fqcsr (s : RISCVIOMMUState) : Z :=
  riscv_iommu_reg_get32 s RISCV_IOMMU_REG_FQCSR.
Definition pqcsr (s : RISCVIOMMUState) : Z :=
  riscv_iommu_reg_get32 s RISCV_IOMMU_REG_PQCSR.
Definition cqcsr (s : RISCVIOMMUState) : Z :=
  riscv_iommu_reg_get32 s RISCV_IOMMU_REG_CQCSR.

(** The fault record found in ring slot [i], if the slot is backed. *)
Definition fq_slot (s : RISCVIOMMUState) (i : Z) : option riscv_iommu_fq_record :=
  option_map fq_record_of_bytes (as_read (target_as s) (fq_addr s + i * 32) 32).

(** A record as it reads back from memory: every field a 64-bit word. *)
Definition fq_record_u64 (ev : riscv_iommu_fq_record) : riscv_iommu_fq_record :=
  {| fq_hdr := u64 (fq_hdr ev); fq_reserved := u64 (fq_reserved ev);
     fq_iotval := u64 (fq_iotval ev); fq_iotval2 := u64 (fq_iotval2 ev) |}.

Definition cmd_key (cmd : riscv_iommu_command) : Z :=
  get_field (dword0 cmd) (Z.lor RISCV_IOMMU_CMD_OPCODE RISCV_IOMMU_CMD_FUNC).

(** A command is illegal when its key matches no handler, or it is
    IOTINVAL.GVMA with PSCV set, or IODIR.INVAL_PDT with DV clear. *)
Definition cmd_illegal (cmd : riscv_iommu_command) : bool :=
  let key := cmd_key cmd in
  negb ((key =? RISCV_IOMMU_CMD RISCV_IOMMU_CMD_IOFENCE_FUNC_C
                  RISCV_IOMMU_CMD_IOFENCE_OPCODE) ||
        (key =? RISCV_IOMMU_CMD RISCV_IOMMU_CMD_IOTINVAL_FUNC_GVMA
                  RISCV_IOMMU_CMD_IOTINVAL_OPCODE) ||
        (key =? RISCV_IOMMU_CMD RISCV_IOMMU_CMD_IOTINVAL_FUNC_VMA
                  RISCV_IOMMU_CMD_IOTINVAL_OPCODE) ||
        (key =? RISCV_IOMMU_CMD RISCV_IOMMU_CMD_IODIR_FUNC_INVAL_DDT
                  RISCV_IOMMU_CMD_IODIR_OPCODE) ||
        (key =? RISCV_IOMMU_CMD RISCV_IOMMU_CMD_IODIR_FUNC_INVAL_PDT
                  RISCV_IOMMU_CMD_IODIR_OPCODE)) ||
  ((key =? RISCV_IOMMU_CMD RISCV_IOMMU_CMD_IOTINVAL_FUNC_GVMA
             RISCV_IOMMU_CMD_IOTINVAL_OPCODE) &&
   tst (dword0 cmd) RISCV_IOMMU_CMD_IOTINVAL_PSCV) ||
  ((key =? RISCV_IOMMU_CMD RISCV_IOMMU_CMD_IODIR_FUNC_INVAL_PDT
             RISCV_IOMMU_CMD_IODIR_OPCODE) &&
   negb (tst (dword0 cmd) RISCV_IOMMU_CMD_IODIR_DV)).

(** The queue traffic the device generates on its own: fault and
    page-request enqueues, and command-queue processing (which advances
    the head). *)
Inductive queue_op : Type :=
| EnqFault (ev : riscv_iommu_fq_record)
| EnqPri (pr : riscv_iommu_pq_record)
| CqTail (fuel : nat).

Definition queue_step (op : queue_op) (s : RISCVIOMMUState)
  : option RISCVIOMMUState :=
  match op with
  | EnqFault ev => Some (riscv_iommu_fault s ev)
  | EnqPri pr => Some (riscv_iommu_pri s pr)
  | CqTail fuel => riscv_iommu_process_cq_tail fuel s
  end.

Fixpoint run_queue_ops (ops : list queue_op) (s : RISCVIOMMUState)
  : option RISCVIOMMUState :=
  match ops with
  | [] => Some s
  | op :: ops =>
      match queue_step op s with
      | Some s1 => run_queue_ops ops s1
      | None => None
      end
  end.

(** The index registers the device itself writes hold in-range values. *)
Definition ring_regs_ok (s : RISCVIOMMUState) : Prop :=
  riscv_iommu_reg_get32 s RISCV_IOMMU_REG_FQT <= fq_mask s /\
  riscv_iommu_reg_get32 s RISCV_IOMMU_REG_PQT <= pq_mask s /\
  riscv_iommu_reg_get32 s RISCV_IOMMU_REG_CQH <= cq_mask s.

(** Cache entries sit under the key made of their own identifiers. *)
Definition ctx_cache_wf (s : RISCVIOMMUState) : Prop :=
  forall k ctx, ctx_cache s !! k = Some ctx -> k = (devid ctx, process_id ctx).

(** The 32-bit words whose write is followed by a process function that
    rewrites the register, or that is intercepted (IPSR). *)
Definition mmio_rewritten_word (regb : Z) : bool :=
  (regb =? RISCV_IOMMU_REG_DDTP) || (regb =? RISCV_IOMMU_REG_DDTP + 4) ||
  (regb =? RISCV_IOMMU_REG_CQCSR) || (regb =? RISCV_IOMMU_REG_FQCSR) ||
  (regb =? RISCV_IOMMU_REG_PQCSR) || (regb =? RISCV_IOMMU_REG_IPSR).

(** The state reached through [cmd_ill:] then [fault:]. *)
Definition cq_ill_exit (s : RISCVIOMMUState) (ctrl : Z) : RISCVIOMMUState :=
  cq_fault (snd (riscv_iommu_reg_mod32 s RISCV_IOMMU_REG_CQCSR
                   RISCV_IOMMU_CQCSR_CMD_ILL 0)) ctrl.

(** The registers the command loop may write. *)
Definition cq_words : list Z :=
  [RISCV_IOMMU_REG_CQH; RISCV_IOMMU_REG_CQCSR; RISCV_IOMMU_REG_IPSR].

(** The causes still reported when tc.DTF is set. *)
Definition dtf_whitelist : list Z :=
  [ RISCV_IOMMU_FQ_CAUSE_DMA_DISABLED; RISCV_IOMMU_FQ_CAUSE_DDT_LOAD_FAULT;
    RISCV_IOMMU_FQ_CAUSE_DDT_INVALID; RISCV_IOMMU_FQ_CAUSE_DDT_MISCONFIGURED;
    RISCV_IOMMU_FQ_CAUSE_DDT_CORRUPTED; RISCV_IOMMU_FQ_CAUSE_INTERNAL_DP_ERROR;
    RISCV_IOMMU_FQ_CAUSE_MSI_WR_FAULT ].

(** The header composed by [riscv_iommu_report_fault], field by field. *)
Definition fault_hdr (ctx : RISCVIOMMUContext) (fault_type cause : Z) (pv : bool) : Z :=
  let hdr := set_field 0 RISCV_IOMMU_FQ_HDR_CAUSE cause in
  let hdr := set_field hdr RISCV_IOMMU_FQ_HDR_TTYPE fault_type in
  let hdr := set_field hdr RISCV_IOMMU_FQ_HDR_DID (devid ctx) in
  let hdr := set_field hdr RISCV_IOMMU_FQ_HDR_PV 1 in
  if pv then set_field hdr RISCV_IOMMU_FQ_HDR_PID (process_id ctx) else hdr.

(** The 32-bit little-endian word at a physical address. *)
Definition mem32 (s : RISCVIOMMUState) (addr : Z) : option Z :=
  option_map le_combine (as_read (target_as s) addr 4).

End Reference.
Export Reference.

(** ** Concrete devices used by the examples *)

Module Scenarios.

Definition ram0 : AddressSpace := fun _ => Some x00.

(** An MMIO write by system software; the device is left as it is when
    the access is refused. *)
Definition sw_write (s : RISCVIOMMUState) (addr data size : Z) : RISCVIOMMUState :=
  match riscv_iommu_mmio_write 64 s addr data size with
  | Some (MEMTX_OK, s') => s'
  | _ => s
  end.

Definition s_power_on : RISCVIOMMUState :=
  riscv_iommu_realize 0x10 0 true false ram0 true.

(** Fault queue of two entries at PPN 0x500, enabled with interrupts, on
    a device with the given downstream memory. *)
Definition fq2_device (mem : AddressSpace) : RISCVIOMMUState :=
  sw_write
    (sw_write (riscv_iommu_realize 0x10 0 true false mem true)
       RISCV_IOMMU_REG_FQB (set_field 0 RISCV_IOMMU_FQB_PPN 0x500) 8)
    RISCV_IOMMU_REG_FQCSR
    (Z.lor RISCV_IOMMU_FQCSR_FQEN RISCV_IOMMU_FQCSR_FIE) 4.

Definition s_fq2 : RISCVIOMMUState := fq2_device ram0.

Definition ev_a : riscv_iommu_fq_record :=
  {| fq_hdr := 0x1000900000102; fq_reserved := 0;
     fq_iotval := 0x1000; fq_iotval2 := 0 |}.
Definition ev_b : riscv_iommu_fq_record :=
  {| fq_hdr := 0x1000900000104; fq_reserved := 0;
     fq_iotval := 0x2000; fq_iotval2 := 0 |}.
Definition ev_c : riscv_iommu_fq_record :=
  {| fq_hdr := 0x1000900000105; fq_reserved := 0;
     fq_iotval := 0x3000; fq_iotval2 := 0 |}.

(** Memory with one command of unknown opcode 0x7f at 0x400000. *)
Definition ram_bad_cmd : AddressSpace :=
  snd (as_write ram0 0x400000 (le_split 8 0x7f ++ le_split 8 0)).

(** Command queue of eight entries at PPN 0x400, enabled with CIE. *)
Definition s_cq8 : RISCVIOMMUState :=
  sw_write
    (sw_write (riscv_iommu_realize 0x10 0 true false ram_bad_cmd true)
       RISCV_IOMMU_REG_CQB
       (set_field (set_field 0 RISCV_IOMMU_CQB_PPN 0x400)
          RISCV_IOMMU_CQB_LOG2SZ 2) 8)
    RISCV_IOMMU_REG_CQCSR
    (Z.lor RISCV_IOMMU_CQCSR_CQEN RISCV_IOMMU_CQCSR_CIE) 4.

(** The same device after software selected wire-signalled interrupts. *)
Definition s_cq8_wsi : RISCVIOMMUState :=
  sw_write s_cq8 RISCV_IOMMU_REG_FCTL RISCV_IOMMU_FCTL_WSI 4.

(** The two-entry fault queue after one record was taken in and software
    then switched the queue off: head 0, tail 1. *)
Definition s_fq2_off : RISCVIOMMUState :=
  sw_write (riscv_iommu_fault s_fq2 ev_a) RISCV_IOMMU_REG_FQCSR 0 4.

(** Memory without backing where the two-entry fault ring lies. *)
Definition ram_fq_hole : AddressSpace :=
  fun a => if (0x500000 <=? a) && (a <? 0x500040) then None else Some x00.

(** The two-entry fault queue, still on, after a record could not be
    stored (FQMF pending, tail 0) and software moved FQH to 1. *)
Definition s_fq2_mf : RISCVIOMMUState :=
  sw_write (riscv_iommu_fault (fq2_device ram_fq_hole) ev_a)
    RISCV_IOMMU_REG_FQH 1 4.

(** A pass-through (BARE) device that has translated for devices 0x100
    and 0x200, so that both contexts are cached. *)
Definition s_bare : RISCVIOMMUState :=
  riscv_iommu_realize 0x10 0 true false ram0 true.

Definition s_two_cached : RISCVIOMMUState :=
  snd (riscv_iommu_ctx (snd (riscv_iommu_ctx s_bare 0x100 0)) 0x200 0).

(** IODIR.INVAL_DDT with DV = 1 and DID = 0x100. *)
Definition cmd_inval_ddt_0x100 : riscv_iommu_command :=
  {| dword0 :=
       set_field
         (set_field (RISCV_IOMMU_CMD RISCV_IOMMU_CMD_IODIR_FUNC_INVAL_DDT
                       RISCV_IOMMU_CMD_IODIR_OPCODE)
            RISCV_IOMMU_CMD_IODIR_DV 1)
         RISCV_IOMMU_CMD_IODIR_DID 0x100;
     dword1 := 0 |}.

(** MSI basic redirection: mask 0xFF, pattern 0x500, msiptp = {FLAT, PPN
    0x200}; the MSI PTE for interrupt file 3 is {V, M = BASIC, PPN 0x300}. *)
Definition ctx_msi : RISCVIOMMUContext :=
  {| devid := 0x100; process_id := 0; tc := RISCV_IOMMU_DC_TC_V; ta := 0;
     msi_addr_mask := 0xFF; msi_addr_pattern := 0x500;
     msiptp :=
       set_field
         (set_field 0 RISCV_IOMMU_DC_MSIPTP_MODE RISCV_IOMMU_DC_MSIPTP_MODE_FLAT)
         RISCV_IOMMU_DC_MSIPTP_PPN 0x200 |}.

Definition msi_pte_basic : Z :=
  set_field
    (set_field RISCV_IOMMU_MSI_PTE_V RISCV_IOMMU_MSI_PTE_M
       RISCV_IOMMU_MSI_PTE_M_BASIC)
    RISCV_IOMMU_MSI_PTE_PPN 0x300.

Definition ram_msi : AddressSpace :=
  snd (as_write ram0 (0x200000 + 3 * 16)
         (le_split 8 msi_pte_basic ++ le_split 8 0)).

Definition s_msi : RISCVIOMMUState :=
  riscv_iommu_realize 0x10 0 true false ram_msi true.

Definition gpa_msi : Z := Z.lor (Z.shiftl (Z.lor 0x500 3) 12) 0x8.


(** A valid device context with fault reporting disabled (DTF). *)
Definition ctx_dtf : RISCVIOMMUContext :=
  {| devid := 0x100; process_id := 0;
     tc := Z.lor RISCV_IOMMU_DC_TC_V RISCV_IOMMU_DC_TC_DTF; ta := 0;
     msi_addr_mask := 0; msi_addr_pattern := 0; msiptp := 0 |}.

(** Power-on device with interrupt remapping on (extended contexts),
    switched to a one-level directory at PPN 0x10. *)
Definition s_1lvl : RISCVIOMMUState :=
  set_ddtp (riscv_iommu_realize 0x10 0 true false ram0 true)
    (set_field (set_field 0 RISCV_IOMMU_DDTP_MODE RISCV_IOMMU_DDTP_MODE_1LVL)
       RISCV_IOMMU_DDTP_PPN 0x10).

Definition pr_a : riscv_iommu_pq_record :=
  {| pq_hdr := 0x1000000000000; pq_payload := 0x4007 |}.

(** The eight-entry command queue with the tail register already at 1
    and the unknown opcode waiting in slot 0. *)
Definition s_cq8_pending : RISCVIOMMUState :=
  riscv_iommu_reg_set32 s_cq8 RISCV_IOMMU_REG_CQT 1.

End Scenarios.
Export Scenarios.

(** ** Translation requests and the per-device address spaces *)

Module Translate.

(** Modelled from the spec: [IOMMUAccessFlags] of the host memory API
    (perm in {NONE, R, W, RW}), a two-bit set with R = 1 and W = 2. *)
Definition IOMMU_NONE : Z := 0.
Definition IOMMU_RO : Z := 1.
Definition IOMMU_WO : Z := 2.
Definition IOMMU_RW : Z := 3.

(** The address space a translated access is sent to: [s->target_as] or
    [&s->trap_as]. *)
Inductive tlb_target : Type :=
| TargetAs
| TrapAs.

(** Modelled from the spec: [IOMMUTLBEntry] of the host memory API,
    [{iova, perm, target_as, addr_mask, translated_addr}]. *)
Record IOMMUTLBEntry : Type := {
  tlb_as : tlb_target;
  iova : Z;
  translated_addr : Z;
  addr_mask : Z;
  perm : Z
}.

Definition riscv_iommu_spa_fetch (s : RISCVIOMMUState) (ctx : RISCVIOMMUContext)
  (iotlb : IOMMUTLBEntry) : Z * IOMMUTLBEntry :=
  (* Early check for MSI address match when IOVA == GPA *)
  if tst (perm iotlb) IOMMU_WO && riscv_iommu_msi_check ctx (iova iotlb) then
    (0, {| tlb_as := TrapAs; iova := iova iotlb;
           translated_addr := iova iotlb;
           addr_mask := u64 (Z.lnot TARGET_PAGE_MASK);
           perm := perm iotlb |})
  else
    (* Exit early for pass-through mode; allow R/W. *)
    (0, {| tlb_as := tlb_as iotlb; iova := iova iotlb;
           translated_addr := iova iotlb;
           addr_mask := u64 (Z.lnot TARGET_PAGE_MASK);
           perm := IOMMU_RW |}).

Definition riscv_iommu_translate (s : RISCVIOMMUState) (ctx : RISCVIOMMUContext)
  (iotlb : IOMMUTLBEntry) : Z * IOMMUTLBEntry * RISCVIOMMUState :=
  let enable_pri := (perm iotlb =? IOMMU_NONE) && tst (tc ctx) (BIT 32) in
  let enable_pasid := tst (tc ctx) RISCV_IOMMU_DC_TC_PDTV in
  let '(fault, iotlb) := riscv_iommu_spa_fetch s ctx iotlb in
  if enable_pri && negb (fault =? 0) then
    let hdr :=
      if enable_pasid
      then set_field RISCV_IOMMU_PREQ_HDR_PV RISCV_IOMMU_PREQ_HDR_PID
             (process_id ctx)
      else 0 in
    let hdr := set_field hdr RISCV_IOMMU_PREQ_HDR_DID (devid ctx) in
    let pr :=
      {| pq_hdr := hdr;
         pq_payload := Z.lor (Z.land (iova iotlb) TARGET_PAGE_MASK)
                             RISCV_IOMMU_PREQ_PAYLOAD_M |} in
    (fault, iotlb, riscv_iommu_pri s pr)
  else if negb (fault =? 0) then
    let ttype :=
      if tst (perm iotlb) IOMMU_RW then RISCV_IOMMU_FQ_TTYPE_UADDR_WR
      else RISCV_IOMMU_FQ_TTYPE_UADDR_RD in
    (fault, iotlb,
     riscv_iommu_report_fault s ctx ttype fault enable_pasid
       (iova iotlb) (translated_addr iotlb))
  else (0, iotlb, s).

(** Per-device address space: [as->devid] and [as->notifier]. *)
Record RISCVIOMMUSpace : Type := {
  space_devid : Z;
  notifier : bool
}.

(** [iotlb.addr_mask = 0; iotlb.perm = IOMMU_NONE;] *)
Definition tlb_refuse (iotlb : IOMMUTLBEntry) : IOMMUTLBEntry :=
  {| tlb_as := tlb_as iotlb; iova := iova iotlb;
     translated_addr := translated_addr iotlb;
     addr_mask := 0; perm := IOMMU_NONE |}.

Definition riscv_iommu_memory_region_translate (s : RISCVIOMMUState)
  (as_ : RISCVIOMMUSpace) (addr flag iommu_idx : Z)
  : IOMMUTLBEntry * RISCVIOMMUState :=
  let iotlb :=
    {| tlb_as := TargetAs; iova := addr; translated_addr := 0;
       addr_mask := u64 (Z.lnot 0); perm := flag |} in
  match riscv_iommu_ctx s (space_devid as_) iommu_idx with
  | (None, s) => (tlb_refuse iotlb, s)
  | (Some ctx, s) =>
      let '(fault, iotlb, s) := riscv_iommu_translate s ctx iotlb in
      if negb (fault =? 0) then (tlb_refuse iotlb, s) else (iotlb, s)
  end.

(** Find or allocate address space for a given device, over the list
    [s->spaces] (searched from its head, extended at its head). *)
Definition riscv_iommu_space (s : RISCVIOMMUState)
  (spaces : list RISCVIOMMUSpace) (devid : Z)
  : RISCVIOMMUSpace * list RISCVIOMMUSpace :=
  let devid := u32 (Z.lor devid (u32 (Z.shiftl (bus s) 8))) in
  match find (fun a => space_devid a =? devid) spaces with
  | Some a => (a, spaces)
  | None =>
      let a := {| space_devid := devid; notifier := false |} in
      (a, a :: spaces)
  end.

End Translate.
Export Translate.

(** ** Further reference definitions *)

Module Reference2.

(** The bits of [val] selected by the digits of [ext], packed low: what
    the loop of [_pext_u64] computes while [rot] does not wrap. *)
Fixpoint pext_bits (ext : positive) (val : Z) : Z :=
  match ext with
  | xH => Z.b2z (Z.odd val)
  | xO e => pext_bits e (Z.shiftr val 1)
  | xI e => Z.b2z (Z.odd val) + 2 * pext_bits e (Z.shiftr val 1)
  end.

Definition pq_record_of_bytes (l : list byte) : riscv_iommu_pq_record :=
  {| pq_hdr := le_combine (firstn 8 l);
     pq_payload := le_combine (firstn 8 (skipn 8 l)) |}.

(** The page-request record found in ring slot [i], if the slot is
    backed. *)
Definition pq_slot (s : RISCVIOMMUState) (i : Z) : option riscv_iommu_pq_record :=
  option_map pq_record_of_bytes (as_read (target_as s) (pq_addr s + i * 16) 16).

Definition pq_record_u64 (pr : riscv_iommu_pq_record) : riscv_iommu_pq_record :=
  {| pq_hdr := u64 (pq_hdr pr); pq_payload := u64 (pq_payload pr) |}.

(** The fault record reported for a failed context lookup of device [d]
    and process [p]. *)
Definition ctx_fault_record (d p cause : Z) : riscv_iommu_fq_record :=
  {| fq_hdr := fault_hdr (ctx_new d p) RISCV_IOMMU_FQ_TTYPE_UADDR_RD cause
                 (negb (p =? 0));
     fq_reserved := 0; fq_iotval := 0; fq_iotval2 := 0 |}.

Definition ipsr (s : RISCVIOMMUState) : Z :=
  riscv_iommu_reg_get32 s RISCV_IOMMU_REG_IPSR.

(** The conditions under which [riscv_iommu_update_ipsr] lets a pending
    bit stand: the queue's interrupt enable and one of its error bits. *)
Definition cq_irq_cause (s : RISCVIOMMUState) : bool :=
  tst (cqcsr s) RISCV_IOMMU_CQCSR_CIE &&
  (tst (cqcsr s) RISCV_IOMMU_CQCSR_FENCE_W_IP ||
   tst (cqcsr s) RISCV_IOMMU_CQCSR_CMD_ILL ||
   tst (cqcsr s) RISCV_IOMMU_CQCSR_CMD_TO ||
   tst (cqcsr s) RISCV_IOMMU_CQCSR_CQMF).

Definition fq_irq_cause (s : RISCVIOMMUState) : bool :=
  tst (fqcsr s) RISCV_IOMMU_FQCSR_FIE &&
  (tst (fqcsr s) RISCV_IOMMU_FQCSR_FQOF || tst (fqcsr s) RISCV_IOMMU_FQCSR_FQMF).

Definition pq_irq_cause (s : RISCVIOMMUState) : bool :=
  tst (pqcsr s) RISCV_IOMMU_PQCSR_PIE &&
  (tst (pqcsr s) RISCV_IOMMU_PQCSR_PQOF || tst (pqcsr s) RISCV_IOMMU_PQCSR_PQMF).

(** The eight bytes of CAP are read-only for software: every bit is
    marked read-only and none write-1-to-clear. *)
Definition cap_locked (s : RISCVIOMMUState) : Prop :=
  forall x, RISCV_IOMMU_REG_CAP <= x < RISCV_IOMMU_REG_CAP + 8 ->
            regs_ro s x = xff /\ regs_wc s x = x00.

(** MMIO writes [(addr, data, size)] by software, one after another;
    a refused write leaves the device as it is. *)
Fixpoint run_mmio_writes (fuel : nat) (ws : list (Z * Z * Z))
  (s : RISCVIOMMUState) : option RISCVIOMMUState :=
  match ws with
  | [] => Some s
  | (addr, data, size) :: ws =>
      match riscv_iommu_mmio_write fuel s addr data size with
      | Some (_, s1) => run_mmio_writes fuel ws s1
      | None => None
      end
  end.

(** Where the one-level directory keeps the context of device [d], and
    the context made of the words found there. *)
Definition dc_fmt_of (s : RISCVIOMMUState) : Z := if enable_msi s then 0 else 1.

Definition dc_addr_1lvl (s : RISCVIOMMUState) (d : Z) : Z :=
  Z.lor (PPN_PHYS (get_field (ddtp s) RISCV_IOMMU_DDTP_PPN))
        (Z.land (d * Z.shiftr 64 (dc_fmt_of s)) (Z.lnot TARGET_PAGE_MASK)).

Definition ctx_of_dc (d p : Z) (l : list byte) : RISCVIOMMUContext :=
  {| devid := d; process_id := p;
     tc := dc_word l 0; ta := dc_word l 2;
     msi_addr_mask := dc_word l 5; msi_addr_pattern := dc_word l 6;
     msiptp := dc_word l 4 |}.

(** Some byte of [addr, addr + len) has no memory behind it. *)
Definition unbacked (m : AddressSpace) (addr len : Z) : Prop :=
  exists x, addr <= x < addr + len /\ m x = None.

End Reference2.
Export Reference2.

(** ** Further concrete devices *)

Module Scenarios2.

(** The MSI page table of [ram_msi] with an MRIF entry for interrupt file
    3: the memory-resident interrupt file lies at 0x300000. *)
Definition msi_pte_mrif : Z :=
  set_field
    (set_field RISCV_IOMMU_MSI_PTE_V RISCV_IOMMU_MSI_PTE_M
       RISCV_IOMMU_MSI_PTE_M_MRIF)
    RISCV_IOMMU_MSI_PTE_MRIF_ADDR 0x1800.

Definition ram_mrif : AddressSpace :=
  snd (as_write ram0 (0x200000 + 3 * 16)
         (le_split 8 msi_pte_mrif ++ le_split 8 0)).

Definition s_mrif : RISCVIOMMUState :=
  riscv_iommu_realize 0x10 0 true false ram_mrif true.

(** IODIR.INVAL_PDT with DV = 1, DID = 0x100 and PID = 0. *)
Definition cmd_inval_pdt_0x100 : riscv_iommu_command :=
  {| dword0 :=
       set_field
         (set_field (RISCV_IOMMU_CMD RISCV_IOMMU_CMD_IODIR_FUNC_INVAL_PDT
                       RISCV_IOMMU_CMD_IODIR_OPCODE)
            RISCV_IOMMU_CMD_IODIR_DV 1)
         RISCV_IOMMU_CMD_IODIR_DID 0x100;
     dword1 := 0 |}.

(** IOFENCE.C with AV = 1 and DATA = 0xCAFE, to be stored at 0x6000. *)
Definition cmd_iofence_av : riscv_iommu_command :=
  {| dword0 :=
       set_field
         (Z.lor (RISCV_IOMMU_CMD RISCV_IOMMU_CMD_IOFENCE_FUNC_C
                   RISCV_IOMMU_CMD_IOFENCE_OPCODE)
            RISCV_IOMMU_CMD_IOFENCE_AV)
         RISCV_IOMMU_CMD_IOFENCE_DATA 0xCAFE;
     dword1 := 0x6000 |}.

(** A device whose CQB names eight entries at PPN 0x400 and whose CQCSR
    has just received CQEN and CIE, before queue control has run. *)
Definition s_cq_armed : RISCVIOMMUState :=
  riscv_iommu_reg_set32
    (sw_write (riscv_iommu_realize 0x10 0 true false ram0 true)
       RISCV_IOMMU_REG_CQB
       (set_field (set_field 0 RISCV_IOMMU_CQB_PPN 0x400)
          RISCV_IOMMU_CQB_LOG2SZ 2) 8)
    RISCV_IOMMU_REG_CQCSR
    (Z.lor RISCV_IOMMU_CQCSR_CQEN RISCV_IOMMU_CQCSR_CIE).

(** A device whose FQB names two entries at PPN 0x500 and whose FQCSR
    has just received FQEN and FIE, before queue control has run. *)
Definition s_fq_armed : RISCVIOMMUState :=
  riscv_iommu_reg_set32
    (sw_write (riscv_iommu_realize 0x10 0 true false ram0 true)
       RISCV_IOMMU_REG_FQB (set_field 0 RISCV_IOMMU_FQB_PPN 0x500) 8)
    RISCV_IOMMU_REG_FQCSR
    (Z.lor RISCV_IOMMU_FQCSR_FQEN RISCV_IOMMU_FQCSR_FIE).

(** A page-request queue of two entries at PPN 0x600, enabled. *)
Definition s_pq2 : RISCVIOMMUState :=
  sw_write
    (sw_write (riscv_iommu_realize 0x10 0 true false ram0 true)
       RISCV_IOMMU_REG_PQB (set_field 0 RISCV_IOMMU_PQB_PPN 0x600) 8)
    RISCV_IOMMU_REG_PQCSR
    (Z.lor RISCV_IOMMU_PQCSR_PQEN RISCV_IOMMU_PQCSR_PIE) 4.

(** The two-entry fault queue of [s_fq2] on a device that was switched
    off (DDTP.MODE = OFF) by software. *)
Definition s_fq2_dma_off : RISCVIOMMUState :=
  sw_write s_fq2 RISCV_IOMMU_REG_DDTP 0 8.

(** The eight-entry command queue after the unknown opcode in slot 0 was
    fetched: CMD_ILL and IPSR.CIP are set. *)
Definition s_cq8_ill : RISCVIOMMUState :=
  sw_write s_cq8 RISCV_IOMMU_REG_CQT 1 4.

(** The device of the MSI scenario with the context of device 0x100
    already in its cache. *)
Definition s_msi_cached : RISCVIOMMUState :=
  set_ctx_cache s_msi (<[(0x100, 0) := ctx_msi]> ∅).

(** Memory holding, in the one-level directory at PPN 0x10, a valid
    device context for device 5 (extended format): tc = V, MSI page table
    at PPN 0x200 in flat mode, address mask 0xFF and pattern 0x500. *)
Definition dc_dev5 : list byte :=
  le_split 8 RISCV_IOMMU_DC_TC_V ++ le_split 8 0 ++ le_split 8 0 ++
  le_split 8 0 ++ le_split 8 (msiptp ctx_msi) ++ le_split 8 0xFF ++
  le_split 8 0x500 ++ le_split 8 0.

Definition ram_dc : AddressSpace :=
  snd (as_write ram0 (0x10000 + 5 * 64) dc_dev5).

Definition s_1lvl_dc : RISCVIOMMUState :=
  set_ddtp (riscv_iommu_realize 0x10 0 true false ram_dc true)
    (set_field (set_field 0 RISCV_IOMMU_DDTP_MODE RISCV_IOMMU_DDTP_MODE_1LVL)
       RISCV_IOMMU_DDTP_PPN 0x10).

(** The one-level directory of [s_1lvl] (all zero) with the two-entry
    fault queue enabled. *)
Definition s_1lvl_fq : RISCVIOMMUState :=
  set_ddtp s_fq2
    (set_field (set_field 0 RISCV_IOMMU_DDTP_MODE RISCV_IOMMU_DDTP_MODE_1LVL)
       RISCV_IOMMU_DDTP_PPN 0x10).

(** The eight-entry command queue with CQEN cleared by software, before
    queue control has run. *)
Definition s_cq8_disarmed : RISCVIOMMUState :=
  riscv_iommu_reg_set32 s_cq8_pending RISCV_IOMMU_REG_CQCSR
    (Z.lor RISCV_IOMMU_CQCSR_CQON RISCV_IOMMU_CQCSR_CIE).

End Scenarios2.
Export Scenarios2.

(** * Properties *)

Section ByteFacts.

Lemma byte_val_range (b : byte) : 0 <= byte_val b < 256.
Proof.
  unfold byte_val. pose proof (Byte.to_N_bounded b) as H.
  split; [apply N2Z.is_nonneg|]. apply N2Z.inj_le in H. simpl in H. lia.
Qed.

Lemma byte_val_of (v : Z) : byte_val (byte_of v) = v mod 256.
Proof.
  unfold byte_val, byte_of.
  assert (Hr : 0 <= v mod 256 < 256) by (apply Z.mod_pos_bound; lia).
  destruct (Byte.of_N (Z.to_N (v mod 256))) as [b|] eqn:E.
  - apply Byte.to_of_N in E. rewrite E. rewrite Z2N.id; lia.
  - apply Byte.of_N_None_iff in E. lia.
Qed.

Lemma byte_of_val (b : byte) : byte_of (byte_val b) = b.
Proof.
  unfold byte_of, byte_val.
  rewrite Z.mod_small by (apply (byte_val_range b)).
  rewrite N2Z.id, Byte.of_to_N. reflexivity.
Qed.

Lemma upd_same m a b : upd m a b a = b.
Proof. unfold upd. now rewrite Z.eqb_refl. Qed.

Lemma upd_other m a b x : x <> a -> upd m a b x = m x.
Proof. unfold upd. intros H. apply Z.eqb_neq in H. now rewrite H. Qed.

Lemma st_le_other n : forall m a v x,
  x < a \/ a + Z.of_nat n <= x -> st_le n m a v x = m x.
Proof.
  induction n as [|n IH]; intros m a v x H; [reflexivity|].
  cbn [st_le]. rewrite IH by lia. apply upd_other. lia.
Qed.

Lemma ld_le_range n : forall m a, 0 <= ld_le n m a < 2 ^ (8 * Z.of_nat n).
Proof.
  induction n as [|n IH]; intros m a.
  - cbn. lia.
  - cbn [ld_le]. specialize (IH m (a + 1)).
    pose proof (byte_val_range (m a)).
    replace (8 * Z.of_nat (S n)) with (8 + 8 * Z.of_nat n) by lia.
    rewrite Z.pow_add_r by lia. change (2 ^ 8) with 256. lia.
Qed.

Lemma ld_le_ext n : forall m m' a,
  (forall x, a <= x < a + Z.of_nat n -> m x = m' x) ->
  ld_le n m a = ld_le n m' a.
Proof.
  induction n as [|n IH]; intros m m' a H; [reflexivity|].
  cbn [ld_le]. rewrite (H a) by lia. f_equal. f_equal.
  apply IH. intros x Hx. apply H. lia.
Qed.

Lemma ld_st_disjoint n k m a b v :
  a + Z.of_nat n <= b \/ b + Z.of_nat k <= a ->
  ld_le n (st_le k m b v) a = ld_le n m a.
Proof.
  intros H. apply ld_le_ext. intros x Hx. apply st_le_other. lia.
Qed.

Lemma ld_st_same n : forall m a v,
  ld_le n (st_le n m a v) a = v mod 2 ^ (8 * Z.of_nat n).
Proof.
  induction n as [|n IH]; intros m a v.
  - cbn. now rewrite Z.mod_1_r.
  - cbn [ld_le st_le]. rewrite IH.
    rewrite st_le_other by lia. rewrite upd_same, byte_val_of.
    replace (8 * Z.of_nat (S n)) with (8 + 8 * Z.of_nat n) by lia.
    rewrite Z.pow_add_r by lia. change (2 ^ 8) with 256.
    rewrite Z.rem_mul_r by lia. reflexivity.
Qed.

Lemma le_combine_range l : 0 <= le_combine l < 2 ^ (8 * Z.of_nat (length l)).
Proof.
  induction l as [|h t IH].
  - cbn. lia.
  - cbn [le_combine length]. pose proof (byte_val_range h).
    replace (8 * Z.of_nat (S (length t))) with (8 + 8 * Z.of_nat (length t)) by lia.
    rewrite Z.pow_add_r by lia. change (2 ^ 8) with 256. lia.
Qed.

Lemma le_combine_split n : forall v,
  le_combine (le_split n v) = v mod 2 ^ (8 * Z.of_nat n).
Proof.
  induction n as [|n IH]; intros v.
  - cbn. now rewrite Z.mod_1_r.
  - cbn [le_combine le_split]. rewrite IH, byte_val_of.
    replace (8 * Z.of_nat (S n)) with (8 + 8 * Z.of_nat n) by lia.
    rewrite Z.pow_add_r by lia. change (2 ^ 8) with 256.
    rewrite Z.rem_mul_r by lia. reflexivity.
Qed.

Lemma le_split_length n : forall v, length (le_split n v) = n.
Proof. induction n as [|n IH]; intros v; cbn; [|rewrite IH]; reflexivity. Qed.

End ByteFacts.

Section BitFacts.

Lemma land_bound (x m : Z) : 0 <= m -> 0 <= Z.land x m <= m.
Proof.
  intros Hm. split; [apply Z.land_nonneg; auto|].
  assert (H : m = Z.land x m + Z.land (Z.lnot x) m).
  { rewrite Z.add_nocarry_lxor, Z.lxor_lor; Z.bitblast. }
  assert (0 <= Z.land (Z.lnot x) m) by (apply Z.land_nonneg; auto).
  lia.
Qed.

Lemma lowbit_genmask (h l : Z) : 0 <= l <= h ->
  Z.land (GENMASK h l) (Z.lnot (Z.shiftl (GENMASK h l) 1)) = 2 ^ l.
Proof.
  intros H. unfold GENMASK.
  replace (2 ^ l) with (Z.shiftl (Z.ones 1) l)
    by (rewrite Z.shiftl_mul_pow2 by lia; change (Z.ones 1) with 1; lia).
  Z.bitblast.
Qed.

Lemma set_field_genmask (reg h l val : Z) : 0 <= l <= h ->
  set_field reg (GENMASK h l) val =
  Z.lor (Z.land reg (Z.lnot (GENMASK h l)))
        (Z.land (Z.shiftl val l) (GENMASK h l)).
Proof.
  intros H. unfold set_field. rewrite lowbit_genmask by assumption.
  rewrite Z.shiftl_mul_pow2 by lia. reflexivity.
Qed.

Lemma get_field_genmask (reg h l : Z) : 0 <= l <= h ->
  get_field reg (GENMASK h l) = Z.land (Z.shiftr reg l) (Z.ones (h - l + 1)).
Proof.
  intros H. unfold get_field. rewrite lowbit_genmask by assumption.
  rewrite <- Z.shiftr_div_pow2 by lia. unfold GENMASK. Z.bitblast.
Qed.

Lemma tst_true_iff (x m : Z) : tst x m = true <-> Z.land x m <> 0.
Proof.
  unfold tst. rewrite negb_true_iff, Z.eqb_neq. reflexivity.
Qed.

Lemma tst_false_iff (x m : Z) : tst x m = false <-> Z.land x m = 0.
Proof.
  unfold tst. rewrite negb_false_iff, Z.eqb_eq. reflexivity.
Qed.

Lemma tst_bit (x n : Z) : 0 <= n -> tst x (Z.shiftl 1 n) = Z.testbit x n.
Proof.
  intros Hn. destruct (Z.testbit x n) eqn:E.
  - apply tst_true_iff. intros H0.
    assert (Hb : Z.testbit (Z.land x (Z.shiftl 1 n)) n = true).
    { rewrite Z.land_spec, E, Z.shiftl_spec, Z.sub_diag by lia. reflexivity. }
    rewrite H0, Z.bits_0 in Hb. discriminate.
  - apply tst_false_iff. change 1 with (Z.ones 1). Z.bitblast.
    replace i with n by lia. rewrite E. reflexivity.
Qed.

Lemma lor_mod_small (n x y : Z) :
  0 <= n -> 0 <= x < 2 ^ n -> 0 <= y < 2 ^ n ->
  Z.lor x y mod 2 ^ n = Z.lor x y.
Proof.
  intros Hn Hx Hy.
  rewrite <- (Z.mod_small x (2 ^ n)), <- (Z.mod_small y (2 ^ n)) by lia.
  rewrite <- !Z.land_ones by lia. Z.bitblast.
Qed.

Lemma tst_lor_same (x m : Z) : m <> 0 -> tst (Z.lor x m) m = true.
Proof.
  intros Hm. apply tst_true_iff. intros H. apply Hm.
  rewrite <- H. Z.bitblast.
Qed.

Lemma tst_lor_mask (x a b : Z) :
  tst x (Z.lor a b) = tst x a || tst x b.
Proof.
  unfold tst. rewrite Z.land_lor_distr_r.
  destruct (Z.eqb_spec (Z.land x a) 0) as [Ha|Ha];
    destruct (Z.eqb_spec (Z.land x b) 0) as [Hb|Hb]; cbn;
    rewrite ?negb_true_iff, ?negb_false_iff, ?Z.eqb_eq, ?Z.eqb_neq,
      Z.lor_eq_0_iff; tauto.
Qed.

End BitFacts.

Ltac st_simpl :=
  cbn [regs_rw regs_wc regs_ro cap ddtp cq_addr cq_mask fq_addr fq_mask
       pq_addr pq_mask ctx_cache target_as notify irq_raised version bus
       enable_msi enable_off set_regs_rw set_regs_ro set_regs_wc set_cap
       set_ddtp set_cq set_fq set_pq set_ctx_cache set_target_as raise_irq
       fst snd riscv_iommu_reg_set32 riscv_iommu_reg_set64
       riscv_iommu_reg_mod32] in *.

Ltac regs_lia_pre :=
  cbv [RISCV_IOMMU_REG_CAP RISCV_IOMMU_REG_FCTL RISCV_IOMMU_REG_DDTP
       RISCV_IOMMU_REG_CQB RISCV_IOMMU_REG_CQH RISCV_IOMMU_REG_CQT
       RISCV_IOMMU_REG_FQB RISCV_IOMMU_REG_FQH RISCV_IOMMU_REG_FQT
       RISCV_IOMMU_REG_PQB RISCV_IOMMU_REG_PQH RISCV_IOMMU_REG_PQT
       RISCV_IOMMU_REG_CQCSR RISCV_IOMMU_REG_FQCSR RISCV_IOMMU_REG_PQCSR
       RISCV_IOMMU_REG_IPSR RISCV_IOMMU_REG_IVEC RISCV_IOMMU_REG_MSI_CONFIG]
    in *.

Ltac regs_lia := regs_lia_pre; lia.

Section RegFacts.

Lemma keeps_geometry_refl s : keeps_geometry s s.
Proof. unfold keeps_geometry. tauto. Qed.

Lemma keeps_geometry_trans s1 s2 s3 :
  keeps_geometry s1 s2 -> keeps_geometry s2 s3 -> keeps_geometry s1 s3.
Proof. unfold keeps_geometry. intuition congruence. Qed.

Lemma rw_same_except_refl ws s : rw_same_except ws s s.
Proof. intros x _. reflexivity. Qed.

Lemma rw_same_except_trans ws s1 s2 s3 :
  rw_same_except ws s1 s2 -> rw_same_except ws s2 s3 ->
  rw_same_except ws s1 s3.
Proof. intros H1 H2 x Hx. rewrite H2, H1 by assumption. reflexivity. Qed.

Lemma rw_same_except_weaken ws ws' s s' :
  (forall w, In w ws -> In w ws') ->
  rw_same_except ws s s' -> rw_same_except ws' s s'.
Proof. intros Hin H x Hx. apply H. intros w Hw. apply Hx, Hin, Hw. Qed.

(** A 32-bit register read is unaffected by changes outside its word. *)
Lemma reg_get32_same_except ws s s' idx :
  rw_same_except ws s s' ->
  (forall w, In w ws -> idx + 4 <= w \/ w + 4 <= idx) ->
  riscv_iommu_reg_get32 s' idx = riscv_iommu_reg_get32 s idx.
Proof.
  intros H Hd. unfold riscv_iommu_reg_get32, ldl_le_p. apply ld_le_ext.
  intros x Hx. apply H. intros w Hw. specialize (Hd w Hw). lia.
Qed.

Lemma reg_get32_range s idx : 0 <= riscv_iommu_reg_get32 s idx < 2 ^ 32.
Proof. apply (ld_le_range 4). Qed.

Lemma reg_set32_get32 s idx v :
  riscv_iommu_reg_get32 (riscv_iommu_reg_set32 s idx v) idx = v mod 2 ^ 32.
Proof. apply (ld_st_same 4). Qed.

Lemma reg_mod32_get32 s idx set clr :
  riscv_iommu_reg_get32 (snd (riscv_iommu_reg_mod32 s idx set clr)) idx =
  Z.lor (Z.land (riscv_iommu_reg_get32 s idx) (Z.lnot clr)) set mod 2 ^ 32.
Proof. apply (ld_st_same 4). Qed.

Lemma reg_set32_except s idx v :
  rw_same_except [idx] s (riscv_iommu_reg_set32 s idx v).
Proof.
  intros x Hx. st_simpl. unfold stl_le_p. apply st_le_other.
  specialize (Hx idx (or_introl eq_refl)). simpl. lia.
Qed.

Lemma reg_mod32_except s idx set clr :
  rw_same_except [idx] s (snd (riscv_iommu_reg_mod32 s idx set clr)).
Proof.
  intros x Hx. st_simpl. unfold stl_le_p. apply st_le_other.
  specialize (Hx idx (or_introl eq_refl)). simpl. lia.
Qed.

Lemma reg_set32_geometry s idx v :
  keeps_geometry s (riscv_iommu_reg_set32 s idx v).
Proof. unfold keeps_geometry. st_simpl. tauto. Qed.

Lemma reg_mod32_geometry s idx set clr :
  keeps_geometry s (snd (riscv_iommu_reg_mod32 s idx set clr)).
Proof. unfold keeps_geometry. st_simpl. tauto. Qed.

(** [riscv_iommu_notify] touches IPSR and the interrupt line only. *)
Lemma notify_except s vec :
  rw_same_except [RISCV_IOMMU_REG_IPSR] s (riscv_iommu_notify s vec).
Proof.
  unfold riscv_iommu_notify.
  destruct (tst _ RISCV_IOMMU_FCTL_WSI || negb (notify s));
    [apply rw_same_except_refl|].
  pose proof (reg_mod32_except s RISCV_IOMMU_REG_IPSR (Z.shiftl 1 vec) 0) as H.
  destruct (riscv_iommu_reg_mod32 s RISCV_IOMMU_REG_IPSR (Z.shiftl 1 vec) 0)
    as [ipsr s1] eqn:E. cbn [snd] in H.
  destruct (tst ipsr (Z.shiftl 1 vec)); [exact H|].
  intros x Hx. st_simpl. apply H, Hx.
Qed.

Lemma notify_geometry s vec : keeps_geometry s (riscv_iommu_notify s vec).
Proof.
  unfold riscv_iommu_notify.
  destruct (tst _ RISCV_IOMMU_FCTL_WSI || negb (notify s));
    [apply keeps_geometry_refl|].
  unfold riscv_iommu_reg_mod32.
  destruct (tst _ (Z.shiftl 1 vec)); unfold keeps_geometry; st_simpl; tauto.
Qed.

Lemma notify_target_as s vec :
  target_as (riscv_iommu_notify s vec) = target_as s.
Proof.
  unfold riscv_iommu_notify.
  destruct (tst _ RISCV_IOMMU_FCTL_WSI || negb (notify s)); [reflexivity|].
  unfold riscv_iommu_reg_mod32.
  destruct (tst _ (Z.shiftl 1 vec)); reflexivity.
Qed.

Lemma notify_ctx_cache s vec :
  ctx_cache (riscv_iommu_notify s vec) = ctx_cache s.
Proof.
  unfold riscv_iommu_notify.
  destruct (tst _ RISCV_IOMMU_FCTL_WSI || negb (notify s)); [reflexivity|].
  unfold riscv_iommu_reg_mod32.
  destruct (tst _ (Z.shiftl 1 vec)); reflexivity.
Qed.

(** When wire-signalled interrupts are off and a callback is installed,
    [riscv_iommu_notify] leaves the vector's bit set in IPSR. *)
Lemma notify_sets_ipsr s vec :
  0 <= vec < 32 ->
  tst (riscv_iommu_reg_get32 s RISCV_IOMMU_REG_FCTL) RISCV_IOMMU_FCTL_WSI = false ->
  notify s = true ->
  tst (riscv_iommu_reg_get32 (riscv_iommu_notify s vec) RISCV_IOMMU_REG_IPSR)
      (Z.shiftl 1 vec) = true.
Proof.
  intros Hv Hwsi Hn. unfold riscv_iommu_notify. rewrite Hwsi, Hn.
  cbn [orb negb].
  pose proof (reg_mod32_get32 s RISCV_IOMMU_REG_IPSR (Z.shiftl 1 vec) 0) as H.
  destruct (riscv_iommu_reg_mod32 s RISCV_IOMMU_REG_IPSR (Z.shiftl 1 vec) 0)
    as [ipsr s1] eqn:E. cbn [snd] in H.
  assert (Hb : tst (riscv_iommu_reg_get32 s1 RISCV_IOMMU_REG_IPSR)
                   (Z.shiftl 1 vec) = true).
  { rewrite H, tst_bit by lia. rewrite <- Z.land_ones by lia.
    rewrite Z.land_spec, Z.lor_spec, Z.shiftl_spec, Z.sub_diag by lia.
    rewrite Z.ones_spec_low by lia. cbn. rewrite orb_true_r. reflexivity. }
  destruct (tst ipsr (Z.shiftl 1 vec)); [exact Hb|].
  exact Hb.
Qed.

(** With wire-signalled interrupts on, or without a callback, nothing
    happens. *)
Lemma notify_masked s vec :
  tst (riscv_iommu_reg_get32 s RISCV_IOMMU_REG_FCTL) RISCV_IOMMU_FCTL_WSI = true \/
  notify s = false ->
  riscv_iommu_notify s vec = s.
Proof.
  intros H. unfold riscv_iommu_notify.
  destruct H as [-> | ->]; [reflexivity|]. rewrite orb_true_r. reflexivity.
Qed.

End RegFacts.

Section DmaFacts.

Lemma as_write_other bs : forall m addr x,
  x < addr \/ addr + Z.of_nat (length bs) <= x ->
  snd (as_write m addr bs) x = m x.
Proof.
  induction bs as [|b t IH]; intros m addr x H; [reflexivity|].
  cbn [as_write length] in *. destruct (m addr) eqn:E.
  - rewrite IH by lia. destruct (Z.eqb_spec x addr); [lia|reflexivity].
  - cbn [snd]. apply IH. lia.
Qed.

Lemma as_write_backed bs : forall m addr,
  backed m addr (Z.of_nat (length bs)) ->
  fst (as_write m addr bs) = true.
Proof.
  induction bs as [|b t IH]; intros m addr H; [reflexivity|].
  cbn [as_write length] in *. destruct (m addr) eqn:E.
  - apply IH. intros x Hx. destruct (Z.eqb_spec x addr); [discriminate|].
    apply H. lia.
  - exfalso. apply (H addr); [lia|assumption].
Qed.

Lemma as_write_read bs : forall m addr,
  fst (as_write m addr bs) = true ->
  as_read (snd (as_write m addr bs)) addr (length bs) = Some bs.
Proof.
  induction bs as [|b t IH]; intros m addr H; [reflexivity|].
  cbn [as_write length as_read] in *. destruct (m addr) eqn:E.
  - rewrite as_write_other by lia. rewrite Z.eqb_refl.
    rewrite IH by assumption. reflexivity.
  - cbn [fst] in H. discriminate.
Qed.

Lemma as_write_keeps_backing bs : forall m addr x,
  snd (as_write m addr bs) x = None <-> m x = None.
Proof.
  induction bs as [|b t IH]; intros m addr x; [reflexivity|].
  cbn [as_write]. destruct (m addr) eqn:E.
  - rewrite IH. destruct (Z.eqb_spec x addr) as [->|]; [|reflexivity].
    rewrite E. split; discriminate.
  - cbn [snd]. apply IH.
Qed.

Lemma dma_memory_write_backed m addr bs :
  backed m addr (Z.of_nat (length bs)) ->
  dma_memory_write m addr bs = (MEMTX_OK, snd (as_write m addr bs)).
Proof.
  intros H. unfold dma_memory_write.
  pose proof (as_write_backed bs m addr H) as Hf.
  destruct (as_write m addr bs) as [[|] m']; [reflexivity|discriminate].
Qed.

Lemma dma_memory_write_snd m addr bs :
  snd (dma_memory_write m addr bs) = snd (as_write m addr bs).
Proof.
  unfold dma_memory_write. destruct (as_write m addr bs) as [[|] m'];
    reflexivity.
Qed.

Lemma fq_record_bytes_length ev : length (fq_record_bytes ev) = 32%nat.
Proof. reflexivity. Qed.

Lemma pq_record_bytes_length pr : length (pq_record_bytes pr) = 16%nat.
Proof. reflexivity. Qed.

Lemma fq_record_roundtrip ev :
  fq_record_of_bytes (fq_record_bytes ev) = fq_record_u64 ev.
Proof.
  unfold fq_record_of_bytes, fq_record_bytes, fq_record_u64, u64.
  rewrite <- !(le_combine_split 8). reflexivity.
Qed.

Lemma as_read_ext n : forall m m' addr,
  (forall x, addr <= x < addr + Z.of_nat n -> m x = m' x) ->
  as_read m addr n = as_read m' addr n.
Proof.
  induction n as [|n IH]; intros m m' addr H; [reflexivity|].
  cbn [as_read]. rewrite (H addr) by lia.
  rewrite (IH m m' (addr + 1)); [reflexivity|]. intros x Hx. apply H. lia.
Qed.

End DmaFacts.

Section QueueFacts.

Lemma in1 (P : Z -> Prop) (a : Z) : P a -> forall w, In w [a] -> P w.
Proof. intros H w [<-|[]]. exact H. Qed.

Lemma in3 (P : Z -> Prop) (a b c : Z) :
  P a -> P b -> P c -> forall w, In w [a; b; c] -> P w.
Proof. intros Ha Hb Hc w [<-|[<-|[<-|[]]]]; assumption. Qed.

(** The producer side, fault queue: the record is dropped silently when
    the queue is off or carries a sticky error. *)
Lemma fault_dropped s ev :
  tst (fqcsr s) RISCV_IOMMU_FQCSR_FQON = false \/
  tst (fqcsr s) (Z.lor RISCV_IOMMU_FQCSR_FQOF RISCV_IOMMU_FQCSR_FQMF) = true ->
  riscv_iommu_fault s ev = s.
Proof.
  intros H. unfold riscv_iommu_fault. fold (fqcsr s).
  destruct H as [-> | ->]; [reflexivity|]. rewrite orb_true_r. reflexivity.
Qed.

(** What any call leaves alone. *)
Lemma fault_frame s ev :
  keeps_geometry s (riscv_iommu_fault s ev) /\
  rw_same_except [RISCV_IOMMU_REG_FQCSR; RISCV_IOMMU_REG_FQT;
                  RISCV_IOMMU_REG_IPSR] s (riscv_iommu_fault s ev) /\
  ctx_cache (riscv_iommu_fault s ev) = ctx_cache s.
Proof.
  unfold riscv_iommu_fault.
  destruct (negb _ || _);
    [split; [apply keeps_geometry_refl|split;
       [apply rw_same_except_refl|reflexivity]]|].
  match goal with
  | |- context [if ?c then riscv_iommu_notify ?s1 _ else _] =>
      assert (H1 : keeps_geometry s s1 /\
                   rw_same_except [RISCV_IOMMU_REG_FQCSR; RISCV_IOMMU_REG_FQT] s s1 /\
                   ctx_cache s1 = ctx_cache s);
      [|set (s1' := s1) in *; destruct c]
  end.
  - destruct (_ =? _).
    + split; [apply reg_mod32_geometry|]. split; [|reflexivity].
      eapply rw_same_except_weaken; [|apply reg_mod32_except].
      intros w [<-|[]]; simpl; auto.
    + destruct (dma_memory_write _ _ _) as [[| | |] m];
        (split; [unfold keeps_geometry; st_simpl; tauto|]);
        (split; [|reflexivity]); intros x Hx; st_simpl; unfold stl_le_p;
        apply st_le_other; simpl.
      * specialize (Hx RISCV_IOMMU_REG_FQT). simpl in Hx. lia.
      * specialize (Hx RISCV_IOMMU_REG_FQCSR). simpl in Hx. lia.
      * specialize (Hx RISCV_IOMMU_REG_FQCSR). simpl in Hx. lia.
      * specialize (Hx RISCV_IOMMU_REG_FQCSR). simpl in Hx. lia.
  - destruct H1 as (Hg & Hr & Hc). split; [|split].
    + eapply keeps_geometry_trans; [exact Hg|apply notify_geometry].
    + eapply rw_same_except_trans.
      * eapply rw_same_except_weaken; [|exact Hr]. simpl. tauto.
      * eapply rw_same_except_weaken; [|apply notify_except]. simpl. tauto.
    + rewrite notify_ctx_cache. exact Hc.
  - destruct H1 as (Hg & Hr & Hc). split; [exact Hg|]. split; [|exact Hc].
    eapply rw_same_except_weaken; [|exact Hr]. simpl. tauto.
Qed.

(** Queue on, no sticky error, ring full: FQOF is raised, nothing is
    written to memory and the tail stays. *)
Lemma fault_full s ev :
  tst (fqcsr s) RISCV_IOMMU_FQCSR_FQON = true ->
  tst (fqcsr s) (Z.lor RISCV_IOMMU_FQCSR_FQOF RISCV_IOMMU_FQCSR_FQMF) = false ->
  fq_head s = fq_next s ->
  let s' := riscv_iommu_fault s ev in
  target_as s' = target_as s /\
  riscv_iommu_reg_get32 s' RISCV_IOMMU_REG_FQT =
  riscv_iommu_reg_get32 s RISCV_IOMMU_REG_FQT /\
  fqcsr s' = Z.lor (fqcsr s) RISCV_IOMMU_FQCSR_FQOF.
Proof.
  intros Hon Hst Hfull s'. subst s'. unfold riscv_iommu_fault.
  fold (fqcsr s). rewrite Hon, Hst. cbn [negb orb].
  fold (fq_head s). fold (fq_tail s). fold (fq_next s).
  rewrite Hfull, Z.eqb_refl.
  set (s1 := snd (riscv_iommu_reg_mod32 s RISCV_IOMMU_REG_FQCSR
                    RISCV_IOMMU_FQCSR_FQOF 0)).
  assert (H1 : target_as s1 = target_as s) by reflexivity.
  assert (H2 : riscv_iommu_reg_get32 s1 RISCV_IOMMU_REG_FQT =
               riscv_iommu_reg_get32 s RISCV_IOMMU_REG_FQT).
  { apply (reg_get32_same_except [RISCV_IOMMU_REG_FQCSR]);
      [apply reg_mod32_except|]. apply in1. regs_lia. }
  assert (H3 : fqcsr s1 = Z.lor (fqcsr s) RISCV_IOMMU_FQCSR_FQOF).
  { unfold fqcsr, s1. rewrite reg_mod32_get32. fold (fqcsr s).
    change (Z.lnot 0) with (-1). rewrite Z.land_m1_r.
    apply lor_mod_small; [lia|apply reg_get32_range|cbv; split; congruence]. }
  destruct (tst (fqcsr s) RISCV_IOMMU_FQCSR_FIE).
  - rewrite notify_target_as. split; [exact H1|]. split.
    + rewrite <- H2.
      apply (reg_get32_same_except [RISCV_IOMMU_REG_IPSR]);
        [apply notify_except|]. apply in1. regs_lia.
    + rewrite <- H3. unfold fqcsr.
      apply (reg_get32_same_except [RISCV_IOMMU_REG_IPSR]);
        [apply notify_except|]. apply in1. regs_lia.
  - auto.
Qed.

(** Queue on, no sticky error, ring not full, slot backed by memory: the
    record is stored at the tail slot and the tail advances. *)
Lemma fault_stored s ev :
  tst (fqcsr s) RISCV_IOMMU_FQCSR_FQON = true ->
  tst (fqcsr s) (Z.lor RISCV_IOMMU_FQCSR_FQOF RISCV_IOMMU_FQCSR_FQMF) = false ->
  fq_head s <> fq_next s ->
  backed (target_as s) (fq_addr s + fq_tail s * 32) 32 ->
  let s' := riscv_iommu_fault s ev in
  target_as s' =
  snd (as_write (target_as s) (fq_addr s + fq_tail s * 32) (fq_record_bytes ev)) /\
  riscv_iommu_reg_get32 s' RISCV_IOMMU_REG_FQT = fq_next s mod 2 ^ 32 /\
  fqcsr s' = fqcsr s.
Proof.
  intros Hon Hst Hnf Hb s'. subst s'. unfold riscv_iommu_fault.
  fold (fqcsr s). rewrite Hon, Hst. cbn [negb orb].
  fold (fq_head s). fold (fq_tail s). fold (fq_next s).
  apply Z.eqb_neq in Hnf. rewrite Hnf.
  rewrite dma_memory_write_backed by exact Hb.
  set (m := snd (as_write _ _ _)).
  set (s1 := riscv_iommu_reg_set32 (set_target_as s m) RISCV_IOMMU_REG_FQT
               (fq_next s)).
  assert (H1 : target_as s1 = m) by reflexivity.
  assert (H2 : riscv_iommu_reg_get32 s1 RISCV_IOMMU_REG_FQT =
               fq_next s mod 2 ^ 32) by apply reg_set32_get32.
  assert (H3 : fqcsr s1 = fqcsr s).
  { unfold fqcsr.
    apply (reg_get32_same_except [RISCV_IOMMU_REG_FQT] (set_target_as s m));
      [apply reg_set32_except|]. apply in1. regs_lia. }
  destruct (tst (fqcsr s) RISCV_IOMMU_FQCSR_FIE).
  - rewrite notify_target_as. split; [exact H1|]. split.
    + rewrite <- H2.
      apply (reg_get32_same_except [RISCV_IOMMU_REG_IPSR]);
        [apply notify_except|]. apply in1. regs_lia.
    + rewrite <- H3. unfold fqcsr.
      apply (reg_get32_same_except [RISCV_IOMMU_REG_IPSR]);
        [apply notify_except|]. apply in1. regs_lia.
  - auto.
Qed.

(** Whatever happens, the tail register keeps its value or takes the
    masked successor. *)
Lemma fault_tail s ev :
  riscv_iommu_reg_get32 (riscv_iommu_fault s ev) RISCV_IOMMU_REG_FQT =
  riscv_iommu_reg_get32 s RISCV_IOMMU_REG_FQT \/
  riscv_iommu_reg_get32 (riscv_iommu_fault s ev) RISCV_IOMMU_REG_FQT =
  fq_next s mod 2 ^ 32.
Proof.
  unfold riscv_iommu_fault. fold (fqcsr s).
  fold (fq_head s). fold (fq_tail s). fold (fq_next s).
  destruct (negb _ || _); [left; reflexivity|].
  match goal with
  | |- context [if ?c then riscv_iommu_notify ?s1 _ else _] =>
      assert (H1 : riscv_iommu_reg_get32 s1 RISCV_IOMMU_REG_FQT =
                   riscv_iommu_reg_get32 s RISCV_IOMMU_REG_FQT \/
                   riscv_iommu_reg_get32 s1 RISCV_IOMMU_REG_FQT =
                   fq_next s mod 2 ^ 32);
      [|set (s1' := s1) in *; destruct c]
  end.
  - destruct (_ =? _).
    + left. apply (reg_get32_same_except [RISCV_IOMMU_REG_FQCSR]);
        [apply reg_mod32_except|]. apply in1. regs_lia.
    + destruct (dma_memory_write _ _ _) as [[| | |] m].
      * right. apply reg_set32_get32.
      * left. apply (reg_get32_same_except [RISCV_IOMMU_REG_FQCSR]
                       (set_target_as s m));
          [apply reg_mod32_except|]. apply in1. regs_lia.
      * left. apply (reg_get32_same_except [RISCV_IOMMU_REG_FQCSR]
                       (set_target_as s m));
          [apply reg_mod32_except|]. apply in1. regs_lia.
      * left. apply (reg_get32_same_except [RISCV_IOMMU_REG_FQCSR]
                       (set_target_as s m));
          [apply reg_mod32_except|]. apply in1. regs_lia.
  - rewrite (reg_get32_same_except [RISCV_IOMMU_REG_IPSR] s1');
      [exact H1|apply notify_except|]. apply in1. regs_lia.
  - exact H1.
Qed.

(** With the ring full nothing reaches memory and the tail stays,
    whatever the control bits say. *)
Lemma fault_full_no_write s ev :
  fq_head s = fq_next s ->
  target_as (riscv_iommu_fault s ev) = target_as s /\
  riscv_iommu_reg_get32 (riscv_iommu_fault s ev) RISCV_IOMMU_REG_FQT =
  riscv_iommu_reg_get32 s RISCV_IOMMU_REG_FQT.
Proof.
  intros Hfull.
  destruct (tst (fqcsr s) RISCV_IOMMU_FQCSR_FQON) eqn:Hon;
    [|rewrite fault_dropped by auto; auto].
  destruct (tst (fqcsr s) (Z.lor RISCV_IOMMU_FQCSR_FQOF RISCV_IOMMU_FQCSR_FQMF))
    eqn:Hst; [rewrite fault_dropped by auto; auto|].
  pose proof (fault_full s ev Hon Hst Hfull) as H. cbv zeta in H. tauto.
Qed.

(** The producer side, page-request queue: the record is dropped silently when
    the queue is off or carries a sticky error. *)
Lemma pri_dropped s pr :
  tst (pqcsr s) RISCV_IOMMU_PQCSR_PQON = false \/
  tst (pqcsr s) (Z.lor RISCV_IOMMU_PQCSR_PQOF RISCV_IOMMU_PQCSR_PQMF) = true ->
  riscv_iommu_pri s pr = s.
Proof.
  intros H. unfold riscv_iommu_pri. fold (pqcsr s).
  destruct H as [-> | ->]; [reflexivity|]. rewrite orb_true_r. reflexivity.
Qed.

(** What any call leaves alone. *)
Lemma pri_frame s pr :
  keeps_geometry s (riscv_iommu_pri s pr) /\
  rw_same_except [RISCV_IOMMU_REG_PQCSR; RISCV_IOMMU_REG_PQT;
                  RISCV_IOMMU_REG_IPSR] s (riscv_iommu_pri s pr) /\
  ctx_cache (riscv_iommu_pri s pr) = ctx_cache s.
Proof.
  unfold riscv_iommu_pri.
  destruct (negb _ || _);
    [split; [apply keeps_geometry_refl|split;
       [apply rw_same_except_refl|reflexivity]]|].
  match goal with
  | |- context [if ?c then riscv_iommu_notify ?s1 _ else _] =>
      assert (H1 : keeps_geometry s s1 /\
                   rw_same_except [RISCV_IOMMU_REG_PQCSR; RISCV_IOMMU_REG_PQT] s s1 /\
                   ctx_cache s1 = ctx_cache s);
      [|set (s1' := s1) in *; destruct c]
  end.
  - destruct (_ =? _).
    + split; [apply reg_mod32_geometry|]. split; [|reflexivity].
      eapply rw_same_except_weaken; [|apply reg_mod32_except].
      intros w [<-|[]]; simpl; auto.
    + destruct (dma_memory_write _ _ _) as [[| | |] m];
        (split; [unfold keeps_geometry; st_simpl; tauto|]);
        (split; [|reflexivity]); intros x Hx; st_simpl; unfold stl_le_p;
        apply st_le_other; simpl.
      * specialize (Hx RISCV_IOMMU_REG_PQT). simpl in Hx. lia.
      * specialize (Hx RISCV_IOMMU_REG_PQCSR). simpl in Hx. lia.
      * specialize (Hx RISCV_IOMMU_REG_PQCSR). simpl in Hx. lia.
      * specialize (Hx RISCV_IOMMU_REG_PQCSR). simpl in Hx. lia.
  - destruct H1 as (Hg & Hr & Hc). split; [|split].
    + eapply keeps_geometry_trans; [exact Hg|apply notify_geometry].
    + eapply rw_same_except_trans.
      * eapply rw_same_except_weaken; [|exact Hr]. simpl. tauto.
      * eapply rw_same_except_weaken; [|apply notify_except]. simpl. tauto.
    + rewrite notify_ctx_cache. exact Hc.
  - destruct H1 as (Hg & Hr & Hc). split; [exact Hg|]. split; [|exact Hc].
    eapply rw_same_except_weaken; [|exact Hr]. simpl. tauto.
Qed.

(** Queue on, no sticky error, ring full: PQOF is raised, nothing is
    written to memory and the tail stays. *)
Lemma pri_full s pr :
  tst (pqcsr s) RISCV_IOMMU_PQCSR_PQON = true ->
  tst (pqcsr s) (Z.lor RISCV_IOMMU_PQCSR_PQOF RISCV_IOMMU_PQCSR_PQMF) = false ->
  pq_head s = pq_next s ->
  let s' := riscv_iommu_pri s pr in
  target_as s' = target_as s /\
  riscv_iommu_reg_get32 s' RISCV_IOMMU_REG_PQT =
  riscv_iommu_reg_get32 s RISCV_IOMMU_REG_PQT /\
  pqcsr s' = Z.lor (pqcsr s) RISCV_IOMMU_PQCSR_PQOF.
Proof.
  intros Hon Hst Hfull s'. subst s'. unfold riscv_iommu_pri.
  fold (pqcsr s). rewrite Hon, Hst. cbn [negb orb].
  fold (pq_head s). fold (pq_tail s). fold (pq_next s).
  rewrite Hfull, Z.eqb_refl.
  set (s1 := snd (riscv_iommu_reg_mod32 s RISCV_IOMMU_REG_PQCSR
                    RISCV_IOMMU_PQCSR_PQOF 0)).
  assert (H1 : target_as s1 = target_as s) by reflexivity.
  assert (H2 : riscv_iommu_reg_get32 s1 RISCV_IOMMU_REG_PQT =
               riscv_iommu_reg_get32 s RISCV_IOMMU_REG_PQT).
  { apply (reg_get32_same_except [RISCV_IOMMU_REG_PQCSR]);
      [apply reg_mod32_except|]. apply in1. regs_lia. }
  assert (H3 : pqcsr s1 = Z.lor (pqcsr s) RISCV_IOMMU_PQCSR_PQOF).
  { unfold pqcsr, s1. rewrite reg_mod32_get32. fold (pqcsr s).
    change (Z.lnot 0) with (-1). rewrite Z.land_m1_r.
    apply lor_mod_small; [lia|apply reg_get32_range|cbv; split; congruence]. }
  destruct (tst (pqcsr s) RISCV_IOMMU_PQCSR_PIE).
  - rewrite notify_target_as. split; [exact H1|]. split.
    + rewrite <- H2.
      apply (reg_get32_same_except [RISCV_IOMMU_REG_IPSR]);
        [apply notify_except|]. apply in1. regs_lia.
    + rewrite <- H3. unfold pqcsr.
      apply (reg_get32_same_except [RISCV_IOMMU_REG_IPSR]);
        [apply notify_except|]. apply in1. regs_lia.
  - auto.
Qed.

(** Queue on, no sticky error, ring not full, slot backed by memory: the
    record is stored at the tail slot and the tail advances. *)
Lemma pri_stored s pr :
  tst (pqcsr s) RISCV_IOMMU_PQCSR_PQON = true ->
  tst (pqcsr s) (Z.lor RISCV_IOMMU_PQCSR_PQOF RISCV_IOMMU_PQCSR_PQMF) = false ->
  pq_head s <> pq_next s ->
  backed (target_as s) (pq_addr s + pq_tail s * 16) 16 ->
  let s' := riscv_iommu_pri s pr in
  target_as s' =
  snd (as_write (target_as s) (pq_addr s + pq_tail s * 16) (pq_record_bytes pr)) /\
  riscv_iommu_reg_get32 s' RISCV_IOMMU_REG_PQT = pq_next s mod 2 ^ 32 /\
  pqcsr s' = pqcsr s.
Proof.
  intros Hon Hst Hnf Hb s'. subst s'. unfold riscv_iommu_pri.
  fold (pqcsr s). rewrite Hon, Hst. cbn [negb orb].
  fold (pq_head s). fold (pq_tail s). fold (pq_next s).
  apply Z.eqb_neq in Hnf. rewrite Hnf.
  rewrite dma_memory_write_backed by exact Hb.
  set (m := snd (as_write _ _ _)).
  set (s1 := riscv_iommu_reg_set32 (set_target_as s m) RISCV_IOMMU_REG_PQT
               (pq_next s)).
  assert (H1 : target_as s1 = m) by reflexivity.
  assert (H2 : riscv_iommu_reg_get32 s1 RISCV_IOMMU_REG_PQT =
               pq_next s mod 2 ^ 32) by apply reg_set32_get32.
  assert (H3 : pqcsr s1 = pqcsr s).
  { unfold pqcsr.
    apply (reg_get32_same_except [RISCV_IOMMU_REG_PQT] (set_target_as s m));
      [apply reg_set32_except|]. apply in1. regs_lia. }
  destruct (tst (pqcsr s) RISCV_IOMMU_PQCSR_PIE).
  - rewrite notify_target_as. split; [exact H1|]. split.
    + rewrite <- H2.
      apply (reg_get32_same_except [RISCV_IOMMU_REG_IPSR]);
        [apply notify_except|]. apply in1. regs_lia.
    + rewrite <- H3. unfold pqcsr.
      apply (reg_get32_same_except [RISCV_IOMMU_REG_IPSR]);
        [apply notify_except|]. apply in1. regs_lia.
  - auto.
Qed.

(** Whatever happens, the tail register keeps its value or takes the
    masked successor. *)
Lemma pri_tail s pr :
  riscv_iommu_reg_get32 (riscv_iommu_pri s pr) RISCV_IOMMU_REG_PQT =
  riscv_iommu_reg_get32 s RISCV_IOMMU_REG_PQT \/
  riscv_iommu_reg_get32 (riscv_iommu_pri s pr) RISCV_IOMMU_REG_PQT =
  pq_next s mod 2 ^ 32.
Proof.
  unfold riscv_iommu_pri. fold (pqcsr s).
  fold (pq_head s). fold (pq_tail s). fold (pq_next s).
  destruct (negb _ || _); [left; reflexivity|].
  match goal with
  | |- context [if ?c then riscv_iommu_notify ?s1 _ else _] =>
      assert (H1 : riscv_iommu_reg_get32 s1 RISCV_IOMMU_REG_PQT =
                   riscv_iommu_reg_get32 s RISCV_IOMMU_REG_PQT \/
                   riscv_iommu_reg_get32 s1 RISCV_IOMMU_REG_PQT =
                   pq_next s mod 2 ^ 32);
      [|set (s1' := s1) in *; destruct c]
  end.
  - destruct (_ =? _).
    + left. apply (reg_get32_same_except [RISCV_IOMMU_REG_PQCSR]);
        [apply reg_mod32_except|]. apply in1. regs_lia.
    + destruct (dma_memory_write _ _ _) as [[| | |] m].
      * right. apply reg_set32_get32.
      * left. apply (reg_get32_same_except [RISCV_IOMMU_REG_PQCSR]
                       (set_target_as s m));
          [apply reg_mod32_except|]. apply in1. regs_lia.
      * left. apply (reg_get32_same_except [RISCV_IOMMU_REG_PQCSR]
                       (set_target_as s m));
          [apply reg_mod32_except|]. apply in1. regs_lia.
      * left. apply (reg_get32_same_except [RISCV_IOMMU_REG_PQCSR]
                       (set_target_as s m));
          [apply reg_mod32_except|]. apply in1. regs_lia.
  - rewrite (reg_get32_same_except [RISCV_IOMMU_REG_IPSR] s1');
      [exact H1|apply notify_except|]. apply in1. regs_lia.
  - exact H1.
Qed.

(** With the ring full nothing reaches memory and the tail stays,
    whatever the control bits say. *)
Lemma pri_full_no_write s pr :
  pq_head s = pq_next s ->
  target_as (riscv_iommu_pri s pr) = target_as s /\
  riscv_iommu_reg_get32 (riscv_iommu_pri s pr) RISCV_IOMMU_REG_PQT =
  riscv_iommu_reg_get32 s RISCV_IOMMU_REG_PQT.
Proof.
  intros Hfull.
  destruct (tst (pqcsr s) RISCV_IOMMU_PQCSR_PQON) eqn:Hon;
    [|rewrite pri_dropped by auto; auto].
  destruct (tst (pqcsr s) (Z.lor RISCV_IOMMU_PQCSR_PQOF RISCV_IOMMU_PQCSR_PQMF))
    eqn:Hst; [rewrite pri_dropped by auto; auto|].
  pose proof (pri_full s pr Hon Hst Hfull) as H. cbv zeta in H. tauto.
Qed.

Lemma land_land_mod (x m : Z) :
  0 <= m < 2 ^ 32 -> Z.land (Z.land x m mod 2 ^ 32) m = Z.land x m.
Proof.
  intros Hm. pose proof (land_bound x m). rewrite Z.mod_small by lia.
  rewrite <- Z.land_assoc, Z.land_diag. reflexivity.
Qed.

(** A record taken in by the fault queue reads back from the slot at the
    old tail; the other slots, the head and the control bits stay. *)
Lemma fault_enqueue s ev :
  tst (fqcsr s) RISCV_IOMMU_FQCSR_FQON = true ->
  tst (fqcsr s) (Z.lor RISCV_IOMMU_FQCSR_FQOF RISCV_IOMMU_FQCSR_FQMF) = false ->
  fq_head s <> fq_next s ->
  backed (target_as s) (fq_addr s + fq_tail s * 32) 32 ->
  0 <= fq_mask s < 2 ^ 32 ->
  let s' := riscv_iommu_fault s ev in
  fq_slot s' (fq_tail s) = Some (fq_record_u64 ev) /\
  (forall i, i <> fq_tail s -> fq_slot s' i = fq_slot s i) /\
  fq_tail s' = fq_next s /\ fq_head s' = fq_head s /\ fqcsr s' = fqcsr s.
Proof.
  intros Hon Hst Hnf Hb Hm s'.
  pose proof (fault_stored s ev Hon Hst Hnf Hb) as (Hmem & Ht & Hc).
  pose proof (fault_frame s ev) as (Hg & Hr & _).
  fold s' in Hmem, Ht, Hc, Hg, Hr.
  assert (Ha : fq_addr s' = fq_addr s) by apply Hg.
  assert (Hk : fq_mask s' = fq_mask s) by apply Hg.
  split; [|split; [|split; [|split]]].
  - unfold fq_slot. rewrite Hmem, Ha.
    pose proof (as_write_read (fq_record_bytes ev) (target_as s)
                  (fq_addr s + fq_tail s * 32)) as Hrd.
    rewrite fq_record_bytes_length in Hrd. rewrite Hrd.
    + cbn [option_map]. rewrite fq_record_roundtrip. reflexivity.
    + apply as_write_backed. rewrite fq_record_bytes_length. exact Hb.
  - intros i Hi. unfold fq_slot. rewrite Hmem, Ha. f_equal.
    apply as_read_ext. intros x Hx. apply as_write_other.
    rewrite fq_record_bytes_length. lia.
  - unfold fq_tail at 1. rewrite Ht, Hk. unfold fq_next.
    apply land_land_mod. exact Hm.
  - unfold fq_head. rewrite Hk. f_equal.
    apply (reg_get32_same_except _ _ _ _ Hr). apply in3; regs_lia.
  - exact Hc.
Qed.

End QueueFacts.

Section CommandFacts.

Lemma cq_exec_illegal s cmd :
  cmd_illegal cmd = true -> cq_exec s cmd = cq_cmd_ill s.
Proof.
  unfold cmd_illegal, cq_exec. fold (cmd_key cmd).
  generalize (cmd_key cmd). intros key.
  destruct (Z.eqb_spec key (RISCV_IOMMU_CMD RISCV_IOMMU_CMD_IOFENCE_FUNC_C
                              RISCV_IOMMU_CMD_IOFENCE_OPCODE)) as [->|_];
    [cbn; intros H; discriminate H|].
  destruct (Z.eqb_spec key (RISCV_IOMMU_CMD RISCV_IOMMU_CMD_IOTINVAL_FUNC_GVMA
                              RISCV_IOMMU_CMD_IOTINVAL_OPCODE)) as [->|_].
  { cbn -[tst]. destruct (tst _ RISCV_IOMMU_CMD_IOTINVAL_PSCV);
      [reflexivity|discriminate]. }
  destruct (Z.eqb_spec key (RISCV_IOMMU_CMD RISCV_IOMMU_CMD_IOTINVAL_FUNC_VMA
                              RISCV_IOMMU_CMD_IOTINVAL_OPCODE)) as [->|_];
    [cbn; intros H; discriminate H|].
  destruct (Z.eqb_spec key (RISCV_IOMMU_CMD RISCV_IOMMU_CMD_IODIR_FUNC_INVAL_DDT
                              RISCV_IOMMU_CMD_IODIR_OPCODE)) as [->|_];
    [cbn; intros H; discriminate H|].
  destruct (Z.eqb_spec key (RISCV_IOMMU_CMD RISCV_IOMMU_CMD_IODIR_FUNC_INVAL_PDT
                              RISCV_IOMMU_CMD_IODIR_OPCODE)) as [->|_].
  { cbn -[tst]. destruct (tst _ RISCV_IOMMU_CMD_IODIR_DV);
      [discriminate|reflexivity]. }
  reflexivity.
Qed.


Lemma cq_fault_except s ctrl :
  rw_same_except [RISCV_IOMMU_REG_IPSR] s (cq_fault s ctrl).
Proof.
  unfold cq_fault. destruct (tst ctrl _);
    [apply notify_except|apply rw_same_except_refl].
Qed.

Lemma cq_ill_exit_facts s ctrl :
  let s' := cq_ill_exit s ctrl in
  tst (cqcsr s') RISCV_IOMMU_CQCSR_CMD_ILL = true /\
  riscv_iommu_reg_get32 s' RISCV_IOMMU_REG_CQH =
  riscv_iommu_reg_get32 s RISCV_IOMMU_REG_CQH /\
  (tst ctrl RISCV_IOMMU_CQCSR_CIE = true ->
   tst (riscv_iommu_reg_get32 s RISCV_IOMMU_REG_FCTL) RISCV_IOMMU_FCTL_WSI = false ->
   notify s = true ->
   tst (riscv_iommu_reg_get32 s' RISCV_IOMMU_REG_IPSR) RISCV_IOMMU_IPSR_CIP = true) /\
  (tst ctrl RISCV_IOMMU_CQCSR_CIE = false \/
   tst (riscv_iommu_reg_get32 s RISCV_IOMMU_REG_FCTL) RISCV_IOMMU_FCTL_WSI = true \/
   notify s = false ->
   riscv_iommu_reg_get32 s' RISCV_IOMMU_REG_IPSR =
   riscv_iommu_reg_get32 s RISCV_IOMMU_REG_IPSR).
Proof.
  intros s'. subst s'. unfold cq_ill_exit.
  set (s1 := snd (riscv_iommu_reg_mod32 s RISCV_IOMMU_REG_CQCSR
                    RISCV_IOMMU_CQCSR_CMD_ILL 0)).
  assert (Hr1 : rw_same_except [RISCV_IOMMU_REG_CQCSR] s s1)
    by apply reg_mod32_except.
  assert (Hc1 : cqcsr s1 = Z.lor (cqcsr s) RISCV_IOMMU_CQCSR_CMD_ILL).
  { unfold cqcsr, s1. rewrite reg_mod32_get32.
    change (Z.lnot 0) with (-1). rewrite Z.land_m1_r.
    apply lor_mod_small; [lia|apply reg_get32_range|cbv; split; congruence]. }
  assert (Hf1 : riscv_iommu_reg_get32 s1 RISCV_IOMMU_REG_FCTL =
                riscv_iommu_reg_get32 s RISCV_IOMMU_REG_FCTL).
  { apply (reg_get32_same_except _ _ _ _ Hr1). apply in1. regs_lia. }
  assert (Hi1 : riscv_iommu_reg_get32 s1 RISCV_IOMMU_REG_IPSR =
                riscv_iommu_reg_get32 s RISCV_IOMMU_REG_IPSR).
  { apply (reg_get32_same_except _ _ _ _ Hr1). apply in1. regs_lia. }
  assert (Hn1 : notify s1 = notify s) by reflexivity.
  pose proof (cq_fault_except s1 ctrl) as Hr2.
  repeat split.
  - unfold cqcsr.
    rewrite (reg_get32_same_except _ _ _ RISCV_IOMMU_REG_CQCSR Hr2)
      by (apply in1; regs_lia).
    fold (cqcsr s1). rewrite Hc1. apply tst_lor_same. discriminate.
  - rewrite (reg_get32_same_except _ _ _ RISCV_IOMMU_REG_CQH Hr2)
      by (apply in1; regs_lia).
    apply (reg_get32_same_except _ _ _ _ Hr1). apply in1. regs_lia.
  - intros Hcie Hwsi Hn. unfold cq_fault. rewrite Hcie.
    apply (notify_sets_ipsr s1 RISCV_IOMMU_INTR_CQ);
      [cbv; split; congruence|rewrite Hf1; exact Hwsi|rewrite Hn1; exact Hn].
  - intros H. unfold cq_fault. rewrite <- Hi1.
    destruct (tst ctrl RISCV_IOMMU_CQCSR_CIE) eqn:Hcie; [|reflexivity].
    rewrite notify_masked; [reflexivity|].
    rewrite Hf1, Hn1. destruct H as [H|H]; [discriminate|exact H].
Qed.

End CommandFacts.

Section LoopFacts.

Lemma iofence_frame s n addr data :
  keeps_geometry s (snd (riscv_iommu_iofence s n addr data)) /\
  regs_rw (snd (riscv_iommu_iofence s n addr data)) = regs_rw s.
Proof.
  unfold riscv_iommu_iofence. destruct (negb n).
  - split; [apply keeps_geometry_refl|reflexivity].
  - destruct (dma_memory_write _ _ _) as [res m].
    split; [unfold keeps_geometry; st_simpl; tauto|reflexivity].
Qed.

(** A command that completes leaves the registers alone; one that faults
    only adds an error bit to CQCSR. *)
Lemma cq_exec_frame s cmd :
  match cq_exec s cmd with
  | CmdDone s1 => keeps_geometry s s1 /\ regs_rw s1 = regs_rw s
  | CmdFault s1 =>
      keeps_geometry s s1 /\ rw_same_except [RISCV_IOMMU_REG_CQCSR] s s1
  end.
Proof.
  assert (Hill : match cq_cmd_ill s with
                 | CmdDone s1 => keeps_geometry s s1 /\ regs_rw s1 = regs_rw s
                 | CmdFault s1 =>
                     keeps_geometry s s1 /\
                     rw_same_except [RISCV_IOMMU_REG_CQCSR] s s1
                 end).
  { unfold cq_cmd_ill. split; [apply reg_mod32_geometry|apply reg_mod32_except]. }
  unfold cq_exec.
  repeat match goal with
         | |- context [if ?c then _ else _] => destruct c
         end; try exact Hill;
    try (split; [unfold keeps_geometry; st_simpl; tauto|reflexivity]).
  pose proof (iofence_frame s (tst (dword0 cmd) RISCV_IOMMU_CMD_IOFENCE_AV)
                (dword1 cmd)
                (u32 (get_field (dword0 cmd) RISCV_IOMMU_CMD_IOFENCE_DATA)))
    as [Hg Hr].
  destruct (riscv_iommu_iofence _ _ _ _) as [[| | |] s1]; cbn [snd] in *;
    try (split; [exact Hg|exact Hr]);
    (split; [eapply keeps_geometry_trans; [exact Hg|apply reg_mod32_geometry]|]);
    intros x Hx; rewrite <- Hr; apply reg_mod32_except; exact Hx.
Qed.

Lemma cq_fault_geometry s ctrl : keeps_geometry s (cq_fault s ctrl).
Proof.
  unfold cq_fault. destruct (tst ctrl _);
    [apply notify_geometry|apply keeps_geometry_refl].
Qed.


Lemma cq_fault_exit_frame s s1 ctrl :
  keeps_geometry s s1 ->
  rw_same_except [RISCV_IOMMU_REG_CQCSR] s s1 ->
  keeps_geometry s (cq_fault s1 ctrl) /\
  rw_same_except cq_words s (cq_fault s1 ctrl) /\
  riscv_iommu_reg_get32 (cq_fault s1 ctrl) RISCV_IOMMU_REG_CQH =
  riscv_iommu_reg_get32 s RISCV_IOMMU_REG_CQH.
Proof.
  intros Hg Hr.
  assert (Hr' : rw_same_except cq_words s (cq_fault s1 ctrl)).
  { apply (rw_same_except_trans _ _ s1).
    - apply (rw_same_except_weaken [RISCV_IOMMU_REG_CQCSR]); [|exact Hr].
      intros w [<-|[]]. unfold cq_words. simpl. tauto.
    - apply (rw_same_except_weaken [RISCV_IOMMU_REG_IPSR]);
        [|apply cq_fault_except].
      intros w [<-|[]]. unfold cq_words. simpl. tauto. }
  split; [eapply keeps_geometry_trans; [exact Hg|apply cq_fault_geometry]|].
  split; [exact Hr'|].
  rewrite (reg_get32_same_except [RISCV_IOMMU_REG_IPSR] s1)
    by (try apply cq_fault_except; apply in1; regs_lia).
  apply (reg_get32_same_except _ _ _ _ Hr). apply in1. regs_lia.
Qed.

(** The command loop keeps the queue geometry, writes no register outside
    CQH, CQCSR and IPSR, and leaves in CQH either what was there or a
    masked index. *)
Lemma cq_loop_frame fuel : forall s ctrl head tail s',
  cq_loop fuel s ctrl head tail = Some s' ->
  keeps_geometry s s' /\ rw_same_except cq_words s s' /\
  (riscv_iommu_reg_get32 s' RISCV_IOMMU_REG_CQH =
   riscv_iommu_reg_get32 s RISCV_IOMMU_REG_CQH \/
   exists h, riscv_iommu_reg_get32 s' RISCV_IOMMU_REG_CQH =
             Z.land h (cq_mask s) mod 2 ^ 32).
Proof.
  induction fuel as [|fuel IH]; intros s ctrl head tail s' H; [discriminate|].
  cbn [cq_loop] in H. destruct (tail =? head).
  { injection H as <-. split; [apply keeps_geometry_refl|].
    split; [apply rw_same_except_refl|left; reflexivity]. }
  assert (Hmf : forall s'',
             Some (cq_fault (snd (riscv_iommu_reg_mod32 s RISCV_IOMMU_REG_CQCSR
                                    RISCV_IOMMU_CQCSR_CQMF 0)) ctrl) = Some s'' ->
             keeps_geometry s s'' /\ rw_same_except cq_words s s'' /\
             (riscv_iommu_reg_get32 s'' RISCV_IOMMU_REG_CQH =
              riscv_iommu_reg_get32 s RISCV_IOMMU_REG_CQH \/
              exists h, riscv_iommu_reg_get32 s'' RISCV_IOMMU_REG_CQH =
                        Z.land h (cq_mask s) mod 2 ^ 32)).
  { intros s'' E. injection E as <-.
    destruct (cq_fault_exit_frame s _ ctrl
                (reg_mod32_geometry s RISCV_IOMMU_REG_CQCSR
                   RISCV_IOMMU_CQCSR_CQMF 0)
                (reg_mod32_except s RISCV_IOMMU_REG_CQCSR
                   RISCV_IOMMU_CQCSR_CQMF 0)) as (A & B & C).
    auto. }
  destruct (dma_memory_read _ _ _) as [[| | |] l]; try (apply Hmf; exact H).
  clear Hmf.
  pose proof (cq_exec_frame s (command_of_bytes l)) as Hx.
  destruct (cq_exec s (command_of_bytes l)) as [s1|s1].
  - destruct Hx as [Hg Hr].
    set (h := Z.land (u32 (head + 1)) (cq_mask s1)) in *.
    specialize (IH _ _ _ _ _ H) as (Hg2 & Hr2 & Hh2).
    assert (Hk : cq_mask s1 = cq_mask s) by (destruct Hg; tauto).
    split; [|split].
    + eapply keeps_geometry_trans; [exact Hg|].
      eapply keeps_geometry_trans; [apply reg_set32_geometry|exact Hg2].
    + intros x Hx. rewrite Hr2 by exact Hx.
      rewrite (reg_set32_except s1 RISCV_IOMMU_REG_CQH h x).
      * rewrite Hr. reflexivity.
      * apply in1. apply (Hx RISCV_IOMMU_REG_CQH). unfold cq_words. simpl. tauto.
    + right. destruct Hh2 as [Heq | [h' Heq]].
      * exists (u32 (head + 1)). rewrite Heq, reg_set32_get32.
        unfold h. rewrite Hk. reflexivity.
      * exists h'. rewrite Heq. cbn [cq_mask riscv_iommu_reg_set32 set_regs_rw].
        rewrite Hk. reflexivity.
  - destruct Hx as [Hg Hr]. injection H as <-.
    destruct (cq_fault_exit_frame s s1 ctrl Hg Hr) as (A & B & C). auto.
Qed.

Lemma process_cq_tail_frame fuel s s' :
  riscv_iommu_process_cq_tail fuel s = Some s' ->
  keeps_geometry s s' /\ rw_same_except cq_words s s' /\
  (riscv_iommu_reg_get32 s' RISCV_IOMMU_REG_CQH =
   riscv_iommu_reg_get32 s RISCV_IOMMU_REG_CQH \/
   exists h, riscv_iommu_reg_get32 s' RISCV_IOMMU_REG_CQH =
             Z.land h (cq_mask s) mod 2 ^ 32).
Proof.
  unfold riscv_iommu_process_cq_tail. destruct (negb _ || _).
  - intros H. injection H as <-. split; [apply keeps_geometry_refl|].
    split; [apply rw_same_except_refl|left; reflexivity].
  - apply cq_loop_frame.
Qed.

(** On a ring of 2^k entries the loop leaves within as many turns as
    there are entries between head and tail, plus the final test. *)
Lemma cq_loop_terminates fuel : forall s ctrl head tail k,
  0 <= k <= 32 -> cq_mask s = 2 ^ k - 1 ->
  0 <= head < 2 ^ k -> 0 <= tail < 2 ^ k ->
  ((tail - head) mod 2 ^ k < Z.of_nat fuel) ->
  cq_loop fuel s ctrl head tail <> None.
Proof.
  induction fuel as [|fuel IH]; intros s ctrl head tail k Hk Hm Hh Ht Hf.
  { pose proof (Z.mod_pos_bound (tail - head) (2 ^ k)). lia. }
  cbn [cq_loop]. destruct (Z.eqb_spec tail head) as [->|Hne]; [discriminate|].
  destruct (dma_memory_read _ _ _) as [[| | |] l]; try discriminate.
  pose proof (cq_exec_frame s (command_of_bytes l)) as Hx.
  destruct (cq_exec s (command_of_bytes l)) as [s1|s1]; [|discriminate].
  destruct Hx as [Hg _].
  assert (Hk1 : cq_mask s1 = 2 ^ k - 1) by (destruct Hg; lia).
  assert (Hp : 0 < 2 ^ k) by (apply Z.pow_pos_nonneg; lia).
  assert (Hhead : Z.land (u32 (head + 1)) (cq_mask s1) = (head + 1) mod 2 ^ k).
  { rewrite Hk1. replace (2 ^ k - 1) with (Z.ones k)
      by (rewrite Z.ones_equiv; lia).
    rewrite Z.land_ones by lia. unfold u32.
    replace 32 with (k + (32 - k)) at 1 by lia.
    rewrite Z.pow_add_r by lia. rewrite Z.rem_mul_r by lia.
    rewrite Z.mul_comm, Z.mod_add by lia. apply Z.mod_mod. lia. }
  rewrite Hhead. apply (IH _ ctrl _ tail k); try assumption.
  - apply Z.mod_pos_bound. lia.
  - replace (tail - (head + 1) mod 2 ^ k) with
      ((tail - head - 1) + ((head + 1) / 2 ^ k) * 2 ^ k)
      by (pose proof (Z.div_mod (head + 1) (2 ^ k)); lia).
    rewrite Z.mod_add by lia.
    assert (Hd : (tail - head) mod 2 ^ k <> 0).
    { intros H0. apply Hne.
      assert (Hc : tail - head = 2 ^ k * ((tail - head) / 2 ^ k))
        by (pose proof (Z.div_mod (tail - head) (2 ^ k)); lia).
      assert ((tail - head) / 2 ^ k = 0) by nia. lia. }
    assert (Hs : (tail - head - 1) mod 2 ^ k = (tail - head) mod 2 ^ k - 1).
    { pose proof (Z.mod_pos_bound (tail - head) (2 ^ k) Hp) as Hb.
      pose proof (Z.div_mod (tail - head) (2 ^ k)) as Hdm.
      symmetry. apply (Z.mod_unique_pos _ _ ((tail - head) / 2 ^ k)); lia. }
    lia.
Qed.

Lemma process_cq_tail_terminates fuel s k :
  0 <= k <= 32 -> cq_mask s = 2 ^ k - 1 -> 2 ^ k <= Z.of_nat fuel ->
  riscv_iommu_process_cq_tail fuel s <> None.
Proof.
  intros Hk Hm Hf. unfold riscv_iommu_process_cq_tail.
  destruct (negb _ || _); [discriminate|].
  assert (Hp : 0 < 2 ^ k) by (apply Z.pow_pos_nonneg; lia).
  assert (Hb : forall x, 0 <= Z.land x (cq_mask s) < 2 ^ k).
  { intros x. pose proof (land_bound x (cq_mask s)). lia. }
  apply (cq_loop_terminates fuel s _ _ _ k); auto.
  pose proof (Z.mod_pos_bound
                (Z.land (riscv_iommu_reg_get32 s RISCV_IOMMU_REG_CQT) (cq_mask s) -
                 Z.land (riscv_iommu_reg_get32 s RISCV_IOMMU_REG_CQH) (cq_mask s))
                (2 ^ k) Hp). lia.
Qed.

End LoopFacts.

Section RingFacts.

Lemma masked_mod_le (h m : Z) : 0 <= m -> Z.land h m mod 2 ^ 32 <= m.
Proof.
  intros Hm. pose proof (land_bound h m Hm).
  pose proof (Z.mod_le (Z.land h m) (2 ^ 32)). lia.
Qed.

Lemma queue_step_inv op s s' :
  0 <= cq_mask s -> 0 <= fq_mask s -> 0 <= pq_mask s ->
  queue_step op s = Some s' ->
  keeps_geometry s s' /\ (ring_regs_ok s -> ring_regs_ok s').
Proof.
  intros Hc Hf Hp H. destruct op as [ev|pr|fuel]; cbn [queue_step] in H.
  - injection H as <-. destruct (fault_frame s ev) as (Hg & Hr & _).
    split; [exact Hg|]. intros (H1 & H2 & H3).
    destruct Hg as (_ & Hcm & _ & Hfm & _ & Hpm & _).
    unfold ring_regs_ok. rewrite Hcm, Hfm, Hpm.
    rewrite (reg_get32_same_except _ _ _ RISCV_IOMMU_REG_PQT Hr)
      by (apply in3; regs_lia).
    rewrite (reg_get32_same_except _ _ _ RISCV_IOMMU_REG_CQH Hr)
      by (apply in3; regs_lia).
    split; [|auto].
    destruct (fault_tail s ev) as [-> | ->]; [exact H1|].
    apply masked_mod_le, Hf.
  - injection H as <-. destruct (pri_frame s pr) as (Hg & Hr & _).
    split; [exact Hg|]. intros (H1 & H2 & H3).
    destruct Hg as (_ & Hcm & _ & Hfm & _ & Hpm & _).
    unfold ring_regs_ok. rewrite Hcm, Hfm, Hpm.
    rewrite (reg_get32_same_except _ _ _ RISCV_IOMMU_REG_FQT Hr)
      by (apply in3; regs_lia).
    rewrite (reg_get32_same_except _ _ _ RISCV_IOMMU_REG_CQH Hr)
      by (apply in3; regs_lia).
    split; [exact H1|split; [|exact H3]].
    destruct (pri_tail s pr) as [-> | ->]; [exact H2|].
    apply masked_mod_le, Hp.
  - destruct (process_cq_tail_frame fuel s s' H) as (Hg & Hr & Hh).
    split; [exact Hg|]. intros (H1 & H2 & H3).
    destruct Hg as (_ & Hcm & _ & Hfm & _ & Hpm & _).
    unfold ring_regs_ok. rewrite Hcm, Hfm, Hpm.
    rewrite (reg_get32_same_except _ _ _ RISCV_IOMMU_REG_FQT Hr)
      by (unfold cq_words; apply in3; regs_lia).
    rewrite (reg_get32_same_except _ _ _ RISCV_IOMMU_REG_PQT Hr)
      by (unfold cq_words; apply in3; regs_lia).
    split; [exact H1|split; [exact H2|]].
    destruct Hh as [-> | [h ->]]; [exact H3|]. apply masked_mod_le, Hc.
Qed.

Lemma run_queue_ops_inv ops : forall s s',
  0 <= cq_mask s -> 0 <= fq_mask s -> 0 <= pq_mask s ->
  run_queue_ops ops s = Some s' ->
  keeps_geometry s s' /\ (ring_regs_ok s -> ring_regs_ok s').
Proof.
  induction ops as [|op ops IH]; intros s s' Hc Hf Hp H.
  - injection H as <-. split; [apply keeps_geometry_refl|auto].
  - cbn [run_queue_ops] in H. destruct (queue_step op s) as [s1|] eqn:E;
      [|discriminate].
    destruct (queue_step_inv op s s1 Hc Hf Hp E) as [Hg Hk].
    assert (Hm : cq_mask s1 = cq_mask s /\ fq_mask s1 = fq_mask s /\
                 pq_mask s1 = pq_mask s) by (destruct Hg; tauto).
    destruct Hm as (Hm1 & Hm2 & Hm3).
    destruct (IH s1 s') as [Hg' Hk']; try lia; [exact H|].
    split; [eapply keeps_geometry_trans; eassumption|auto].
Qed.

End RingFacts.

Section CacheFacts.

Lemma clear_tc_v_invalid ctx : tst (tc (clear_tc_v ctx)) RISCV_IOMMU_DC_TC_V = false.
Proof.
  apply tst_false_iff. unfold clear_tc_v. cbn [tc ctx_set_tc].
  change RISCV_IOMMU_DC_TC_V with (Z.ones 1). Z.bitblast.
Qed.

Lemma ctx_inval_devid_same ctx arg :
  devid ctx = devid arg ->
  tst (tc (__ctx_inval_devid ctx arg)) RISCV_IOMMU_DC_TC_V = false.
Proof.
  intros H. unfold __ctx_inval_devid. rewrite H, Z.eqb_refl, andb_true_r.
  destruct (tst (tc ctx) RISCV_IOMMU_DC_TC_V) eqn:E;
    [apply clear_tc_v_invalid|exact E].
Qed.

Lemma ctx_inval_devid_other ctx arg :
  devid ctx <> devid arg -> __ctx_inval_devid ctx arg = ctx.
Proof.
  intros H. unfold __ctx_inval_devid. apply Z.eqb_neq in H.
  rewrite H, andb_false_r. reflexivity.
Qed.

Lemma ctx_inval_devid_ids ctx arg :
  devid (__ctx_inval_devid ctx arg) = devid ctx /\
  process_id (__ctx_inval_devid ctx arg) = process_id ctx.
Proof.
  unfold __ctx_inval_devid. destruct (_ && _); split; reflexivity.
Qed.

Lemma did_field_range (w : Z) :
  0 <= get_field w RISCV_IOMMU_CMD_IODIR_DID < 2 ^ 24.
Proof.
  change RISCV_IOMMU_CMD_IODIR_DID with (GENMASK 63 40).
  rewrite get_field_genmask by lia. change (63 - 40 + 1) with 24.
  rewrite Z.land_ones by lia. apply Z.mod_pos_bound. lia.
Qed.

Lemma ctx_fetch_pdt_ids s ctx mode addr :
  devid (snd (ctx_fetch_pdt s ctx mode addr)) = devid ctx /\
  process_id (snd (ctx_fetch_pdt s ctx mode addr)) = process_id ctx.
Proof.
  unfold ctx_fetch_pdt.
  repeat match goal with
         | |- context [if ?c then _ else _] => destruct c
         | |- context [match ?c with WalkFault _ => _ | WalkAddr _ => _ end] =>
             destruct c
         | |- context [let (_, _) := ?c in _] => destruct c
         | |- context [match ?c with MEMTX_OK => _ | _ => _ end] => destruct c
         end; split; reflexivity.
Qed.

Lemma ctx_fetch_dc_ids s ctx mode fmt depth addr :
  devid (snd (ctx_fetch_dc s ctx mode fmt depth addr)) = devid ctx /\
  process_id (snd (ctx_fetch_dc s ctx mode fmt depth addr)) = process_id ctx.
Proof.
  unfold ctx_fetch_dc. destruct (ddt_walk _ _ _ _ _); [split; reflexivity|].
  destruct (dma_memory_read _ _ _) as [[| | |] l]; try (split; reflexivity).
  cbv zeta.
  repeat match goal with
         | |- context [if ?c then _ else _] => destruct c
         end; try (split; reflexivity).
  match goal with
  | |- context [ctx_fetch_pdt s ?c ?m ?a] =>
      destruct (ctx_fetch_pdt_ids s c m a) as [H1 H2]; rewrite H1, H2;
      split; reflexivity
  end.
Qed.

(** The directory walk fills in a context without changing whose it is. *)
Lemma ctx_fetch_ids s ctx :
  devid (snd (riscv_iommu_ctx_fetch s ctx)) = devid ctx /\
  process_id (snd (riscv_iommu_ctx_fetch s ctx)) = process_id ctx.
Proof.
  unfold riscv_iommu_ctx_fetch.
  destruct (_ =? RISCV_IOMMU_DDTP_MODE_OFF); [split; reflexivity|].
  destruct (_ =? RISCV_IOMMU_DDTP_MODE_BARE); [split; reflexivity|].
  destruct (ddt_depth _); [|split; reflexivity].
  destruct (_ <=? _); [split; reflexivity|].
  apply ctx_fetch_dc_ids.
Qed.

Lemma report_fault_ctx_cache s ctx ft cause pv v1 v2 :
  ctx_cache (riscv_iommu_report_fault s ctx ft cause pv v1 v2) = ctx_cache s.
Proof.
  unfold riscv_iommu_report_fault. destruct (report_fault_record _ _ _ _ _ _);
    [apply fault_frame|reflexivity].
Qed.

(** Lookups keep the cache well-formed. *)
Lemma riscv_iommu_ctx_wf s d p :
  ctx_cache_wf s -> ctx_cache_wf (snd (riscv_iommu_ctx s d p)).
Proof.
  intros Hwf. unfold riscv_iommu_ctx. destruct (ctx_cached s d p); [exact Hwf|].
  unfold ctx_walk. destruct (riscv_iommu_ctx_fetch s (ctx_new d p)) as [f c].
  destruct (f =? 0); cbn [snd].
  - intros k ctx. cbn [ctx_cache set_ctx_cache].
    rewrite lookup_insert. case_decide as Hk.
    + intros E. injection E as <-. symmetry. exact Hk.
    + destruct (Nat.leb _ _); [rewrite lookup_empty; discriminate|apply Hwf].
  - intros k ctx. rewrite report_fault_ctx_cache. apply Hwf.
Qed.

Lemma realize_wf v b m o mem n :
  ctx_cache_wf (riscv_iommu_realize v b m o mem n).
Proof. intros k ctx. cbn [ctx_cache riscv_iommu_realize]. rewrite lookup_empty. discriminate. Qed.

End CacheFacts.

Section MmioFacts.

Lemma masked_update_small (N rw ro wc v : Z) :
  0 <= N -> 0 <= rw < 2 ^ N -> 0 <= v < 2 ^ N ->
  masked_update rw ro wc v mod 2 ^ N = masked_update rw ro wc v.
Proof.
  intros HN Hrw Hv.
  rewrite <- (Z.mod_small rw (2 ^ N)), <- (Z.mod_small v (2 ^ N)) by lia.
  rewrite <- !Z.land_ones by lia. unfold masked_update. Z.bitblast.
Qed.

Lemma land_lnot3 (o : Z) : Z.land o (Z.lnot 3) = 4 * (o / 4).
Proof.
  rewrite <- Z.ldiff_land. change 3 with (Z.ones 2).
  rewrite Z.ldiff_ones_r by lia.
  rewrite Z.shiftr_div_pow2, Z.shiftl_mul_pow2 by lia.
  change (2 ^ 2) with 4. lia.
Qed.

Lemma mmio_store_sizes s o v sz :
  sz = 1 \/ sz = 2 \/ sz = 4 \/ sz = 8 ->
  mmio_store s o v sz =
  set_regs_rw s
    (st_le (Z.to_nat sz) (regs_rw s) o
       (masked_update (ld_le (Z.to_nat sz) (regs_rw s) o)
          (ld_le (Z.to_nat sz) (regs_ro s) o)
          (ld_le (Z.to_nat sz) (regs_wc s) o) v)).
Proof. intros [-> | [-> | [-> | ->]]]; reflexivity. Qed.

Lemma mmio_read_sizes s o sz :
  sz = 1 \/ sz = 2 \/ sz = 4 \/ sz = 8 ->
  Z.land o (sz - 1) = 0 -> o + sz <= RISCV_IOMMU_REG_MSI_CONFIG ->
  riscv_iommu_mmio_read s o sz = (MEMTX_OK, ld_le (Z.to_nat sz) (regs_rw s) o).
Proof.
  intros Hsz Hal Hrg. unfold riscv_iommu_mmio_read.
  assert (Hu : u32 (sz - 1) = sz - 1)
    by (unfold u32; apply Z.mod_small; lia).
  rewrite Hu, Hal. cbn [Z.eqb negb].
  destruct (Z.ltb_spec RISCV_IOMMU_REG_MSI_CONFIG (o + sz)); [lia|].
  destruct Hsz as [-> | [-> | [-> | ->]]]; reflexivity.
Qed.

End MmioFacts.

Section FaultRecord.


Ltac fq_hdr_fields :=
  change RISCV_IOMMU_FQ_HDR_CAUSE with (GENMASK 11 0);
  change RISCV_IOMMU_FQ_HDR_PID with (GENMASK 31 12);
  change RISCV_IOMMU_FQ_HDR_PV with (GENMASK 32 32);
  change RISCV_IOMMU_FQ_HDR_TTYPE with (GENMASK 39 34);
  change RISCV_IOMMU_FQ_HDR_DID with (GENMASK 63 40);
  rewrite ?set_field_genmask, ?get_field_genmask by lia;
  unfold GENMASK;
  repeat match goal with
         | |- context [Z.ones ?e] =>
             progress (let v := eval cbv in e in change e with v)
         end;
  change (Z.shiftl 1 32) with (Z.shiftl (Z.ones 1) 32).

Lemma eq_ones_1 (x : Z) : x = Z.ones 1 -> x = 1.
Proof. intros ->. reflexivity. Qed.

Lemma fault_hdr_pv ctx ft cause pv :
  get_field (fault_hdr ctx ft cause pv) RISCV_IOMMU_FQ_HDR_PV = 1.
Proof.
  unfold fault_hdr. destruct pv; fq_hdr_fields; apply eq_ones_1;
    Z.bitblast.
Qed.

Lemma fault_hdr_pid_absent ctx ft cause :
  get_field (fault_hdr ctx ft cause false) RISCV_IOMMU_FQ_HDR_PID = 0.
Proof.
  unfold fault_hdr. fq_hdr_fields. Z.bitblast.
Qed.

Lemma fault_hdr_pid_present ctx ft cause :
  get_field (fault_hdr ctx ft cause true) RISCV_IOMMU_FQ_HDR_PID =
  process_id ctx mod 2 ^ 20.
Proof.
  unfold fault_hdr. fq_hdr_fields. rewrite <- Z.land_ones by lia.
  Z.bitblast.
Qed.

Lemma fault_hdr_cause ctx ft cause pv :
  get_field (fault_hdr ctx ft cause pv) RISCV_IOMMU_FQ_HDR_CAUSE =
  cause mod 2 ^ 12.
Proof.
  unfold fault_hdr. destruct pv; fq_hdr_fields; rewrite <- Z.land_ones by lia;
    Z.bitblast.
Qed.

Lemma report_fault_record_some ctx ft cause pv v1 v2 ev :
  report_fault_record ctx ft cause pv v1 v2 = Some ev ->
  ev = {| fq_hdr := fault_hdr ctx ft cause pv; fq_reserved := 0;
          fq_iotval := v1; fq_iotval2 := v2 |}.
Proof.
  unfold report_fault_record, fault_hdr.
  destruct (tst (tc ctx) RISCV_IOMMU_DC_TC_DTF && negb (dtf_reportable cause));
    [discriminate|].
  intros H. injection H as <-. destruct pv; reflexivity.
Qed.

Lemma dtf_reportable_iff cause :
  dtf_reportable cause = true <-> In cause dtf_whitelist.
Proof.
  unfold dtf_reportable, dtf_whitelist. simpl.
  rewrite !orb_true_iff, !Z.eqb_eq. intuition congruence.
Qed.

End FaultRecord.

Section Ddtp.

Lemma ddtp_ok_allowed (old_mode new_mode : Z) :
  (if (new_mode =? old_mode) ||
      (new_mode =? RISCV_IOMMU_DDTP_MODE_OFF) ||
      (new_mode =? RISCV_IOMMU_DDTP_MODE_BARE) then true
   else if (new_mode =? RISCV_IOMMU_DDTP_MODE_1LVL) ||
           (new_mode =? RISCV_IOMMU_DDTP_MODE_2LVL) ||
           (new_mode =? RISCV_IOMMU_DDTP_MODE_3LVL) then
     (old_mode =? RISCV_IOMMU_DDTP_MODE_OFF) ||
     (old_mode =? RISCV_IOMMU_DDTP_MODE_BARE)
   else false) = ddtp_transition_allowed old_mode new_mode.
Proof.
  unfold ddtp_transition_allowed.
  destruct (new_mode =? old_mode), (new_mode =? RISCV_IOMMU_DDTP_MODE_OFF),
    (new_mode =? RISCV_IOMMU_DDTP_MODE_BARE),
    (new_mode =? RISCV_IOMMU_DDTP_MODE_1LVL),
    (new_mode =? RISCV_IOMMU_DDTP_MODE_2LVL),
    (new_mode =? RISCV_IOMMU_DDTP_MODE_3LVL); reflexivity.
Qed.

Lemma ddtp_sanitized (w : Z) :
  set_field (Z.land w RISCV_IOMMU_DDTP_PPN) RISCV_IOMMU_DDTP_MODE
    (get_field w RISCV_IOMMU_DDTP_MODE) =
  Z.lor (Z.land w RISCV_IOMMU_DDTP_PPN) (Z.land w RISCV_IOMMU_DDTP_MODE).
Proof.
  change RISCV_IOMMU_DDTP_MODE with (GENMASK 3 0).
  change RISCV_IOMMU_DDTP_PPN with (GENMASK 53 10).
  rewrite set_field_genmask, get_field_genmask by lia.
  unfold GENMASK. Z.bitblast.
Qed.

Lemma ddtp_sanitized_mode (w : Z) :
  get_field (Z.lor (Z.land w RISCV_IOMMU_DDTP_PPN)
                   (Z.land w RISCV_IOMMU_DDTP_MODE)) RISCV_IOMMU_DDTP_MODE =
  get_field w RISCV_IOMMU_DDTP_MODE.
Proof.
  change RISCV_IOMMU_DDTP_MODE with (GENMASK 3 0).
  change RISCV_IOMMU_DDTP_PPN with (GENMASK 53 10).
  rewrite !get_field_genmask by lia.
  unfold GENMASK. Z.bitblast.
Qed.

Lemma ddtp_sanitized_rest (w : Z) :
  Z.land (Z.lor (Z.land w RISCV_IOMMU_DDTP_PPN)
                (Z.land w RISCV_IOMMU_DDTP_MODE))
         (Z.lnot (Z.lor RISCV_IOMMU_DDTP_PPN RISCV_IOMMU_DDTP_MODE)) = 0.
Proof.
  change RISCV_IOMMU_DDTP_MODE with (GENMASK 3 0).
  change RISCV_IOMMU_DDTP_PPN with (GENMASK 53 10).
  unfold GENMASK. Z.bitblast.
Qed.

End Ddtp.

(** Where a basic-mode MSI write goes: the PTE's page ORed with the bits
    of the GPA selected by [TARGET_PAGE_MASK]. *)
Lemma msi_write_basic_target s ctx gpa data size l :
  riscv_iommu_msi_check ctx gpa = true ->
  _pext_u64 (PPN_DOWN gpa) (msi_addr_mask ctx) < 256 ->
  dma_memory_read (target_as s)
    (Z.lor (PPN_PHYS (get_field (msiptp ctx) RISCV_IOMMU_DC_MSIPTP_PPN))
       (_pext_u64 (PPN_DOWN gpa) (msi_addr_mask ctx) * 16)) 16 = (MEMTX_OK, l) ->
  tst (le_combine (firstn 8 l)) RISCV_IOMMU_MSI_PTE_V = true ->
  tst (le_combine (firstn 8 l)) RISCV_IOMMU_MSI_PTE_C = false ->
  get_field (le_combine (firstn 8 l)) RISCV_IOMMU_MSI_PTE_M =
  RISCV_IOMMU_MSI_PTE_M_BASIC ->
  let addr :=
    Z.lor (PPN_PHYS (get_field (le_combine (firstn 8 l)) RISCV_IOMMU_MSI_PTE_PPN))
          (Z.land gpa TARGET_PAGE_MASK) in
  backed (target_as s) addr (Z.of_nat size) ->
  riscv_iommu_msi_write s ctx gpa data size =
  (MEMTX_OK,
   set_target_as s (snd (as_write (target_as s) addr (le_split size data)))).
Proof.
  intros Hchk Hint Hrd Hv Hc Hm addr Hb. unfold riscv_iommu_msi_write.
  rewrite Hchk. cbn [negb].
  destruct (Z.leb_spec 256 (_pext_u64 (PPN_DOWN gpa) (msi_addr_mask ctx)));
    [lia|].
  rewrite Hrd, Hv, Hc, Hm. cbn [negb orb]. rewrite Z.eqb_refl.
  fold addr. rewrite dma_memory_write_backed
    by (rewrite le_split_length; exact Hb).
  reflexivity.
Qed.

(** ** The end-to-end scenarios, evaluated *)

Section ScenarioChecks.

(** The command queue scenario is set up as described: eight entries at
    0x400000, on, with CIE. *)
Example s_cq8_ready :
  cq_mask s_cq8 = 7 /\ cq_addr s_cq8 = 0x400000 /\
  tst (cqcsr s_cq8) RISCV_IOMMU_CQCSR_CQON = true /\
  tst (cqcsr s_cq8) RISCV_IOMMU_CQCSR_CIE = true.
Proof. vm_compute. repeat split; reflexivity. Qed.

(** CQ illegal command, message-signalled interrupts: CMD_ILL set, CQH
    still 0, CIP raised and the interrupt line of vector 0 asked for. *)
Example scenario_cq_illegal_command :
  match riscv_iommu_mmio_write 64 s_cq8 RISCV_IOMMU_REG_CQT 1 4 with
  | Some (MEMTX_OK, s') =>
      tst (cqcsr s') RISCV_IOMMU_CQCSR_CMD_ILL = true /\
      riscv_iommu_reg_get32 s' RISCV_IOMMU_REG_CQH = 0 /\
      tst (riscv_iommu_reg_get32 s' RISCV_IOMMU_REG_IPSR)
          RISCV_IOMMU_IPSR_CIP = true /\
      irq_raised s' = [0]
  | _ => False
  end.
Proof. vm_compute. repeat split; reflexivity. Qed.

(** DDT out-of-range: the lookup for device 128 on a one-level directory
    with extended contexts fails, and with the fault queue off nothing
    else changes. *)
Example scenario_ddt_out_of_range :
  fst (riscv_iommu_ctx s_1lvl 128 0) = None /\
  fst (riscv_iommu_ctx_fetch s_1lvl (ctx_new 128 0)) =
  RISCV_IOMMU_FQ_CAUSE_TTYPE_BLOCKED.
Proof. vm_compute. split; reflexivity. Qed.

(** BARE mode: both devices of [s_two_cached] are served from the cache
    with a pass-through context. *)
Example s_two_cached_contexts :
  option_map tc (ctx_cached s_two_cached 0x100 0) = Some RISCV_IOMMU_DC_TC_V /\
  option_map tc (ctx_cached s_two_cached 0x200 0) = Some RISCV_IOMMU_DC_TC_V /\
  size (ctx_cache s_two_cached) = 2%nat.
Proof. vm_compute. repeat split; reflexivity. Qed.

(** The fault queue of two entries after the three pushes: one record in
    slot 0, slot 1 empty, tail 1, FQOF set, FIP pending. *)
Example scenario_fq_overflow :
  let s3 :=
    riscv_iommu_fault
      (riscv_iommu_fault (riscv_iommu_fault s_fq2 ev_a) ev_b) ev_c in
  fq_slot s3 0 = Some ev_a /\
  fq_slot s3 1 =
  Some {| fq_hdr := 0; fq_reserved := 0; fq_iotval := 0; fq_iotval2 := 0 |} /\
  riscv_iommu_reg_get32 s3 RISCV_IOMMU_REG_FQT = 1 /\
  tst (fqcsr s3) RISCV_IOMMU_FQCSR_FQOF = true /\
  tst (riscv_iommu_reg_get32 s3 RISCV_IOMMU_REG_IPSR)
      RISCV_IOMMU_IPSR_FIP = true.
Proof. vm_compute. repeat split; reflexivity. Qed.

(** DTF suppression on the two-entry fault queue: a PDT_LOAD_FAULT leaves
    the ring empty, a DDT_LOAD_FAULT is stored in slot 0 with its cause. *)
Example scenario_dtf_suppression :
  let quiet :=
    riscv_iommu_report_fault s_fq2 ctx_dtf RISCV_IOMMU_FQ_TTYPE_UADDR_RD
      RISCV_IOMMU_FQ_CAUSE_PDT_LOAD_FAULT false 0 0 in
  let loud :=
    riscv_iommu_report_fault s_fq2 ctx_dtf RISCV_IOMMU_FQ_TTYPE_UADDR_RD
      RISCV_IOMMU_FQ_CAUSE_DDT_LOAD_FAULT false 0 0 in
  riscv_iommu_reg_get32 quiet RISCV_IOMMU_REG_FQT = 0 /\
  option_map fq_hdr (fq_slot quiet 0) = Some 0 /\
  riscv_iommu_reg_get32 loud RISCV_IOMMU_REG_FQT = 1 /\
  option_map (fun ev => get_field (fq_hdr ev) RISCV_IOMMU_FQ_HDR_CAUSE)
    (fq_slot loud 0) = Some RISCV_IOMMU_FQ_CAUSE_DDT_LOAD_FAULT.
Proof. vm_compute. repeat split; reflexivity. Qed.

End ScenarioChecks.

(** * Specification properties *)

(** C1 at the input of the MSI basic redirection scenario: the write is
    accepted, the four bytes at 0x300000 + 0x8 are left as they were, and
    the value lands at 0x703000 = 0x300000 | (GPA & TARGET_PAGE_MASK). *)
Theorem C1_msi_basic_write_target :
  riscv_iommu_msi_check ctx_msi gpa_msi = true /\
  let r := riscv_iommu_msi_write s_msi ctx_msi gpa_msi 0xDEAD 4 in
  fst r = MEMTX_OK /\
  mem32 s_msi (0x300000 + 0x8) = Some 0 /\
  mem32 (snd r) (0x300000 + 0x8) = Some 0 /\
  mem32 (snd r) 0x703000 = Some 0xDEAD /\
  Z.lor 0x300000 (Z.land gpa_msi TARGET_PAGE_MASK) = 0x703000.
Proof. vm_compute. repeat split; reflexivity. Qed.

(** C2 as stated fails: from power-on, writing CQEN to CQCSR stores more
    than the masked value, because the queue-control function then turns
    CQON on; the read-back is 0x10001, not 1. *)
Lemma C2_counterexample :
  match riscv_iommu_mmio_write 64 s_power_on RISCV_IOMMU_REG_CQCSR
          RISCV_IOMMU_CQCSR_CQEN 4 with
  | Some (MEMTX_OK, s') =>
      masked_update (ldl_le_p (regs_rw s_power_on) RISCV_IOMMU_REG_CQCSR)
        (ldl_le_p (regs_ro s_power_on) RISCV_IOMMU_REG_CQCSR)
        (ldl_le_p (regs_wc s_power_on) RISCV_IOMMU_REG_CQCSR)
        RISCV_IOMMU_CQCSR_CQEN = 1 /\
      riscv_iommu_mmio_read s' RISCV_IOMMU_REG_CQCSR 4 = (MEMTX_OK, 0x10001)
  | _ => False
  end.
Proof. vm_compute. split; reflexivity. Qed.

(** C2, amended. For an access of size 1, 2, 4 or 8 that is aligned and
    ends at or below the MSI-config offset, at a word other than DDTP,
    DDTP+4, CQCSR, FQCSR, PQCSR and IPSR, a completed write returns
    MEMTX_OK and leaves ((rw & ro) | (v & ~ro)) & ~(v & wc) in the bytes
    written, [ro] and [wc] read at the same offset, and a read of the same
    offset and size returns exactly that value.  Away from CQT the write
    is the masked store and nothing else; a CQT write also runs the
    command loop, which completes on a ring of 2^k entries given 2^k units
    of fuel. *)
Theorem C2_masked_update_law
  (fuel : nat) (s : RISCVIOMMUState) (o sz v : Z) :
  sz = 1 \/ sz = 2 \/ sz = 4 \/ sz = 8 ->
  0 <= o -> Z.land o (sz - 1) = 0 ->
  o + sz <= RISCV_IOMMU_REG_MSI_CONFIG ->
  mmio_rewritten_word (Z.land o (Z.lnot 3)) = false ->
  0 <= v < 2 ^ (8 * sz) ->
  let n := Z.to_nat sz in
  let stored :=
    masked_update (ld_le n (regs_rw s) o) (ld_le n (regs_ro s) o)
      (ld_le n (regs_wc s) o) v in
  (forall r s', riscv_iommu_mmio_write fuel s o v sz = Some (r, s') ->
     r = MEMTX_OK /\ ld_le n (regs_rw s') o = stored /\
     riscv_iommu_mmio_read s' o sz = (MEMTX_OK, stored)) /\
  (Z.land o (Z.lnot 3) <> RISCV_IOMMU_REG_CQT ->
   riscv_iommu_mmio_write fuel s o v sz = Some (MEMTX_OK, mmio_store s o v sz)) /\
  (forall k, 0 <= k <= 32 -> cq_mask s = 2 ^ k - 1 -> 2 ^ k <= Z.of_nat fuel ->
     riscv_iommu_mmio_write fuel s o v sz <> None).
Proof.
  intros Hsz Ho Hal Hrg Hw Hv n stored.
  assert (Hn : 8 * Z.of_nat n = 8 * sz) by (subst n; lia).
  assert (Hu : u32 (sz - 1) = sz - 1)
    by (unfold u32; apply Z.mod_small; lia).
  assert (Hregb : u32 (Z.land o (Z.lnot 3)) = Z.land o (Z.lnot 3)).
  { unfold u32. apply Z.mod_small. rewrite land_lnot3.
    pose proof (Z.div_mod o 4). pose proof (Z.mod_pos_bound o 4).
    unfold RISCV_IOMMU_REG_MSI_CONFIG in Hrg. lia. }
  unfold mmio_rewritten_word in Hw.
  rewrite !orb_false_iff in Hw.
  destruct Hw as (((((Hw1 & Hw2) & Hw3) & Hw4) & Hw5) & Hw6).
  (* the store itself *)
  set (s1 := mmio_store s o v sz).
  assert (Hs1 : ld_le n (regs_rw s1) o = stored).
  { subst s1. rewrite mmio_store_sizes by exact Hsz. cbn [regs_rw set_regs_rw].
    fold n. fold stored. rewrite ld_st_same, Hn.
    apply masked_update_small; [lia| |exact Hv].
    rewrite <- Hn. apply ld_le_range. }
  (* what the write function reduces to *)
  assert (Hwr : riscv_iommu_mmio_write fuel s o v sz =
                if Z.land o (Z.lnot 3) =? RISCV_IOMMU_REG_CQT
                then match riscv_iommu_process_cq_tail fuel s1 with
                     | Some s' => Some (MEMTX_OK, s')
                     | None => None
                     end
                else Some (MEMTX_OK, s1)).
  { unfold riscv_iommu_mmio_write. rewrite Hu, Hal, Hregb. cbn [Z.eqb negb].
    destruct (Z.ltb_spec RISCV_IOMMU_REG_MSI_CONFIG (o + sz)); [lia|].
    rewrite Hw6. unfold mmio_dispatch. rewrite Hw1, Hw2, Hw3, Hw4, Hw5.
    cbn [orb]. fold s1.
    destruct (Z.land o (Z.lnot 3) =? RISCV_IOMMU_REG_CQT); reflexivity. }
  split; [|split].
  - intros r s' E. rewrite Hwr in E.
    assert (Hld : ld_le n (regs_rw s') o = stored /\ r = MEMTX_OK).
    { destruct (Z.eqb_spec (Z.land o (Z.lnot 3)) RISCV_IOMMU_REG_CQT) as [Hq|_].
      - destruct (riscv_iommu_process_cq_tail fuel s1) as [s2|] eqn:Ep;
          [|discriminate].
        injection E as <- <-. split; [|reflexivity]. rewrite <- Hs1.
        destruct (process_cq_tail_frame fuel s1 s2 Ep) as (_ & Hr & _).
        apply ld_le_ext. intros x Hx. apply Hr.
        rewrite land_lnot3 in Hq. unfold RISCV_IOMMU_REG_CQT in Hq.
        assert (Hsz' : Z.of_nat n = sz) by (subst n; lia).
        assert (Ho4 : o mod sz = 0).
        { destruct Hsz as [-> | [-> | [-> | ->]]].
          - apply Z.mod_1_r.
          - change (2 - 1) with (Z.ones 1) in Hal.
            rewrite Z.land_ones in Hal by lia. exact Hal.
          - change (4 - 1) with (Z.ones 2) in Hal.
            rewrite Z.land_ones in Hal by lia. exact Hal.
          - change (8 - 1) with (Z.ones 3) in Hal.
            rewrite Z.land_ones in Hal by lia. exact Hal. }
        unfold cq_words. apply in3; fold cq_words; regs_lia_pre;
          destruct Hsz as [-> | [-> | [-> | ->]]];
          pose proof (Z.div_mod o 4); pose proof (Z.mod_pos_bound o 4);
          try (pose proof (Z.div_mod o 2); pose proof (Z.mod_pos_bound o 2));
          try (pose proof (Z.div_mod o 8); pose proof (Z.mod_pos_bound o 8));
          lia.
      - injection E as <- <-. split; [exact Hs1|reflexivity]. }
    destruct Hld as [Hld ->]. split; [reflexivity|]. split; [exact Hld|].
    rewrite mmio_read_sizes by assumption. fold n. rewrite Hld. reflexivity.
  - intros Hq. rewrite Hwr. apply Z.eqb_neq in Hq. rewrite Hq. reflexivity.
  - intros k Hk Hm Hf. rewrite Hwr.
    destruct (_ =? RISCV_IOMMU_REG_CQT); [|discriminate].
    assert (Hm1 : cq_mask s1 = 2 ^ k - 1).
    { subst s1. rewrite mmio_store_sizes by exact Hsz. exact Hm. }
    pose proof (process_cq_tail_terminates fuel s1 k Hk Hm1 Hf) as Ht.
    destruct (riscv_iommu_process_cq_tail fuel s1); [discriminate|contradiction].
Qed.

Lemma C2_witness :
  mmio_rewritten_word (Z.land RISCV_IOMMU_REG_FCTL (Z.lnot 3)) = false /\
  riscv_iommu_mmio_write 8 s_power_on RISCV_IOMMU_REG_FCTL
    RISCV_IOMMU_FCTL_WSI 4 =
  Some (MEMTX_OK,
        mmio_store s_power_on RISCV_IOMMU_REG_FCTL RISCV_IOMMU_FCTL_WSI 4).
Proof.
  split; [reflexivity|].
  refine (proj1 (proj2 (C2_masked_update_law 8 s_power_on RISCV_IOMMU_REG_FCTL
                          4 RISCV_IOMMU_FCTL_WSI _ _ _ _ _ _)) _).
  - right. right. left. reflexivity.
  - vm_compute. discriminate.
  - reflexivity.
  - vm_compute. discriminate.
  - reflexivity.
  - vm_compute. split; [discriminate|reflexivity].
  - vm_compute. discriminate.
Defined.

(** C3 as stated fails: a fault queue whose head equals (tail+1) & mask
    drops the record without setting FQOF when software has switched the
    queue off, and also when the queue is on with a memory fault pending. *)
Lemma C3_counterexample :
  (fq_mask s_fq2_off = 1 /\ fq_head s_fq2_off = fq_next s_fq2_off /\
   tst (fqcsr s_fq2_off) RISCV_IOMMU_FQCSR_FQON = false /\
   tst (fqcsr (riscv_iommu_fault s_fq2_off ev_b)) RISCV_IOMMU_FQCSR_FQOF = false) /\
  (fq_mask s_fq2_mf = 1 /\ fq_head s_fq2_mf = fq_next s_fq2_mf /\
   tst (fqcsr s_fq2_mf) RISCV_IOMMU_FQCSR_FQON = true /\
   tst (fqcsr s_fq2_mf) RISCV_IOMMU_FQCSR_FQMF = true /\
   tst (fqcsr (riscv_iommu_fault s_fq2_mf ev_b)) RISCV_IOMMU_FQCSR_FQOF = false).
Proof. vm_compute. repeat split; reflexivity. Qed.

(** C3, amended. After any sequence of fault enqueues, page-request
    enqueues and command-queue runs the ring sizes are what they were,
    every head and tail index used to address a ring is below the ring
    size, and the index registers the device writes (FQT, PQT, CQH) stay
    in range; and whenever head = (tail+1) & mask an enqueue writes nothing
    to memory and leaves the tail, raising the overflow bit when the queue
    is on and has no pending memory fault (a queue that is off, or has
    one, drops the record silently). *)
Theorem C3_ring_index_masking
  (s : RISCVIOMMUState) (ops : list queue_op) (s' : RISCVIOMMUState) :
  0 <= cq_mask s -> 0 <= fq_mask s -> 0 <= pq_mask s ->
  run_queue_ops ops s = Some s' ->
  (cq_mask s' = cq_mask s /\ fq_mask s' = fq_mask s /\ pq_mask s' = pq_mask s) /\
  (0 <= fq_head s' < fq_mask s + 1 /\ 0 <= fq_tail s' < fq_mask s + 1 /\
   0 <= fq_next s' < fq_mask s + 1 /\
   0 <= pq_head s' < pq_mask s + 1 /\ 0 <= pq_tail s' < pq_mask s + 1 /\
   0 <= pq_next s' < pq_mask s + 1 /\
   0 <= cq_head s' < cq_mask s + 1 /\ 0 <= cq_tail s' < cq_mask s + 1 /\
   0 <= Z.land (u32 (cq_head s' + 1)) (cq_mask s') < cq_mask s + 1) /\
  (ring_regs_ok s -> ring_regs_ok s') /\
  (forall ev, fq_head s' = fq_next s' ->
     target_as (riscv_iommu_fault s' ev) = target_as s' /\
     riscv_iommu_reg_get32 (riscv_iommu_fault s' ev) RISCV_IOMMU_REG_FQT =
     riscv_iommu_reg_get32 s' RISCV_IOMMU_REG_FQT /\
     (tst (fqcsr s') RISCV_IOMMU_FQCSR_FQON = true ->
      tst (fqcsr s') RISCV_IOMMU_FQCSR_FQMF = false ->
      tst (fqcsr (riscv_iommu_fault s' ev)) RISCV_IOMMU_FQCSR_FQOF = true)) /\
  (forall pr, pq_head s' = pq_next s' ->
     target_as (riscv_iommu_pri s' pr) = target_as s' /\
     riscv_iommu_reg_get32 (riscv_iommu_pri s' pr) RISCV_IOMMU_REG_PQT =
     riscv_iommu_reg_get32 s' RISCV_IOMMU_REG_PQT /\
     (tst (pqcsr s') RISCV_IOMMU_PQCSR_PQON = true ->
      tst (pqcsr s') RISCV_IOMMU_PQCSR_PQMF = false ->
      tst (pqcsr (riscv_iommu_pri s' pr)) RISCV_IOMMU_PQCSR_PQOF = true)).
Proof.
  intros Hc Hf Hp Hrun.
  destruct (run_queue_ops_inv ops s s' Hc Hf Hp Hrun) as [Hg Hk].
  destruct Hg as (_ & Hcm & _ & Hfm & _ & Hpm & _).
  split; [auto|]. split; [|split; [exact Hk|split]].
  - unfold fq_head, fq_tail, fq_next, pq_head, pq_tail, pq_next, cq_head,
      cq_tail. rewrite Hcm, Hfm, Hpm.
    repeat split;
      match goal with
      | |- context [Z.land ?x ?m] => pose proof (land_bound x m); lia
      end.
  - intros ev Hfull.
    destruct (fault_full_no_write s' ev Hfull) as [Hm Ht].
    split; [exact Hm|split; [exact Ht|]]. intros Hon Hmf.
    destruct (tst (fqcsr s') RISCV_IOMMU_FQCSR_FQOF) eqn:Hof.
    + rewrite fault_dropped; [exact Hof|]. right.
      rewrite tst_lor_mask, Hof. reflexivity.
    + assert (Hst : tst (fqcsr s')
                      (Z.lor RISCV_IOMMU_FQCSR_FQOF RISCV_IOMMU_FQCSR_FQMF) = false)
        by (rewrite tst_lor_mask, Hof, Hmf; reflexivity).
      destruct (fault_full s' ev Hon Hst Hfull) as (_ & _ & Hcs).
      rewrite Hcs. apply tst_lor_same. discriminate.
  - intros pr Hfull.
    destruct (pri_full_no_write s' pr Hfull) as [Hm Ht].
    split; [exact Hm|split; [exact Ht|]]. intros Hon Hmf.
    destruct (tst (pqcsr s') RISCV_IOMMU_PQCSR_PQOF) eqn:Hof.
    + rewrite pri_dropped; [exact Hof|]. right.
      rewrite tst_lor_mask, Hof. reflexivity.
    + assert (Hst : tst (pqcsr s')
                      (Z.lor RISCV_IOMMU_PQCSR_PQOF RISCV_IOMMU_PQCSR_PQMF) = false)
        by (rewrite tst_lor_mask, Hof, Hmf; reflexivity).
      destruct (pri_full s' pr Hon Hst Hfull) as (_ & _ & Hcs).
      rewrite Hcs. apply tst_lor_same. discriminate.
Qed.

Lemma C3_witness :
  0 <= fq_mask s_fq2 /\
  exists s',
    run_queue_ops [EnqFault ev_a; EnqPri pr_a; EnqFault ev_b] s_fq2 = Some s' /\
    fq_mask s' = fq_mask s_fq2 /\ 0 <= fq_tail s' < fq_mask s_fq2 + 1.
Proof.
  split; [vm_compute; discriminate|].
  eexists. split; [reflexivity|].
  pose proof (C3_ring_index_masking s_fq2
                [EnqFault ev_a; EnqPri pr_a; EnqFault ev_b] _
                ltac:(vm_compute; discriminate) ltac:(vm_compute; discriminate)
                ltac:(vm_compute; discriminate) eq_refl) as H.
  split; [exact (proj1 (proj2 (proj1 H)))|].
  exact (proj1 (proj2 (proj1 (proj2 H)))).
Defined.

(** C4 as stated fails: on a two-entry fault queue that is on with head
    and tail at 0, the second of three pushes is not stored in slot 1 and
    does not wrap the tail to 0. *)
Lemma C4_counterexample :
  let s1 := riscv_iommu_fault s_fq2 ev_a in
  let s2 := riscv_iommu_fault s1 ev_b in
  let s3 := riscv_iommu_fault s2 ev_c in
  (tst (fqcsr s_fq2) RISCV_IOMMU_FQCSR_FQON = true /\ fq_mask s_fq2 = 1 /\
   riscv_iommu_reg_get32 s_fq2 RISCV_IOMMU_REG_FQH = 0 /\
   riscv_iommu_reg_get32 s_fq2 RISCV_IOMMU_REG_FQT = 0) /\
  ~ (fq_slot s3 0 = Some ev_a /\ fq_slot s3 1 = Some ev_b /\
     riscv_iommu_reg_get32 s2 RISCV_IOMMU_REG_FQT = 0 /\
     tst (fqcsr s3) RISCV_IOMMU_FQCSR_FQOF = true).
Proof.
  intros s1 s2 s3. split.
  - repeat split; vm_compute; reflexivity.
  - intros (_ & H & _). vm_compute in H. discriminate.
Qed.

(** C4, amended. On a fault queue of two entries (mask 1) that is on
    without sticky error, head and tail at 0 and slot 0 backed by memory:
    the first record is stored in slot 0 and the tail becomes 1; the
    second finds head = (tail+1) & mask, is dropped and raises FQOF, the
    tail staying 1 and memory untouched; the third is dropped silently
    with FQOF still set. *)
Theorem C4_fq_overflow_two_entries
  (s : RISCVIOMMUState) (ev1 ev2 ev3 : riscv_iommu_fq_record) :
  fq_mask s = 1 ->
  riscv_iommu_reg_get32 s RISCV_IOMMU_REG_FQH = 0 ->
  riscv_iommu_reg_get32 s RISCV_IOMMU_REG_FQT = 0 ->
  tst (fqcsr s) RISCV_IOMMU_FQCSR_FQON = true ->
  tst (fqcsr s) (Z.lor RISCV_IOMMU_FQCSR_FQOF RISCV_IOMMU_FQCSR_FQMF) = false ->
  backed (target_as s) (fq_addr s) 32 ->
  let s1 := riscv_iommu_fault s ev1 in
  let s2 := riscv_iommu_fault s1 ev2 in
  let s3 := riscv_iommu_fault s2 ev3 in
  (fq_slot s1 0 = Some (fq_record_u64 ev1) /\
   riscv_iommu_reg_get32 s1 RISCV_IOMMU_REG_FQT = 1 /\
   fqcsr s1 = fqcsr s) /\
  (target_as s2 = target_as s1 /\
   riscv_iommu_reg_get32 s2 RISCV_IOMMU_REG_FQT = 1 /\
   tst (fqcsr s2) RISCV_IOMMU_FQCSR_FQOF = true) /\
  s3 = s2 /\
  (forall x, x < fq_addr s \/ fq_addr s + 32 <= x ->
             target_as s3 x = target_as s x).
Proof.
  intros Hmask Hh Ht Hon Hst Hb s1 s2 s3.
  (* first push *)
  assert (Hhead : fq_head s = 0) by (unfold fq_head; rewrite Hh; reflexivity).
  assert (Htail : fq_tail s = 0) by (unfold fq_tail; rewrite Ht; reflexivity).
  assert (Hnext : fq_next s = 1)
    by (unfold fq_next; rewrite Htail, Hmask; reflexivity).
  assert (Hb' : backed (target_as s) (fq_addr s + fq_tail s * 32) 32).
  { rewrite Htail. replace (fq_addr s + 0 * 32) with (fq_addr s) by lia.
    exact Hb. }
  destruct (fault_stored s ev1 Hon Hst ltac:(rewrite Hhead, Hnext; lia) Hb')
    as (Hm1 & Ht1 & Hc1). fold s1 in Hm1, Ht1, Hc1.
  rewrite Htail in Hm1. replace (fq_addr s + 0 * 32) with (fq_addr s) in Hm1 by lia.
  rewrite Hnext in Ht1. change (1 mod 2 ^ 32) with 1 in Ht1.
  destruct (fault_frame s ev1) as (Hg1 & Hr1 & _). fold s1 in Hg1, Hr1.
  assert (Hh1 : riscv_iommu_reg_get32 s1 RISCV_IOMMU_REG_FQH = 0).
  { rewrite <- Hh. apply (reg_get32_same_except _ _ _ _ Hr1).
    apply in3; regs_lia. }
  destruct Hg1 as (_ & _ & Ha1 & Hk1 & _).
  (* second push *)
  assert (Hhead1 : fq_head s1 = 0) by (unfold fq_head; rewrite Hh1; reflexivity).
  assert (Htail1 : fq_tail s1 = 1)
    by (unfold fq_tail; rewrite Ht1, Hk1, Hmask; reflexivity).
  assert (Hnext1 : fq_next s1 = 0)
    by (unfold fq_next; rewrite Htail1, Hk1, Hmask; reflexivity).
  rewrite <- Hc1 in Hon, Hst.
  destruct (fault_full s1 ev2 Hon Hst ltac:(rewrite Hhead1, Hnext1; reflexivity))
    as (Hm2 & Ht2 & Hc2). fold s2 in Hm2, Ht2, Hc2.
  assert (Hof : tst (fqcsr s2) RISCV_IOMMU_FQCSR_FQOF = true).
  { rewrite Hc2. apply tst_lor_same. discriminate. }
  (* third push *)
  assert (H3 : s3 = s2).
  { subst s3. apply fault_dropped. right.
    rewrite tst_lor_mask, Hof. reflexivity. }
  split; [|split; [|split]].
  - split; [|split; assumption].
    unfold fq_slot. rewrite Ha1, Hm1.
    replace (fq_addr s + 0 * 32) with (fq_addr s) by lia.
    change 32%nat with (length (fq_record_bytes ev1)).
    rewrite as_write_read
      by (apply as_write_backed; rewrite fq_record_bytes_length; exact Hb).
    cbn [option_map]. rewrite fq_record_roundtrip. reflexivity.
  - split; [exact Hm2|]. split; [rewrite Ht2; exact Ht1|exact Hof].
  - exact H3.
  - intros x Hx. rewrite H3, Hm2, Hm1. apply as_write_other.
    rewrite fq_record_bytes_length. lia.
Qed.

Lemma C4_witness :
  fq_mask s_fq2 = 1 /\
  riscv_iommu_fault (riscv_iommu_fault (riscv_iommu_fault s_fq2 ev_a) ev_b) ev_c =
  riscv_iommu_fault (riscv_iommu_fault s_fq2 ev_a) ev_b.
Proof.
  assert (H1 : fq_mask s_fq2 = 1) by (vm_compute; reflexivity).
  assert (H2 : riscv_iommu_reg_get32 s_fq2 RISCV_IOMMU_REG_FQH = 0)
    by (vm_compute; reflexivity).
  assert (H3 : riscv_iommu_reg_get32 s_fq2 RISCV_IOMMU_REG_FQT = 0)
    by (vm_compute; reflexivity).
  assert (H4 : tst (fqcsr s_fq2) RISCV_IOMMU_FQCSR_FQON = true)
    by (vm_compute; reflexivity).
  assert (H5 : tst (fqcsr s_fq2)
                 (Z.lor RISCV_IOMMU_FQCSR_FQOF RISCV_IOMMU_FQCSR_FQMF) = false)
    by (vm_compute; reflexivity).
  assert (H6 : backed (target_as s_fq2) (fq_addr s_fq2) 32)
    by (intros x _; vm_compute; discriminate).
  split; [exact H1|].
  exact (proj1 (proj2 (proj2
    (C4_fq_overflow_two_entries s_fq2 ev_a ev_b ev_c H1 H2 H3 H4 H5 H6)))).
Defined.

(** C5 as stated fails: with CQCSR.CIE = 1 but FCTL.WSI selected by
    software, an unknown opcode sets CMD_ILL and leaves CQH at 0, yet
    IPSR.CIP stays 0. *)
Lemma C5_counterexample :
  match riscv_iommu_mmio_write 64 s_cq8_wsi RISCV_IOMMU_REG_CQT 1 4 with
  | Some (MEMTX_OK, s') =>
      tst (cqcsr s_cq8_wsi) RISCV_IOMMU_CQCSR_CIE = true /\
      tst (cqcsr s') RISCV_IOMMU_CQCSR_CMD_ILL = true /\
      riscv_iommu_reg_get32 s' RISCV_IOMMU_REG_CQH = 0 /\
      tst (riscv_iommu_reg_get32 s' RISCV_IOMMU_REG_IPSR)
          RISCV_IOMMU_IPSR_CIP = false
  | _ => False
  end.
Proof. vm_compute. repeat split; reflexivity. Qed.

(** C5, amended. At a turn of the command loop that fetches an illegal
    command (no handler for its key, IOTINVAL.GVMA with PSCV, or
    IODIR.INVAL_PDT without DV) the loop leaves at once: CQCSR.CMD_ILL is
    set and CQH keeps its value; IPSR.CIP becomes 1 provided CQCSR.CIE is
    set, FCTL.WSI is clear and an interrupt callback is installed, and
    IPSR is left as it was otherwise.  When the offending command is the
    first one, this is the result of [riscv_iommu_process_cq_tail]. *)
Theorem C5_cq_illegal_command
  (fuel : nat) (s : RISCVIOMMUState) (ctrl head tail : Z) (l : list byte) :
  tail <> head ->
  dma_memory_read (target_as s) (cq_addr s + head * 16) 16 = (MEMTX_OK, l) ->
  cmd_illegal (command_of_bytes l) = true ->
  exists s',
    cq_loop (S fuel) s ctrl head tail = Some s' /\
    tst (cqcsr s') RISCV_IOMMU_CQCSR_CMD_ILL = true /\
    riscv_iommu_reg_get32 s' RISCV_IOMMU_REG_CQH =
    riscv_iommu_reg_get32 s RISCV_IOMMU_REG_CQH /\
    (tst ctrl RISCV_IOMMU_CQCSR_CIE = true ->
     tst (riscv_iommu_reg_get32 s RISCV_IOMMU_REG_FCTL)
         RISCV_IOMMU_FCTL_WSI = false ->
     notify s = true ->
     tst (riscv_iommu_reg_get32 s' RISCV_IOMMU_REG_IPSR)
         RISCV_IOMMU_IPSR_CIP = true) /\
    (tst ctrl RISCV_IOMMU_CQCSR_CIE = false \/
     tst (riscv_iommu_reg_get32 s RISCV_IOMMU_REG_FCTL)
         RISCV_IOMMU_FCTL_WSI = true \/
     notify s = false ->
     riscv_iommu_reg_get32 s' RISCV_IOMMU_REG_IPSR =
     riscv_iommu_reg_get32 s RISCV_IOMMU_REG_IPSR) /\
    (tst (cqcsr s) RISCV_IOMMU_CQCSR_CQON = true ->
     tst (cqcsr s)
         (Z.lor RISCV_IOMMU_CQCSR_CMD_ILL RISCV_IOMMU_CQCSR_CQMF) = false ->
     ctrl = cqcsr s -> head = cq_head s -> tail = cq_tail s ->
     riscv_iommu_process_cq_tail (S fuel) s = Some s').
Proof.
  intros Hne Hrd Hill. exists (cq_ill_exit s ctrl).
  assert (Hloop : cq_loop (S fuel) s ctrl head tail = Some (cq_ill_exit s ctrl)).
  { cbn [cq_loop]. apply Z.eqb_neq in Hne. rewrite Hne, Hrd.
    rewrite (cq_exec_illegal s _ Hill). reflexivity. }
  destruct (cq_ill_exit_facts s ctrl) as (H1 & H2 & H3 & H4).
  repeat split; try assumption.
  intros Hon Hst -> -> ->. unfold riscv_iommu_process_cq_tail.
  fold (cqcsr s). rewrite Hon, Hst. exact Hloop.
Qed.

Lemma C5_witness :
  cmd_illegal {| dword0 := 0x7f; dword1 := 0 |} = true /\
  exists s',
    cq_loop 1 s_cq8_pending (cqcsr s_cq8_pending) 0 1 = Some s' /\
    tst (cqcsr s') RISCV_IOMMU_CQCSR_CMD_ILL = true /\
    riscv_iommu_reg_get32 s' RISCV_IOMMU_REG_CQH =
    riscv_iommu_reg_get32 s_cq8_pending RISCV_IOMMU_REG_CQH.
Proof.
  split; [reflexivity|].
  destruct (C5_cq_illegal_command 0 s_cq8_pending (cqcsr s_cq8_pending) 0 1
              (le_split 8 0x7f ++ le_split 8 0)) as (s' & H1 & H2 & H3 & _).
  - discriminate.
  - vm_compute. reflexivity.
  - vm_compute. reflexivity.
  - exists s'. auto.
Defined.

(** C6. Processing a DDTP write: on an allowed mode transition the stored
    DDTP is exactly the written PPN field together with the written mode,
    every other bit zero; on any other written mode the prior DDTP is
    kept; so the stored mode only changes along allowed transitions, and
    the register reports the stored value back. *)
Theorem C6_ddtp_mode_transitions (s : RISCVIOMMUState) :
  let w := riscv_iommu_reg_get64 s RISCV_IOMMU_REG_DDTP in
  let old_mode := get_field (ddtp s) RISCV_IOMMU_DDTP_MODE in
  let new_mode := get_field w RISCV_IOMMU_DDTP_MODE in
  let s' := riscv_iommu_process_ddtp s in
  (if ddtp_transition_allowed old_mode new_mode
   then ddtp s' = Z.lor (Z.land w RISCV_IOMMU_DDTP_PPN)
                        (Z.land w RISCV_IOMMU_DDTP_MODE) /\
        get_field (ddtp s') RISCV_IOMMU_DDTP_MODE = new_mode /\
        Z.land (ddtp s')
          (Z.lnot (Z.lor RISCV_IOMMU_DDTP_PPN RISCV_IOMMU_DDTP_MODE)) = 0
   else ddtp s' = ddtp s) /\
  (get_field (ddtp s') RISCV_IOMMU_DDTP_MODE <> old_mode ->
   ddtp_transition_allowed old_mode new_mode = true) /\
  riscv_iommu_reg_get64 s' RISCV_IOMMU_REG_DDTP = ddtp s' mod 2 ^ 64.
Proof.
  intros w old_mode new_mode s'.
  assert (Hd : ddtp s' =
               if ddtp_transition_allowed old_mode new_mode
               then Z.lor (Z.land w RISCV_IOMMU_DDTP_PPN)
                          (Z.land w RISCV_IOMMU_DDTP_MODE)
               else ddtp s).
  { subst s'. unfold riscv_iommu_process_ddtp.
    fold w. fold new_mode. fold old_mode.
    rewrite ddtp_ok_allowed. cbn [riscv_iommu_reg_set64 set_regs_rw set_ddtp ddtp].
    destruct (ddtp_transition_allowed old_mode new_mode); [|reflexivity].
    apply ddtp_sanitized. }
  split; [|split].
  - destruct (ddtp_transition_allowed old_mode new_mode).
    + rewrite Hd. split; [reflexivity|]. split.
      * apply ddtp_sanitized_mode.
      * apply ddtp_sanitized_rest.
    + exact Hd.
  - intros Hne. destruct (ddtp_transition_allowed old_mode new_mode);
      [reflexivity|]. rewrite Hd in Hne. contradiction.
  - subst s'. unfold riscv_iommu_process_ddtp, riscv_iommu_reg_set64,
      riscv_iommu_reg_get64, ldq_le_p, stq_le_p.
    cbn [regs_rw set_regs_rw set_ddtp ddtp]. rewrite ld_st_same. reflexivity.
Qed.

(** C7. With DDTP.MODE = 1LVL + depth, a device_id at or above
    2^(depth*9 + 6 + f), where f = 1 exactly when enable_msi is false and
    depth is not 2, is rejected by the device-context fetch with cause
    TTYPE_BLOCKED before any memory is read. *)
Theorem C7_ctx_fetch_devid_limit
  (s : RISCVIOMMUState) (ctx : RISCVIOMMUContext) (depth : Z) :
  0 <= depth <= 2 ->
  get_field (ddtp s) RISCV_IOMMU_DDTP_MODE = RISCV_IOMMU_DDTP_MODE_1LVL + depth ->
  2 ^ (depth * 9 + 6 +
       (if negb (enable_msi s) && negb (depth =? 2) then 1 else 0))
    <= devid ctx ->
  riscv_iommu_ctx_fetch s ctx = (RISCV_IOMMU_FQ_CAUSE_TTYPE_BLOCKED, ctx).
Proof.
  intros Hd Hmode Hlim. unfold riscv_iommu_ctx_fetch. rewrite Hmode.
  assert (Hc : depth = 0 \/ depth = 1 \/ depth = 2) by lia.
  destruct Hc as [-> | [-> | ->]];
    match goal with
    | |- context [RISCV_IOMMU_DDTP_MODE_1LVL + ?d] =>
        let m := eval cbv in (RISCV_IOMMU_DDTP_MODE_1LVL + d) in
        let dn := eval cbv in (ddt_depth m) in
        change (RISCV_IOMMU_DDTP_MODE_1LVL + d) with m;
        change (m =? RISCV_IOMMU_DDTP_MODE_OFF) with false;
        change (m =? RISCV_IOMMU_DDTP_MODE_BARE) with false;
        change (ddt_depth m) with dn
    end; cbv iota beta; destruct (enable_msi s);
    match goal with
    | |- context [Z.leb ?a (devid ctx)] =>
        replace (Z.leb a (devid ctx)) with true; [reflexivity|]
    end; symmetry; apply Z.leb_le; revert Hlim; clear;
    intros Hlim; vm_compute in Hlim; vm_compute; exact Hlim.
Qed.

Lemma C7_witness :
  riscv_iommu_ctx_fetch s_1lvl (ctx_new 128 0) =
  (RISCV_IOMMU_FQ_CAUSE_TTYPE_BLOCKED, ctx_new 128 0).
Proof.
  apply (C7_ctx_fetch_devid_limit s_1lvl (ctx_new 128 0) 0).
  - lia.
  - reflexivity.
  - vm_compute. discriminate.
Defined.

(** C8. With tc.DTF set, a cause outside the whitelist composes no record
    and leaves the device untouched, so nothing reaches the fault queue.
    A whitelisted cause composes a record carrying that cause and hands it
    to the fault queue: on a queue that is on, without pending error, not
    full and backed by memory at its tail slot, the record is afterwards in
    the slot at the old tail, the other slots and the head are as before,
    and the tail has moved to the next index.  PDT_LOAD_FAULT is outside
    the whitelist, DDT_LOAD_FAULT is inside. *)
Theorem C8_dtf_suppression
  (s : RISCVIOMMUState) (ctx : RISCVIOMMUContext) (fault_type cause : Z)
  (pv : bool) (iotval iotval2 : Z) :
  tst (tc ctx) RISCV_IOMMU_DC_TC_DTF = true ->
  (~ In cause dtf_whitelist ->
   report_fault_record ctx fault_type cause pv iotval iotval2 = None /\
   riscv_iommu_report_fault s ctx fault_type cause pv iotval iotval2 = s) /\
  (In cause dtf_whitelist ->
   exists ev,
     report_fault_record ctx fault_type cause pv iotval iotval2 = Some ev /\
     get_field (fq_hdr ev) RISCV_IOMMU_FQ_HDR_CAUSE = cause mod 2 ^ 12 /\
     riscv_iommu_report_fault s ctx fault_type cause pv iotval iotval2 =
     riscv_iommu_fault s ev /\
     (tst (fqcsr s) RISCV_IOMMU_FQCSR_FQON = true ->
      tst (fqcsr s) (Z.lor RISCV_IOMMU_FQCSR_FQOF RISCV_IOMMU_FQCSR_FQMF)
      = false ->
      fq_head s <> fq_next s ->
      backed (target_as s) (fq_addr s + fq_tail s * 32) 32 ->
      0 <= fq_mask s < 2 ^ 32 ->
      let s' :=
        riscv_iommu_report_fault s ctx fault_type cause pv iotval iotval2 in
      fq_slot s' (fq_tail s) = Some (fq_record_u64 ev) /\
      (forall i, i <> fq_tail s -> fq_slot s' i = fq_slot s i) /\
      fq_tail s' = fq_next s /\ fq_head s' = fq_head s)) /\
  ~ In RISCV_IOMMU_FQ_CAUSE_PDT_LOAD_FAULT dtf_whitelist /\
  In RISCV_IOMMU_FQ_CAUSE_DDT_LOAD_FAULT dtf_whitelist.
Proof.
  intros Hdtf. split; [|split; [|split]].
  - intros Hout. split.
    + unfold report_fault_record. rewrite Hdtf.
      destruct (dtf_reportable cause) eqn:E; [|reflexivity].
      apply dtf_reportable_iff in E. contradiction.
    + unfold riscv_iommu_report_fault, report_fault_record. rewrite Hdtf.
      destruct (dtf_reportable cause) eqn:E; [|reflexivity].
      apply dtf_reportable_iff in E. contradiction.
  - intros Hin. apply dtf_reportable_iff in Hin.
    assert (Hrec : exists ev,
              report_fault_record ctx fault_type cause pv iotval iotval2
              = Some ev /\
              fq_hdr ev = fault_hdr ctx fault_type cause pv).
    { eexists. split.
      - unfold report_fault_record. rewrite Hdtf, Hin. reflexivity.
      - reflexivity. }
    destruct Hrec as (ev & Hrec & Hhdr).
    assert (Hrun : riscv_iommu_report_fault s ctx fault_type cause pv
                     iotval iotval2 = riscv_iommu_fault s ev)
      by (unfold riscv_iommu_report_fault; rewrite Hrec; reflexivity).
    exists ev. split; [exact Hrec|]. split; [|split; [exact Hrun|]].
    + rewrite Hhdr. apply (fault_hdr_cause ctx fault_type cause pv).
    + intros Hon Hst Hnf Hb Hm. cbv zeta. rewrite Hrun.
      pose proof (fault_enqueue s ev Hon Hst Hnf Hb Hm) as H.
      cbv zeta in H. destruct H as (H1 & H2 & H3 & H4 & _).
      split; [exact H1|]. split; [exact H2|]. split; [exact H3|exact H4].
  - rewrite <- dtf_reportable_iff. discriminate.
  - rewrite <- dtf_reportable_iff. reflexivity.
Qed.

Lemma C8_witness :
  tst (tc ctx_dtf) RISCV_IOMMU_DC_TC_DTF = true /\
  riscv_iommu_report_fault s_fq2 ctx_dtf RISCV_IOMMU_FQ_TTYPE_UADDR_RD
    RISCV_IOMMU_FQ_CAUSE_PDT_LOAD_FAULT false 0 0 = s_fq2 /\
  exists ev,
    get_field (fq_hdr ev) RISCV_IOMMU_FQ_HDR_CAUSE =
    RISCV_IOMMU_FQ_CAUSE_DDT_LOAD_FAULT /\
    fq_slot (riscv_iommu_report_fault s_fq2 ctx_dtf
               RISCV_IOMMU_FQ_TTYPE_UADDR_RD
               RISCV_IOMMU_FQ_CAUSE_DDT_LOAD_FAULT false 0 0) (fq_tail s_fq2)
    = Some (fq_record_u64 ev) /\
    fq_tail (riscv_iommu_report_fault s_fq2 ctx_dtf
               RISCV_IOMMU_FQ_TTYPE_UADDR_RD
               RISCV_IOMMU_FQ_CAUSE_DDT_LOAD_FAULT false 0 0) = 1.
Proof.
  assert (Hd : tst (tc ctx_dtf) RISCV_IOMMU_DC_TC_DTF = true)
    by (vm_compute; reflexivity).
  assert (Hout : ~ In RISCV_IOMMU_FQ_CAUSE_PDT_LOAD_FAULT dtf_whitelist)
    by (unfold dtf_whitelist; simpl; intuition discriminate).
  assert (Hin : In RISCV_IOMMU_FQ_CAUSE_DDT_LOAD_FAULT dtf_whitelist)
    by (unfold dtf_whitelist; simpl; auto).
  assert (H1 : tst (fqcsr s_fq2) RISCV_IOMMU_FQCSR_FQON = true)
    by (vm_compute; reflexivity).
  assert (H2 : tst (fqcsr s_fq2)
                 (Z.lor RISCV_IOMMU_FQCSR_FQOF RISCV_IOMMU_FQCSR_FQMF) = false)
    by (vm_compute; reflexivity).
  assert (H3 : fq_head s_fq2 <> fq_next s_fq2) by (vm_compute; discriminate).
  assert (H4 : backed (target_as s_fq2) (fq_addr s_fq2 + fq_tail s_fq2 * 32) 32)
    by (intros x _; vm_compute; discriminate).
  assert (H5 : 0 <= fq_mask s_fq2 < 2 ^ 32)
    by (vm_compute; split; [discriminate|reflexivity]).
  assert (Hn : fq_next s_fq2 = 1) by (vm_compute; reflexivity).
  split; [exact Hd|]. split.
  - exact (proj2 (proj1 (C8_dtf_suppression s_fq2 ctx_dtf
                           RISCV_IOMMU_FQ_TTYPE_UADDR_RD
                           RISCV_IOMMU_FQ_CAUSE_PDT_LOAD_FAULT false 0 0 Hd)
                    Hout)).
  - destruct (proj1 (proj2 (C8_dtf_suppression s_fq2 ctx_dtf
                              RISCV_IOMMU_FQ_TTYPE_UADDR_RD
                              RISCV_IOMMU_FQ_CAUSE_DDT_LOAD_FAULT false 0 0 Hd))
                Hin) as (ev & _ & Hc & _ & Hq).
    specialize (Hq H1 H2 H3 H4 H5). cbv zeta in Hq.
    destruct Hq as (Hs & _ & Ht & _).
    exists ev. split; [exact Hc|]. split; [exact Hs|].
    rewrite Ht. exact Hn.
Defined.

(** C9. Executing IODIR.INVAL_DDT with DV = 1 and DID = d changes nothing
    but the cache; afterwards no cached context of device d is valid, so
    for every process_id the lookup for (d, p) finds no usable entry and
    takes the miss path with a fresh directory walk; a context of any
    other device that was valid in the cache is still returned from it,
    without a walk and without changing the device. *)
Theorem C9_inval_ddt_scope
  (s : RISCVIOMMUState) (cmd : riscv_iommu_command) (d : Z) :
  ctx_cache_wf s ->
  cmd_key cmd = RISCV_IOMMU_CMD RISCV_IOMMU_CMD_IODIR_FUNC_INVAL_DDT
                  RISCV_IOMMU_CMD_IODIR_OPCODE ->
  tst (dword0 cmd) RISCV_IOMMU_CMD_IODIR_DV = true ->
  get_field (dword0 cmd) RISCV_IOMMU_CMD_IODIR_DID = d ->
  exists s',
    cq_exec s cmd = CmdDone s' /\
    s' = riscv_iommu_ctx_inval s __ctx_inval_devid d 0 /\
    (forall k ctx, ctx_cache s' !! k = Some ctx -> devid ctx = d ->
                   tst (tc ctx) RISCV_IOMMU_DC_TC_V = false) /\
    (forall p, ctx_cached s' d p = None /\
               riscv_iommu_ctx s' d p = ctx_walk s' d p) /\
    (forall d' p ctx, d' mod 2 ^ 24 <> d ->
       ctx_cached s d' p = Some ctx ->
       ctx_cached s' d' p = Some ctx /\
       riscv_iommu_ctx s' d' p = (Some ctx, s')).
Proof.
  intros Hwf Hkey Hdv Hdid.
  pose proof (did_field_range (dword0 cmd)) as Hd. rewrite Hdid in Hd.
  assert (Hkd : devid (ctx_new d 0) = d)
    by (cbn [devid ctx_new]; apply Z.mod_small; exact Hd).
  exists (riscv_iommu_ctx_inval s __ctx_inval_devid d 0).
  split; [|split; [reflexivity|split; [|split]]].
  - unfold cq_exec. fold (cmd_key cmd). rewrite Hkey, Hdv, Hdid. reflexivity.
  - intros k ctx. cbn [riscv_iommu_ctx_inval ctx_cache set_ctx_cache].
    rewrite lookup_fmap. destruct (ctx_cache s !! k) as [c0|]; [|discriminate].
    cbn. intros E. injection E as <-. intros Hdev.
    apply ctx_inval_devid_same. rewrite Hkd.
    rewrite <- Hdev. symmetry. apply ctx_inval_devid_ids.
  - intros p.
    assert (Hc : ctx_cached (riscv_iommu_ctx_inval s __ctx_inval_devid d 0) d p
                 = None).
    { unfold ctx_cached. cbn [riscv_iommu_ctx_inval ctx_cache set_ctx_cache].
      rewrite lookup_fmap.
      destruct (ctx_cache s !! (d mod 2 ^ 24, p mod 2 ^ 20)) as [c0|] eqn:E;
        [|reflexivity].
      cbn. apply Hwf in E. injection E as E1 E2.
      rewrite ctx_inval_devid_same; [reflexivity|].
      rewrite Hkd, <- E1. apply Z.mod_small. exact Hd. }
    split; [exact Hc|]. unfold riscv_iommu_ctx. rewrite Hc. reflexivity.
  - intros d' p ctx Hne Hc.
    assert (Hc' : ctx_cached (riscv_iommu_ctx_inval s __ctx_inval_devid d 0) d' p
                  = Some ctx).
    { unfold ctx_cached in *.
      cbn [riscv_iommu_ctx_inval ctx_cache set_ctx_cache].
      rewrite lookup_fmap.
      destruct (ctx_cache s !! (d' mod 2 ^ 24, p mod 2 ^ 20)) as [c0|] eqn:E;
        [|discriminate].
      cbn. apply Hwf in E. injection E as E1 E2.
      rewrite ctx_inval_devid_other; [exact Hc|]. rewrite Hkd. congruence. }
    split; [exact Hc'|]. unfold riscv_iommu_ctx. rewrite Hc'. reflexivity.
Qed.

Lemma C9_witness :
  ctx_cache_wf s_two_cached /\
  ctx_cached s_two_cached 0x100 0 <> None /\
  ctx_cached (riscv_iommu_ctx_inval s_two_cached __ctx_inval_devid 0x100 0)
    0x100 0 = None.
Proof.
  assert (Hwf : ctx_cache_wf s_two_cached)
    by (apply riscv_iommu_ctx_wf, riscv_iommu_ctx_wf, realize_wf).
  split; [exact Hwf|]. split; [vm_compute; discriminate|].
  destruct (C9_inval_ddt_scope s_two_cached cmd_inval_ddt_0x100 0x100 Hwf
              eq_refl eq_refl eq_refl) as (s' & _ & -> & _ & H & _).
  exact (proj1 (H 0)).
Defined.

(** C10. Every fault record composed by [riscv_iommu_report_fault] has
    the header PV bit set, whatever the [pv] argument; [pv = false] only
    leaves the PID field empty, [pv = true] fills it with the process id;
    and this record is the one handed to the fault queue. *)
Theorem C10_fault_record_pv_always_set
  (ctx : RISCVIOMMUContext) (fault_type cause : Z) (pv : bool)
  (iotval iotval2 : Z) (ev : riscv_iommu_fq_record) :
  report_fault_record ctx fault_type cause pv iotval iotval2 = Some ev ->
  get_field (fq_hdr ev) RISCV_IOMMU_FQ_HDR_PV = 1 /\
  (pv = false -> get_field (fq_hdr ev) RISCV_IOMMU_FQ_HDR_PID = 0) /\
  (pv = true ->
   get_field (fq_hdr ev) RISCV_IOMMU_FQ_HDR_PID = process_id ctx mod 2 ^ 20) /\
  (forall s, riscv_iommu_report_fault s ctx fault_type cause pv iotval iotval2 =
             riscv_iommu_fault s ev).
Proof.
  intros H. pose proof (report_fault_record_some _ _ _ _ _ _ _ H) as E.
  subst ev. cbn [fq_hdr]. repeat split.
  - apply fault_hdr_pv.
  - intros ->. apply fault_hdr_pid_absent.
  - intros ->. apply fault_hdr_pid_present.
  - intros s. unfold riscv_iommu_report_fault. rewrite H. reflexivity.
Qed.

Lemma C10_witness :
  report_fault_record (ctx_new 0x100 0) RISCV_IOMMU_FQ_TTYPE_UADDR_RD
    RISCV_IOMMU_FQ_CAUSE_DDT_INVALID false 0 0 =
  Some {| fq_hdr := 0x1000900000102; fq_reserved := 0;
          fq_iotval := 0; fq_iotval2 := 0 |} /\
  get_field 0x1000900000102 RISCV_IOMMU_FQ_HDR_PV = 1.
Proof.
  split; [reflexivity|].
  exact (proj1 (C10_fault_record_pv_always_set (ctx_new 0x100 0)
                  RISCV_IOMMU_FQ_TTYPE_UADDR_RD
                  RISCV_IOMMU_FQ_CAUSE_DDT_INVALID false 0 0 _ eq_refl)).
Defined.

(** * Further properties *)

Section PextFacts.

Lemma tst_1_odd (v : Z) : tst v 1 = Z.odd v.
Proof.
  unfold tst. change 1 with (Z.ones 1) at 1. rewrite Z.land_ones by lia.
  change (2 ^ 1) with 2. rewrite Zmod_odd.
  destruct (Z.odd v); reflexivity.
Qed.

Lemma lor_pow2_add (r j : Z) : 0 <= j -> 0 <= r < 2 ^ j ->
  Z.lor r (2 ^ j) = r + 2 ^ j.
Proof.
  intros Hj Hr.
  assert (H0 : Z.land r (2 ^ j) = 0).
  { rewrite <- (Z.mod_small r (2 ^ j)) by lia.
    rewrite <- Z.land_ones by lia.
    replace (2 ^ j) with (Z.shiftl (Z.ones 1) j)
      by (rewrite Z.shiftl_mul_pow2 by lia; change (Z.ones 1) with 1; lia).
    Z.bitblast. }
  rewrite Z.add_nocarry_lxor by exact H0.
  rewrite Z.lxor_lor by exact H0. reflexivity.
Qed.

Lemma pext_bits_range e : forall val, 0 <= pext_bits e val <= Zpos e.
Proof.
  induction e as [e IH|e IH|]; intros val; cbn [pext_bits].
  - specialize (IH (Z.shiftr val 1)). destruct (Z.odd val); cbn [Z.b2z]; lia.
  - specialize (IH (Z.shiftr val 1)). lia.
  - destruct (Z.odd val); cbn [Z.b2z]; lia.
Qed.

Lemma pext_loop_bits e : forall val ret j,
  0 <= j -> j + Zpos (Pos.size e) <= 64 -> 0 <= ret < 2 ^ j ->
  pext_loop e val ret (2 ^ j) = ret + 2 ^ j * pext_bits e val.
Proof.
  induction e as [e IH|e IH|]; intros val ret j Hj Hs Hr;
    cbn [pext_loop pext_bits Pos.size] in *; rewrite ?tst_1_odd.
  - assert (Hw : u64 (Z.shiftl (2 ^ j) 1) = 2 ^ (j + 1)).
    { unfold u64. rewrite Z.shiftl_mul_pow2 by lia.
      rewrite <- Z.pow_add_r by lia. apply Z.mod_small.
      split; [apply Z.pow_nonneg; lia|apply Z.pow_lt_mono_r; lia]. }
    rewrite Hw.
    assert (Hp : 2 ^ (j + 1) = 2 * 2 ^ j)
      by (rewrite Z.pow_add_r by lia; change (2 ^ 1) with 2; lia).
    assert (Hpj : 0 < 2 ^ j) by (apply Z.pow_pos_nonneg; lia).
    destruct (Z.odd val); cbn [Z.b2z].
    + rewrite lor_pow2_add by lia. rewrite IH by lia. rewrite Hp. lia.
    + rewrite IH by lia. rewrite Hp. lia.
  - rewrite IH by lia. reflexivity.
  - destruct (Z.odd val); cbn [Z.b2z]; [rewrite lor_pow2_add by lia|]; lia.
Qed.

Lemma pos_size_bound (e : positive) : Zpos e < 2 ^ 64 -> Zpos (Pos.size e) <= 64.
Proof.
  intros H. pose proof (Pos.size_le e) as Hle.
  assert (H3 : Zpos (2 ^ Pos.size e) <= Zpos (e~0)) by exact Hle.
  rewrite Pos2Z.inj_pow in H3.
  assert (H4 : 2 ^ Zpos (Pos.size e) < 2 ^ 65).
  { change (2 ^ 65) with (2 * 2 ^ 64). lia. }
  apply Z.pow_lt_mono_r_iff in H4; lia.
Qed.

Lemma pext_u64_bits (val : Z) (e : positive) :
  Zpos e < 2 ^ 64 -> _pext_u64 val (Zpos e) = pext_bits e val.
Proof.
  intros H. unfold _pext_u64. change 1 with (2 ^ 0) at 1.
  rewrite pext_loop_bits; [lia|lia| |lia].
  pose proof (pos_size_bound e H). lia.
Qed.

Lemma pext_loop_masked e : forall val ret rot,
  pext_loop e (Z.land val (Zpos e)) ret rot = pext_loop e val ret rot.
Proof.
  induction e as [e IH|e IH|]; intros val ret rot; cbn [pext_loop];
    rewrite ?tst_1_odd.
  - replace (Z.odd (Z.land val (Z.pos e~1))) with (Z.odd val).
    2:{ rewrite <- !Z.bit0_odd, Z.land_spec. cbn. now rewrite andb_true_r. }
    replace (Z.shiftr (Z.land val (Z.pos e~1)) 1)
      with (Z.land (Z.shiftr val 1) (Zpos e)).
    2:{ rewrite Z.shiftr_land. reflexivity. }
    apply IH.
  - replace (Z.shiftr (Z.land val (Z.pos e~0)) 1)
      with (Z.land (Z.shiftr val 1) (Zpos e)).
    2:{ rewrite Z.shiftr_land. reflexivity. }
    apply IH.
  - replace (Z.odd (Z.land val 1)) with (Z.odd val).
    2:{ rewrite <- !Z.bit0_odd, Z.land_spec. cbn. now rewrite andb_true_r. }
    reflexivity.
Qed.

Lemma pext_bits_ones (n : nat) : forall e val,
  Zpos e = Z.ones (Z.of_nat (S n)) ->
  pext_bits e val = val mod 2 ^ Z.of_nat (S n).
Proof.
  induction n as [|n IH]; intros e val He.
  - change (Z.ones (Z.of_nat 1)) with 1 in He.
    assert (e = xH) by lia. subst e. cbn [pext_bits].
    change (2 ^ Z.of_nat 1) with 2. rewrite Zmod_odd.
    destruct (Z.odd val); reflexivity.
  - rewrite Z.ones_equiv in He.
    replace (Z.of_nat (S (S n))) with (Z.succ (Z.of_nat (S n))) in * by lia.
    rewrite Z.pow_succ_r in * by lia.
    assert (Hp : 2 ^ 1 <= 2 ^ Z.of_nat (S n)) by (apply Z.pow_le_mono_r; lia).
    change (2 ^ 1) with 2 in Hp.
    destruct e as [e|e|];
      [rewrite Pos2Z.inj_xI in He|rewrite Pos2Z.inj_xO in He; lia|lia].
    cbn [pext_bits]. rewrite (IH e).
    2:{ rewrite Z.ones_equiv. lia. }
    rewrite Z.shiftr_div_pow2 by lia. change (2 ^ 1) with 2.
    rewrite Z.rem_mul_r by lia. rewrite (Zmod_odd val).
    destruct (Z.odd val); cbn [Z.b2z]; lia.
Qed.

End PextFacts.

(** X1. Bit extraction under a 64-bit mask looks only at the bits of the
    value that the mask selects, and the packed result is never larger
    than the mask itself. *)
Theorem X1_pext_masked_and_bounded (val ext : Z) :
  0 <= ext < 2 ^ 64 ->
  _pext_u64 (Z.land val ext) ext = _pext_u64 val ext /\
  0 <= _pext_u64 val ext <= ext.
Proof.
  intros H. destruct ext as [|e|e]; [cbn; lia| |lia].
  split.
  - unfold _pext_u64. apply pext_loop_masked.
  - rewrite pext_u64_bits by lia. apply pext_bits_range.
Qed.

Lemma X1_witness :
  _pext_u64 (Z.land 0x503 0xFF) 0xFF = _pext_u64 0x503 0xFF /\
  0 <= _pext_u64 0x503 0xFF <= 0xFF.
Proof. apply (X1_pext_masked_and_bounded 0x503 0xFF). lia. Defined.

(** X2. Under a mask of [k] contiguous low bits the extraction is the
    value modulo 2^k: the selected bits come out in their own order. *)
Theorem X2_pext_low_mask (val k : Z) :
  0 <= k <= 64 -> _pext_u64 val (Z.ones k) = val mod 2 ^ k.
Proof.
  intros Hk. destruct (Z.eq_dec k 0) as [->|Hk0].
  - cbn. now rewrite Z.mod_1_r.
  - assert (Hpos : 0 < Z.ones k).
    { rewrite Z.ones_equiv.
      assert (2 ^ 1 <= 2 ^ k) by (apply Z.pow_le_mono_r; lia). lia. }
    assert (Hlt : Z.ones k < 2 ^ 64).
    { rewrite Z.ones_equiv.
      assert (2 ^ k <= 2 ^ 64) by (apply Z.pow_le_mono_r; lia). lia. }
    destruct (Z.ones k) as [|e|e] eqn:E; [lia| |lia].
    rewrite pext_u64_bits by exact Hlt.
    replace k with (Z.of_nat (S (Z.to_nat (k - 1)))) in * by lia.
    apply pext_bits_ones. symmetry. exact E.
Qed.

Lemma X2_witness : _pext_u64 0x503 (Z.ones 8) = 0x503 mod 2 ^ 8.
Proof. apply (X2_pext_low_mask 0x503 8). lia. Defined.

Section DmaReadFacts.

Lemma dma_read_ok m addr n l :
  dma_memory_read m addr n = (MEMTX_OK, l) -> as_read m addr n = Some l.
Proof.
  unfold dma_memory_read. destruct (as_read m addr n); intros H;
    inversion H; reflexivity.
Qed.

Lemma dma_read_some m addr n l :
  as_read m addr n = Some l -> dma_memory_read m addr n = (MEMTX_OK, l).
Proof. unfold dma_memory_read. intros ->. reflexivity. Qed.

Lemma as_read_backed n : forall m addr l,
  as_read m addr n = Some l -> backed m addr (Z.of_nat n).
Proof.
  induction n as [|n IH]; intros m addr l H x Hx; [lia|].
  cbn [as_read] in H. destruct (m addr) eqn:E; [|discriminate].
  destruct (as_read m (addr + 1) n) eqn:E2; [|discriminate].
  destruct (Z.eq_dec x addr) as [->|Hne]; [congruence|].
  apply (IH m (addr + 1) l0 E2). lia.
Qed.

Lemma as_read_length n : forall m addr l,
  as_read m addr n = Some l -> length l = n.
Proof.
  induction n as [|n IH]; intros m addr l H; cbn [as_read] in H.
  - injection H as <-. reflexivity.
  - destruct (m addr); [|discriminate].
    destruct (as_read m (addr + 1) n) eqn:E; [|discriminate].
    injection H as <-. cbn. f_equal. eapply IH, E.
Qed.

Lemma msi_write_err_not_ok s ctx res cause s' :
  res <> MEMTX_OK -> msi_write_err s ctx res cause <> (MEMTX_OK, s').
Proof. unfold msi_write_err. intros H E. inversion E. contradiction. Qed.

End DmaReadFacts.

Section MsiWriteFacts.

(** What an accepted MSI write went through. *)
Lemma msi_write_ok_inv
  (s s' : RISCVIOMMUState) (ctx : RISCVIOMMUContext) (gpa data : Z) (size : nat) :
  riscv_iommu_msi_write s ctx gpa data size = (MEMTX_OK, s') ->
  riscv_iommu_msi_check ctx gpa = true /\
  _pext_u64 (PPN_DOWN gpa) (msi_addr_mask ctx) < 256 /\
  (exists l,
     as_read (target_as s)
       (Z.lor (PPN_PHYS (get_field (msiptp ctx) RISCV_IOMMU_DC_MSIPTP_PPN))
          (_pext_u64 (PPN_DOWN gpa) (msi_addr_mask ctx) * 16)) 16 = Some l /\
     let pte0 := le_combine (firstn 8 l) in
     tst pte0 RISCV_IOMMU_MSI_PTE_V = true /\
     tst pte0 RISCV_IOMMU_MSI_PTE_C = false /\
     (get_field pte0 RISCV_IOMMU_MSI_PTE_M = RISCV_IOMMU_MSI_PTE_M_BASIC \/
      get_field pte0 RISCV_IOMMU_MSI_PTE_M = RISCV_IOMMU_MSI_PTE_M_MRIF /\
      data <= 2047 /\ tst gpa 3 = false)) /\
  regs_rw s' = regs_rw s /\ ctx_cache s' = ctx_cache s.
Proof.
  unfold riscv_iommu_msi_write.
  destruct (riscv_iommu_msi_check ctx gpa) eqn:Hchk; cbn [negb];
    [|intros H; exfalso; revert H; apply msi_write_err_not_ok; discriminate].
  destruct (Z.leb_spec 256 (_pext_u64 (PPN_DOWN gpa) (msi_addr_mask ctx)))
    as [Hn|Hn];
    [intros H; exfalso; revert H; apply msi_write_err_not_ok; discriminate|].
  destruct (dma_memory_read _ _ 16) as [[| | |] l] eqn:Hrd;
    try (intros H; exfalso; revert H; apply msi_write_err_not_ok; discriminate).
  apply dma_read_ok in Hrd.
  destruct (tst (le_combine (firstn 8 l)) RISCV_IOMMU_MSI_PTE_V) eqn:Hv;
    cbn [negb orb];
    [|intros H; exfalso; revert H; apply msi_write_err_not_ok; discriminate].
  destruct (tst (le_combine (firstn 8 l)) RISCV_IOMMU_MSI_PTE_C) eqn:Hc;
    [intros H; exfalso; revert H; apply msi_write_err_not_ok; discriminate|].
  destruct (Z.eqb_spec (get_field (le_combine (firstn 8 l)) RISCV_IOMMU_MSI_PTE_M)
              RISCV_IOMMU_MSI_PTE_M_BASIC) as [Hb|Hb].
  - destruct (dma_memory_write _ _ _) as [[| | |] m];
      try (intros H; exfalso; revert H; apply msi_write_err_not_ok; discriminate).
    intros H. injection H as <-.
    split; [reflexivity|]. split; [exact Hn|]. split; [|split; reflexivity].
    exists l. split; [exact Hrd|]. cbv zeta. auto.
  - destruct (Z.eqb_spec (get_field (le_combine (firstn 8 l)) RISCV_IOMMU_MSI_PTE_M)
                RISCV_IOMMU_MSI_PTE_M_MRIF) as [Hm|Hm];
      [|intros H; exfalso; revert H; apply msi_write_err_not_ok; discriminate].
    unfold msi_write_mrif.
    destruct (Z.ltb_spec 2047 data) as [Hd|Hd]; cbn [orb];
      [intros H; exfalso; revert H; apply msi_write_err_not_ok; discriminate|].
    destruct (tst gpa 3) eqn:Hal;
      [intros H; exfalso; revert H; apply msi_write_err_not_ok; discriminate|].
    intros H.
    assert (Hfr : regs_rw s' = regs_rw s /\ ctx_cache s' = ctx_cache s).
    { revert H.
      destruct (dma_memory_read _ _ 8) as [[| | |] l1];
        try (intros H; exfalso; revert H; apply msi_write_err_not_ok; discriminate).
      destruct (dma_memory_write _ _ _) as [[| | |] m];
        try (intros H; exfalso; revert H; apply msi_write_err_not_ok; discriminate).
      cbn [target_as set_target_as].
      destruct (dma_memory_read _ _ 8) as [[| | |] l2];
        try (intros H; exfalso; revert H; apply msi_write_err_not_ok; discriminate).
      destruct (negb _).
      - intros H. injection H as <-. split; reflexivity.
      - destruct (dma_memory_write _ _ _) as [[| | |] m2];
          try (intros H; exfalso; revert H; apply msi_write_err_not_ok;
               discriminate).
        intros H. injection H as <-. split; reflexivity. }
    split; [reflexivity|]. split; [exact Hn|]. split; [|exact Hfr].
    exists l. split; [exact Hrd|]. cbv zeta.
    split; [exact Hv|]. split; [exact Hc|]. right. auto.
Qed.

End MsiWriteFacts.

(** X3. An MSI write is accepted only through a valid page table entry:
    whenever [riscv_iommu_msi_write] returns MEMTX_OK, the address matched
    the context's MSI pattern, the interrupt file number is below 256,
    the 16-byte PTE could be read, it has V set and C clear, and its mode
    is basic or MRIF (MRIF only for an identity up to 2047 at a 4-byte
    aligned address).  An accepted write reports no fault: registers and
    the context cache are as before. *)
Theorem X3_msi_write_ok_needs_valid_pte
  (s s' : RISCVIOMMUState) (ctx : RISCVIOMMUContext) (gpa data : Z) (size : nat) :
  riscv_iommu_msi_write s ctx gpa data size = (MEMTX_OK, s') ->
  riscv_iommu_msi_check ctx gpa = true /\
  _pext_u64 (PPN_DOWN gpa) (msi_addr_mask ctx) < 256 /\
  (exists l,
     as_read (target_as s)
       (Z.lor (PPN_PHYS (get_field (msiptp ctx) RISCV_IOMMU_DC_MSIPTP_PPN))
          (_pext_u64 (PPN_DOWN gpa) (msi_addr_mask ctx) * 16)) 16 = Some l /\
     let pte0 := le_combine (firstn 8 l) in
     tst pte0 RISCV_IOMMU_MSI_PTE_V = true /\
     tst pte0 RISCV_IOMMU_MSI_PTE_C = false /\
     (get_field pte0 RISCV_IOMMU_MSI_PTE_M = RISCV_IOMMU_MSI_PTE_M_BASIC \/
      get_field pte0 RISCV_IOMMU_MSI_PTE_M = RISCV_IOMMU_MSI_PTE_M_MRIF /\
      data <= 2047 /\ tst gpa 3 = false)) /\
  regs_rw s' = regs_rw s /\ ctx_cache s' = ctx_cache s.
Proof. apply msi_write_ok_inv. Qed.

Lemma X3_witness :
  fst (riscv_iommu_msi_write s_msi ctx_msi gpa_msi 0xDEAD 4) = MEMTX_OK /\
  riscv_iommu_msi_check ctx_msi gpa_msi = true /\
  _pext_u64 (PPN_DOWN gpa_msi) (msi_addr_mask ctx_msi) < 256.
Proof.
  assert (H : riscv_iommu_msi_write s_msi ctx_msi gpa_msi 0xDEAD 4 =
              (MEMTX_OK, snd (riscv_iommu_msi_write s_msi ctx_msi gpa_msi 0xDEAD 4))).
  { apply injective_projections; [vm_compute; reflexivity|reflexivity]. }
  pose proof (X3_msi_write_ok_needs_valid_pte _ _ _ _ _ _ H) as (H1 & H2 & _).
  split; [rewrite H; reflexivity|]. split; assumption.
Defined.

(** X4. MRIF mode sets the pending bit of the interrupt identity and
    nothing else: for an identity up to 2047 written at an aligned address
    through a valid MRIF entry whose interrupt file is backed by memory and
    whose enable bit for that identity is clear, the write is accepted,
    the doubleword at MRIF_ADDR<<9 | ((data & 0x7c0) >> 3) becomes its
    previous value with bit (data & 0x3f) set, every other byte of memory
    and all registers keep their value. *)
Theorem X4_msi_mrif_sets_pending_bit
  (s : RISCVIOMMUState) (ctx : RISCVIOMMUContext) (gpa data : Z) (size : nat)
  (l old en : list byte) :
  riscv_iommu_msi_check ctx gpa = true ->
  _pext_u64 (PPN_DOWN gpa) (msi_addr_mask ctx) < 256 ->
  as_read (target_as s)
    (Z.lor (PPN_PHYS (get_field (msiptp ctx) RISCV_IOMMU_DC_MSIPTP_PPN))
       (_pext_u64 (PPN_DOWN gpa) (msi_addr_mask ctx) * 16)) 16 = Some l ->
  tst (le_combine (firstn 8 l)) RISCV_IOMMU_MSI_PTE_V = true ->
  tst (le_combine (firstn 8 l)) RISCV_IOMMU_MSI_PTE_C = false ->
  get_field (le_combine (firstn 8 l)) RISCV_IOMMU_MSI_PTE_M =
  RISCV_IOMMU_MSI_PTE_M_MRIF ->
  data <= 2047 -> tst gpa 3 = false ->
  let addr :=
    Z.lor (Z.shiftl (get_field (le_combine (firstn 8 l))
                       RISCV_IOMMU_MSI_PTE_MRIF_ADDR) 9)
          (Z.shiftr (Z.land data 0x7c0) 3) in
  let bit := Z.shiftl 1 (Z.land data 0x03f) in
  as_read (target_as s) addr 8 = Some old ->
  as_read (target_as s) (addr + 8) 8 = Some en ->
  tst (le_combine en) bit = false ->
  exists s',
    riscv_iommu_msi_write s ctx gpa data size = (MEMTX_OK, s') /\
    option_map le_combine (as_read (target_as s') addr 8) =
    Some (Z.lor (le_combine old) bit) /\
    (forall x, x < addr \/ addr + 8 <= x -> target_as s' x = target_as s x) /\
    regs_rw s' = regs_rw s.
Proof.
  intros Hchk Hn Hpte Hv Hc Hm Hd Hal addr bit Hold Hen Hoff.
  pose proof (as_read_backed _ _ _ _ Hold) as Hb.
  set (m1 := snd (as_write (target_as s) addr
                    (le_split 8 (Z.lor (le_combine old) bit)))).
  exists (set_target_as s m1).
  assert (Hen1 : as_read m1 (addr + 8) 8 = Some en).
  { rewrite <- Hen. apply as_read_ext. intros x Hx. unfold m1.
    apply as_write_other. rewrite le_split_length. lia. }
  split; [|split; [|split]].
  - unfold riscv_iommu_msi_write. rewrite Hchk. cbn [negb].
    destruct (Z.leb_spec 256 (_pext_u64 (PPN_DOWN gpa) (msi_addr_mask ctx)));
      [lia|].
    rewrite (dma_read_some _ _ _ _ Hpte). rewrite Hv, Hc. cbn [negb orb].
    rewrite Hm. change (RISCV_IOMMU_MSI_PTE_M_MRIF =? RISCV_IOMMU_MSI_PTE_M_BASIC)
      with false. cbv iota. rewrite Z.eqb_refl.
    unfold msi_write_mrif. rewrite Hal.
    destruct (Z.ltb_spec 2047 data); [lia|]. cbn [orb].
    fold addr. fold bit. rewrite (dma_read_some _ _ _ _ Hold).
    rewrite dma_memory_write_backed
      by (rewrite le_split_length; exact Hb).
    fold m1. cbn [target_as set_target_as].
    rewrite (dma_read_some _ _ _ _ Hen1). rewrite Hoff. reflexivity.
  - cbn [target_as set_target_as]. unfold m1.
    pose proof (as_write_read (le_split 8 (Z.lor (le_combine old) bit))
                  (target_as s) addr) as Hr.
    rewrite le_split_length in Hr. rewrite Hr.
    2:{ apply as_write_backed. rewrite le_split_length. exact Hb. }
    cbn [option_map]. f_equal. rewrite le_combine_split.
    change (8 * Z.of_nat 8) with 64.
    pose proof (le_combine_range old) as Ho.
    rewrite (as_read_length _ _ _ _ Hold) in Ho. change (8 * Z.of_nat 8) with 64 in Ho.
    apply lor_mod_small; [lia|exact Ho|].
    unfold bit. rewrite Z.shiftl_mul_pow2, Z.mul_1_l
      by (apply Z.land_nonneg; right; lia).
    assert (Hr6 : 0 <= Z.land data 63 <= 63) by (apply land_bound; lia).
    split; [apply Z.pow_nonneg; lia|apply Z.pow_lt_mono_r; lia].
  - intros x Hx. cbn [target_as set_target_as]. unfold m1.
    apply as_write_other. rewrite le_split_length. lia.
  - reflexivity.
Qed.

Lemma X4_witness :
  fst (riscv_iommu_msi_write s_mrif ctx_msi gpa_msi 5 4) = MEMTX_OK /\
  option_map le_combine
    (as_read (target_as (snd (riscv_iommu_msi_write s_mrif ctx_msi gpa_msi 5 4)))
       0x300000 8) = Some 32.
Proof.
  assert (H1 : riscv_iommu_msi_check ctx_msi gpa_msi = true)
    by (vm_compute; reflexivity).
  assert (H2 : _pext_u64 (PPN_DOWN gpa_msi) (msi_addr_mask ctx_msi) < 256)
    by (vm_compute; reflexivity).
  assert (H3 : as_read (target_as s_mrif)
                 (Z.lor (PPN_PHYS (get_field (msiptp ctx_msi)
                                     RISCV_IOMMU_DC_MSIPTP_PPN))
                    (_pext_u64 (PPN_DOWN gpa_msi) (msi_addr_mask ctx_msi) * 16))
                 16 = Some (le_split 8 msi_pte_mrif ++ le_split 8 0))
    by (vm_compute; reflexivity).
  assert (H4 : tst (le_combine (firstn 8 (le_split 8 msi_pte_mrif ++ le_split 8 0)))
                 RISCV_IOMMU_MSI_PTE_V = true) by (vm_compute; reflexivity).
  assert (H5 : tst (le_combine (firstn 8 (le_split 8 msi_pte_mrif ++ le_split 8 0)))
                 RISCV_IOMMU_MSI_PTE_C = false) by (vm_compute; reflexivity).
  assert (H6 : get_field
                 (le_combine (firstn 8 (le_split 8 msi_pte_mrif ++ le_split 8 0)))
                 RISCV_IOMMU_MSI_PTE_M = RISCV_IOMMU_MSI_PTE_M_MRIF)
    by (vm_compute; reflexivity).
  assert (H7 : 5 <= 2047) by lia.
  assert (H8 : tst gpa_msi 3 = false) by (vm_compute; reflexivity).
  destruct (X4_msi_mrif_sets_pending_bit s_mrif ctx_msi gpa_msi 5 4 _
              (le_split 8 0) (le_split 8 0) H1 H2 H3 H4 H5 H6 H7 H8)
    as (s' & Hw & Hr & _).
  - vm_compute. reflexivity.
  - vm_compute. reflexivity.
  - vm_compute. reflexivity.
  - rewrite Hw. cbn [fst snd]. split; [reflexivity|]. exact Hr.
Defined.

Section FetchFacts.

Lemma ddt_walk_fault_nonzero depth : forall m fmt did addr c,
  ddt_walk m fmt did depth addr = WalkFault c -> c <> 0.
Proof.
  induction depth as [|d IH]; intros m fmt did addr c; cbn [ddt_walk];
    [discriminate|].
  destruct (dma_memory_read _ _ _) as [[| | |] l];
    try (intros H; injection H as <-; discriminate).
  destruct (negb _); [intros H; injection H as <-; discriminate|].
  destruct (tst _ _); [intros H; injection H as <-; discriminate|].
  apply IH.
Qed.

Lemma pdt_walk_fault_nonzero depth : forall m pid addr c,
  pdt_walk m pid depth addr = WalkFault c -> c <> 0.
Proof.
  induction depth as [|d IH]; intros m pid addr c; cbn [pdt_walk];
    [discriminate|].
  destruct (dma_memory_read _ _ _) as [[| | |] l];
    try (intros H; injection H as <-; discriminate).
  destruct (negb _); [intros H; injection H as <-; discriminate|].
  apply IH.
Qed.

(** The process directory step succeeds only for process 0 when PDTV is
    clear, and changes nothing but [ta]. *)
Lemma ctx_fetch_pdt_ok s ctx mode addr ctx' :
  ctx_fetch_pdt s ctx mode addr = (0, ctx') ->
  tc ctx' = tc ctx /\ msiptp ctx' = msiptp ctx /\
  (tst (tc ctx) RISCV_IOMMU_DC_TC_PDTV = false -> process_id ctx = 0).
Proof.
  unfold ctx_fetch_pdt.
  destruct (tst (tc ctx) RISCV_IOMMU_DC_TC_PDTV) eqn:Hp; cbn [negb].
  - destruct (_ <? _); [intros H; inversion H|].
    destruct (pdt_walk _ _ _ _) as [c|a] eqn:Hw.
    + intros H. injection H as Hc0 _. apply pdt_walk_fault_nonzero in Hw.
      contradiction.
    + destruct (dma_memory_read _ _ _) as [[| | |] l];
        try solve [intros H; inversion H].
      cbn [ta ctx_set_ta]. destruct (negb _); [intros H; inversion H|].
      destruct (negb _); [intros H; inversion H|].
      intros H. injection H as <-. cbn. repeat split. discriminate.
  - destruct (Z.eqb_spec (process_id ctx) 0) as [E|E]; cbn [negb];
      [|intros H; inversion H].
    intros H. injection H as <-. auto.
Qed.

(** A fetch that reports no fault leaves a valid context that passed the
    device-context checks. *)
Lemma ctx_fetch_ok s ctx ctx' :
  riscv_iommu_ctx_fetch s ctx = (0, ctx') ->
  tst (tc ctx') RISCV_IOMMU_DC_TC_V = true /\
  riscv_iommu_validate_device_ctx s ctx' = true /\
  (get_field (ddtp s) RISCV_IOMMU_DDTP_MODE <> RISCV_IOMMU_DDTP_MODE_BARE ->
   tst (tc ctx') RISCV_IOMMU_DC_TC_PDTV = false -> process_id ctx = 0).
Proof.
  unfold riscv_iommu_ctx_fetch.
  destruct (Z.eqb_spec (get_field (ddtp s) RISCV_IOMMU_DDTP_MODE)
              RISCV_IOMMU_DDTP_MODE_OFF) as [E0|E0]; [intros H; inversion H|].
  destruct (Z.eqb_spec (get_field (ddtp s) RISCV_IOMMU_DDTP_MODE)
              RISCV_IOMMU_DDTP_MODE_BARE) as [E1|E1].
  - intros H. injection H as <-. split; [reflexivity|]. split; [|contradiction].
    unfold riscv_iommu_validate_device_ctx. cbn [tc msiptp ctx_set_msiptp
      ctx_set_ta ctx_set_tc].
    change (tst RISCV_IOMMU_DC_TC_V RISCV_IOMMU_DC_TC_EN_PRI) with false.
    change (tst RISCV_IOMMU_DC_TC_V RISCV_IOMMU_DC_TC_PRPR) with false.
    change (tst RISCV_IOMMU_DC_TC_V RISCV_IOMMU_DC_TC_T2GPA) with false.
    change (tst RISCV_IOMMU_DC_TC_V RISCV_IOMMU_DC_TC_SBE) with false.
    change (get_field 0 RISCV_IOMMU_DC_MSIPTP_MODE) with 0.
    cbn. rewrite !andb_false_r. reflexivity.
  - destruct (ddt_depth _) as [depth|]; [|intros H; inversion H].
    destruct (_ <=? _); [intros H; inversion H|].
    unfold ctx_fetch_dc.
    destruct (ddt_walk _ _ _ _ _) as [c|a] eqn:Hw.
    + intros H. injection H as Hc0 _. apply ddt_walk_fault_nonzero in Hw.
      contradiction.
    + destruct (dma_memory_read _ _ _) as [[| | |] l];
        try solve [intros H; inversion H].
      cbn [tc]. destruct (tst (dc_word l 0) RISCV_IOMMU_DC_TC_V) eqn:Hv;
        cbn [negb]; [|intros H; inversion H].
      match goal with
      | |- context [riscv_iommu_validate_device_ctx s ?c] =>
          set (c0 := c) in *;
          destruct (riscv_iommu_validate_device_ctx s c0) eqn:Hval
      end; cbn [negb]; [|intros H; inversion H].
      intros H. apply ctx_fetch_pdt_ok in H. destruct H as (Ht & Hm & Hp).
      split; [rewrite Ht; exact Hv|]. split.
      * unfold riscv_iommu_validate_device_ctx in *. rewrite Ht, Hm.
        exact Hval.
      * intros _ Hpd. rewrite Ht in Hpd. apply Hp. exact Hpd.
Qed.

End FetchFacts.

Section CacheSizeFacts.

Lemma ctx_cached_after_insert s c cache d p :
  devid c = d mod 2 ^ 24 -> process_id c = p mod 2 ^ 20 ->
  tst (tc c) RISCV_IOMMU_DC_TC_V = true ->
  ctx_cached (set_ctx_cache s (<[(devid c, process_id c) := c]> cache)) d p =
  Some c.
Proof.
  intros Hd Hp Hv. unfold ctx_cached. cbn [ctx_cache set_ctx_cache].
  rewrite <- Hd, <- Hp. rewrite lookup_insert_eq. rewrite Hv. reflexivity.
Qed.

End CacheSizeFacts.

(** X5. A directory walk that succeeds yields a usable context: it keeps
    the identifiers it was asked for, has tc.V set, passes the device
    context checks (so SBE is clear, and PRPR implies EN_PRI), and outside
    BARE mode a device without a process directory (PDTV clear) is only
    ever given process 0. *)
Theorem X5_ctx_fetch_success_is_valid
  (s : RISCVIOMMUState) (ctx ctx' : RISCVIOMMUContext) :
  riscv_iommu_ctx_fetch s ctx = (0, ctx') ->
  devid ctx' = devid ctx /\ process_id ctx' = process_id ctx /\
  tst (tc ctx') RISCV_IOMMU_DC_TC_V = true /\
  riscv_iommu_validate_device_ctx s ctx' = true /\
  tst (tc ctx') RISCV_IOMMU_DC_TC_SBE = false /\
  (tst (tc ctx') RISCV_IOMMU_DC_TC_PRPR = true ->
   tst (tc ctx') RISCV_IOMMU_DC_TC_EN_PRI = true) /\
  (get_field (ddtp s) RISCV_IOMMU_DDTP_MODE <> RISCV_IOMMU_DDTP_MODE_BARE ->
   tst (tc ctx') RISCV_IOMMU_DC_TC_PDTV = false -> process_id ctx = 0).
Proof.
  intros H. pose proof (ctx_fetch_ids s ctx) as (Hd & Hp).
  rewrite H in Hd, Hp. cbn [snd] in Hd, Hp.
  destruct (ctx_fetch_ok s ctx ctx' H) as (Hv & Hval & Hpd).
  repeat split; try assumption.
  - unfold riscv_iommu_validate_device_ctx in Hval.
    destruct (negb _ && tst (tc ctx') RISCV_IOMMU_DC_TC_PRPR); [discriminate|].
    destruct (negb _ && _); [discriminate|].
    destruct (tst (cap s) _ && _); [discriminate|].
    destruct (tst (tc ctx') RISCV_IOMMU_DC_TC_SBE); [discriminate|reflexivity].
  - intros Hpr. unfold riscv_iommu_validate_device_ctx in Hval.
    rewrite Hpr in Hval.
    destruct (tst (tc ctx') RISCV_IOMMU_DC_TC_EN_PRI); [reflexivity|discriminate].
Qed.

Lemma X5_witness :
  riscv_iommu_ctx_fetch s_bare (ctx_new 0x100 0) =
  (0, ctx_set_tc (ctx_new 0x100 0) RISCV_IOMMU_DC_TC_V) /\
  tst (tc (ctx_set_tc (ctx_new 0x100 0) RISCV_IOMMU_DC_TC_V))
    RISCV_IOMMU_DC_TC_V = true.
Proof.
  assert (H : riscv_iommu_ctx_fetch s_bare (ctx_new 0x100 0) =
              (0, ctx_set_tc (ctx_new 0x100 0) RISCV_IOMMU_DC_TC_V))
    by (vm_compute; reflexivity).
  split; [exact H|].
  exact (proj1 (proj2 (proj2 (X5_ctx_fetch_success_is_valid _ _ _ H)))).
Defined.

(** X6. Looking a context up is idempotent: once [riscv_iommu_ctx] has
    returned a context for a device and process, asking again in the
    resulting state returns the same context from the cache and changes
    nothing. *)
Theorem X6_ctx_lookup_idempotent
  (s s' : RISCVIOMMUState) (d p : Z) (ctx : RISCVIOMMUContext) :
  riscv_iommu_ctx s d p = (Some ctx, s') ->
  ctx_cached s' d p = Some ctx /\
  riscv_iommu_ctx s' d p = (Some ctx, s').
Proof.
  intros H.
  assert (Hc : ctx_cached s' d p = Some ctx).
  { revert H. unfold riscv_iommu_ctx.
    destruct (ctx_cached s d p) as [c|] eqn:Hc.
    - intros H. injection H as <- <-. exact Hc.
    - unfold ctx_walk.
      pose proof (ctx_fetch_ids s (ctx_new d p)) as (Hd & Hp).
      destruct (riscv_iommu_ctx_fetch s (ctx_new d p)) as [fault c] eqn:Hf.
      cbn [snd] in Hd, Hp.
      destruct (Z.eqb_spec fault 0) as [->|Hne]; [|intros H; inversion H].
      intros H. injection H as <- <-.
      apply ctx_cached_after_insert; [exact Hd|exact Hp|].
      apply (ctx_fetch_ok s _ _ Hf). }
  split; [exact Hc|]. unfold riscv_iommu_ctx. rewrite Hc. reflexivity.
Qed.

Lemma X6_witness :
  fst (riscv_iommu_ctx s_bare 0x100 0) =
  Some (ctx_set_tc (ctx_new 0x100 0) RISCV_IOMMU_DC_TC_V) /\
  ctx_cached (snd (riscv_iommu_ctx s_bare 0x100 0)) 0x100 0 =
  Some (ctx_set_tc (ctx_new 0x100 0) RISCV_IOMMU_DC_TC_V).
Proof.
  assert (H : riscv_iommu_ctx s_bare 0x100 0 =
              (Some (ctx_set_tc (ctx_new 0x100 0) RISCV_IOMMU_DC_TC_V),
               snd (riscv_iommu_ctx s_bare 0x100 0))).
  { apply injective_projections; [vm_compute; reflexivity|reflexivity]. }
  split; [rewrite H; reflexivity|].
  exact (proj1 (X6_ctx_lookup_idempotent _ _ _ _ _ H)).
Defined.

(** X7. The context cache never holds more than LIMIT_CACHE_CTX (128)
    entries: a lookup adds at most one entry and starts from an empty
    table once the limit is reached, a failed lookup leaves the cache as
    it is, and an invalidation sweep keeps every entry in place. *)
Theorem X7_ctx_cache_bounded
  (s : RISCVIOMMUState) (d p : Z) (func : GHFunc) :
  (size (ctx_cache s) <= LIMIT_CACHE_CTX)%nat ->
  (size (ctx_cache (snd (riscv_iommu_ctx s d p))) <= LIMIT_CACHE_CTX)%nat /\
  (fst (riscv_iommu_ctx s d p) = None ->
   ctx_cache (snd (riscv_iommu_ctx s d p)) = ctx_cache s) /\
  size (ctx_cache (riscv_iommu_ctx_inval s func d p)) = size (ctx_cache s).
Proof.
  intros Hs. split; [|split].
  - unfold riscv_iommu_ctx. destruct (ctx_cached s d p); [exact Hs|].
    unfold ctx_walk.
    destruct (riscv_iommu_ctx_fetch s (ctx_new d p)) as [fault c].
    destruct (fault =? 0); cbn [snd].
    + cbn [ctx_cache set_ctx_cache].
      destruct (Nat.leb_spec LIMIT_CACHE_CTX (size (ctx_cache s))) as [Hl|Hl].
      * rewrite map_size_insert, lookup_empty, map_size_empty.
        unfold LIMIT_CACHE_CTX. lia.
      * rewrite map_size_insert.
        unfold LIMIT_CACHE_CTX in *. destruct (ctx_cache s !! _); unfold id; lia.
    + rewrite report_fault_ctx_cache. exact Hs.
  - unfold riscv_iommu_ctx. destruct (ctx_cached s d p); [discriminate|].
    unfold ctx_walk.
    destruct (riscv_iommu_ctx_fetch s (ctx_new d p)) as [fault c].
    destruct (fault =? 0); cbn [fst snd]; [discriminate|].
    intros _. apply report_fault_ctx_cache.
  - cbn [riscv_iommu_ctx_inval ctx_cache set_ctx_cache].
    apply map_size_fmap.
Qed.

Lemma X7_witness :
  (size (ctx_cache s_two_cached) <= LIMIT_CACHE_CTX)%nat /\
  (size (ctx_cache (snd (riscv_iommu_ctx s_two_cached 0x300 0)))
   <= LIMIT_CACHE_CTX)%nat.
Proof.
  assert (H : (size (ctx_cache s_two_cached) <= LIMIT_CACHE_CTX)%nat)
    by (vm_compute; lia).
  split; [exact H|].
  exact (proj1 (X7_ctx_cache_bounded s_two_cached 0x300 0 __ctx_inval_all H)).
Defined.

Section InvalFacts.

Lemma ctx_inval_all_invalid ctx arg :
  tst (tc (__ctx_inval_all ctx arg)) RISCV_IOMMU_DC_TC_V = false.
Proof.
  unfold __ctx_inval_all.
  destruct (tst (tc ctx) RISCV_IOMMU_DC_TC_V) eqn:E;
    [apply clear_tc_v_invalid|exact E].
Qed.

Lemma ctx_inval_devid_procid_same ctx arg :
  devid ctx = devid arg -> process_id ctx = process_id arg ->
  tst (tc (__ctx_inval_devid_procid ctx arg)) RISCV_IOMMU_DC_TC_V = false.
Proof.
  intros H1 H2. unfold __ctx_inval_devid_procid.
  rewrite H1, H2, !Z.eqb_refl, !andb_true_r.
  destruct (tst (tc ctx) RISCV_IOMMU_DC_TC_V) eqn:E;
    [apply clear_tc_v_invalid|exact E].
Qed.

Lemma ctx_inval_devid_procid_other ctx arg :
  (devid ctx, process_id ctx) <> (devid arg, process_id arg) ->
  __ctx_inval_devid_procid ctx arg = ctx.
Proof.
  intros H. unfold __ctx_inval_devid_procid.
  destruct (Z.eqb_spec (devid ctx) (devid arg)) as [E1|E1];
    [|rewrite andb_false_r; reflexivity].
  destruct (Z.eqb_spec (process_id ctx) (process_id arg)) as [E2|E2];
    [|rewrite andb_false_r; reflexivity].
  exfalso. apply H. congruence.
Qed.

Lemma pid_field_range (w : Z) :
  0 <= get_field w RISCV_IOMMU_CMD_IODIR_PID < 2 ^ 20.
Proof.
  change RISCV_IOMMU_CMD_IODIR_PID with (GENMASK 31 12).
  rewrite get_field_genmask by lia. change (31 - 12 + 1) with 20.
  rewrite Z.land_ones by lia. apply Z.mod_pos_bound. lia.
Qed.

End InvalFacts.

(** X8. IODIR.INVAL_DDT with DV clear invalidates the whole context
    cache: the command completes, afterwards no device and process finds a
    cached context (every lookup walks the directory again), while the
    table keeps its entries, and registers and memory are untouched. *)
Theorem X8_inval_ddt_all_contexts
  (s : RISCVIOMMUState) (cmd : riscv_iommu_command) :
  cmd_key cmd = RISCV_IOMMU_CMD RISCV_IOMMU_CMD_IODIR_FUNC_INVAL_DDT
                  RISCV_IOMMU_CMD_IODIR_OPCODE ->
  tst (dword0 cmd) RISCV_IOMMU_CMD_IODIR_DV = false ->
  exists s',
    cq_exec s cmd = CmdDone s' /\
    (forall d p, ctx_cached s' d p = None /\
                 riscv_iommu_ctx s' d p = ctx_walk s' d p) /\
    size (ctx_cache s') = size (ctx_cache s) /\
    regs_rw s' = regs_rw s /\ target_as s' = target_as s.
Proof.
  intros Hkey Hdv.
  exists (riscv_iommu_ctx_inval s __ctx_inval_all
            (get_field (dword0 cmd) RISCV_IOMMU_CMD_IODIR_DID) 0).
  split; [|split; [|split; [|split; reflexivity]]].
  - unfold cq_exec. fold (cmd_key cmd). rewrite Hkey, Hdv. reflexivity.
  - intros d p.
    match goal with
    | |- ctx_cached ?s1 d p = None /\ _ =>
        assert (Hc : ctx_cached s1 d p = None)
    end.
    { unfold ctx_cached. cbn [riscv_iommu_ctx_inval ctx_cache set_ctx_cache].
      rewrite lookup_fmap.
      destruct (ctx_cache s !! (d mod 2 ^ 24, p mod 2 ^ 20)) as [c0|];
        [|reflexivity].
      cbn. rewrite ctx_inval_all_invalid. reflexivity. }
    split; [exact Hc|]. unfold riscv_iommu_ctx. rewrite Hc. reflexivity.
  - cbn [riscv_iommu_ctx_inval ctx_cache set_ctx_cache]. apply map_size_fmap.
Qed.

Lemma X8_witness :
  ctx_cached s_two_cached 0x200 0 <> None /\
  exists s',
    cq_exec s_two_cached
      {| dword0 := RISCV_IOMMU_CMD RISCV_IOMMU_CMD_IODIR_FUNC_INVAL_DDT
                     RISCV_IOMMU_CMD_IODIR_OPCODE;
         dword1 := 0 |} = CmdDone s' /\
    ctx_cached s' 0x200 0 = None.
Proof.
  split; [vm_compute; discriminate|].
  destruct (X8_inval_ddt_all_contexts s_two_cached
              {| dword0 := RISCV_IOMMU_CMD RISCV_IOMMU_CMD_IODIR_FUNC_INVAL_DDT
                             RISCV_IOMMU_CMD_IODIR_OPCODE;
                 dword1 := 0 |} eq_refl eq_refl) as (s' & H1 & H2 & _).
  exists s'. split; [exact H1|]. exact (proj1 (H2 0x200 0)).
Defined.

(** X9. IODIR.INVAL_PDT with DV set invalidates exactly one context: the
    command completes, the context of device DID and process PID is no
    longer found, and every other cached context is still returned from
    the cache. *)
Theorem X9_inval_pdt_one_context
  (s : RISCVIOMMUState) (cmd : riscv_iommu_command) (d p : Z) :
  ctx_cache_wf s ->
  cmd_key cmd = RISCV_IOMMU_CMD RISCV_IOMMU_CMD_IODIR_FUNC_INVAL_PDT
                  RISCV_IOMMU_CMD_IODIR_OPCODE ->
  tst (dword0 cmd) RISCV_IOMMU_CMD_IODIR_DV = true ->
  get_field (dword0 cmd) RISCV_IOMMU_CMD_IODIR_DID = d ->
  get_field (dword0 cmd) RISCV_IOMMU_CMD_IODIR_PID = p ->
  exists s',
    cq_exec s cmd = CmdDone s' /\
    ctx_cached s' d p = None /\
    (forall d' p' ctx, (d' mod 2 ^ 24, p' mod 2 ^ 20) <> (d, p) ->
       ctx_cached s d' p' = Some ctx ->
       ctx_cached s' d' p' = Some ctx /\
       riscv_iommu_ctx s' d' p' = (Some ctx, s')) /\
    regs_rw s' = regs_rw s /\ target_as s' = target_as s.
Proof.
  intros Hwf Hkey Hdv Hdid Hpid.
  pose proof (did_field_range (dword0 cmd)) as Hd. rewrite Hdid in Hd.
  pose proof (pid_field_range (dword0 cmd)) as Hp. rewrite Hpid in Hp.
  assert (Hkd : devid (ctx_new d p) = d)
    by (cbn [devid ctx_new]; apply Z.mod_small; exact Hd).
  assert (Hkp : process_id (ctx_new d p) = p)
    by (cbn [process_id ctx_new]; apply Z.mod_small; exact Hp).
  exists (riscv_iommu_ctx_inval s __ctx_inval_devid_procid d p).
  split; [|split; [|split; [|split; reflexivity]]].
  - unfold cq_exec. fold (cmd_key cmd). rewrite Hkey, Hdv, Hdid, Hpid.
    reflexivity.
  - unfold ctx_cached. cbn [riscv_iommu_ctx_inval ctx_cache set_ctx_cache].
    rewrite lookup_fmap.
    destruct (ctx_cache s !! (d mod 2 ^ 24, p mod 2 ^ 20)) as [c0|] eqn:E;
      [|reflexivity].
    cbn. apply Hwf in E. injection E as E1 E2.
    rewrite ctx_inval_devid_procid_same; [reflexivity| |].
    + rewrite Hkd, <- E1. apply Z.mod_small. exact Hd.
    + rewrite Hkp, <- E2. apply Z.mod_small. exact Hp.
  - intros d' p' ctx Hne Hc.
    match goal with
    | |- ctx_cached ?s1 d' p' = _ /\ _ =>
        assert (Hc' : ctx_cached s1 d' p' = Some ctx)
    end.
    { unfold ctx_cached in *.
      cbn [riscv_iommu_ctx_inval ctx_cache set_ctx_cache].
      rewrite lookup_fmap.
      destruct (ctx_cache s !! (d' mod 2 ^ 24, p' mod 2 ^ 20)) as [c0|] eqn:E;
        [|discriminate].
      cbn. apply Hwf in E.
      rewrite ctx_inval_devid_procid_other; [exact Hc|].
      rewrite Hkd, Hkp, <- E. exact Hne. }
    split; [exact Hc'|]. unfold riscv_iommu_ctx. rewrite Hc'. reflexivity.
Qed.

Lemma X9_witness :
  ctx_cache_wf s_two_cached /\
  ctx_cached s_two_cached 0x100 0 <> None /\
  ctx_cached
    (riscv_iommu_ctx_inval s_two_cached __ctx_inval_devid_procid 0x100 0)
    0x100 0 = None.
Proof.
  assert (Hwf : ctx_cache_wf s_two_cached).
  { unfold s_two_cached. apply riscv_iommu_ctx_wf, riscv_iommu_ctx_wf.
    apply realize_wf. }
  split; [exact Hwf|]. split; [vm_compute; discriminate|].
  destruct (X9_inval_pdt_one_context s_two_cached cmd_inval_pdt_0x100 0x100 0
              Hwf eq_refl eq_refl eq_refl eq_refl) as (s' & H1 & H2 & _).
  injection H1 as <-. exact H2.
Defined.

(** X10. IOFENCE.C with AV set stores its 32-bit DATA field at the
    address in the second command word: with those four bytes backed by
    memory the command completes, the word reads back as DATA, and no
    other byte of memory and no register changes. *)
Theorem X10_iofence_writes_data
  (s : RISCVIOMMUState) (cmd : riscv_iommu_command) :
  cmd_key cmd = RISCV_IOMMU_CMD RISCV_IOMMU_CMD_IOFENCE_FUNC_C
                  RISCV_IOMMU_CMD_IOFENCE_OPCODE ->
  tst (dword0 cmd) RISCV_IOMMU_CMD_IOFENCE_AV = true ->
  backed (target_as s) (dword1 cmd) 4 ->
  exists s',
    cq_exec s cmd = CmdDone s' /\
    mem32 s' (dword1 cmd) =
    Some (get_field (dword0 cmd) RISCV_IOMMU_CMD_IOFENCE_DATA) /\
    (forall x, x < dword1 cmd \/ dword1 cmd + 4 <= x ->
               target_as s' x = target_as s x) /\
    regs_rw s' = regs_rw s /\ ctx_cache s' = ctx_cache s.
Proof.
  intros Hkey Hav Hb.
  set (data := u32 (get_field (dword0 cmd) RISCV_IOMMU_CMD_IOFENCE_DATA)).
  assert (Hdata : data = get_field (dword0 cmd) RISCV_IOMMU_CMD_IOFENCE_DATA).
  { unfold data, u32. apply Z.mod_small.
    change RISCV_IOMMU_CMD_IOFENCE_DATA with (GENMASK 63 32).
    rewrite get_field_genmask by lia. change (63 - 32 + 1) with 32.
    rewrite Z.land_ones by lia. apply Z.mod_pos_bound. lia. }
  exists (set_target_as s
            (snd (as_write (target_as s) (dword1 cmd) (le_split 4 data)))).
  split; [|split; [|split; [|split; reflexivity]]].
  - unfold cq_exec. fold (cmd_key cmd). rewrite Hkey, Hav.
    rewrite Z.eqb_refl.
    unfold riscv_iommu_iofence. cbn [negb]. fold data.
    rewrite dma_memory_write_backed by (rewrite le_split_length; exact Hb).
    reflexivity.
  - unfold mem32. cbn [target_as set_target_as].
    pose proof (as_write_read (le_split 4 data) (target_as s) (dword1 cmd)) as Hr.
    rewrite le_split_length in Hr. rewrite Hr.
    2:{ apply as_write_backed. rewrite le_split_length. exact Hb. }
    cbn [option_map]. f_equal. rewrite le_combine_split.
    rewrite <- Hdata. unfold data, u32. change (8 * Z.of_nat 4) with 32.
    apply Z.mod_mod. lia.
  - intros x Hx. cbn [target_as set_target_as].
    apply as_write_other. rewrite le_split_length. lia.
Qed.

Lemma X10_witness :
  exists s',
    cq_exec s_power_on cmd_iofence_av = CmdDone s' /\
    mem32 s' 0x6000 = Some 0xCAFE.
Proof.
  assert (Hb : backed (target_as s_power_on) (dword1 cmd_iofence_av) 4)
    by (intros x _; vm_compute; discriminate).
  destruct (X10_iofence_writes_data s_power_on cmd_iofence_av eq_refl eq_refl Hb)
    as (s' & H1 & H2 & _).
  exists s'. split; [exact H1|exact H2].
Defined.

Section ModFacts.

(** Bit [n] of a register after [riscv_iommu_reg_mod32]. *)
Lemma tst_mod32_bit (x clr set n : Z) :
  0 <= n < 32 ->
  tst (Z.lor (Z.land x (Z.lnot clr)) set mod 2 ^ 32) (Z.shiftl 1 n) =
  (Z.testbit x n && negb (Z.testbit clr n)) || Z.testbit set n.
Proof.
  intros Hn. rewrite tst_bit by lia. rewrite <- Z.land_ones by lia.
  rewrite Z.land_spec, Z.lor_spec, Z.land_spec, Z.lnot_spec by lia.
  rewrite Z.ones_spec_low by lia. apply andb_true_r.
Qed.

Lemma reg_mod32_tst s idx set clr n :
  0 <= n < 32 ->
  tst (riscv_iommu_reg_get32 (snd (riscv_iommu_reg_mod32 s idx set clr)) idx)
      (Z.shiftl 1 n) =
  (Z.testbit (riscv_iommu_reg_get32 s idx) n && negb (Z.testbit clr n))
  || Z.testbit set n.
Proof. intros Hn. rewrite reg_mod32_get32. apply tst_mod32_bit. exact Hn. Qed.

End ModFacts.

Section ConsumeFacts.






End ConsumeFacts.



(** Reads a register through the stores stacked on top of it. *)
Ltac reg_read :=
  unfold riscv_iommu_reg_get32, riscv_iommu_reg_get64, ldl_le_p, ldq_le_p,
    stl_le_p, stq_le_p in *;
  st_simpl;
  repeat (rewrite ld_st_disjoint by (cbn; regs_lia));
  rewrite ?ld_st_same.

(** Evaluates the bits of constants in a hypothesis, then tidies it. *)
Ltac eval_testbits H :=
  repeat match type of H with
         | context [Z.testbit ?a ?b] =>
             let v := eval cbv in (Z.testbit a b) in
             change (Z.testbit a b) with v in H
         end;
  cbn [negb andb orb] in H;
  rewrite ?andb_false_r, ?andb_true_r, ?orb_false_r, ?orb_true_r in H.

Section ControlFacts.

Lemma log2sz_range (w : Z) : 0 <= get_field w RISCV_IOMMU_CQB_LOG2SZ < 32.
Proof.
  change RISCV_IOMMU_CQB_LOG2SZ with (GENMASK 4 0).
  rewrite get_field_genmask by lia. change (4 - 0 + 1) with 5.
  rewrite Z.land_ones by lia. apply Z.mod_pos_bound. lia.
Qed.

(** The mask latched when a queue is enabled: [(2 << LOG2SZ) - 1]. *)
Lemma queue_mask_value (k : Z) :
  0 <= k < 32 -> u32 (Z.shiftl 2 k - 1) = 2 ^ (k + 1) - 1.
Proof.
  intros Hk. rewrite Z.shiftl_mul_pow2 by lia.
  rewrite Z.pow_add_r by lia. change (2 ^ 1) with 2.
  assert (0 < 2 ^ k) by (apply Z.pow_pos_nonneg; lia).
  assert (2 ^ k <= 2 ^ 31) by (apply Z.pow_le_mono_r; lia).
  unfold u32. rewrite Z.mod_small; lia.
Qed.

Lemma tst_testbit (x n : Z) : 0 <= n -> Z.testbit x n = tst x (Z.shiftl 1 n).
Proof. intros H. symmetry. apply tst_bit. exact H. Qed.

End ControlFacts.

(** X12. Enabling the command queue (CQEN set while CQON is clear)
    latches the ring from CQB: the mask becomes 2^(LOG2SZ+1) - 1 and the
    base PPN << 12, head and tail are reset to 0, CQON is set with CQEN
    and CIE kept, BUSY and the error bits CQMF, CMD_ILL, CMD_TO and
    FENCE_W_IP are cleared, and only the index bits of CQT stay writable.
    The queue starts empty: processing the tail does nothing. *)
Theorem X12_cq_enable_latches_ring (s : RISCVIOMMUState) :
  tst (cqcsr s) RISCV_IOMMU_CQCSR_CQEN = true ->
  tst (cqcsr s) RISCV_IOMMU_CQCSR_CQON = false ->
  let base := riscv_iommu_reg_get64 s RISCV_IOMMU_REG_CQB in
  let k := get_field base RISCV_IOMMU_CQB_LOG2SZ in
  let s' := riscv_iommu_process_cq_control s in
  0 <= k < 32 /\
  cq_mask s' = 2 ^ (k + 1) - 1 /\
  cq_addr s' = PPN_PHYS (get_field base RISCV_IOMMU_CQB_PPN) /\
  riscv_iommu_reg_get32 s' RISCV_IOMMU_REG_CQH = 0 /\
  riscv_iommu_reg_get32 s' RISCV_IOMMU_REG_CQT = 0 /\
  tst (cqcsr s') RISCV_IOMMU_CQCSR_CQON = true /\
  tst (cqcsr s') RISCV_IOMMU_CQCSR_CQEN = true /\
  tst (cqcsr s') RISCV_IOMMU_CQCSR_CIE = tst (cqcsr s) RISCV_IOMMU_CQCSR_CIE /\
  tst (cqcsr s')
    (Z.lor RISCV_IOMMU_CQCSR_BUSY
       (Z.lor RISCV_IOMMU_CQCSR_CQMF
          (Z.lor RISCV_IOMMU_CQCSR_CMD_ILL
             (Z.lor RISCV_IOMMU_CQCSR_CMD_TO RISCV_IOMMU_CQCSR_FENCE_W_IP))))
  = false /\
  ldl_le_p (regs_ro s') RISCV_IOMMU_REG_CQT = Z.lnot (cq_mask s') mod 2 ^ 32 /\
  (forall fuel, riscv_iommu_process_cq_tail (S fuel) s' = Some s').
Proof.
  intros Hen Hon base k s'.
  pose proof (log2sz_range base) as Hk. fold k in Hk.
  pose (clr := Z.lor RISCV_IOMMU_CQCSR_BUSY
                 (Z.lor RISCV_IOMMU_CQCSR_CQMF
                    (Z.lor RISCV_IOMMU_CQCSR_CMD_ILL
                       (Z.lor RISCV_IOMMU_CQCSR_CMD_TO
                          RISCV_IOMMU_CQCSR_FENCE_W_IP)))).
  pose (s4 := set_regs_rw
                (set_regs_rw
                   (set_regs_ro
                      (set_cq s (PPN_PHYS (get_field base RISCV_IOMMU_CQB_PPN))
                         (u32 (Z.shiftl 2 k - 1)))
                      (stl_le_p (regs_ro s) RISCV_IOMMU_REG_CQT
                         (Z.lnot (u32 (Z.shiftl 2 k - 1)))))
                   (stl_le_p (regs_rw s) RISCV_IOMMU_REG_CQH 0))
                (stl_le_p (stl_le_p (regs_rw s) RISCV_IOMMU_REG_CQH 0)
                   RISCV_IOMMU_REG_CQT 0)).
  assert (Hs' : s' = snd (riscv_iommu_reg_mod32 s4 RISCV_IOMMU_REG_CQCSR
                            RISCV_IOMMU_CQCSR_CQON clr)).
  { subst s' s4 clr. unfold riscv_iommu_process_cq_control. fold (cqcsr s).
    rewrite Hen, Hon. reflexivity. }
  clearbody s'. subst s'.
  set (s5 := snd (riscv_iommu_reg_mod32 s4 RISCV_IOMMU_REG_CQCSR
                    RISCV_IOMMU_CQCSR_CQON clr)).
  assert (H4 : riscv_iommu_reg_get32 s4 RISCV_IOMMU_REG_CQCSR = cqcsr s).
  { unfold cqcsr, s4. reg_read. reflexivity. }
  assert (Hbit : forall n, 0 <= n < 32 ->
            tst (cqcsr s5) (Z.shiftl 1 n) =
            (tst (cqcsr s) (Z.shiftl 1 n) && negb (Z.testbit clr n))
            || Z.testbit RISCV_IOMMU_CQCSR_CQON n).
  { intros n Hn. unfold cqcsr at 1, s5. rewrite reg_mod32_tst by exact Hn.
    rewrite H4. rewrite tst_testbit by lia. reflexivity. }
  assert (Hmask : cq_mask s5 = 2 ^ (k + 1) - 1)
    by (unfold s5, s4; st_simpl; apply queue_mask_value; exact Hk).
  assert (Hcqh : riscv_iommu_reg_get32 s5 RISCV_IOMMU_REG_CQH = 0)
    by (unfold s5, s4; reg_read; reflexivity).
  assert (Hcqt : riscv_iommu_reg_get32 s5 RISCV_IOMMU_REG_CQT = 0)
    by (unfold s5, s4; reg_read; reflexivity).
  pose proof (Hbit 16 ltac:(lia)) as Hb16.
  pose proof (Hbit 0 ltac:(lia)) as Hb0.
  pose proof (Hbit 1 ltac:(lia)) as Hb1.
  pose proof (Hbit 17 ltac:(lia)) as Hb17.
  pose proof (Hbit 8 ltac:(lia)) as Hb8.
  pose proof (Hbit 9 ltac:(lia)) as Hb9.
  pose proof (Hbit 10 ltac:(lia)) as Hb10.
  pose proof (Hbit 11 ltac:(lia)) as Hb11.
  change (Z.shiftl 1 16) with RISCV_IOMMU_CQCSR_CQON in Hb16.
  change (Z.shiftl 1 0) with RISCV_IOMMU_CQCSR_CQEN in Hb0.
  change (Z.shiftl 1 1) with RISCV_IOMMU_CQCSR_CIE in Hb1.
  change (Z.shiftl 1 17) with RISCV_IOMMU_CQCSR_BUSY in Hb17.
  change (Z.shiftl 1 8) with RISCV_IOMMU_CQCSR_CQMF in Hb8.
  change (Z.shiftl 1 9) with RISCV_IOMMU_CQCSR_CMD_TO in Hb9.
  change (Z.shiftl 1 10) with RISCV_IOMMU_CQCSR_CMD_ILL in Hb10.
  change (Z.shiftl 1 11) with RISCV_IOMMU_CQCSR_FENCE_W_IP in Hb11.
  eval_testbits Hb16. eval_testbits Hb0. eval_testbits Hb1.
  eval_testbits Hb17. eval_testbits Hb8. eval_testbits Hb9.
  eval_testbits Hb10. eval_testbits Hb11.
  rewrite Hen in Hb0.
  split; [exact Hk|]. split; [exact Hmask|]. split; [reflexivity|].
  split; [exact Hcqh|]. split; [exact Hcqt|]. split; [exact Hb16|].
  split; [exact Hb0|]. split; [exact Hb1|]. split; [|split].
  - rewrite !tst_lor_mask, Hb17, Hb8, Hb9, Hb10, Hb11. reflexivity.
  - unfold s5, s4. cbn [regs_ro riscv_iommu_reg_mod32 snd set_regs_rw cq_mask
                        set_regs_ro set_cq].
    unfold ldl_le_p, stl_le_p. rewrite ld_st_same. reflexivity.
  - intros fuel. unfold riscv_iommu_process_cq_tail. fold (cqcsr s5).
    rewrite Hb16, tst_lor_mask, Hb10, Hb8. cbn [negb orb].
    rewrite Hcqh, Hcqt. cbn [cq_loop]. rewrite Z.eqb_refl. reflexivity.
Qed.

Lemma X12_witness :
  cq_mask (riscv_iommu_process_cq_control s_cq_armed) = 2 ^ (2 + 1) - 1 /\
  tst (cqcsr (riscv_iommu_process_cq_control s_cq_armed))
    RISCV_IOMMU_CQCSR_CQON = true.
Proof.
  assert (H1 : tst (cqcsr s_cq_armed) RISCV_IOMMU_CQCSR_CQEN = true)
    by (vm_compute; reflexivity).
  assert (H2 : tst (cqcsr s_cq_armed) RISCV_IOMMU_CQCSR_CQON = false)
    by (vm_compute; reflexivity).
  pose proof (X12_cq_enable_latches_ring s_cq_armed H1 H2) as H.
  cbv zeta in H. destruct H as (_ & Hm & _ & _ & _ & Ho & _).
  split; [exact Hm|exact Ho].
Defined.

Section EnqueueFacts.

Lemma pq_record_roundtrip pr :
  pq_record_of_bytes (pq_record_bytes pr) = pq_record_u64 pr.
Proof.
  unfold pq_record_of_bytes, pq_record_bytes, pq_record_u64, u64.
  rewrite <- !(le_combine_split 8). reflexivity.
Qed.

Lemma as_write_unbacked bs : forall m addr,
  unbacked m addr (Z.of_nat (length bs)) -> fst (as_write m addr bs) = false.
Proof.
  induction bs as [|b t IH]; intros m addr (x & Hx & Hn).
  - cbn in Hx. lia.
  - cbn [as_write length] in *. destruct (m addr) eqn:E; [|reflexivity].
    apply IH. exists x. destruct (Z.eqb_spec x addr) as [->|Hne];
      [congruence|]. split; [lia|exact Hn].
Qed.

Lemma dma_memory_write_unbacked m addr bs :
  unbacked m addr (Z.of_nat (length bs)) ->
  fst (dma_memory_write m addr bs) = MEMTX_DECODE_ERROR.
Proof.
  intros H. unfold dma_memory_write.
  pose proof (as_write_unbacked bs m addr H) as Hf.
  destruct (as_write m addr bs) as [[|] m']; [discriminate|reflexivity].
Qed.

(** The same for a page request taken in by the page-request queue. *)
Lemma pri_enqueue s pr :
  tst (pqcsr s) RISCV_IOMMU_PQCSR_PQON = true ->
  tst (pqcsr s) (Z.lor RISCV_IOMMU_PQCSR_PQOF RISCV_IOMMU_PQCSR_PQMF) = false ->
  pq_head s <> pq_next s ->
  backed (target_as s) (pq_addr s + pq_tail s * 16) 16 ->
  0 <= pq_mask s < 2 ^ 32 ->
  let s' := riscv_iommu_pri s pr in
  pq_slot s' (pq_tail s) = Some (pq_record_u64 pr) /\
  (forall i, i <> pq_tail s -> pq_slot s' i = pq_slot s i) /\
  pq_tail s' = pq_next s /\ pq_head s' = pq_head s /\ pqcsr s' = pqcsr s.
Proof.
  intros Hon Hst Hnf Hb Hm s'.
  pose proof (pri_stored s pr Hon Hst Hnf Hb) as (Hmem & Ht & Hc).
  pose proof (pri_frame s pr) as (Hg & Hr & _).
  fold s' in Hmem, Ht, Hc, Hg, Hr.
  assert (Ha : pq_addr s' = pq_addr s) by apply Hg.
  assert (Hk : pq_mask s' = pq_mask s) by apply Hg.
  split; [|split; [|split; [|split]]].
  - unfold pq_slot. rewrite Hmem, Ha.
    pose proof (as_write_read (pq_record_bytes pr) (target_as s)
                  (pq_addr s + pq_tail s * 16)) as Hrd.
    rewrite pq_record_bytes_length in Hrd. rewrite Hrd.
    + cbn [option_map]. rewrite pq_record_roundtrip. reflexivity.
    + apply as_write_backed. rewrite pq_record_bytes_length. exact Hb.
  - intros i Hi. unfold pq_slot. rewrite Hmem, Ha. f_equal.
    apply as_read_ext. intros x Hx. apply as_write_other.
    rewrite pq_record_bytes_length. lia.
  - unfold pq_tail at 1. rewrite Ht, Hk. unfold pq_next.
    apply land_land_mod. exact Hm.
  - unfold pq_head. rewrite Hk. f_equal.
    apply (reg_get32_same_except _ _ _ _ Hr). apply in3; regs_lia.
  - exact Hc.
Qed.

Lemma land_1_ones (k : Z) : 0 <= k -> Z.land 1 (2 ^ (k + 1) - 1) = 1.
Proof.
  intros Hk. replace (2 ^ (k + 1) - 1) with (Z.ones (k + 1))
    by (rewrite Z.ones_equiv; lia).
  rewrite Z.land_ones by lia. apply Z.mod_small.
  assert (2 ^ 1 <= 2 ^ (k + 1)) by (apply Z.pow_le_mono_r; lia).
  change (2 ^ 1) with 2 in *. lia.
Qed.

End EnqueueFacts.

(** X13. A fault record taken in by the fault queue can be read back: on
    a queue that is on, without pending error, not full, whose tail slot is
    backed by memory, [riscv_iommu_fault] leaves the record (its four
    64-bit words) in the slot at the old tail, leaves every other slot as
    it was, advances the tail to the next index and keeps the head and
    FQCSR. *)
Theorem X13_fault_record_roundtrip
  (s : RISCVIOMMUState) (ev : riscv_iommu_fq_record) :
  tst (fqcsr s) RISCV_IOMMU_FQCSR_FQON = true ->
  tst (fqcsr s) (Z.lor RISCV_IOMMU_FQCSR_FQOF RISCV_IOMMU_FQCSR_FQMF) = false ->
  fq_head s <> fq_next s ->
  backed (target_as s) (fq_addr s + fq_tail s * 32) 32 ->
  0 <= fq_mask s < 2 ^ 32 ->
  let s' := riscv_iommu_fault s ev in
  fq_slot s' (fq_tail s) = Some (fq_record_u64 ev) /\
  (forall i, i <> fq_tail s -> fq_slot s' i = fq_slot s i) /\
  fq_tail s' = fq_next s /\ fq_head s' = fq_head s /\ fqcsr s' = fqcsr s.
Proof. apply fault_enqueue. Qed.

Lemma X13_witness :
  fq_slot (riscv_iommu_fault s_fq2 ev_a) (fq_tail s_fq2) = Some ev_a /\
  fq_tail (riscv_iommu_fault s_fq2 ev_a) = 1.
Proof.
  assert (H1 : tst (fqcsr s_fq2) RISCV_IOMMU_FQCSR_FQON = true)
    by (vm_compute; reflexivity).
  assert (H2 : tst (fqcsr s_fq2)
                 (Z.lor RISCV_IOMMU_FQCSR_FQOF RISCV_IOMMU_FQCSR_FQMF) = false)
    by (vm_compute; reflexivity).
  assert (H3 : fq_head s_fq2 <> fq_next s_fq2) by (vm_compute; discriminate).
  assert (H4 : backed (target_as s_fq2) (fq_addr s_fq2 + fq_tail s_fq2 * 32) 32)
    by (intros x _; vm_compute; discriminate).
  assert (H5 : 0 <= fq_mask s_fq2 < 2 ^ 32)
    by (vm_compute; split; [discriminate|reflexivity]).
  pose proof (X13_fault_record_roundtrip s_fq2 ev_a H1 H2 H3 H4 H5) as H.
  cbv zeta in H. destruct H as (Ha & _ & Hb & _).
  split; [exact Ha|exact Hb].
Defined.

(** X14. The same round trip for page requests: a record taken in by a
    page-request queue that is on, without pending error, not full, whose
    tail slot is backed, reads back (two 64-bit words) from the slot at the
    old tail; the other slots, the head and PQCSR stay, and the tail moves
    to the next index. *)
Theorem X14_page_request_roundtrip
  (s : RISCVIOMMUState) (pr : riscv_iommu_pq_record) :
  tst (pqcsr s) RISCV_IOMMU_PQCSR_PQON = true ->
  tst (pqcsr s) (Z.lor RISCV_IOMMU_PQCSR_PQOF RISCV_IOMMU_PQCSR_PQMF) = false ->
  pq_head s <> pq_next s ->
  backed (target_as s) (pq_addr s + pq_tail s * 16) 16 ->
  0 <= pq_mask s < 2 ^ 32 ->
  let s' := riscv_iommu_pri s pr in
  pq_slot s' (pq_tail s) = Some (pq_record_u64 pr) /\
  (forall i, i <> pq_tail s -> pq_slot s' i = pq_slot s i) /\
  pq_tail s' = pq_next s /\ pq_head s' = pq_head s /\ pqcsr s' = pqcsr s.
Proof. apply pri_enqueue. Qed.

Lemma X14_witness :
  pq_slot (riscv_iommu_pri s_pq2 pr_a) (pq_tail s_pq2) = Some pr_a /\
  pq_tail (riscv_iommu_pri s_pq2 pr_a) = 1.
Proof.
  assert (H1 : tst (pqcsr s_pq2) RISCV_IOMMU_PQCSR_PQON = true)
    by (vm_compute; reflexivity).
  assert (H2 : tst (pqcsr s_pq2)
                 (Z.lor RISCV_IOMMU_PQCSR_PQOF RISCV_IOMMU_PQCSR_PQMF) = false)
    by (vm_compute; reflexivity).
  assert (H3 : pq_head s_pq2 <> pq_next s_pq2) by (vm_compute; discriminate).
  assert (H4 : backed (target_as s_pq2) (pq_addr s_pq2 + pq_tail s_pq2 * 16) 16)
    by (intros x _; vm_compute; discriminate).
  assert (H5 : 0 <= pq_mask s_pq2 < 2 ^ 32)
    by (vm_compute; split; [discriminate|reflexivity]).
  pose proof (X14_page_request_roundtrip s_pq2 pr_a H1 H2 H3 H4 H5) as H.
  cbv zeta in H. destruct H as (Ha & _ & Hb & _).
  split; [exact Ha|exact Hb].
Defined.

(** X15. A fault record that cannot be stored is not lost silently: on
    a queue that is on, without pending error and not full, when some byte
    of the tail slot has no memory behind it, [riscv_iommu_fault] sets
    FQCSR.FQMF and leaves the tail where it was, and from then on every
    further record is dropped without any change until software clears the
    error. *)
Theorem X15_fault_queue_memory_fault
  (s : RISCVIOMMUState) (ev : riscv_iommu_fq_record) :
  tst (fqcsr s) RISCV_IOMMU_FQCSR_FQON = true ->
  tst (fqcsr s) (Z.lor RISCV_IOMMU_FQCSR_FQOF RISCV_IOMMU_FQCSR_FQMF) = false ->
  fq_head s <> fq_next s ->
  unbacked (target_as s) (fq_addr s + fq_tail s * 32) 32 ->
  let s' := riscv_iommu_fault s ev in
  tst (fqcsr s') RISCV_IOMMU_FQCSR_FQMF = true /\
  riscv_iommu_reg_get32 s' RISCV_IOMMU_REG_FQT =
  riscv_iommu_reg_get32 s RISCV_IOMMU_REG_FQT /\
  (forall ev', riscv_iommu_fault s' ev' = s').
Proof.
  intros Hon Hst Hnf Hu s'.
  assert (Hw : fst (dma_memory_write (target_as s) (fq_addr s + fq_tail s * 32)
                      (fq_record_bytes ev)) = MEMTX_DECODE_ERROR)
    by (apply dma_memory_write_unbacked; exact Hu).
  assert (Hs' : exists m,
             s' = (if tst (fqcsr s) RISCV_IOMMU_FQCSR_FIE
                   then riscv_iommu_notify
                          (snd (riscv_iommu_reg_mod32 (set_target_as s m)
                                  RISCV_IOMMU_REG_FQCSR RISCV_IOMMU_FQCSR_FQMF 0))
                          RISCV_IOMMU_INTR_FQ
                   else snd (riscv_iommu_reg_mod32 (set_target_as s m)
                               RISCV_IOMMU_REG_FQCSR RISCV_IOMMU_FQCSR_FQMF 0))).
  { subst s'. unfold riscv_iommu_fault. fold (fqcsr s). rewrite Hon, Hst.
    cbn [negb orb]. fold (fq_head s). fold (fq_tail s). fold (fq_next s).
    apply Z.eqb_neq in Hnf. rewrite Hnf.
    destruct (dma_memory_write _ _ _) as [r m]. cbn [fst] in Hw. subst r.
    exists m. reflexivity. }
  destruct Hs' as (m & Hs'). clearbody s'.
  set (s1 := snd (riscv_iommu_reg_mod32 (set_target_as s m)
                    RISCV_IOMMU_REG_FQCSR RISCV_IOMMU_FQCSR_FQMF 0)) in *.
  assert (H1 : tst (fqcsr s1) RISCV_IOMMU_FQCSR_FQMF = true).
  { unfold fqcsr, s1. change RISCV_IOMMU_FQCSR_FQMF with (Z.shiftl 1 8).
    rewrite reg_mod32_tst by lia.
    replace (Z.testbit (Z.shiftl 1 8) 8) with true by reflexivity.
    apply orb_true_r. }
  assert (H2 : riscv_iommu_reg_get32 s1 RISCV_IOMMU_REG_FQT =
               riscv_iommu_reg_get32 s RISCV_IOMMU_REG_FQT).
  { apply (reg_get32_same_except [RISCV_IOMMU_REG_FQCSR] (set_target_as s m));
      [apply reg_mod32_except|]. apply in1. regs_lia. }
  assert (H3 : tst (fqcsr s') RISCV_IOMMU_FQCSR_FQMF = true /\
               riscv_iommu_reg_get32 s' RISCV_IOMMU_REG_FQT =
               riscv_iommu_reg_get32 s RISCV_IOMMU_REG_FQT).
  { subst s'. destruct (tst (fqcsr s) RISCV_IOMMU_FQCSR_FIE); [|auto].
    split.
    - rewrite <- H1. unfold fqcsr. f_equal.
      apply (reg_get32_same_except [RISCV_IOMMU_REG_IPSR]);
        [apply notify_except|]. apply in1. regs_lia.
    - rewrite <- H2.
      apply (reg_get32_same_except [RISCV_IOMMU_REG_IPSR]);
        [apply notify_except|]. apply in1. regs_lia. }
  destruct H3 as (H3 & H4). split; [exact H3|]. split; [exact H4|].
  intros ev'. apply fault_dropped. right.
  rewrite tst_lor_mask, H3. apply orb_true_r.
Qed.

Lemma X15_witness :
  tst (fqcsr (riscv_iommu_fault (fq2_device ram_fq_hole) ev_a))
    RISCV_IOMMU_FQCSR_FQMF = true /\
  riscv_iommu_reg_get32 (riscv_iommu_fault (fq2_device ram_fq_hole) ev_a)
    RISCV_IOMMU_REG_FQT = 0.
Proof.
  assert (H1 : tst (fqcsr (fq2_device ram_fq_hole)) RISCV_IOMMU_FQCSR_FQON = true)
    by (vm_compute; reflexivity).
  assert (H2 : tst (fqcsr (fq2_device ram_fq_hole))
                 (Z.lor RISCV_IOMMU_FQCSR_FQOF RISCV_IOMMU_FQCSR_FQMF) = false)
    by (vm_compute; reflexivity).
  assert (H3 : fq_head (fq2_device ram_fq_hole) <> fq_next (fq2_device ram_fq_hole))
    by (vm_compute; discriminate).
  assert (H4 : unbacked (target_as (fq2_device ram_fq_hole))
                 (fq_addr (fq2_device ram_fq_hole) +
                  fq_tail (fq2_device ram_fq_hole) * 32) 32).
  { exists 0x500000. split; [vm_compute; split; [discriminate|reflexivity]|].
    vm_compute. reflexivity. }
  pose proof (X15_fault_queue_memory_fault (fq2_device ram_fq_hole) ev_a
                H1 H2 H3 H4) as H.
  cbv zeta in H. destruct H as (Ha & Hb & _).
  split; [exact Ha|]. rewrite Hb. vm_compute. reflexivity.
Defined.

(** X16. A freshly enabled fault queue takes its first record at the ring
    base: after queue control has seen FQEN set with FQON clear, the ring
    is the one named by FQB (mask 2^(LOG2SZ+1) - 1), head and tail are 0,
    FQON is set and the error bits are clear; with the first slot backed
    by memory the next fault record is stored at slot 0 and the tail
    becomes 1. *)
Theorem X16_fq_enable_then_first_fault
  (s : RISCVIOMMUState) (ev : riscv_iommu_fq_record) :
  tst (fqcsr s) RISCV_IOMMU_FQCSR_FQEN = true ->
  tst (fqcsr s) RISCV_IOMMU_FQCSR_FQON = false ->
  let base := riscv_iommu_reg_get64 s RISCV_IOMMU_REG_FQB in
  let k := get_field base RISCV_IOMMU_FQB_LOG2SZ in
  backed (target_as s) (PPN_PHYS (get_field base RISCV_IOMMU_FQB_PPN)) 32 ->
  let s1 := riscv_iommu_process_fq_control s in
  let s2 := riscv_iommu_fault s1 ev in
  fq_mask s1 = 2 ^ (k + 1) - 1 /\
  fq_addr s1 = PPN_PHYS (get_field base RISCV_IOMMU_FQB_PPN) /\
  fq_head s1 = 0 /\ fq_tail s1 = 0 /\
  tst (fqcsr s1) RISCV_IOMMU_FQCSR_FQON = true /\
  tst (fqcsr s1) (Z.lor RISCV_IOMMU_FQCSR_FQOF RISCV_IOMMU_FQCSR_FQMF) = false /\
  fq_slot s2 0 = Some (fq_record_u64 ev) /\
  fq_tail s2 = 1 /\ fq_head s2 = 0.
Proof.
  intros Hen Hon base k Hb s1 s2.
  pose proof (log2sz_range base) as Hk.
  change RISCV_IOMMU_CQB_LOG2SZ with RISCV_IOMMU_FQB_LOG2SZ in Hk. fold k in Hk.
  pose (clr := Z.lor RISCV_IOMMU_FQCSR_BUSY
                 (Z.lor RISCV_IOMMU_FQCSR_FQMF RISCV_IOMMU_FQCSR_FQOF)).
  pose (s4 := set_regs_rw
                (set_regs_rw
                   (set_regs_ro
                      (set_fq s (PPN_PHYS (get_field base RISCV_IOMMU_FQB_PPN))
                         (u32 (Z.shiftl 2 k - 1)))
                      (stl_le_p (regs_ro s) RISCV_IOMMU_REG_FQH
                         (Z.lnot (u32 (Z.shiftl 2 k - 1)))))
                   (stl_le_p (regs_rw s) RISCV_IOMMU_REG_FQH 0))
                (stl_le_p (stl_le_p (regs_rw s) RISCV_IOMMU_REG_FQH 0)
                   RISCV_IOMMU_REG_FQT 0)).
  assert (Hs1 : s1 = snd (riscv_iommu_reg_mod32 s4 RISCV_IOMMU_REG_FQCSR
                            RISCV_IOMMU_FQCSR_FQON clr)).
  { subst s1 s4 clr. unfold riscv_iommu_process_fq_control. fold (fqcsr s).
    rewrite Hen, Hon. reflexivity. }
  clearbody s1.
  assert (H4 : riscv_iommu_reg_get32 s4 RISCV_IOMMU_REG_FQCSR = fqcsr s).
  { unfold fqcsr, s4. reg_read. reflexivity. }
  assert (Hbit : forall n, 0 <= n < 32 ->
            tst (fqcsr s1) (Z.shiftl 1 n) =
            (tst (fqcsr s) (Z.shiftl 1 n) && negb (Z.testbit clr n))
            || Z.testbit RISCV_IOMMU_FQCSR_FQON n).
  { intros n Hn. rewrite Hs1. unfold fqcsr at 1.
    rewrite reg_mod32_tst by exact Hn.
    rewrite H4. rewrite tst_testbit by lia. reflexivity. }
  assert (Hmask : fq_mask s1 = 2 ^ (k + 1) - 1)
    by (rewrite Hs1; unfold s4; st_simpl; apply queue_mask_value; exact Hk).
  assert (Haddr : fq_addr s1 = PPN_PHYS (get_field base RISCV_IOMMU_FQB_PPN))
    by (rewrite Hs1; reflexivity).
  assert (Hmem : target_as s1 = target_as s) by (rewrite Hs1; reflexivity).
  assert (Hfqh : riscv_iommu_reg_get32 s1 RISCV_IOMMU_REG_FQH = 0)
    by (rewrite Hs1; unfold s4; reg_read; reflexivity).
  assert (Hfqt : riscv_iommu_reg_get32 s1 RISCV_IOMMU_REG_FQT = 0)
    by (rewrite Hs1; unfold s4; reg_read; reflexivity).
  pose proof (Hbit 16 ltac:(lia)) as Hb16.
  pose proof (Hbit 8 ltac:(lia)) as Hb8.
  pose proof (Hbit 9 ltac:(lia)) as Hb9.
  change (Z.shiftl 1 16) with RISCV_IOMMU_FQCSR_FQON in Hb16.
  change (Z.shiftl 1 8) with RISCV_IOMMU_FQCSR_FQMF in Hb8.
  change (Z.shiftl 1 9) with RISCV_IOMMU_FQCSR_FQOF in Hb9.
  eval_testbits Hb16. eval_testbits Hb8. eval_testbits Hb9.
  assert (Hst : tst (fqcsr s1)
                  (Z.lor RISCV_IOMMU_FQCSR_FQOF RISCV_IOMMU_FQCSR_FQMF) = false)
    by (rewrite tst_lor_mask, Hb8, Hb9; reflexivity).
  assert (Hh : fq_head s1 = 0) by (unfold fq_head; rewrite Hfqh; reflexivity).
  assert (Ht : fq_tail s1 = 0) by (unfold fq_tail; rewrite Hfqt; reflexivity).
  assert (Hn : fq_next s1 = 1).
  { unfold fq_next. rewrite Ht, Hmask. change (u32 (0 + 1)) with 1.
    apply land_1_ones. lia. }
  assert (Hm32 : 0 <= fq_mask s1 < 2 ^ 32).
  { rewrite Hmask.
    assert (0 < 2 ^ (k + 1)) by (apply Z.pow_pos_nonneg; lia).
    assert (2 ^ (k + 1) <= 2 ^ 32) by (apply Z.pow_le_mono_r; lia). lia. }
  assert (Hb1 : backed (target_as s1) (fq_addr s1 + fq_tail s1 * 32) 32).
  { rewrite Hmem, Haddr, Ht. replace (_ + 0 * 32) with
      (PPN_PHYS (get_field base RISCV_IOMMU_FQB_PPN)) by lia. exact Hb. }
  assert (Hnf : fq_head s1 <> fq_next s1) by (rewrite Hh, Hn; lia).
  pose proof (fault_enqueue s1 ev Hb16 Hst Hnf Hb1 Hm32) as H.
  cbv zeta in H. fold s2 in H. destruct H as (Hslot & _ & Htl & Hhd & _).
  rewrite Ht in Hslot. rewrite Hn in Htl. rewrite Hh in Hhd.
  repeat split; assumption.
Qed.

Lemma X16_witness :
  fq_mask (riscv_iommu_process_fq_control s_fq_armed) = 1 /\
  fq_slot (riscv_iommu_fault (riscv_iommu_process_fq_control s_fq_armed) ev_a) 0
  = Some ev_a.
Proof.
  assert (H1 : tst (fqcsr s_fq_armed) RISCV_IOMMU_FQCSR_FQEN = true)
    by (vm_compute; reflexivity).
  assert (H2 : tst (fqcsr s_fq_armed) RISCV_IOMMU_FQCSR_FQON = false)
    by (vm_compute; reflexivity).
  assert (H3 : backed (target_as s_fq_armed)
                 (PPN_PHYS (get_field
                              (riscv_iommu_reg_get64 s_fq_armed RISCV_IOMMU_REG_FQB)
                              RISCV_IOMMU_FQB_PPN)) 32)
    by (intros x _; vm_compute; discriminate).
  pose proof (X16_fq_enable_then_first_fault s_fq_armed ev_a H1 H2 H3) as H.
  cbv zeta in H. destruct H as (Ha & _ & _ & _ & _ & _ & Hb & _).
  split; [exact Ha|exact Hb].
Defined.

Section TranslateFacts.

(** [riscv_iommu_spa_fetch] never faults, so [riscv_iommu_translate]
    returns its entry and leaves the device alone. *)
Lemma translate_is_spa_fetch s ctx iotlb :
  riscv_iommu_translate s ctx iotlb =
  (0, snd (riscv_iommu_spa_fetch s ctx iotlb), s).
Proof.
  unfold riscv_iommu_translate, riscv_iommu_spa_fetch.
  destruct (tst (perm iotlb) IOMMU_WO && _); cbn [snd];
    rewrite andb_false_r; reflexivity.
Qed.

Lemma memory_region_translate_unfold s as_ addr flag idx :
  riscv_iommu_memory_region_translate s as_ addr flag idx =
  let iotlb :=
    {| tlb_as := TargetAs; iova := addr; translated_addr := 0;
       addr_mask := u64 (Z.lnot 0); perm := flag |} in
  match riscv_iommu_ctx s (space_devid as_) idx with
  | (None, s1) => (tlb_refuse iotlb, s1)
  | (Some ctx, s1) => (snd (riscv_iommu_spa_fetch s1 ctx iotlb), s1)
  end.
Proof.
  unfold riscv_iommu_memory_region_translate. cbv zeta.
  destruct (riscv_iommu_ctx s (space_devid as_) idx) as [[ctx|] s1];
    [|reflexivity].
  rewrite translate_is_spa_fetch. reflexivity.
Qed.



Lemma ctx_walk_off s d p :
  get_field (ddtp s) RISCV_IOMMU_DDTP_MODE = RISCV_IOMMU_DDTP_MODE_OFF ->
  ctx_walk s d p =
  (None, riscv_iommu_report_fault s (ctx_new d p) RISCV_IOMMU_FQ_TTYPE_UADDR_RD
           RISCV_IOMMU_FQ_CAUSE_DMA_DISABLED (negb (p =? 0)) 0 0).
Proof.
  intros H. unfold ctx_walk, riscv_iommu_ctx_fetch. rewrite H. reflexivity.
Qed.

End TranslateFacts.

(** X17. What a translation request returns.  The entry always carries
    the requested address as [iova].  The request is refused (permission
    NONE, address mask 0) exactly when no context could be found or
    fetched for the device and process.  Otherwise translation is the
    identity on a 4 KiB page: [translated_addr] is the requested address
    and the mask is 0xFFF; a write access whose address matches the
    context's MSI pattern is sent to the trap region with its permission
    unchanged, every other access goes downstream with read and write
    allowed.  Translation itself changes nothing beyond what the context
    lookup did. *)
Theorem X17_translate_identity_or_refused
  (s : RISCVIOMMUState) (as_ : RISCVIOMMUSpace) (addr flag idx : Z) :
  let r := riscv_iommu_memory_region_translate s as_ addr flag idx in
  let c := riscv_iommu_ctx s (space_devid as_) idx in
  iova (fst r) = addr /\
  snd r = snd c /\
  (perm (fst r) = IOMMU_NONE <-> fst c = None) /\
  match fst c with
  | None => addr_mask (fst r) = 0 /\ tlb_as (fst r) = TargetAs
  | Some ctx =>
      translated_addr (fst r) = addr /\ addr_mask (fst r) = 0xFFF /\
      if tst flag IOMMU_WO && riscv_iommu_msi_check ctx addr
      then tlb_as (fst r) = TrapAs /\ perm (fst r) = flag
      else tlb_as (fst r) = TargetAs /\ perm (fst r) = IOMMU_RW
  end.
Proof.
  intros r c. subst r c. rewrite memory_region_translate_unfold. cbv zeta.
  destruct (riscv_iommu_ctx s (space_devid as_) idx) as [[ctx|] s1];
    cbn [fst snd].
  - unfold riscv_iommu_spa_fetch. cbn [perm iova].
    destruct (tst flag IOMMU_WO) eqn:Hw; cbn [andb].
    + destruct (riscv_iommu_msi_check ctx addr); cbn [snd iova perm
        translated_addr addr_mask tlb_as];
        repeat split; try reflexivity; try discriminate.
      intros ->. discriminate Hw.
    + cbn [snd iova perm translated_addr addr_mask tlb_as].
      repeat split; try reflexivity; discriminate.
  - cbn. repeat split; reflexivity.
Qed.



(** X19. DMA disabled: with DDTP.MODE = OFF and no valid cached context
    for the device and process, a translation request is refused
    (permission NONE, mask 0), and when the fault queue is on, without
    pending error, not full and its tail slot backed by memory, the refusal
    leaves one record at the old tail with cause DMA_DISABLED, transaction
    type "untranslated read", the device id in DID, and both values 0. *)
Theorem X19_dma_off_refused_and_reported
  (s : RISCVIOMMUState) (as_ : RISCVIOMMUSpace) (addr flag idx : Z) :
  get_field (ddtp s) RISCV_IOMMU_DDTP_MODE = RISCV_IOMMU_DDTP_MODE_OFF ->
  ctx_cached s (space_devid as_) idx = None ->
  tst (fqcsr s) RISCV_IOMMU_FQCSR_FQON = true ->
  tst (fqcsr s) (Z.lor RISCV_IOMMU_FQCSR_FQOF RISCV_IOMMU_FQCSR_FQMF) = false ->
  fq_head s <> fq_next s ->
  backed (target_as s) (fq_addr s + fq_tail s * 32) 32 ->
  0 <= fq_mask s < 2 ^ 32 ->
  let r := riscv_iommu_memory_region_translate s as_ addr flag idx in
  let ev := ctx_fault_record (space_devid as_) idx
              RISCV_IOMMU_FQ_CAUSE_DMA_DISABLED in
  perm (fst r) = IOMMU_NONE /\ addr_mask (fst r) = 0 /\
  fq_slot (snd r) (fq_tail s) = Some (fq_record_u64 ev) /\
  fq_tail (snd r) = fq_next s /\
  get_field (fq_hdr ev) RISCV_IOMMU_FQ_HDR_CAUSE =
  RISCV_IOMMU_FQ_CAUSE_DMA_DISABLED /\
  ctx_cache (snd r) = ctx_cache s.
Proof.
  intros Hmode Hmiss Hon Hst Hnf Hb Hm r ev. subst r.
  rewrite memory_region_translate_unfold. cbv zeta.
  unfold riscv_iommu_ctx. rewrite Hmiss. rewrite (ctx_walk_off s _ _ Hmode).
  cbn [fst snd tlb_refuse perm addr_mask].
  split; [reflexivity|]. split; [reflexivity|].
  assert (Hrep : riscv_iommu_report_fault s (ctx_new (space_devid as_) idx)
                   RISCV_IOMMU_FQ_TTYPE_UADDR_RD
                   RISCV_IOMMU_FQ_CAUSE_DMA_DISABLED (negb (idx =? 0)) 0 0 =
                 riscv_iommu_fault s ev).
  { unfold riscv_iommu_report_fault, report_fault_record.
    cbn [tc ctx_new]. change (tst 0 RISCV_IOMMU_DC_TC_DTF) with false.
    cbn [andb]. reflexivity. }
  rewrite Hrep.
  pose proof (fault_enqueue s ev Hon Hst Hnf Hb Hm) as H. cbv zeta in H.
  destruct H as (H1 & _ & H2 & _).
  split; [exact H1|]. split; [exact H2|]. split.
  - unfold ev, ctx_fault_record. cbn [fq_hdr]. rewrite fault_hdr_cause.
    reflexivity.
  - apply fault_frame.
Qed.

Lemma X19_witness :
  perm (fst (riscv_iommu_memory_region_translate s_fq2_dma_off
               {| space_devid := 0x100; notifier := false |} 0x1000 IOMMU_RO 0))
  = IOMMU_NONE /\
  option_map (fun ev => get_field (fq_hdr ev) RISCV_IOMMU_FQ_HDR_CAUSE)
    (fq_slot (snd (riscv_iommu_memory_region_translate s_fq2_dma_off
                     {| space_devid := 0x100; notifier := false |}
                     0x1000 IOMMU_RO 0)) 0) =
  Some RISCV_IOMMU_FQ_CAUSE_DMA_DISABLED.
Proof.
  assert (H1 : get_field (ddtp s_fq2_dma_off) RISCV_IOMMU_DDTP_MODE =
               RISCV_IOMMU_DDTP_MODE_OFF) by (vm_compute; reflexivity).
  assert (H2 : ctx_cached s_fq2_dma_off
                 (space_devid {| space_devid := 0x100; notifier := false |}) 0
               = None) by (vm_compute; reflexivity).
  assert (H3 : tst (fqcsr s_fq2_dma_off) RISCV_IOMMU_FQCSR_FQON = true)
    by (vm_compute; reflexivity).
  assert (H4 : tst (fqcsr s_fq2_dma_off)
                 (Z.lor RISCV_IOMMU_FQCSR_FQOF RISCV_IOMMU_FQCSR_FQMF) = false)
    by (vm_compute; reflexivity).
  assert (H5 : fq_head s_fq2_dma_off <> fq_next s_fq2_dma_off)
    by (vm_compute; discriminate).
  assert (H6 : backed (target_as s_fq2_dma_off)
                 (fq_addr s_fq2_dma_off + fq_tail s_fq2_dma_off * 32) 32)
    by (intros x _; vm_compute; discriminate).
  assert (H7 : 0 <= fq_mask s_fq2_dma_off < 2 ^ 32)
    by (vm_compute; split; [discriminate|reflexivity]).
  pose proof (X19_dma_off_refused_and_reported s_fq2_dma_off
                {| space_devid := 0x100; notifier := false |} 0x1000 IOMMU_RO 0
                H1 H2 H3 H4 H5 H6 H7) as H.
  cbv zeta in H. destruct H as (Ha & _ & Hb & _).
  split; [exact Ha|].
  assert (Ht : fq_tail s_fq2_dma_off = 0) by (vm_compute; reflexivity).
  rewrite Ht in Hb. rewrite Hb. vm_compute. reflexivity.
Defined.

(** X20. The per-device address spaces: [riscv_iommu_space] returns the
    space whose device id is the requested one combined with the bus
    number, creating it only when the list has none; asking again returns
    the same space without growing the list; spaces already registered are
    never dropped; and a list without two spaces of the same device id
    stays so. *)
Theorem X20_space_find_or_allocate
  (s : RISCVIOMMUState) (spaces : list RISCVIOMMUSpace) (devid : Z) :
  NoDup (map space_devid spaces) ->
  let r := riscv_iommu_space s spaces devid in
  space_devid (fst r) = u32 (Z.lor devid (u32 (Z.shiftl (bus s) 8))) /\
  In (fst r) (snd r) /\
  (forall a, In a spaces -> In a (snd r)) /\
  (length (snd r) <= S (length spaces))%nat /\
  NoDup (map space_devid (snd r)) /\
  riscv_iommu_space s (snd r) devid = r.
Proof.
  intros Hnd r. subst r. unfold riscv_iommu_space.
  set (id := u32 (Z.lor devid (u32 (Z.shiftl (bus s) 8)))).
  destruct (find (fun a => space_devid a =? id) spaces) as [a|] eqn:Hf;
    cbn [fst snd].
  - pose proof (find_some _ _ Hf) as (Hin & Heq). apply Z.eqb_eq in Heq.
    rewrite Hf. repeat split; auto.
  - cbn [find space_devid]. rewrite Z.eqb_refl.
    split; [reflexivity|]. split; [left; reflexivity|].
    split; [intros a Ha; right; exact Ha|]. split; [cbn; lia|].
    split; [|reflexivity].
    cbn [map space_devid]. constructor; [|exact Hnd].
    intros Hin. apply list_elem_of_In, in_map_iff in Hin. destruct Hin as (b & Hb & Hin).
    pose proof (find_none _ _ Hf b Hin) as Hne. cbn in Hne.
    apply Z.eqb_neq in Hne. contradiction.
Qed.

Lemma X20_witness :
  NoDup (map space_devid [{| space_devid := 0x200; notifier := true |}]) /\
  space_devid
    (fst (riscv_iommu_space s_bare
            [{| space_devid := 0x200; notifier := true |}] 0x100)) = 0x100 /\
  length
    (snd (riscv_iommu_space s_bare
            [{| space_devid := 0x200; notifier := true |}] 0x100)) = 2%nat.
Proof.
  assert (Hn : NoDup (map space_devid
                        [{| space_devid := 0x200; notifier := true |}]))
    by apply NoDup_singleton.
  split; [exact Hn|].
  pose proof (X20_space_find_or_allocate s_bare
                [{| space_devid := 0x200; notifier := true |}] 0x100 Hn) as H.
  cbv zeta in H. destruct H as (Ha & _).
  split; [exact Ha|reflexivity].
Defined.

(** Evaluates the bits of the set and clear masks of an IPSR update. *)
Ltac ipsr_bits :=
  repeat match goal with
         | |- context [Z.testbit (Z.lor ?a ?b) ?n] =>
             let v := eval cbv in (Z.testbit (Z.lor a b) n) in
             change (Z.testbit (Z.lor a b) n) with v
         end;
  cbn [negb andb orb];
  rewrite ?andb_false_r, ?andb_true_r, ?orb_true_r, ?orb_false_r;
  reflexivity.

Section InterruptFacts.

(** With message-signalled interrupts and a callback, the callback runs
    only when the vector's pending bit was clear. *)
Lemma notify_irq s vec :
  tst (riscv_iommu_reg_get32 s RISCV_IOMMU_REG_FCTL) RISCV_IOMMU_FCTL_WSI = false ->
  notify s = true ->
  irq_raised (riscv_iommu_notify s vec) =
  if tst (ipsr s) (Z.shiftl 1 vec) then irq_raised s
  else Z.land (Z.shiftr (riscv_iommu_reg_get32 s RISCV_IOMMU_REG_IVEC) (vec * 4))
         0x0F :: irq_raised s.
Proof.
  intros Hwsi Hn. unfold riscv_iommu_notify. rewrite Hwsi, Hn.
  cbn [orb negb]. unfold riscv_iommu_reg_mod32, ipsr, riscv_iommu_reg_get32.
  destruct (tst (ldl_le_p (regs_rw s) RISCV_IOMMU_REG_IPSR) (Z.shiftl 1 vec));
    [reflexivity|].
  cbn [irq_raised raise_irq set_regs_rw regs_rw]. unfold ldl_le_p, stl_le_p.
  rewrite ld_st_disjoint by (cbn; regs_lia). reflexivity.
Qed.

Lemma notify_keeps_fctl s vec :
  riscv_iommu_reg_get32 (riscv_iommu_notify s vec) RISCV_IOMMU_REG_FCTL =
  riscv_iommu_reg_get32 s RISCV_IOMMU_REG_FCTL.
Proof.
  apply (reg_get32_same_except [RISCV_IOMMU_REG_IPSR]);
    [apply notify_except|]. apply in1. regs_lia.
Qed.

(** A pending bit after an IPSR write that goes through the power-on
    masks (read-only and write-1-to-clear on every bit). *)
Lemma ipsr_w1c_bit (rw data n : Z) :
  0 <= n < 32 ->
  tst (u32 (masked_update rw (Z.ones 32) (Z.ones 32) data)) (Z.shiftl 1 n) =
  Z.testbit rw n && negb (Z.testbit data n).
Proof.
  intros Hn. rewrite tst_bit by lia. unfold u32, masked_update.
  rewrite <- Z.land_ones by lia.
  rewrite !Z.land_spec, Z.lor_spec, !Z.land_spec, !Z.lnot_spec, Z.land_spec
    by lia.
  rewrite Z.ones_spec_low by lia. cbn [negb].
  rewrite !andb_true_r, andb_false_r, orb_false_r. reflexivity.
Qed.

Lemma update_ipsr_bits s v :
  let s' := riscv_iommu_update_ipsr s v in
  tst (ipsr s') RISCV_IOMMU_IPSR_CIP = tst v RISCV_IOMMU_IPSR_CIP && cq_irq_cause s /\
  tst (ipsr s') RISCV_IOMMU_IPSR_FIP = tst v RISCV_IOMMU_IPSR_FIP && fq_irq_cause s /\
  tst (ipsr s') RISCV_IOMMU_IPSR_PIP = tst v RISCV_IOMMU_IPSR_PIP && pq_irq_cause s /\
  rw_same_except [RISCV_IOMMU_REG_IPSR] s s' /\
  irq_raised s' = irq_raised s /\ target_as s' = target_as s.
Proof.
  intros s'. subst s'. unfold riscv_iommu_update_ipsr.
  fold (cqcsr s). fold (fqcsr s). fold (pqcsr s).
  fold (cq_irq_cause s). fold (fq_irq_cause s). fold (pq_irq_cause s).
  set (cip := tst v RISCV_IOMMU_IPSR_CIP && cq_irq_cause s).
  set (fip := tst v RISCV_IOMMU_IPSR_FIP && fq_irq_cause s).
  set (pip := tst v RISCV_IOMMU_IPSR_PIP && pq_irq_cause s).
  split; [|split; [|split; [|split; [apply reg_mod32_except|split; reflexivity]]]];
    unfold ipsr.
  - rewrite (reg_mod32_tst s RISCV_IOMMU_REG_IPSR _ _ 0) by lia.
    generalize (riscv_iommu_reg_get32 s RISCV_IOMMU_REG_IPSR). intros x.
    destruct cip, fip, pip; ipsr_bits.
  - rewrite (reg_mod32_tst s RISCV_IOMMU_REG_IPSR _ _ 1) by lia.
    generalize (riscv_iommu_reg_get32 s RISCV_IOMMU_REG_IPSR). intros x.
    destruct cip, fip, pip; ipsr_bits.
  - rewrite (reg_mod32_tst s RISCV_IOMMU_REG_IPSR _ _ 3) by lia.
    generalize (riscv_iommu_reg_get32 s RISCV_IOMMU_REG_IPSR). intros x.
    destruct cip, fip, pip; ipsr_bits.
Qed.

End InterruptFacts.

(** X21. Interrupt notification is edge triggered.  For a vector 0..7
    (the eight nibbles of the 32-bit IVEC word), with wire-signalled
    interrupts off and a callback installed, [riscv_iommu_notify] always
    leaves the vector's bit set in IPSR, and calls the callback only if the
    bit was clear before, on the line taken from the vector's nibble of
    IVEC; notifying again while the bit is still set raises nothing. *)
Theorem X21_notify_edge_triggered (s : RISCVIOMMUState) (vec : Z) :
  0 <= vec < 8 ->
  tst (riscv_iommu_reg_get32 s RISCV_IOMMU_REG_FCTL) RISCV_IOMMU_FCTL_WSI = false ->
  notify s = true ->
  let s' := riscv_iommu_notify s vec in
  tst (ipsr s') (Z.shiftl 1 vec) = true /\
  irq_raised s' =
  (if tst (ipsr s) (Z.shiftl 1 vec) then irq_raised s
   else Z.land (Z.shiftr (riscv_iommu_reg_get32 s RISCV_IOMMU_REG_IVEC) (vec * 4))
          0x0F :: irq_raised s) /\
  irq_raised (riscv_iommu_notify s' vec) = irq_raised s' /\
  rw_same_except [RISCV_IOMMU_REG_IPSR] s s'.
Proof.
  intros Hv8 Hwsi Hn s'.
  assert (Hv : 0 <= vec < 32) by lia.
  assert (Hset : tst (ipsr s') (Z.shiftl 1 vec) = true)
    by (apply notify_sets_ipsr; assumption).
  split; [exact Hset|]. split; [apply notify_irq; assumption|].
  split; [|apply notify_except].
  rewrite notify_irq.
  - rewrite Hset. reflexivity.
  - unfold s'. rewrite notify_keeps_fctl. exact Hwsi.
  - rewrite <- Hn. apply (notify_geometry s vec).
Qed.

Lemma X21_witness :
  irq_raised (riscv_iommu_notify s_cq8 RISCV_IOMMU_INTR_CQ) = [0] /\
  irq_raised (riscv_iommu_notify (riscv_iommu_notify s_cq8 RISCV_IOMMU_INTR_CQ)
                RISCV_IOMMU_INTR_CQ) = [0].
Proof.
  assert (H1 : 0 <= RISCV_IOMMU_INTR_CQ < 8)
    by (vm_compute; split; [discriminate|reflexivity]).
  assert (H2 : tst (riscv_iommu_reg_get32 s_cq8 RISCV_IOMMU_REG_FCTL)
                 RISCV_IOMMU_FCTL_WSI = false) by (vm_compute; reflexivity).
  assert (H3 : notify s_cq8 = true) by (vm_compute; reflexivity).
  pose proof (X21_notify_edge_triggered s_cq8 RISCV_IOMMU_INTR_CQ H1 H2 H3) as H.
  cbv zeta in H. destruct H as (_ & Ha & Hb & _).
  assert (E : irq_raised (riscv_iommu_notify s_cq8 RISCV_IOMMU_INTR_CQ) = [0])
    by (vm_compute; reflexivity).
  split; [exact E|]. rewrite Hb. exact E.
Defined.

(** X22. IPSR is write-1-to-clear, and a pending bit never outlives its
    cause: under the power-on masks of IPSR, a 4-byte write of [data] is
    accepted and afterwards each of CIP, FIP and PIP is set exactly when it
    was set before, [data] has a 0 in its place, and the queue's interrupt
    enable and one of its error bits are still set.  No other register
    changes and no interrupt is raised. *)
Theorem X22_ipsr_write_one_to_clear
  (fuel : nat) (s : RISCVIOMMUState) (data : Z) :
  ldl_le_p (regs_ro s) RISCV_IOMMU_REG_IPSR = Z.ones 32 ->
  ldl_le_p (regs_wc s) RISCV_IOMMU_REG_IPSR = Z.ones 32 ->
  exists s',
    riscv_iommu_mmio_write fuel s RISCV_IOMMU_REG_IPSR data 4
    = Some (MEMTX_OK, s') /\
    tst (ipsr s') RISCV_IOMMU_IPSR_CIP =
    tst (ipsr s) RISCV_IOMMU_IPSR_CIP && negb (tst data RISCV_IOMMU_IPSR_CIP)
    && cq_irq_cause s /\
    tst (ipsr s') RISCV_IOMMU_IPSR_FIP =
    tst (ipsr s) RISCV_IOMMU_IPSR_FIP && negb (tst data RISCV_IOMMU_IPSR_FIP)
    && fq_irq_cause s /\
    tst (ipsr s') RISCV_IOMMU_IPSR_PIP =
    tst (ipsr s) RISCV_IOMMU_IPSR_PIP && negb (tst data RISCV_IOMMU_IPSR_PIP)
    && pq_irq_cause s /\
    rw_same_except [RISCV_IOMMU_REG_IPSR] s s' /\
    irq_raised s' = irq_raised s.
Proof.
  intros Hro Hwc.
  set (v := u32 (masked_update (ldl_le_p (regs_rw s) RISCV_IOMMU_REG_IPSR)
                   (ldl_le_p (regs_ro s) RISCV_IOMMU_REG_IPSR)
                   (ldl_le_p (regs_wc s) RISCV_IOMMU_REG_IPSR) data)).
  exists (riscv_iommu_update_ipsr s v).
  split; [reflexivity|].
  pose proof (update_ipsr_bits s v) as H. cbv zeta in H.
  destruct H as (Hc & Hf & Hp & Hr & Hi & _).
  assert (Hv : forall n, 0 <= n < 32 ->
            tst v (Z.shiftl 1 n) =
            tst (ipsr s) (Z.shiftl 1 n) && negb (tst data (Z.shiftl 1 n))).
  { intros n Hn. unfold v. rewrite Hro, Hwc. rewrite ipsr_w1c_bit by exact Hn.
    rewrite !tst_bit by lia. reflexivity. }
  split; [rewrite Hc; change RISCV_IOMMU_IPSR_CIP with (Z.shiftl 1 0);
          rewrite Hv by lia; reflexivity|].
  split; [rewrite Hf; change RISCV_IOMMU_IPSR_FIP with (Z.shiftl 1 1);
          rewrite Hv by lia; reflexivity|].
  split; [rewrite Hp; change RISCV_IOMMU_IPSR_PIP with (Z.shiftl 1 3);
          rewrite Hv by lia; reflexivity|].
  split; [exact Hr|exact Hi].
Qed.

Lemma X22_witness :
  tst (ipsr s_cq8_ill) RISCV_IOMMU_IPSR_CIP = true /\
  exists s',
    riscv_iommu_mmio_write 64 s_cq8_ill RISCV_IOMMU_REG_IPSR
      RISCV_IOMMU_IPSR_CIP 4 = Some (MEMTX_OK, s') /\
    tst (ipsr s') RISCV_IOMMU_IPSR_CIP = false.
Proof.
  split; [vm_compute; reflexivity|].
  assert (H1 : ldl_le_p (regs_ro s_cq8_ill) RISCV_IOMMU_REG_IPSR = Z.ones 32)
    by (vm_compute; reflexivity).
  assert (H2 : ldl_le_p (regs_wc s_cq8_ill) RISCV_IOMMU_REG_IPSR = Z.ones 32)
    by (vm_compute; reflexivity).
  destruct (X22_ipsr_write_one_to_clear 64 s_cq8_ill RISCV_IOMMU_IPSR_CIP H1 H2)
    as (s' & Hw & Hc & _).
  exists s'. split; [exact Hw|]. rewrite Hc.
  change (tst RISCV_IOMMU_IPSR_CIP RISCV_IOMMU_IPSR_CIP) with true.
  cbn [negb]. rewrite andb_false_r. reflexivity.
Defined.

Section ShadowFacts.

Lemma byte_of_mod (v w : Z) : v mod 256 = w mod 256 -> byte_of v = byte_of w.
Proof. unfold byte_of. intros ->. reflexivity. Qed.

(** The byte a little-endian store leaves at an address it covers. *)
Lemma st_le_byte n : forall m a v x,
  a <= x < a + Z.of_nat n ->
  st_le n m a v x = byte_of (v / 256 ^ (x - a)).
Proof.
  induction n as [|n IH]; intros m a v x Hx; [lia|].
  cbn [st_le]. destruct (Z.eq_dec x a) as [->|Hne].
  - rewrite st_le_other by lia. rewrite upd_same, Z.sub_diag.
    change (256 ^ 0) with 1. rewrite Z.div_1_r. reflexivity.
  - rewrite IH by lia. f_equal. rewrite Z.div_div by (try apply Z.pow_pos_nonneg; lia).
    f_equal. replace (x - a) with (Z.succ (x - (a + 1))) by lia.
    rewrite Z.pow_succ_r by lia. reflexivity.
Qed.

(** The bytes of a little-endian load. *)
Lemma ld_le_byte n : forall m a i,
  0 <= i < Z.of_nat n ->
  (ld_le n m a / 256 ^ i) mod 256 = byte_val (m (a + i)).
Proof.
  induction n as [|n IH]; intros m a i Hi; [lia|].
  cbn [ld_le]. pose proof (byte_val_range (m a)) as Hb.
  destruct (Z.eq_dec i 0) as [->|Hne].
  - change (256 ^ 0) with 1. rewrite Z.div_1_r, Z.add_0_r.
    replace (byte_val (m a) + 256 * ld_le n m (a + 1))
      with (byte_val (m a) + ld_le n m (a + 1) * 256) by lia.
    rewrite Z.mod_add by lia. apply Z.mod_small. lia.
  - replace i with (Z.succ (i - 1)) at 1 by lia.
    rewrite Z.pow_succ_r by lia.
    rewrite <- Z.div_div by (try apply Z.pow_pos_nonneg; lia).
    replace ((byte_val (m a) + 256 * ld_le n m (a + 1)) / 256)
      with (ld_le n m (a + 1)).
    2:{ replace (byte_val (m a) + 256 * ld_le n m (a + 1))
          with (ld_le n m (a + 1) * 256 + byte_val (m a)) by lia.
        rewrite Z.div_add_l by lia.
        rewrite (Z.div_small (byte_val (m a))) by lia. lia. }
    rewrite IH by lia. f_equal. f_equal. lia.
Qed.

(** A byte marked read-only and not write-1-to-clear keeps its value in
    the masked update. *)
Lemma masked_update_ro_byte (rw ro wc d k : Z) :
  0 <= k ->
  (ro / 2 ^ k) mod 256 = 255 -> (wc / 2 ^ k) mod 256 = 0 ->
  (masked_update rw ro wc d / 2 ^ k) mod 256 = (rw / 2 ^ k) mod 256.
Proof.
  intros Hk Hro Hwc. change 256 with (2 ^ 8) in *.
  rewrite <- !Z.shiftr_div_pow2, <- !Z.land_ones in * by lia.
  unfold masked_update. apply Z.bits_inj'. intros j Hj.
  assert (Hr : Z.testbit (Z.land (Z.shiftr ro k) (Z.ones 8)) j =
               Z.testbit 255 j) by (rewrite Hro; reflexivity).
  assert (Hw : Z.testbit (Z.land (Z.shiftr wc k) (Z.ones 8)) j = false)
    by (rewrite Hwc; apply Z.bits_0).
  rewrite Z.land_spec, Z.shiftr_spec in Hr, Hw by lia.
  rewrite !Z.land_spec, !Z.shiftr_spec, Z.land_spec, Z.lor_spec, !Z.land_spec,
    !Z.lnot_spec, Z.land_spec by lia.
  destruct (Z.ltb_spec j 8) as [Hlt|Hge].
  - rewrite Z.ones_spec_low in * by lia. rewrite andb_true_r in *.
    change 255 with (Z.ones 8) in Hr. rewrite Z.ones_spec_low in Hr by lia.
    rewrite Hr, Hw.
    destruct (Z.testbit rw (j + k)), (Z.testbit d (j + k)); reflexivity.
  - rewrite Z.ones_spec_high by lia. rewrite !andb_false_r. reflexivity.
Qed.

(** The masked store leaves such a byte alone, wherever the access lies. *)
Lemma mmio_store_ro_byte s addr data size x :
  regs_ro s x = xff -> regs_wc s x = x00 ->
  regs_rw (mmio_store s addr data size) x = regs_rw s x.
Proof.
  intros Hro Hwc.
  assert (H : forall n : nat,
             st_le n (regs_rw s) addr
               (masked_update (ld_le n (regs_rw s) addr) (ld_le n (regs_ro s) addr)
                  (ld_le n (regs_wc s) addr) data) x = regs_rw s x).
  { intros n.
    destruct (Z_lt_dec x addr) as [Hlt|Hge]; [apply st_le_other; lia|].
    destruct (Z_le_dec (addr + Z.of_nat n) x) as [Hle|Hin];
      [apply st_le_other; lia|].
    rewrite st_le_byte by lia.
    rewrite <- (byte_of_val (regs_rw s x)). apply byte_of_mod.
    rewrite (Z.mod_small (byte_val _) 256) by apply byte_val_range.
    assert (Hp : 256 ^ (x - addr) = 2 ^ (8 * (x - addr))).
    { rewrite Z.pow_mul_r by lia. reflexivity. }
    rewrite Hp. rewrite masked_update_ro_byte.
    - rewrite <- Hp, ld_le_byte by lia. f_equal. f_equal. lia.
    - lia.
    - rewrite <- Hp, ld_le_byte by lia.
      replace (addr + (x - addr)) with x by lia. rewrite Hro. reflexivity.
    - rewrite <- Hp, ld_le_byte by lia.
      replace (addr + (x - addr)) with x by lia. rewrite Hwc. reflexivity. }
  unfold mmio_store.
  repeat match goal with
         | |- context [if ?c then _ else _] => destruct c
         end; cbn [regs_rw set_regs_rw]; try apply H. reflexivity.
Qed.

Lemma mmio_store_shadows s addr data size :
  regs_ro (mmio_store s addr data size) = regs_ro s /\
  regs_wc (mmio_store s addr data size) = regs_wc s.
Proof.
  unfold mmio_store.
  repeat match goal with
         | |- context [if ?c then _ else _] => destruct c
         end; split; reflexivity.
Qed.

Lemma update_ipsr_frame s v :
  rw_same_except [RISCV_IOMMU_REG_IPSR] s (riscv_iommu_update_ipsr s v) /\
  regs_ro (riscv_iommu_update_ipsr s v) = regs_ro s /\
  regs_wc (riscv_iommu_update_ipsr s v) = regs_wc s.
Proof.
  unfold riscv_iommu_update_ipsr.
  split; [apply reg_mod32_except|split; reflexivity].
Qed.

Lemma notify_shadows s vec :
  regs_ro (riscv_iommu_notify s vec) = regs_ro s /\
  regs_wc (riscv_iommu_notify s vec) = regs_wc s.
Proof.
  unfold riscv_iommu_notify, riscv_iommu_reg_mod32.
  repeat match goal with
         | |- context [if ?c then _ else _] => destruct c
         end; split; reflexivity.
Qed.

Lemma cq_exec_shadows s cmd :
  match cq_exec s cmd with
  | CmdDone s1 | CmdFault s1 =>
      regs_ro s1 = regs_ro s /\ regs_wc s1 = regs_wc s
  end.
Proof.
  unfold cq_exec, cq_cmd_ill, riscv_iommu_iofence.
  repeat match goal with
         | |- context [if ?c then _ else _] => destruct c
         | |- context [match dma_memory_write ?a ?b ?c with _ => _ end] =>
             destruct (dma_memory_write a b c) as [[| | |] ?]
         end; split; reflexivity.
Qed.

Lemma cq_fault_shadows s ctrl :
  regs_ro (cq_fault s ctrl) = regs_ro s /\ regs_wc (cq_fault s ctrl) = regs_wc s.
Proof.
  unfold cq_fault. destruct (tst ctrl _); [apply notify_shadows|auto].
Qed.

Lemma cq_loop_shadows fuel : forall s ctrl head tail s',
  cq_loop fuel s ctrl head tail = Some s' ->
  regs_ro s' = regs_ro s /\ regs_wc s' = regs_wc s.
Proof.
  induction fuel as [|fuel IH]; intros s ctrl head tail s' H; [discriminate|].
  cbn [cq_loop] in H. destruct (tail =? head); [injection H as <-; auto|].
  destruct (dma_memory_read _ _ _) as [[| | |] l];
    try (injection H as <-;
         destruct (cq_fault_shadows
                     (snd (riscv_iommu_reg_mod32 s RISCV_IOMMU_REG_CQCSR
                             RISCV_IOMMU_CQCSR_CQMF 0)) ctrl) as (H1 & H2);
         split; [exact H1|exact H2]).
  pose proof (cq_exec_shadows s (command_of_bytes l)) as Hx.
  destruct (cq_exec s (command_of_bytes l)) as [s1|s1].
  - apply IH in H. cbn [regs_ro regs_wc riscv_iommu_reg_set32 set_regs_rw] in H.
    destruct H as (H1 & H2), Hx as (H3 & H4). split; congruence.
  - injection H as <-. destruct (cq_fault_shadows s1 ctrl) as (H1 & H2).
    destruct Hx as (H3 & H4). split; congruence.
Qed.

(** Every process function leaves the CAP bytes of the three shadows
    alone. *)
Lemma run_process_fn_cap fuel f s s' :
  run_process_fn fuel f s = Some s' ->
  forall x, RISCV_IOMMU_REG_CAP <= x < RISCV_IOMMU_REG_CAP + 8 ->
    regs_rw s' x = regs_rw s x /\ regs_ro s' x = regs_ro s x /\
    regs_wc s' x = regs_wc s x.
Proof.
  intros H x Hx. destruct f; cbn [run_process_fn] in H.
  - injection H as <-. unfold riscv_iommu_process_ddtp, riscv_iommu_reg_set64.
    st_simpl. unfold stq_le_p. rewrite st_le_other by (cbn; regs_lia). auto.
  - pose proof (process_cq_tail_frame fuel s s' H) as (_ & Hr & _).
    assert (Hs : regs_ro s' = regs_ro s /\ regs_wc s' = regs_wc s).
    { revert H. unfold riscv_iommu_process_cq_tail.
      destruct (negb _ || _); [intros H; injection H as <-; auto|].
      apply cq_loop_shadows. }
    destruct Hs as (-> & ->). split; [|auto].
    apply Hr. unfold cq_words. apply in3; regs_lia.
  - injection H as <-. unfold riscv_iommu_process_cq_control.
    repeat match goal with
           | |- context [if ?c then _ else _] => destruct c
           end; st_simpl; unfold stl_le_p;
      rewrite ?st_le_other by (cbn; regs_lia); auto.
  - injection H as <-. unfold riscv_iommu_process_fq_control.
    repeat match goal with
           | |- context [if ?c then _ else _] => destruct c
           end; st_simpl; unfold stl_le_p;
      rewrite ?st_le_other by (cbn; regs_lia); auto.
  - injection H as <-. unfold riscv_iommu_process_pq_control.
    repeat match goal with
           | |- context [if ?c then _ else _] => destruct c
           end; st_simpl; unfold stl_le_p;
      rewrite ?st_le_other by (cbn; regs_lia); auto.
Qed.

Lemma mmio_dispatch_regb regb :
  let '(fn, regb', busy) := mmio_dispatch regb in
  busy <> 0 -> RISCV_IOMMU_REG_DDTP <= regb'.
Proof.
  unfold mmio_dispatch.
  repeat match goal with
         | |- context [if ?c then _ else _] => destruct c eqn:?
         end; try (intros _; regs_lia); try (intros H; contradiction H; reflexivity).
  all: intros _;
    repeat match goal with
           | H : (_ =? _) = true |- _ => apply Z.eqb_eq in H
           end; regs_lia.
Qed.

(** One MMIO write keeps CAP locked and its bytes as they were. *)
Lemma mmio_write_cap fuel s addr data size r s' :
  cap_locked s ->
  riscv_iommu_mmio_write fuel s addr data size = Some (r, s') ->
  cap_locked s' /\
  forall x, RISCV_IOMMU_REG_CAP <= x < RISCV_IOMMU_REG_CAP + 8 ->
            regs_rw s' x = regs_rw s x.
Proof.
  intros Hl. unfold riscv_iommu_mmio_write.
  destruct (negb _); [intros H; injection H as <- <-; auto|].
  destruct (_ <? _); [intros H; injection H as <- <-; auto|].
  destruct (_ =? RISCV_IOMMU_REG_IPSR).
  { intros H. injection H as <- <-.
    match goal with
    | |- context [riscv_iommu_update_ipsr s ?v] =>
        pose proof (update_ipsr_frame s v) as (Hr & Hro & Hwc)
    end.
    split.
    - intros x Hx. rewrite Hro, Hwc. apply Hl, Hx.
    - intros x Hx. apply Hr. apply in1. regs_lia. }
  pose proof (mmio_dispatch_regb (u32 (Z.land addr (Z.lnot 3)))) as Hd.
  destruct (mmio_dispatch _) as [[fn regb'] busy].
  pose proof (mmio_store_shadows s addr data size) as (Hsro & Hswc).
  set (s1 := mmio_store s addr data size) in *.
  assert (H1 : forall x, RISCV_IOMMU_REG_CAP <= x < RISCV_IOMMU_REG_CAP + 8 ->
             regs_rw s1 x = regs_rw s x).
  { intros x Hx. apply mmio_store_ro_byte; apply Hl, Hx. }
  match goal with
  | |- context [match fn with Some _ => _ | None => _ end] =>
      match goal with
      | |- context [run_process_fn fuel _ ?s2'] => set (s2 := s2') in *
      end
  end.
  assert (H2 : forall x, RISCV_IOMMU_REG_CAP <= x < RISCV_IOMMU_REG_CAP + 8 ->
             regs_rw s2 x = regs_rw s x /\ regs_ro s2 x = regs_ro s x /\
             regs_wc s2 x = regs_wc s x).
  { intros x Hx. subst s2. destruct (Z.eqb_spec busy 0) as [Hb|Hb]; cbn [negb].
    - rewrite H1, Hsro, Hswc by exact Hx. auto.
    - st_simpl. rewrite Hsro, Hswc. unfold stl_le_p.
      specialize (Hd Hb). rewrite st_le_other by (cbn; regs_lia).
      rewrite H1 by exact Hx. auto. }
  destruct fn as [f|].
  - destruct (run_process_fn fuel f s2) as [s3|] eqn:E; [|discriminate].
    intros H. injection H as <- <-.
    pose proof (run_process_fn_cap fuel f s2 s3 E) as H3.
    split.
    + intros x Hx. destruct (H3 x Hx) as (_ & -> & ->).
      destruct (H2 x Hx) as (_ & -> & ->). apply Hl, Hx.
    + intros x Hx. destruct (H3 x Hx) as (-> & _). apply H2, Hx.
  - intros H. injection H as <- <-. split.
    + intros x Hx. destruct (H2 x Hx) as (_ & -> & ->). apply Hl, Hx.
    + intros x Hx. apply H2, Hx.
Qed.

Lemma realize_cap_locked v b m o mem n :
  cap_locked (riscv_iommu_realize v b m o mem n).
Proof.
  intros x Hx. unfold riscv_iommu_realize. cbn [regs_ro regs_wc].
  unfold stq_le_p, stl_le_p.
  rewrite !st_le_other by (cbn; regs_lia). auto.
Qed.

End ShadowFacts.

(** X23. CAP is read-only for software.  The power-on state marks every
    bit of CAP read-only, and from any state where that is so, no sequence
    of MMIO writes (whatever their offsets, sizes and values, and whatever
    queue or DDTP processing they start) changes the value read from CAP
    or unlocks it. *)
Theorem X23_cap_is_read_only
  (fuel : nat) (ws : list (Z * Z * Z)) (s s' : RISCVIOMMUState) :
  cap_locked s ->
  run_mmio_writes fuel ws s = Some s' ->
  riscv_iommu_reg_get64 s' RISCV_IOMMU_REG_CAP =
  riscv_iommu_reg_get64 s RISCV_IOMMU_REG_CAP /\
  cap_locked s' /\
  (forall v b m o mem n, cap_locked (riscv_iommu_realize v b m o mem n)).
Proof.
  intros Hl H. split; [|split; [|intros; apply realize_cap_locked]].
  - revert s Hl H. induction ws as [|[[addr data] size] ws IH]; intros s Hl H;
      cbn [run_mmio_writes] in H.
    + injection H as <-. reflexivity.
    + destruct (riscv_iommu_mmio_write fuel s addr data size) as [[r s1]|] eqn:E;
        [|discriminate].
      destruct (mmio_write_cap fuel s addr data size r s1 Hl E) as (Hl1 & Hb).
      rewrite (IH s1 Hl1 H). unfold riscv_iommu_reg_get64, ldq_le_p.
      apply ld_le_ext. intros x Hx. apply Hb. cbn in Hx. lia.
  - revert s Hl H. induction ws as [|[[addr data] size] ws IH]; intros s Hl H;
      cbn [run_mmio_writes] in H.
    + injection H as <-. exact Hl.
    + destruct (riscv_iommu_mmio_write fuel s addr data size) as [[r s1]|] eqn:E;
        [|discriminate].
      destruct (mmio_write_cap fuel s addr data size r s1 Hl E) as (Hl1 & Hb).
      apply (IH s1 Hl1 H).
Qed.

Lemma X23_witness :
  exists s',
    run_mmio_writes 64
      [(RISCV_IOMMU_REG_CAP, Z.ones 64, 8); (RISCV_IOMMU_REG_CAP + 4, 0, 4);
       (RISCV_IOMMU_REG_CQCSR, RISCV_IOMMU_CQCSR_CQEN, 4)] s_power_on = Some s' /\
    riscv_iommu_reg_get64 s' RISCV_IOMMU_REG_CAP =
    riscv_iommu_reg_get64 s_power_on RISCV_IOMMU_REG_CAP.
Proof.
  assert (Hl : cap_locked s_power_on) by apply realize_cap_locked.
  destruct (run_mmio_writes 64
              [(RISCV_IOMMU_REG_CAP, Z.ones 64, 8); (RISCV_IOMMU_REG_CAP + 4, 0, 4);
               (RISCV_IOMMU_REG_CQCSR, RISCV_IOMMU_CQCSR_CQEN, 4)] s_power_on)
    as [s'|] eqn:E; [|vm_compute in E; discriminate E].
  exists s'. split; [reflexivity|].
  exact (proj1 (X23_cap_is_read_only 64 _ s_power_on s' Hl E)).
Defined.

Section PowerOnFacts.

(** The capability word: the low byte of the version, and constant bits
    that depend on [enable_msi] only. *)
Lemma realize_cap_value v b msi off mem n :
  cap (riscv_iommu_realize v b msi off mem n) =
  Z.lor (Z.land v 0xFF) (cap (riscv_iommu_realize 0 b msi off mem n)).
Proof.
  unfold riscv_iommu_realize. cbn [cap].
  change RISCV_IOMMU_CAP_VERSION with (Z.ones 8). change 255 with (Z.ones 8).
  change RISCV_IOMMU_CAP_PAS with (GENMASK 37 32).
  rewrite !set_field_genmask by lia.
  change (Z.land (Z.shiftl TARGET_PHYS_ADDR_SPACE_BITS 32) (GENMASK 37 32))
    with (Z.shiftl (Z.ones 3) 35).
  change (Z.lor RISCV_IOMMU_CAP_MSI_FLAT RISCV_IOMMU_CAP_MSI_MRIF)
    with (Z.shiftl (Z.ones 2) 22).
  change RISCV_IOMMU_CAP_PD8 with (Z.shiftl (Z.ones 1) 38).
  unfold GENMASK. change (37 - 32 + 1) with 6.
  destruct msi; Z.bitblast.
Qed.

Lemma cap_high_bit (v k n : Z) :
  8 <= n ->
  tst (Z.lor (Z.land v 0xFF) k) (Z.shiftl 1 n) = Z.testbit k n.
Proof.
  intros Hn. rewrite tst_bit by lia. rewrite Z.lor_spec, Z.land_spec.
  change 255 with (Z.ones 8). rewrite Z.ones_spec_high by lia.
  rewrite andb_false_r. reflexivity.
Qed.

Lemma ctx_some_valid s d p ctx s' :
  riscv_iommu_ctx s d p = (Some ctx, s') ->
  tst (tc ctx) RISCV_IOMMU_DC_TC_V = true.
Proof.
  unfold riscv_iommu_ctx, ctx_cached.
  destruct (ctx_cache s !! _) as [c|].
  - destruct (tst (tc c) RISCV_IOMMU_DC_TC_V) eqn:Hv.
    + intros H. injection H as <- <-. exact Hv.
    + unfold ctx_walk.
      destruct (riscv_iommu_ctx_fetch s (ctx_new d p)) as [fault c1] eqn:Hf.
      destruct (Z.eqb_spec fault 0) as [->|]; [|discriminate].
      intros H. injection H as <- <-. apply (ctx_fetch_ok s _ _ Hf).
  - unfold ctx_walk.
    destruct (riscv_iommu_ctx_fetch s (ctx_new d p)) as [fault c1] eqn:Hf.
    destruct (Z.eqb_spec fault 0) as [->|]; [|discriminate].
    intros H. injection H as <- <-. apply (ctx_fetch_ok s _ _ Hf).
Qed.

End PowerOnFacts.

(** X24. The power-on state, for every choice of properties.  CAP reads
    as the capability word, which carries the low byte of the version,
    advertises MSI_FLAT and MSI_MRIF exactly when interrupt remapping is
    enabled, never advertises T2GPA, and gives 56 physical address bits;
    DDTP reads as the latched value, whose mode is OFF when the device is
    created disabled and BARE otherwise; the three queues are off with no
    bit set in their control registers, nothing is pending in IPSR and the
    context cache is empty. *)
Theorem X24_power_on_state
  (v b : Z) (msi off : bool) (mem : AddressSpace) (n : bool) :
  let s := riscv_iommu_realize v b msi off mem n in
  riscv_iommu_reg_get64 s RISCV_IOMMU_REG_CAP = cap s /\
  get_field (cap s) RISCV_IOMMU_CAP_VERSION = Z.land v 0xFF /\
  tst (cap s) RISCV_IOMMU_CAP_MSI_FLAT = msi /\
  tst (cap s) RISCV_IOMMU_CAP_MSI_MRIF = msi /\
  tst (cap s) RISCV_IOMMU_CAP_T2GPA = false /\
  get_field (cap s) RISCV_IOMMU_CAP_PAS = TARGET_PHYS_ADDR_SPACE_BITS /\
  riscv_iommu_reg_get64 s RISCV_IOMMU_REG_DDTP = ddtp s /\
  get_field (ddtp s) RISCV_IOMMU_DDTP_MODE =
  (if off then RISCV_IOMMU_DDTP_MODE_OFF else RISCV_IOMMU_DDTP_MODE_BARE) /\
  cqcsr s = 0 /\ fqcsr s = 0 /\ pqcsr s = 0 /\ ipsr s = 0 /\
  ctx_cache s = ∅.
Proof.
  intros s.
  pose proof (realize_cap_value v b msi off mem n) as Hcap. fold s in Hcap.
  set (k := cap (riscv_iommu_realize 0 b msi off mem n)) in *.
  assert (Hk : k = if msi then 0x7800C00000 else 0x7800000000)
    by (subst k; destruct msi; reflexivity).
  assert (Hv : 0 <= Z.land v 0xFF <= 0xFF) by (apply land_bound; lia).
  split; [|split; [|split; [|split; [|split; [|split]]]]].
  - unfold s at 1. unfold riscv_iommu_realize at 1.
    unfold riscv_iommu_reg_get64, ldq_le_p, stq_le_p. cbn [regs_rw].
    rewrite !ld_st_disjoint by (cbn; regs_lia). rewrite ld_st_same.
    change (cap s mod 2 ^ 64 = cap s). rewrite Hcap.
    apply lor_mod_small; [lia|lia|]. rewrite Hk. destruct msi; lia.
  - rewrite Hcap. change RISCV_IOMMU_CAP_VERSION with (GENMASK 7 0).
    rewrite get_field_genmask by lia. change (7 - 0 + 1) with 8.
    change 255 with (Z.ones 8). rewrite Hk.
    change 0x7800C00000 with
      (Z.lor (Z.shiftl (Z.ones 2) 22) (Z.shiftl (Z.ones 4) 35)).
    change 0x7800000000 with (Z.shiftl (Z.ones 4) 35).
    destruct msi; Z.bitblast.
  - rewrite Hcap. change RISCV_IOMMU_CAP_MSI_FLAT with (Z.shiftl 1 22).
    rewrite cap_high_bit by lia. rewrite Hk. destruct msi; reflexivity.
  - rewrite Hcap. change RISCV_IOMMU_CAP_MSI_MRIF with (Z.shiftl 1 23).
    rewrite cap_high_bit by lia. rewrite Hk. destruct msi; reflexivity.
  - rewrite Hcap. change RISCV_IOMMU_CAP_T2GPA with (Z.shiftl 1 26).
    rewrite cap_high_bit by lia. rewrite Hk. destruct msi; reflexivity.
  - rewrite Hcap. change RISCV_IOMMU_CAP_PAS with (GENMASK 37 32).
    rewrite get_field_genmask by lia. change (37 - 32 + 1) with 6.
    change 255 with (Z.ones 8). rewrite Hk.
    change TARGET_PHYS_ADDR_SPACE_BITS with (Z.shiftl (Z.ones 3) 3).
    change 0x7800C00000 with
      (Z.lor (Z.shiftl (Z.ones 2) 22) (Z.shiftl (Z.ones 4) 35)).
    change 0x7800000000 with (Z.shiftl (Z.ones 4) 35).
    destruct msi; Z.bitblast.
  - assert (Hd : ddtp s = if off then 0 else 1)
      by (unfold s; destruct off; reflexivity).
    split; [|split; [rewrite Hd; destruct off; reflexivity|]].
    + unfold s at 1. unfold riscv_iommu_realize at 1.
      unfold riscv_iommu_reg_get64, ldq_le_p, stq_le_p. cbn [regs_rw].
      rewrite ld_st_same. change (ddtp s mod 2 ^ 64 = ddtp s).
      rewrite Hd. destruct off; reflexivity.
    + unfold cqcsr, fqcsr, pqcsr, ipsr, s, riscv_iommu_realize,
        riscv_iommu_reg_get32, ldl_le_p, stq_le_p.
      cbn [regs_rw ctx_cache].
      rewrite !ld_st_disjoint by (cbn; regs_lia).
      repeat split; reflexivity.
Qed.

(** X25. An MSI write arriving on the trap region is accepted only for
    an identified requester with a valid translation context: whenever
    [riscv_iommu_trap_write] returns MEMTX_OK, the transaction carried a
    requester id, the context found (or fetched) for that requester on
    this bus and process 0 has tc.V set, the written address matches its
    MSI pattern with an interrupt file number below 256, and after the
    context lookup neither the registers nor the cache changed. *)
Theorem X25_trap_write_ok_needs_context
  (s s' : RISCVIOMMUState) (unspecified : bool) (requester_id addr data : Z)
  (size : nat) :
  riscv_iommu_trap_write s unspecified requester_id addr data size
  = (MEMTX_OK, s') ->
  unspecified = false /\
  exists ctx s1,
    riscv_iommu_ctx s (u32 (Z.lor requester_id (Z.shiftl (bus s) 8))) 0
    = (Some ctx, s1) /\
    tst (tc ctx) RISCV_IOMMU_DC_TC_V = true /\
    riscv_iommu_msi_check ctx addr = true /\
    _pext_u64 (PPN_DOWN addr) (msi_addr_mask ctx) < 256 /\
    regs_rw s' = regs_rw s1 /\ ctx_cache s' = ctx_cache s1.
Proof.
  unfold riscv_iommu_trap_write. destruct unspecified; [discriminate|].
  destruct (riscv_iommu_ctx s _ 0) as [[ctx|] s1] eqn:E; [|discriminate].
  intros H. split; [reflexivity|]. exists ctx, s1.
  split; [reflexivity|]. split; [apply (ctx_some_valid _ _ _ _ _ E)|].
  destruct (msi_write_ok_inv _ _ _ _ _ _ H) as (H1 & H2 & _ & H3 & H4).
  auto.
Qed.

Lemma X25_witness :
  fst (riscv_iommu_trap_write s_msi_cached false 0x100 gpa_msi 0xDEAD 4)
  = MEMTX_OK /\
  exists ctx s1,
    riscv_iommu_ctx s_msi_cached (u32 (Z.lor 0x100 (Z.shiftl (bus s_msi_cached) 8))) 0
    = (Some ctx, s1) /\
    riscv_iommu_msi_check ctx gpa_msi = true.
Proof.
  assert (H : riscv_iommu_trap_write s_msi_cached false 0x100 gpa_msi 0xDEAD 4 =
              (MEMTX_OK,
               snd (riscv_iommu_trap_write s_msi_cached false 0x100 gpa_msi
                      0xDEAD 4))).
  { apply injective_projections; [vm_compute; reflexivity|reflexivity]. }
  split; [rewrite H; reflexivity|].
  destruct (X25_trap_write_ok_needs_context _ _ _ _ _ _ _ H)
    as (_ & ctx & s1 & H1 & _ & H2 & _).
  exists ctx, s1. split; [exact H1|exact H2].
Defined.

Section OneLevelFacts.

(** The one-level walk up to the device context checks. *)
Lemma ctx_fetch_1lvl s d p l :
  get_field (ddtp s) RISCV_IOMMU_DDTP_MODE = RISCV_IOMMU_DDTP_MODE_1LVL ->
  0 <= d < 2 ^ (6 + dc_fmt_of s) -> 0 <= p < 2 ^ 20 ->
  as_read (target_as s) (dc_addr_1lvl s d) (Z.to_nat (Z.shiftr 64 (dc_fmt_of s)))
  = Some l ->
  riscv_iommu_ctx_fetch s (ctx_new d p) =
  if negb (tst (dc_word l 0) RISCV_IOMMU_DC_TC_V) then
    (RISCV_IOMMU_FQ_CAUSE_DDT_INVALID, ctx_of_dc d p l)
  else if negb (riscv_iommu_validate_device_ctx s (ctx_of_dc d p l)) then
    (RISCV_IOMMU_FQ_CAUSE_DDT_MISCONFIGURED, ctx_of_dc d p l)
  else ctx_fetch_pdt s (ctx_of_dc d p l) RISCV_IOMMU_DDTP_MODE_1LVL
         (dc_addr_1lvl s d).
Proof.
  intros Hmode Hd Hp Hrd.
  assert (Hd24 : d mod 2 ^ 24 = d).
  { apply Z.mod_small. split; [lia|].
    assert (2 ^ (6 + dc_fmt_of s) <= 2 ^ 24).
    { apply Z.pow_le_mono_r; [lia|]. unfold dc_fmt_of.
      destruct (enable_msi s); lia. }
    lia. }
  assert (Hp20 : p mod 2 ^ 20 = p) by (apply Z.mod_small; lia).
  unfold riscv_iommu_ctx_fetch. rewrite Hmode.
  change (RISCV_IOMMU_DDTP_MODE_1LVL =? RISCV_IOMMU_DDTP_MODE_OFF) with false.
  change (RISCV_IOMMU_DDTP_MODE_1LVL =? RISCV_IOMMU_DDTP_MODE_BARE) with false.
  change (ddt_depth RISCV_IOMMU_DDTP_MODE_1LVL) with (Some 0%nat).
  cbv iota. cbn [devid ctx_new Nat.eqb negb]. rewrite Hd24, andb_true_r.
  fold (dc_fmt_of s).
  assert (Hlim : (Z.shiftl 1 (Z.of_nat 0 * 9 + 6 +
                    (if dc_fmt_of s =? 1 then 1 else 0)) <=? d) = false).
  { apply Z.leb_gt. rewrite Z.shiftl_mul_pow2, Z.mul_1_l
      by (destruct (dc_fmt_of s =? 1); lia).
    replace (Z.of_nat 0 * 9 + 6 + (if dc_fmt_of s =? 1 then 1 else 0))
      with (6 + dc_fmt_of s); [lia|].
    unfold dc_fmt_of. destruct (enable_msi s); reflexivity. }
  rewrite Hlim. unfold ctx_fetch_dc. cbn [ddt_walk devid process_id ctx_new].
  rewrite Hd24, Hp20. fold (dc_addr_1lvl s d).
  rewrite (dma_read_some _ _ _ _ Hrd). reflexivity.
Qed.

End OneLevelFacts.

(** X26. Disabling the command queue (CQEN clear while CQON is set)
    clears CQON and BUSY and nothing else in CQCSR, keeps the ring
    geometry and the head and tail registers, and makes the device ignore
    the queue: processing the tail afterwards executes no command and
    changes nothing, whatever the tail says. *)
Theorem X26_cq_disable_stops_processing (s : RISCVIOMMUState) :
  tst (cqcsr s) RISCV_IOMMU_CQCSR_CQEN = false ->
  tst (cqcsr s) RISCV_IOMMU_CQCSR_CQON = true ->
  let s' := riscv_iommu_process_cq_control s in
  tst (cqcsr s') RISCV_IOMMU_CQCSR_CQON = false /\
  tst (cqcsr s') RISCV_IOMMU_CQCSR_BUSY = false /\
  (forall n, 0 <= n < 32 -> n <> 16 -> n <> 17 ->
     Z.testbit (cqcsr s') n = Z.testbit (cqcsr s) n) /\
  keeps_geometry s s' /\
  riscv_iommu_reg_get32 s' RISCV_IOMMU_REG_CQH =
  riscv_iommu_reg_get32 s RISCV_IOMMU_REG_CQH /\
  riscv_iommu_reg_get32 s' RISCV_IOMMU_REG_CQT =
  riscv_iommu_reg_get32 s RISCV_IOMMU_REG_CQT /\
  (forall fuel, riscv_iommu_process_cq_tail fuel s' = Some s').
Proof.
  intros Hen Hon s'.
  pose (clr := Z.lor RISCV_IOMMU_CQCSR_BUSY RISCV_IOMMU_CQCSR_CQON).
  pose (s1 := set_regs_ro s
                (stl_le_p (regs_ro s) RISCV_IOMMU_REG_CQT (Z.lnot 0))).
  assert (Hs' : s' = snd (riscv_iommu_reg_mod32 s1 RISCV_IOMMU_REG_CQCSR 0 clr)).
  { subst s' s1 clr. unfold riscv_iommu_process_cq_control. fold (cqcsr s).
    rewrite Hen, Hon. reflexivity. }
  clearbody s'.
  assert (Hbit : forall n, 0 <= n < 32 ->
            tst (cqcsr s') (Z.shiftl 1 n) =
            (tst (cqcsr s) (Z.shiftl 1 n) && negb (Z.testbit clr n))
            || Z.testbit 0 n).
  { intros n Hn. rewrite Hs'. unfold cqcsr at 1.
    rewrite reg_mod32_tst by exact Hn. rewrite tst_testbit by lia.
    reflexivity. }
  pose proof (Hbit 16 ltac:(lia)) as Hb16.
  pose proof (Hbit 17 ltac:(lia)) as Hb17.
  change (Z.shiftl 1 16) with RISCV_IOMMU_CQCSR_CQON in Hb16.
  change (Z.shiftl 1 17) with RISCV_IOMMU_CQCSR_BUSY in Hb17.
  eval_testbits Hb16. eval_testbits Hb17.
  split; [exact Hb16|]. split; [exact Hb17|].
  split; [|split; [|split; [|split]]].
  - intros n Hn H16 H17. rewrite !tst_testbit by lia. rewrite Hbit by exact Hn.
    rewrite Z.bits_0, orb_false_r.
    replace (Z.testbit clr n) with false; [apply andb_true_r|].
    subst clr. change (Z.lor RISCV_IOMMU_CQCSR_BUSY RISCV_IOMMU_CQCSR_CQON)
      with (Z.shiftl (Z.ones 2) 16).
    rewrite Z.shiftl_spec by lia. symmetry.
    destruct (Z_lt_dec n 16); [apply Z.testbit_neg_r; lia|].
    apply Z.ones_spec_high. lia.
  - rewrite Hs'. unfold keeps_geometry, s1. st_simpl. tauto.
  - rewrite Hs'. unfold s1. reg_read. reflexivity.
  - rewrite Hs'. unfold s1. reg_read. reflexivity.
  - intros fuel. unfold riscv_iommu_process_cq_tail. fold (cqcsr s').
    rewrite Hb16. reflexivity.
Qed.

Lemma X26_witness :
  tst (cqcsr s_cq8_disarmed) RISCV_IOMMU_CQCSR_CQON = true /\
  riscv_iommu_process_cq_tail 8 (riscv_iommu_process_cq_control s_cq8_disarmed)
  = Some (riscv_iommu_process_cq_control s_cq8_disarmed).
Proof.
  assert (H1 : tst (cqcsr s_cq8_disarmed) RISCV_IOMMU_CQCSR_CQEN = false)
    by (vm_compute; reflexivity).
  assert (H2 : tst (cqcsr s_cq8_disarmed) RISCV_IOMMU_CQCSR_CQON = true)
    by (vm_compute; reflexivity).
  split; [exact H2|].
  pose proof (X26_cq_disable_stops_processing s_cq8_disarmed H1 H2) as H.
  cbv zeta in H. destruct H as (_ & _ & _ & _ & _ & _ & H).
  exact (H 8%nat).
Defined.

(** X27. One-level directory, the success path: with DDTP.MODE = 1LVL, a
    device id within the one-level range, process 0, and a device context
    readable at base | (device_id * dc_len & 0xFFF) that has tc.V set,
    passes the device-context checks and has PDTV clear, the lookup
    returns the context made of the words found in memory (tc, ta, msiptp,
    MSI mask and pattern) and caches it; registers and memory are not
    touched. *)
Theorem X27_ddt_1lvl_lookup
  (s : RISCVIOMMUState) (d : Z) (l : list byte) :
  get_field (ddtp s) RISCV_IOMMU_DDTP_MODE = RISCV_IOMMU_DDTP_MODE_1LVL ->
  0 <= d < 2 ^ (6 + dc_fmt_of s) ->
  ctx_cached s d 0 = None ->
  as_read (target_as s) (dc_addr_1lvl s d) (Z.to_nat (Z.shiftr 64 (dc_fmt_of s)))
  = Some l ->
  tst (dc_word l 0) RISCV_IOMMU_DC_TC_V = true ->
  riscv_iommu_validate_device_ctx s (ctx_of_dc d 0 l) = true ->
  tst (dc_word l 0) RISCV_IOMMU_DC_TC_PDTV = false ->
  let r := riscv_iommu_ctx s d 0 in
  fst r = Some (ctx_of_dc d 0 l) /\
  ctx_cached (snd r) d 0 = Some (ctx_of_dc d 0 l) /\
  regs_rw (snd r) = regs_rw s /\ target_as (snd r) = target_as s.
Proof.
  intros Hmode Hd Hmiss Hrd Hv Hval Hpd r. subst r.
  assert (Hf : riscv_iommu_ctx_fetch s (ctx_new d 0) = (0, ctx_of_dc d 0 l)).
  { rewrite (ctx_fetch_1lvl s d 0 l Hmode Hd ltac:(lia) Hrd).
    rewrite Hv, Hval. cbn [negb]. unfold ctx_fetch_pdt.
    cbn [tc ctx_of_dc process_id]. rewrite Hpd. reflexivity. }
  unfold riscv_iommu_ctx. rewrite Hmiss. unfold ctx_walk. rewrite Hf.
  rewrite Z.eqb_refl. cbn [fst snd].
  split; [reflexivity|]. split; [|split; reflexivity].
  apply ctx_cached_after_insert.
  - cbn [devid ctx_of_dc]. symmetry. apply Z.mod_small. split; [lia|].
    assert (2 ^ (6 + dc_fmt_of s) <= 2 ^ 24).
    { apply Z.pow_le_mono_r; [lia|]. unfold dc_fmt_of.
      destruct (enable_msi s); lia. }
    lia.
  - reflexivity.
  - exact Hv.
Qed.

Lemma X27_witness :
  fst (riscv_iommu_ctx s_1lvl_dc 5 0) = Some (ctx_of_dc 5 0 dc_dev5) /\
  msi_addr_pattern (ctx_of_dc 5 0 dc_dev5) = 0x500.
Proof.
  assert (H1 : get_field (ddtp s_1lvl_dc) RISCV_IOMMU_DDTP_MODE =
               RISCV_IOMMU_DDTP_MODE_1LVL) by (vm_compute; reflexivity).
  assert (H2 : 0 <= 5 < 2 ^ (6 + dc_fmt_of s_1lvl_dc))
    by (vm_compute; split; [discriminate|reflexivity]).
  assert (H3 : ctx_cached s_1lvl_dc 5 0 = None) by (vm_compute; reflexivity).
  assert (H4 : as_read (target_as s_1lvl_dc) (dc_addr_1lvl s_1lvl_dc 5)
                 (Z.to_nat (Z.shiftr 64 (dc_fmt_of s_1lvl_dc))) = Some dc_dev5)
    by (vm_compute; reflexivity).
  assert (H5 : tst (dc_word dc_dev5 0) RISCV_IOMMU_DC_TC_V = true)
    by (vm_compute; reflexivity).
  assert (H6 : riscv_iommu_validate_device_ctx s_1lvl_dc (ctx_of_dc 5 0 dc_dev5)
               = true) by (vm_compute; reflexivity).
  assert (H7 : tst (dc_word dc_dev5 0) RISCV_IOMMU_DC_TC_PDTV = false)
    by (vm_compute; reflexivity).
  split; [|vm_compute; reflexivity].
  exact (proj1 (X27_ddt_1lvl_lookup s_1lvl_dc 5 dc_dev5 H1 H2 H3 H4 H5 H6 H7)).
Defined.

(** X28. One-level directory, an invalid entry: with DDTP.MODE = 1LVL, a
    device id within range and a readable device context whose tc.V is
    clear, the lookup fails, nothing is cached, and (the cause being one
    that tc.DTF cannot suppress) a fault queue that is on, without pending
    error, not full and backed at its tail receives one record with cause
    DDT_INVALID and transaction type "untranslated read". *)
Theorem X28_ddt_invalid_reported
  (s : RISCVIOMMUState) (d p : Z) (l : list byte) :
  get_field (ddtp s) RISCV_IOMMU_DDTP_MODE = RISCV_IOMMU_DDTP_MODE_1LVL ->
  0 <= d < 2 ^ (6 + dc_fmt_of s) -> 0 <= p < 2 ^ 20 ->
  ctx_cached s d p = None ->
  as_read (target_as s) (dc_addr_1lvl s d) (Z.to_nat (Z.shiftr 64 (dc_fmt_of s)))
  = Some l ->
  tst (dc_word l 0) RISCV_IOMMU_DC_TC_V = false ->
  tst (fqcsr s) RISCV_IOMMU_FQCSR_FQON = true ->
  tst (fqcsr s) (Z.lor RISCV_IOMMU_FQCSR_FQOF RISCV_IOMMU_FQCSR_FQMF) = false ->
  fq_head s <> fq_next s ->
  backed (target_as s) (fq_addr s + fq_tail s * 32) 32 ->
  0 <= fq_mask s < 2 ^ 32 ->
  let r := riscv_iommu_ctx s d p in
  let ev := ctx_fault_record d p RISCV_IOMMU_FQ_CAUSE_DDT_INVALID in
  fst r = None /\
  ctx_cache (snd r) = ctx_cache s /\
  fq_slot (snd r) (fq_tail s) = Some (fq_record_u64 ev) /\
  fq_tail (snd r) = fq_next s /\
  get_field (fq_hdr ev) RISCV_IOMMU_FQ_HDR_CAUSE = RISCV_IOMMU_FQ_CAUSE_DDT_INVALID.
Proof.
  intros Hmode Hd Hp Hmiss Hrd Hv Hon Hst Hnf Hb Hm r ev. subst r.
  assert (Hf : riscv_iommu_ctx_fetch s (ctx_new d p) =
               (RISCV_IOMMU_FQ_CAUSE_DDT_INVALID, ctx_of_dc d p l)).
  { rewrite (ctx_fetch_1lvl s d p l Hmode Hd Hp Hrd). rewrite Hv. reflexivity. }
  unfold riscv_iommu_ctx. rewrite Hmiss. unfold ctx_walk. rewrite Hf.
  change (RISCV_IOMMU_FQ_CAUSE_DDT_INVALID =? 0) with false. cbv iota.
  cbn [fst snd].
  assert (Hrep : riscv_iommu_report_fault s (ctx_of_dc d p l)
                   RISCV_IOMMU_FQ_TTYPE_UADDR_RD
                   RISCV_IOMMU_FQ_CAUSE_DDT_INVALID (negb (p =? 0)) 0 0 =
                 riscv_iommu_fault s ev).
  { unfold riscv_iommu_report_fault, report_fault_record.
    change (dtf_reportable RISCV_IOMMU_FQ_CAUSE_DDT_INVALID) with true.
    cbn [negb]. rewrite andb_false_r. unfold ev, ctx_fault_record, fault_hdr.
    cbn [devid process_id ctx_of_dc ctx_new].
    rewrite (Z.mod_small p) by lia.
    rewrite (Z.mod_small d); [reflexivity|]. split; [lia|].
    assert (2 ^ (6 + dc_fmt_of s) <= 2 ^ 24).
    { apply Z.pow_le_mono_r; [lia|]. unfold dc_fmt_of.
      destruct (enable_msi s); lia. }
    lia. }
  rewrite Hrep.
  pose proof (fault_enqueue s ev Hon Hst Hnf Hb Hm) as H. cbv zeta in H.
  destruct H as (H1 & _ & H2 & _).
  split; [reflexivity|]. split; [apply fault_frame|].
  split; [exact H1|]. split; [exact H2|].
  unfold ev, ctx_fault_record. cbn [fq_hdr]. rewrite fault_hdr_cause.
  reflexivity.
Qed.

Lemma X28_witness :
  fst (riscv_iommu_ctx s_1lvl_fq 0 0) = None /\
  option_map (fun ev => get_field (fq_hdr ev) RISCV_IOMMU_FQ_HDR_CAUSE)
    (fq_slot (snd (riscv_iommu_ctx s_1lvl_fq 0 0)) 0) =
  Some RISCV_IOMMU_FQ_CAUSE_DDT_INVALID.
Proof.
  assert (H1 : get_field (ddtp s_1lvl_fq) RISCV_IOMMU_DDTP_MODE =
               RISCV_IOMMU_DDTP_MODE_1LVL) by (vm_compute; reflexivity).
  assert (H2 : 0 <= 0 < 2 ^ (6 + dc_fmt_of s_1lvl_fq))
    by (vm_compute; split; [discriminate|reflexivity]).
  assert (H3 : 0 <= 0 < 2 ^ 20) by lia.
  assert (H4 : ctx_cached s_1lvl_fq 0 0 = None) by (vm_compute; reflexivity).
  assert (H5 : as_read (target_as s_1lvl_fq) (dc_addr_1lvl s_1lvl_fq 0)
                 (Z.to_nat (Z.shiftr 64 (dc_fmt_of s_1lvl_fq))) =
               Some (repeat x00 64)) by (vm_compute; reflexivity).
  assert (H6 : tst (dc_word (repeat x00 64) 0) RISCV_IOMMU_DC_TC_V = false)
    by (vm_compute; reflexivity).
  assert (H7 : tst (fqcsr s_1lvl_fq) RISCV_IOMMU_FQCSR_FQON = true)
    by (vm_compute; reflexivity).
  assert (H8 : tst (fqcsr s_1lvl_fq)
                 (Z.lor RISCV_IOMMU_FQCSR_FQOF RISCV_IOMMU_FQCSR_FQMF) = false)
    by (vm_compute; reflexivity).
  assert (H9 : fq_head s_1lvl_fq <> fq_next s_1lvl_fq)
    by (vm_compute; discriminate).
  assert (H10 : backed (target_as s_1lvl_fq)
                  (fq_addr s_1lvl_fq + fq_tail s_1lvl_fq * 32) 32)
    by (intros x _; vm_compute; discriminate).
  assert (H11 : 0 <= fq_mask s_1lvl_fq < 2 ^ 32)
    by (vm_compute; split; [discriminate|reflexivity]).
  pose proof (X28_ddt_invalid_reported s_1lvl_fq 0 0 (repeat x00 64)
                H1 H2 H3 H4 H5 H6 H7 H8 H9 H10 H11) as H.
  cbv zeta in H. destruct H as (Ha & _ & Hb & _).
  split; [exact Ha|].
  assert (Ht : fq_tail s_1lvl_fq = 0) by (vm_compute; reflexivity).
  rewrite Ht in Hb. rewrite Hb. vm_compute. reflexivity.
Defined.
